(** * polymarketarb: order-book arithmetic and the three strategy gates

    A shallow embedding of the decision core of the trading engine
    (src/engine.js, the arbitrage, certainty and lag mode modules) and the
    properties of its specification.

    Conventions of the embedding.
    - A JavaScript number is an exact rational ([Q]); [null], [undefined]
      and a non-finite number are [None].  Comparisons are the boolean
      tests below, so that every definition evaluates.
    - Sums, products and comparisons of prices, sizes and amounts are
      taken exactly.  The floor of a quotient is not: a rounding error in
      the last place of a double moves it by a whole share
      ([1.17 / 0.39] is [2.9999999999999996]), so the sizing routines ask
      the machine for it ([Machine], with the binary64 doubles of
      JavaScript as its instance).  A statement that names no machine is
      about that instance.
    - Share counts handled by the binary searches are integers ([Z]);
      [Math.floor((lo + hi) / 2)] is [Z.div].
    - [Date.now()] is an explicit argument.
    - A [while] loop is a recursion on fuel; the fuel handed to it is shown
      to be enough for the loop to reach its exit test. *)

From Stdlib Require Import ZArith QArith Qround Qminmax Qabs SpecFloat.
From Stdlib Require Import List Bool String Sorted Permutation.
From Stdlib Require Import Lia Lqa Psatz.
Import ListNotations.

Open Scope Q_scope.

(** ** Comparisons on numbers *)

Definition Qgtb (x y : Q) : bool := negb (Qle_bool x y).
Definition Qltb (x y : Q) : bool := negb (Qle_bool y x).
Definition Qgeb (x y : Q) : bool := Qle_bool y x.
Definition Qleb (x y : Q) : bool := Qle_bool x y.

(** ** The machine's arithmetic *)

(** An arithmetic expression as the code writes it. *)
Inductive Expr : Type :=
| Num (x : Q)
| Plus (a b : Expr)
| Minus (a b : Expr)
| Times (a b : Expr)
| Over (a b : Expr).

(** Its exact value. *)
Fixpoint exactly (e : Expr) : Q :=
  match e with
  | Num x => x
  | Plus a b => exactly a + exactly b
  | Minus a b => exactly a - exactly b
  | Times a b => exactly a * exactly b
  | Over a b => exactly a / exactly b
  end.

(** [Math.floor(e)] as the machine finds it. *)
Class Machine : Type := { floorOf : Expr -> Z }.

(** The doubles of JavaScript: every constant and every operation rounded
    to the nearest binary64 number, ties to even. *)
Module Binary64.

Definition prec : Z := 53.
Definition emax : Z := 1024.

Definition ofZ (z : Z) : spec_float := binary_normalize prec emax z 0 false.

(** The double nearest to a rational. *)
Definition ofQ (x : Q) : spec_float :=
  SFdiv prec emax (ofZ (Qnum x)) (ofZ (Zpos (Qden x))).

Fixpoint eval (e : Expr) : spec_float :=
  match e with
  | Num x => ofQ x
  | Plus a b => SFadd prec emax (eval a) (eval b)
  | Minus a b => SFsub prec emax (eval a) (eval b)
  | Times a b => SFmul prec emax (eval a) (eval b)
  | Over a b => SFdiv prec emax (eval a) (eval b)
  end.

(** [Math.floor] of a double.  An infinity is stood for by a whole number
    beyond every double; [NaN] by 0, which is what [clampInt] and the
    searches make of it. *)
Definition floor (f : spec_float) : Z :=
  match f with
  | S754_zero _ => 0
  | S754_nan => 0
  | S754_infinity s => if s then - 2 ^ emax else 2 ^ emax
  | S754_finite s m e =>
      let n := if s then Z.neg m else Z.pos m in
      match e with
      | Zneg k => n / 2 ^ Z.pos k
      | _ => n * 2 ^ e
      end
  end%Z.

End Binary64.

#[global] Instance binary64 : Machine :=
  {| floorOf e := Binary64.floor (Binary64.eval e) |}.

(** ** Order-book levels *)

Record Level : Type := mkLevel { price : Q; size : Q }.

(** One side of a book, best level first. *)
Definition Side : Type := list Level.

Module BookMath.

(** *** Fees (engine.js) *)

(** What the exchange's client may hand over as a fee rate, by what
    [Number(raw)] makes of it. *)
Inductive RawFee : Type :=
| RawNumber (x : Q)  (* a finite number, or text that reads as one *)
| RawNull            (* null, false, empty text: Number gives 0 *)
| RawOther.          (* undefined, NaN, an infinity, any other text *)

(** [Number(raw)], [None] when it is not finite. *)
Definition Number (raw : RawFee) : option Q :=
  match raw with
  | RawNumber x => Some x
  | RawNull => Some 0
  | RawOther => None
  end.

(** [normalizeFeeBps]: a raw fee below one is a fraction, otherwise it is
    already in basis points; a negative fee is rejected. *)
Definition normalizeFeeBps (raw : RawFee) : option Q :=
  match Number raw with
  | None => None
  | Some x =>
      if Qltb x 0 then None
      else if Qgtb x 0 && Qltb x 1 then Some (x * 10000)
      else Some x
  end.

Definition applyTakerFeeOnBuy (amountUsdc feeBps : Q) : Q :=
  amountUsdc * (1 + feeBps / 10000).

Definition applyTakerFeeOnSell (proceedsUsdc feeBps : Q) : Q :=
  proceedsUsdc * (1 - feeBps / 10000).

(** [clampInt(n, min, max)]. *)
Definition clampInt (n : Q) (lo hi : Z) : Z :=
  Z.max lo (Z.min hi (Qfloor n)).

(** *** Sweeping the asks *)

(** The three locals of the loop of [costToBuySharesFromAsks]. *)
Record BuySweep : Type := mkBuySweep {
  bRemaining : Q;
  bCost : Q;
  bMaxPrice : Q
}.

(** The [for (const level of asks)] loop: [break] once nothing remains,
    [continue] over a level that gives nothing. *)
Fixpoint sweepAsks (asks : Side) (st : BuySweep) : BuySweep :=
  match asks with
  | [] => st
  | level :: rest =>
      if negb (Qgtb (bRemaining st) 0) then st
      else
        let take := Qmin (bRemaining st) (size level) in
        if Qleb take 0 then sweepAsks rest st
        else sweepAsks rest
               {| bRemaining := bRemaining st - take;
                  bCost := bCost st + take * price level;
                  bMaxPrice := price level |}
  end.

Record BuyFill : Type := mkBuyFill { cost : Q; maxPrice : Q }.

(** The tolerance below which a remainder counts as filled. *)
Definition FILL_EPS : Q := 0.000000001.

Definition costToBuySharesFromAsks (asks : Side) (shares feeBps : Q)
  : option BuyFill :=
  match asks with
  | [] => None
  | _ =>
      if negb (Qgtb shares 0) then None
      else
        let st := sweepAsks asks
                    {| bRemaining := shares; bCost := 0; bMaxPrice := 0 |} in
        if Qgtb (bRemaining st) FILL_EPS then None
        else Some {| cost := bCost st * (1 + feeBps / 10000);
                     maxPrice := bMaxPrice st |}
  end.

(** *** The binary search shared by the sizing routines

    [while (lo <= hi) { mid = floor((lo+hi)/2); ... }]: a probe that
    accepts [mid] records it and moves [lo] above it, a probe that rejects
    moves [hi] below it. *)
Fixpoint searchLoop {A : Type} (fuel : nat) (probe : Z -> option A)
  (lo hi : Z) (best : option A) : option A :=
  match fuel with
  | O => best
  | S fuel' =>
      if (lo <=? hi)%Z then
        let mid := ((lo + hi) / 2)%Z in
        match probe mid with
        | None => searchLoop fuel' probe lo (mid - 1)%Z best
        | Some a => searchLoop fuel' probe (mid + 1)%Z hi (Some a)
        end
      else best
  end.

(** Fuel for an interval [lo..hi]: one more than the binary logarithm of
    its width. *)
Definition searchFuel (lo hi : Z) : nat :=
  S (Z.to_nat (Z.log2 (hi - lo + 1))).

Definition sumSizes (levels : Side) : Q :=
  fold_left (fun acc l => acc + size l) levels 0.

Definition bestPrice (asks : Side) : option Q :=
  match asks with
  | [] => None
  | l :: _ => Some (price l)
  end.

Record SizedFill : Type := mkSizedFill {
  sfShares : Z;
  sfCost : Q;
  sfMaxPrice : Q
}.

(** The upper end of every search. *)
Definition SHARE_CAP : Z := 1000000000.

Definition budgetProbe (asks : Side) (feeBps maxUsdc : Q) (mid : Z)
  : option SizedFill :=
  match costToBuySharesFromAsks asks (inject_Z mid) feeBps with
  | None => None
  | Some fill =>
      if Qleb (cost fill) maxUsdc
      then Some {| sfShares := mid; sfCost := cost fill;
                   sfMaxPrice := maxPrice fill |}
      else None
  end.

Definition maxSharesForBudget {M : Machine} (asks : Side)
  (feeBps maxUsdc : Q) (minShares : Z) : option SizedFill :=
  match bestPrice asks with
  | None => None
  | Some best =>
      if negb (Qgtb best 0) || negb (Qgtb maxUsdc 0) then None
      else
        let totalSize := Qfloor (sumSizes asks) in
        if (totalSize <? minShares)%Z then None
        else
          let approxPerShare :=
            Times (Num best) (Plus (Num 1) (Over (Num feeBps) (Num 10000))) in
          let budgetBound :=
            if Qgtb (exactly approxPerShare) 0
            then floorOf (Over (Num maxUsdc) approxPerShare)
            else 0%Z in
          let hi := clampInt (inject_Z (Z.min totalSize budgetBound))
                      0 SHARE_CAP in
          if (hi <? minShares)%Z then None
          else searchLoop (searchFuel minShares hi)
                 (budgetProbe asks feeBps maxUsdc) minShares hi None
  end.

(** *** Sweeping the bids *)

Record SellSweep : Type := mkSellSweep {
  sRemaining : Q;
  sGross : Q;
  sMinFilled : option Q
}.

(** The loop of [proceedsFromSellingSharesToBids]: it stops at the first
    level priced below [minPrice01]. *)
Fixpoint sweepBids (bids : Side) (minPrice01 : Q) (st : SellSweep)
  : SellSweep :=
  match bids with
  | [] => st
  | level :: rest =>
      if negb (Qgtb (sRemaining st) 0) then st
      else if negb (Qgeb (price level) minPrice01) then st
      else
        let take := Qmin (sRemaining st) (size level) in
        if Qleb take 0 then sweepBids rest minPrice01 st
        else sweepBids rest minPrice01
               {| sRemaining := sRemaining st - take;
                  sGross := sGross st + take * price level;
                  sMinFilled := Some (price level) |}
  end.

Record SellFill : Type := mkSellFill {
  gross : Q;
  proceeds : Q;
  minFilledPrice : option Q
}.

Definition proceedsFromSellingSharesToBids (bids : Side)
  (shares feeBps minPrice01 : Q) : option SellFill :=
  match bids with
  | [] => None
  | _ =>
      if negb (Qgtb shares 0) then None
      else
        let st := sweepBids bids minPrice01
                    {| sRemaining := shares; sGross := 0;
                       sMinFilled := None |} in
        if Qgtb (sRemaining st) FILL_EPS then None
        else Some {| gross := sGross st;
                     proceeds := applyTakerFeeOnSell (sGross st) feeBps;
                     minFilledPrice := sMinFilled st |}
  end.

(** *** The order-book summary the strategies read *)

Definition computeMarkPrice (bestBid bestAsk : Q) : Q :=
  if Qgtb bestBid 0 && Qgtb bestAsk 0 then (bestBid + bestAsk) / 2
  else if Qgtb bestAsk 0 then bestAsk
  else if Qgtb bestBid 0 then bestBid
  else 0.

Record Summary : Type := mkSummary {
  bestBid : Q;
  bestAsk : Q;
  mark : Q
}.

(** [summarizeOrderbook] on sides that are already sorted best first. *)
Definition summarizeOrderbook (bids asks : Side) : Summary :=
  let bb := match bids with [] => 0 | l :: _ => price l end in
  let ba := match asks with [] => 0 | l :: _ => price l end in
  {| bestBid := bb; bestAsk := ba; mark := computeMarkPrice bb ba |}.

End BookMath.

(** ** The engine's shared pieces *)

Module Engine.

(** The simulated ledger: [executePaperDelta] adds a signed amount (the
    sum of two rationals is always finite, so the guard of the source
    never refuses). *)
Definition executePaperDelta (paperBalance deltaUsdc : Q) : Q :=
  paperBalance + deltaUsdc.

(** An identifier is usable when it is present and not the empty string. *)
Definition truthyId (id : option string) : bool :=
  match id with
  | Some s => negb (String.eqb s EmptyString)
  | None => false
  end.

(** [x || fallback] on an optional integer. *)
Definition orElseZ (x : option Z) (fallback : Z) : Z :=
  match x with
  | Some v => if (v =? 0)%Z then fallback else v
  | None => fallback
  end.

Inductive OrderSide : Type := BUY | SELL.

(** A fill-or-kill order handed to the exchange client. *)
Record Order : Type := mkOrder {
  tokenID : string;
  oPrice : Q;
  oSize : Q;
  oSide : OrderSide
}.

(** What [createAndPostOrder] can answer: the order matched in full, it was
    killed, or the call threw. *)
Inductive PostOutcome : Type := Matched | Killed | Threw.

(** The live collateral snapshot. *)
Record Collateral : Type := mkCollateral {
  balanceUsdc : option Q;
  allowanceUsdc : option Q
}.

(** The verdict of [liveCanSpendUsdc]; of its message only whether it
    says that the balance is still unknown is kept. *)
Inductive SpendVerdict : Type := SpendOk | SpendUnknown | SpendBlocked.

Definition liveCanSpendUsdc (c : Collateral) (requiredUsdc : Q)
  : SpendVerdict :=
  if negb (Qgtb requiredUsdc 0) then SpendOk
  else
    match balanceUsdc c, allowanceUsdc c with
    | Some bal, Some allow =>
        if Qltb bal 0.5 then SpendBlocked
        else if Qltb (bal + 0.000000001) requiredUsdc then SpendBlocked
        else if Qltb (allow + 0.000000001) requiredUsdc then SpendBlocked
        else SpendOk
    | _, _ => SpendUnknown
    end.

Definition canSpendOk (v : SpendVerdict) : bool :=
  match v with SpendOk => true | _ => false end.

(** The two outcome tokens. *)
Inductive OutcomeSide : Type := Up | Down.

Definition OutcomeSide_eqb (a b : OutcomeSide) : bool :=
  match a, b with
  | Up, Up | Down, Down => true
  | _, _ => false
  end.

(** The part of the world snapshot every strategy reads. *)
Record World : Type := mkWorld {
  nowMs : Z;
  PAPER_TRADING : bool;
  ENABLE_LIVE_ORDERS : bool;
  clobCreds : bool;
  intervalEndEpochSec : option Z;
  intervalEntrySpot : option Q;
  marketId : option string;
  referencePrice : option Q;
  underlyingPrice : option Q;
  upTokenId : option string;
  downTokenId : option string;
  upFeeBps : option Q;
  downFeeBps : option Q;
  up : option BookMath.Summary;
  down : option BookMath.Summary;
  upAsksLevels : Side;
  upBidsLevels : Side;
  downAsksLevels : Side;
  downBidsLevels : Side;
  collateral : Collateral
}.

Definition nowSec (w : World) : Z := (nowMs w / 1000)%Z.

End Engine.

(** ** StrategyArbitrage *)

Module Arbitrage.
Import BookMath Engine.

Record Config : Type := mkConfig {
  STRADDLE_MAX_USDC : Q;
  STRADDLE_MIN_PROFIT_CENTS : Q;
  STRADDLE_COOLDOWN_MS : Z;
  STRADDLE_MIN_SHARES : Z
}.

(** The values used when the environment sets nothing. *)
Definition defaultConfig : Config :=
  {| STRADDLE_MAX_USDC := 10;
     STRADDLE_MIN_PROFIT_CENTS := 0.25;
     STRADDLE_COOLDOWN_MS := 2500;
     STRADDLE_MIN_SHARES := 1 |}.

Record Straddle : Type := mkStraddle {
  shares : Z;
  sCost : Q;
  profitCentsEach : Q;
  upCost : Q;
  downCost : Q;
  upMaxPrice : Q;
  downMaxPrice : Q
}.

Definition feeOrZero (f : option Q) : Q :=
  match f with Some x => x | None => 0 end.

(** The body of the search loop of [computeEqualProfitStraddle]. *)
Definition straddleProbe (upAsks downAsks : Side) (upFee downFee : Q)
  (maxUsdc minProfitCents : Q) (mid : Z) : option Straddle :=
  match costToBuySharesFromAsks upAsks (inject_Z mid) upFee,
        costToBuySharesFromAsks downAsks (inject_Z mid) downFee with
  | Some upFill, Some downFill =>
      let totalCost := cost upFill + cost downFill in
      let profitEach := inject_Z mid - totalCost in
      let profitCents := profitEach * 100 in
      if Qleb totalCost maxUsdc && Qgeb profitCents minProfitCents
      then Some {| shares := mid; sCost := totalCost;
                   profitCentsEach := profitCents;
                   upCost := cost upFill; downCost := cost downFill;
                   upMaxPrice := maxPrice upFill;
                   downMaxPrice := maxPrice downFill |}
      else None
  | _, _ => None
  end.

Definition computeEqualProfitStraddle {M : Machine} (upAsks downAsks : Side)
  (upFeeBps downFeeBps : option Q) (maxUsdc : Q) (minShares : Z)
  (minProfitCents : Q) : option Straddle :=
  let upFee := feeOrZero upFeeBps in
  let downFee := feeOrZero downFeeBps in
  let maxFillableShares :=
    Qfloor (Qmin (sumSizes upAsks) (sumSizes downAsks)) in
  if (maxFillableShares <? minShares)%Z then None
  else
    match bestPrice upAsks, bestPrice downAsks with
    | Some upBest, Some downBest =>
        if negb (Qgtb upBest 0 && Qgtb downBest 0) then None
        else
          let approxPerShare :=
            Plus (Times (Num upBest)
                    (Plus (Num 1) (Over (Num upFee) (Num 10000))))
                 (Times (Num downBest)
                    (Plus (Num 1) (Over (Num downFee) (Num 10000)))) in
          let budgetBound :=
            if Qgtb maxUsdc 0 && Qgtb (exactly approxPerShare) 0
            then floorOf (Over (Num maxUsdc) approxPerShare) else 0%Z in
          let hi := clampInt (inject_Z (Z.min maxFillableShares budgetBound))
                      0 SHARE_CAP in
          if (hi <? minShares)%Z then None
          else searchLoop (searchFuel minShares hi)
                 (straddleProbe upAsks downAsks upFee downFee
                    maxUsdc minProfitCents)
                 minShares hi None
    | _, _ => None
    end.

(** The simulated straddle: one record stands for both legs, each of
    [sharesPerSide] shares. *)
Record ArbOpen : Type := mkArbOpen {
  sharesPerSide : Z;
  totalCostUsdc : Q;
  openedAt : Z;
  endEpochSec : Z;
  aMarketId : option string;
  aReferencePrice : option Q;
  openedSpot : option Q
}.

Record ArbState : Type := mkArbState {
  paperBalance : Q;
  arbOpen : option ArbOpen;
  suggestedShares : option Z;
  suggestedCost : option Q;
  suggestedProfitCentsEach : option Q;
  lastCost : option Q;
  lastProfitCents : option Q;
  lastTradeAt : option Z;
  lastSignalAt : option Z;
  opportunitiesFound : Z
}.

Definition executePaperStraddle (w : World) (st : ArbState)
  (sharesPerSide0 : Z) (totalCostUsdc0 : Q) : ArbState :=
  let cost := totalCostUsdc0 in
  if negb (Qgtb cost 0) then st
  else if Qgtb cost (paperBalance st) then st
  else
    match arbOpen st with
    | Some _ => st
    | None =>
        let endSec := orElseZ (intervalEndEpochSec w)
                        (nowSec w + 15 * 60)%Z in
        {| paperBalance := executePaperDelta (paperBalance st) (- cost);
           arbOpen := Some {| sharesPerSide := sharesPerSide0;
                              totalCostUsdc := cost;
                              openedAt := nowMs w;
                              endEpochSec := endSec;
                              aMarketId := marketId w;
                              aReferencePrice := referencePrice w;
                              openedSpot := underlyingPrice w |};
           suggestedShares := suggestedShares st;
           suggestedCost := suggestedCost st;
           suggestedProfitCentsEach := suggestedProfitCentsEach st;
           lastCost := lastCost st;
           lastProfitCents := lastProfitCents st;
           lastTradeAt := lastTradeAt st;
           lastSignalAt := lastSignalAt st;
           opportunitiesFound := opportunitiesFound st |}
    end.

(** What a live attempt did at the exchange: the orders posted, each with
    its answer, and whether the routine returned rather than threw. *)
Record LiveRun : Type := mkLiveRun {
  posted : list (Order * PostOutcome);
  returned : bool
}.

(** [executeLiveStraddle]: two fill-or-kill buys, the Down order only once
    the call for the Up order has come back.  [upRes] and [downRes] are the
    answers of the exchange to the first and to the second call. *)
Definition executeLiveStraddle (w : World) (straddle : Straddle)
  (upRes downRes : PostOutcome) : LiveRun :=
  if PAPER_TRADING w then {| posted := []; returned := true |}
  else if negb (ENABLE_LIVE_ORDERS w) then {| posted := []; returned := true |}
  else
    match upTokenId w, downTokenId w with
    | Some upTok, Some downTok =>
        if negb (truthyId (Some upTok) && truthyId (Some downTok))
        then {| posted := []; returned := false |}
        else if negb (clobCreds w) then {| posted := []; returned := false |}
        else if negb (canSpendOk
                        (liveCanSpendUsdc (collateral w) (sCost straddle)))
        then {| posted := []; returned := true |}
        else
          let upOrder := {| tokenID := upTok; oPrice := upMaxPrice straddle;
                            oSize := inject_Z (shares straddle);
                            oSide := BUY |} in
          let downOrder := {| tokenID := downTok;
                              oPrice := downMaxPrice straddle;
                              oSize := inject_Z (shares straddle);
                              oSide := BUY |} in
          match upRes with
          | Threw => {| posted := [(upOrder, Threw)]; returned := false |}
          | _ =>
              match downRes with
              | Threw => {| posted := [(upOrder, upRes); (downOrder, Threw)];
                            returned := false |}
              | _ => {| posted := [(upOrder, upRes); (downOrder, downRes)];
                        returned := true |}
              end
          end
    | _, _ => {| posted := []; returned := false |}
    end.

Definition summaryAsk (s : option Summary) : Q :=
  match s with Some x => bestAsk x | None => 0 end.

(** [onOrderbooks] of the arbitrage mode: the new strategy state and what
    was sent to the exchange. *)
Definition onOrderbooks {M : Machine} (cfg : Config) (w : World)
  (st : ArbState) (upRes downRes : PostOutcome) : ArbState * LiveRun :=
  let idle := {| posted := []; returned := true |} in
  if PAPER_TRADING w && (match arbOpen st with Some _ => true | None => false end)
  then (st, idle)
  else if negb (Qgtb (summaryAsk (up w)) 0 && Qgtb (summaryAsk (down w)) 0)
  then (st, idle)
  else
    match upFeeBps w, downFeeBps w with
    | Some upFee, Some downFee =>
        let maxUsdc :=
          if PAPER_TRADING w
          then Qmin (paperBalance st) (STRADDLE_MAX_USDC cfg)
          else STRADDLE_MAX_USDC cfg in
        let straddle :=
          computeEqualProfitStraddle (upAsksLevels w) (downAsksLevels w)
            (Some upFee) (Some downFee) maxUsdc (STRADDLE_MIN_SHARES cfg)
            (STRADDLE_MIN_PROFIT_CENTS cfg) in
        let oneShareCost :=
          summaryAsk (up w) * (1 + upFee / 10000)
          + summaryAsk (down w) * (1 + downFee / 10000) in
        let st1 :=
          {| paperBalance := paperBalance st;
             arbOpen := arbOpen st;
             suggestedShares := option_map shares straddle;
             suggestedCost := option_map sCost straddle;
             suggestedProfitCentsEach := option_map profitCentsEach straddle;
             lastCost := Some oneShareCost;
             lastProfitCents := Some ((1 - oneShareCost) * 100);
             lastTradeAt := lastTradeAt st;
             lastSignalAt := lastSignalAt st;
             opportunitiesFound := opportunitiesFound st |} in
        match straddle with
        | None => (st1, idle)
        | Some sd =>
            let lastAt := match lastTradeAt st with Some t => t | None => 0%Z end in
            if negb (STRADDLE_COOLDOWN_MS cfg <=? nowMs w - lastAt)%Z
            then (st1, idle)
            else
              let st2 :=
                {| paperBalance := paperBalance st1;
                   arbOpen := arbOpen st1;
                   suggestedShares := suggestedShares st1;
                   suggestedCost := suggestedCost st1;
                   suggestedProfitCentsEach := suggestedProfitCentsEach st1;
                   lastCost := lastCost st1;
                   lastProfitCents := lastProfitCents st1;
                   lastTradeAt := lastTradeAt st1;
                   lastSignalAt := Some (nowMs w);
                   opportunitiesFound := (opportunitiesFound st1 + 1)%Z |} in
              let stamp (s : ArbState) :=
                {| paperBalance := paperBalance s;
                   arbOpen := arbOpen s;
                   suggestedShares := suggestedShares s;
                   suggestedCost := suggestedCost s;
                   suggestedProfitCentsEach := suggestedProfitCentsEach s;
                   lastCost := lastCost s;
                   lastProfitCents := lastProfitCents s;
                   lastTradeAt := Some (nowMs w);
                   lastSignalAt := lastSignalAt s;
                   opportunitiesFound := opportunitiesFound s |} in
              if PAPER_TRADING w
              then (stamp (executePaperStraddle w st2 (shares sd) (sCost sd)),
                    idle)
              else if negb (ENABLE_LIVE_ORDERS w) then (st2, idle)
              else
                let run := executeLiveStraddle w sd upRes downRes in
                if returned run then (stamp st2, run) else (st2, run)
        end
    | _, _ =>
        ({| paperBalance := paperBalance st;
            arbOpen := arbOpen st;
            suggestedShares := None;
            suggestedCost := None;
            suggestedProfitCentsEach := None;
            lastCost := lastCost st;
            lastProfitCents := lastProfitCents st;
            lastTradeAt := lastTradeAt st;
            lastSignalAt := lastSignalAt st;
            opportunitiesFound := opportunitiesFound st |}, idle)
    end.

(** Shares of a token bought by the matched orders of a run. *)
Definition heldShares (tok : string) (run : LiveRun) : Q :=
  fold_right
    (fun (p : Order * PostOutcome) acc =>
       match snd p, oSide (fst p) with
       | Matched, BUY =>
           if String.eqb (tokenID (fst p)) tok then oSize (fst p) + acc
           else acc
       | _, _ => acc
       end)
    0 (posted run).

End Arbitrage.

(** ** StrategyCertainty *)

Module Certainty.
Import BookMath Engine.

Record Config : Type := mkConfig {
  ENTRY_TIME_WINDOW_SEC : Z;
  ENTRY_PRICE_MIN : Q;
  ENTRY_PRICE_MAX : Q;
  REENTRY_PRICE_MIN : Q;
  REENTRY_PRICE_MAX : Q;
  STOP_LOSS_PRICE : Q;
  TAKE_PROFIT_MIN : Q;
  TAKE_PROFIT_MAX : Q;
  STOP_LOSS_BUFFER : Q;
  TAKE_PROFIT_BUFFER : Q;
  MAX_SPREAD : Q;
  MIN_SHARES : Z;
  ORDER_GAS_USDC : Q;
  COOLDOWN_MS : Z;
  CONFIRM_TICKS : Z;
  PRICE_EPS : Q
}.

(** The values used when the environment sets nothing. *)
Definition defaultConfig : Config :=
  {| ENTRY_TIME_WINDOW_SEC := 600;
     ENTRY_PRICE_MIN := 0.80;
     ENTRY_PRICE_MAX := 0.82;
     REENTRY_PRICE_MIN := 0.75;
     REENTRY_PRICE_MAX := 0.77;
     STOP_LOSS_PRICE := 0.75;
     TAKE_PROFIT_MIN := 0.96;
     TAKE_PROFIT_MAX := 0.99;
     STOP_LOSS_BUFFER := 0.015;
     TAKE_PROFIT_BUFFER := 0.01;
     MAX_SPREAD := 0.02;
     MIN_SHARES := 1;
     ORDER_GAS_USDC := 0;
     COOLDOWN_MS := 1000;
     CONFIRM_TICKS := 2;
     PRICE_EPS := 0.001 |}.

Definition POLYMARKET_FEE_RATE : Q := 0.02.

(** The fee grows with the distance of the price from certainty. *)
Definition calcPolymarketFee (notionalUsdc price01 : Q) : Q :=
  let unfavoredSide := 1 - price01 in
  notionalUsdc * unfavoredSide * POLYMARKET_FEE_RATE.

Record RealSweep : Type := mkRealSweep {
  rRemaining : Q;
  rNotional : Q;
  rLastFilled : option Q;
  rWeightedPriceSum : Q;
  rFilledShares : Q
}.

Definition realSweepStart (shares : Q) : RealSweep :=
  {| rRemaining := shares; rNotional := 0; rLastFilled := None;
     rWeightedPriceSum := 0; rFilledShares := 0 |}.

Definition realTake (st : RealSweep) (p sz : Q) : RealSweep :=
  let take := Qmin (rRemaining st) sz in
  {| rRemaining := rRemaining st - take;
     rNotional := rNotional st + take * p;
     rLastFilled := Some p;
     rWeightedPriceSum := rWeightedPriceSum st + take * p;
     rFilledShares := rFilledShares st + take |}.

(** The loop of [costToBuySharesFromAsksReal]: a level without a positive
    price and size is skipped, a level above the limit ends the sweep. *)
Fixpoint sweepAsksReal (eps : Q) (asks : Side) (maxPrice01 : option Q)
  (st : RealSweep) : RealSweep :=
  match asks with
  | [] => st
  | level :: rest =>
      if negb (Qgtb (rRemaining st) 0) then st
      else
        let p := price level in
        let sz := size level in
        if negb (Qgtb p 0) || negb (Qgtb sz 0)
        then sweepAsksReal eps rest maxPrice01 st
        else
          match maxPrice01 with
          | Some mx =>
              if Qgtb p (mx + eps) then st
              else sweepAsksReal eps rest maxPrice01 (realTake st p sz)
          | None => sweepAsksReal eps rest maxPrice01 (realTake st p sz)
          end
  end.

Record Fill : Type := mkFill {
  fShares : Q;
  fNotional : Q;
  fFee : Q;
  fCost : Q;
  fMaxPrice : Q;
  fAvgPrice : Q
}.

Definition qOrZero (x : option Q) : Q :=
  match x with Some v => v | None => 0 end.

Definition costToBuySharesFromAsksReal (cfg : Config) (asks : Side)
  (shares : Q) (maxPrice01 : option Q) : option Fill :=
  match asks with
  | [] => None
  | _ =>
      if negb (Qgtb shares 0) then None
      else
        let st := sweepAsksReal (PRICE_EPS cfg) asks maxPrice01
                    (realSweepStart shares) in
        if Qgtb (rRemaining st) FILL_EPS then None
        else
          let maxFilled := qOrZero (rLastFilled st) in
          let avgPrice :=
            if Qgtb (rFilledShares st) 0
            then rWeightedPriceSum st / rFilledShares st
            else maxFilled in
          let fee := calcPolymarketFee (rNotional st) avgPrice in
          Some {| fShares := shares; fNotional := rNotional st;
                  fFee := fee; fCost := rNotional st + fee;
                  fMaxPrice := maxFilled; fAvgPrice := avgPrice |}
  end.

Definition realProbe (cfg : Config) (asks : Side) (budgetUsdc : Q)
  (maxPrice01 : option Q) (mid : Z) : option Fill :=
  match costToBuySharesFromAsksReal cfg asks (inject_Z mid) maxPrice01 with
  | None => None
  | Some fill =>
      if Qleb (fCost fill) (budgetUsdc + 0.000000001) then Some fill else None
  end.

Definition maxSharesForBudgetReal {M : Machine} (cfg : Config) (asks : Side)
  (budgetUsdc : Q) (maxPrice01 : option Q) (minShares : Z) : option Fill :=
  match bestPrice asks with
  | None => None
  | Some best =>
      if negb (Qgtb budgetUsdc 0) then None
      else
        let totalSize := Qfloor (sumSizes asks) in
        if (totalSize <? minShares)%Z then None
        else if negb (Qgtb best 0) then None
        else if (match maxPrice01 with
                 | Some mx => Qgtb best (mx + PRICE_EPS cfg)
                 | None => false
                 end) then None
        else
          let approxFeeRate :=
            Times (Minus (Num 1) (Num best)) (Num POLYMARKET_FEE_RATE) in
          let approxPerShare :=
            Times (Num best) (Plus (Num 1) approxFeeRate) in
          let budgetBound :=
            if Qgtb (exactly approxPerShare) 0
            then floorOf (Over (Num budgetUsdc) approxPerShare)
            else 0%Z in
          let hi := Z.max 0 (Z.min totalSize budgetBound) in
          if (hi <? minShares)%Z then None
          else searchLoop (searchFuel minShares hi)
                 (realProbe cfg asks budgetUsdc maxPrice01) minShares hi None
  end.

(** The loop of [proceedsFromSellingSharesToBidsReal]. *)
Fixpoint sweepBidsReal (eps : Q) (bids : Side) (minPrice01 : option Q)
  (st : RealSweep) : RealSweep :=
  match bids with
  | [] => st
  | level :: rest =>
      if negb (Qgtb (rRemaining st) 0) then st
      else
        let p := price level in
        let sz := size level in
        if negb (Qgtb sz 0) then sweepBidsReal eps rest minPrice01 st
        else
          match minPrice01 with
          | Some mn =>
              if Qltb p (mn - eps) then st
              else sweepBidsReal eps rest minPrice01 (realTake st p sz)
          | None => sweepBidsReal eps rest minPrice01 (realTake st p sz)
          end
  end.

Record SellFillReal : Type := mkSellFillReal {
  sfrShares : Q;
  sfrGross : Q;
  sfrFee : Q;
  sfrProceeds : Q;
  sfrMinFilledPrice : option Q;
  sfrAvgPrice : option Q
}.

Definition proceedsFromSellingSharesToBidsReal (cfg : Config) (bids : Side)
  (shares : Q) (minPrice01 : option Q) : option SellFillReal :=
  match bids with
  | [] => None
  | _ =>
      if negb (Qgtb shares 0) then None
      else
        let st := sweepBidsReal (PRICE_EPS cfg) bids minPrice01
                    (realSweepStart shares) in
        if Qgtb (rRemaining st) FILL_EPS then None
        else
          let avgPrice :=
            if Qgtb (rFilledShares st) 0
            then Some (rWeightedPriceSum st / rFilledShares st)
            else rLastFilled st in
          let fee := match avgPrice with
                     | Some a => calcPolymarketFee (rNotional st) a
                     | None => 0
                     end in
          Some {| sfrShares := shares; sfrGross := rNotional st;
                  sfrFee := fee; sfrProceeds := rNotional st - fee;
                  sfrMinFilledPrice := rLastFilled st;
                  sfrAvgPrice := avgPrice |}
  end.

(** [findBestAvailableSellPrice]: the highest bid with size inside
    [target - maxPriceBelow, target], both ends widened by the tolerance. *)
Fixpoint findBestLoop (eps : Q) (bids : Side) (targetPrice minAcceptable : Q)
  (best : option Q) : option Q :=
  match bids with
  | [] => best
  | level :: rest =>
      let p := price level in
      if negb (Qgtb (size level) 0)
      then findBestLoop eps rest targetPrice minAcceptable best
      else if Qleb p (targetPrice + eps) && Qgeb p (minAcceptable - eps)
      then
        match best with
        | None => findBestLoop eps rest targetPrice minAcceptable (Some p)
        | Some b =>
            findBestLoop eps rest targetPrice minAcceptable
              (if Qgtb p b then Some p else Some b)
        end
      else findBestLoop eps rest targetPrice minAcceptable best
  end.

Definition findBestAvailableSellPrice (cfg : Config) (bids : Side)
  (targetPrice maxPriceBelow : Q) : option Q :=
  findBestLoop (PRICE_EPS cfg) bids targetPrice
    (targetPrice - maxPriceBelow) None.

(** [timeRemainingSec]. *)
Definition timeRemainingSec (w : World) : option Z :=
  match intervalEndEpochSec w with
  | None => None
  | Some e => Some (Z.max 0 (e - nowSec w))
  end.

Record Books : Type := mkBooks {
  bkSide : OutcomeSide;
  bkTokenId : option string;
  bkAsks : Side;
  bkBids : Side;
  bkSummary : option Summary;
  bkFeeBps : option Q
}.

Definition getBooks (w : World) (side : OutcomeSide) : Books :=
  match side with
  | Up => {| bkSide := Up; bkTokenId := upTokenId w;
             bkAsks := upAsksLevels w; bkBids := upBidsLevels w;
             bkSummary := up w; bkFeeBps := upFeeBps w |}
  | Down => {| bkSide := Down; bkTokenId := downTokenId w;
               bkAsks := downAsksLevels w; bkBids := downBidsLevels w;
               bkSummary := down w; bkFeeBps := downFeeBps w |}
  end.

Definition spreadOk (cfg : Config) (summary : option Summary) : bool :=
  match summary with
  | None => false
  | Some s =>
      if negb (Qgtb (bestAsk s) 0) || negb (Qgtb (bestBid s) 0) then false
      else Qleb (bestAsk s - bestBid s) (MAX_SPREAD cfg + 0.000000000001)
  end.

(** *** The state the strategy owns *)

Inductive ExitType : Type := StopLoss | TakeProfit.

Record Candle : Type := mkCandle {
  minute : Z;
  cOpen : Q;
  cHigh : Q;
  cLow : Q;
  cClose : Q;
  startTime : Z
}.

Record CandleData : Type := mkCandleData {
  current : option Candle;
  history : list Candle
}.

(** The per-interval record; [requireReentryUntilResolved] is absent, hence
    false, until a stop-loss sets it. *)
Record IntervalState : Type := mkIntervalState {
  iMarketId : option string;
  lastExitType : option ExitType;
  entryCount : Z;
  startBtcPrice : option Q;
  lastStopLossExitPrice : option Q;
  requireReentryUntilResolved : bool
}.

Record CertOpen : Type := mkCertOpen {
  oTradeId : Z;
  oSide : OutcomeSide;
  oTokenId : option string;
  oShares : Q;
  entryCostUsdc : Q;
  entryLimitPrice : Q;
  oOpenedAt : Z;
  oEndEpochSec : Z;
  oMarketId : option string
}.

Inductive TradeStatus : Type := OPEN | PROFIT | STOPPED.

(** A ledger entry (the fields that carry money; timestamps are left
    out). *)
Record Trade : Type := mkTrade {
  tradeId : Z;
  entrySide : OutcomeSide;
  entryPrice : Q;
  tShares : Q;
  gasPaidUsdc : Q;
  capitalBeforeUsdc : option Q;
  capitalAfterUsdc : option Q;
  status : TradeStatus;
  tExitType : option ExitType;
  exitPrice : option Q;
  exitProceedsUsdc : option Q;
  roi : option Q
}.

Record Confirm : Type := mkConfirm { cSide : option OutcomeSide; ticks : Z }.

Record CertState : Type := mkCertState {
  paperBalance : Q;
  collateral : Collateral;
  open : option CertOpen;
  iState : IntervalState;
  candlesUp : CandleData;
  candlesDown : CandleData;
  trades : list Trade;
  tradeSeq : Z;
  confirm : option Confirm;
  tpConfirm : Z;
  stopConfirm : Z;
  lastTradeAt : option Z
}.

Definition withBalance (st : CertState) (b : Q) : CertState :=
  mkCertState b (collateral st) (open st) (iState st) (candlesUp st)
    (candlesDown st) (trades st) (tradeSeq st) (confirm st) (tpConfirm st)
    (stopConfirm st) (lastTradeAt st).

Definition withCollateral (st : CertState) (c : Collateral) : CertState :=
  mkCertState (paperBalance st) c (open st) (iState st) (candlesUp st)
    (candlesDown st) (trades st) (tradeSeq st) (confirm st) (tpConfirm st)
    (stopConfirm st) (lastTradeAt st).

Definition withOpen (st : CertState) (o : option CertOpen) : CertState :=
  mkCertState (paperBalance st) (collateral st) o (iState st) (candlesUp st)
    (candlesDown st) (trades st) (tradeSeq st) (confirm st) (tpConfirm st)
    (stopConfirm st) (lastTradeAt st).

Definition withIState (st : CertState) (i : IntervalState) : CertState :=
  mkCertState (paperBalance st) (collateral st) (open st) i (candlesUp st)
    (candlesDown st) (trades st) (tradeSeq st) (confirm st) (tpConfirm st)
    (stopConfirm st) (lastTradeAt st).

Definition withCandles (st : CertState) (side : OutcomeSide)
  (d : CandleData) : CertState :=
  match side with
  | Up => mkCertState (paperBalance st) (collateral st) (open st) (iState st)
            d (candlesDown st) (trades st) (tradeSeq st) (confirm st)
            (tpConfirm st) (stopConfirm st) (lastTradeAt st)
  | Down => mkCertState (paperBalance st) (collateral st) (open st)
              (iState st) (candlesUp st) d (trades st) (tradeSeq st)
              (confirm st) (tpConfirm st) (stopConfirm st) (lastTradeAt st)
  end.

Definition withTrades (st : CertState) (ts : list Trade) : CertState :=
  mkCertState (paperBalance st) (collateral st) (open st) (iState st)
    (candlesUp st) (candlesDown st) ts (tradeSeq st) (confirm st)
    (tpConfirm st) (stopConfirm st) (lastTradeAt st).

Definition withTradeSeq (st : CertState) (n : Z) : CertState :=
  mkCertState (paperBalance st) (collateral st) (open st) (iState st)
    (candlesUp st) (candlesDown st) (trades st) n (confirm st)
    (tpConfirm st) (stopConfirm st) (lastTradeAt st).

Definition withConfirm (st : CertState) (c : option Confirm) : CertState :=
  mkCertState (paperBalance st) (collateral st) (open st) (iState st)
    (candlesUp st) (candlesDown st) (trades st) (tradeSeq st) c
    (tpConfirm st) (stopConfirm st) (lastTradeAt st).

Definition withTpConfirm (st : CertState) (n : Z) : CertState :=
  mkCertState (paperBalance st) (collateral st) (open st) (iState st)
    (candlesUp st) (candlesDown st) (trades st) (tradeSeq st) (confirm st)
    n (stopConfirm st) (lastTradeAt st).

Definition withStopConfirm (st : CertState) (n : Z) : CertState :=
  mkCertState (paperBalance st) (collateral st) (open st) (iState st)
    (candlesUp st) (candlesDown st) (trades st) (tradeSeq st) (confirm st)
    (tpConfirm st) n (lastTradeAt st).

Definition withLastTradeAt (st : CertState) (t : option Z) : CertState :=
  mkCertState (paperBalance st) (collateral st) (open st) (iState st)
    (candlesUp st) (candlesDown st) (trades st) (tradeSeq st) (confirm st)
    (tpConfirm st) (stopConfirm st) t.

Definition candlesOf (st : CertState) (side : OutcomeSide) : CandleData :=
  match side with Up => candlesUp st | Down => candlesDown st end.

(** The state [ensureTradeState] builds on first use. *)
Definition initialIntervalState : IntervalState :=
  {| iMarketId := None; lastExitType := None; entryCount := 0;
     startBtcPrice := None; lastStopLossExitPrice := None;
     requireReentryUntilResolved := false |}.

Definition initialState (balance : Q) (c : Collateral) : CertState :=
  {| paperBalance := balance; collateral := c; open := None;
     iState := initialIntervalState;
     candlesUp := {| current := None; history := [] |};
     candlesDown := {| current := None; history := [] |};
     trades := []; tradeSeq := 0; confirm := None;
     tpConfirm := 0; stopConfirm := 0; lastTradeAt := None |}.

(** *** Candles and momentum *)

(** [history.push(c); if (history.length > 5) history.shift()]. *)
Definition archive (h : list Candle) (c : Candle) : list Candle :=
  let h' := (h ++ [c])%list in
  if (5 <? Z.of_nat (List.length h'))%Z then List.tl h' else h'.

Definition updateOHLC (w : World) (st : CertState) (side : OutcomeSide)
  (px : Q) : CertState :=
  let data := candlesOf st side in
  let currentMinute := (nowMs w / 60000)%Z in
  let fresh := {| minute := currentMinute; cOpen := px; cHigh := px;
                  cLow := px; cClose := px; startTime := nowMs w |} in
  let data1 :=
    match current data with
    | None => {| current := Some fresh; history := history data |}
    | Some c =>
        if negb (minute c =? currentMinute)%Z
        then {| current := Some fresh; history := archive (history data) c |}
        else data
    end in
  let data2 :=
    match current data1 with
    | None => data1
    | Some c =>
        {| current :=
             Some {| minute := minute c; cOpen := cOpen c;
                     cHigh := if Qgtb px (cHigh c) then px else cHigh c;
                     cLow := if Qltb px (cLow c) then px else cLow c;
                     cClose := px; startTime := startTime c |};
           history := history data1 |}
    end in
  withCandles st side data2.

(** [isBullishMomentum]: the live candle is green, or its close is not
    below the close of the candle before it; both up to the tolerance. *)
Definition isBullishMomentum (cfg : Config) (st : CertState)
  (side : OutcomeSide) : bool :=
  let data := candlesOf st side in
  match current data with
  | None => false
  | Some c =>
      if Qgeb (cClose c) (cOpen c - PRICE_EPS cfg) then true
      else
        match List.last (List.map Some (history data)) None with
        | Some prev => Qgeb (cClose c) (cClose prev - PRICE_EPS cfg)
        | None => false
        end
  end.

(** [isWarmedUp]: the live candle is more than five seconds old. *)
Definition isWarmedUp (w : World) (st : CertState) (side : OutcomeSide)
  : bool :=
  match current (candlesOf st side) with
  | None => false
  | Some c => (5 * 1000 <? nowMs w - startTime c)%Z
  end.

(** *** The required entry band *)

Record Range : Type := mkRange { rMin : Q; rMax : Q }.

Definition defaultRange (cfg : Config) : Range :=
  {| rMin := ENTRY_PRICE_MIN cfg; rMax := ENTRY_PRICE_MAX cfg |}.

(** [a || b] on optional numbers: zero and absence both fall through. *)
Definition orElseQ (a b : option Q) : option Q :=
  match a with
  | Some x => if Qeq_bool x 0 then b else Some x
  | None => b
  end.

(** [getCurrentEntryRange]: it returns the band and may reset the interval
    record. *)
Definition getCurrentEntryRange (cfg : Config) (w : World) (st : CertState)
  : Range * CertState :=
  let i := iState st in
  let sameInterval :=
    match marketId w, iMarketId i with
    | Some cur, Some old => truthyId (Some cur) && String.eqb cur old
    | _, _ => false
    end in
  if negb sameInterval then
    let btcRef := orElseQ (intervalEntrySpot w) (referencePrice w) in
    let i' := {| iMarketId := marketId w;
                 lastExitType := None;
                 entryCount := 0;
                 startBtcPrice := match btcRef with
                                  | Some r => Some r
                                  | None => startBtcPrice i
                                  end;
                 lastStopLossExitPrice := None;
                 requireReentryUntilResolved :=
                   requireReentryUntilResolved i |} in
    (defaultRange cfg, withIState st i')
  else
    match lastExitType i with
    | Some StopLoss =>
        match lastStopLossExitPrice i with
        | Some reentryPrice =>
            let buffer := if Qeq_bool (STOP_LOSS_BUFFER cfg) 0 then 0.015
                          else STOP_LOSS_BUFFER cfg in
            ({| rMin := Qmax 0.01 (reentryPrice - buffer);
                rMax := reentryPrice + buffer |}, st)
        | None =>
            ({| rMin := REENTRY_PRICE_MIN cfg;
                rMax := REENTRY_PRICE_MAX cfg |}, st)
        end
    | _ => (defaultRange cfg, st)
    end.

(** *** The entry gate *)

Inductive Reason : Type :=
| WarmingUp | WaitForWindow | NoBestAsk | SpreadTooWide
| AskAboveBand | AskBelowBand | BearishCandle
| NoCapital | CapitalTooSmall | InsufficientLiquidity.

Record Entry : Type := mkEntry {
  eSide : OutcomeSide;
  eRange : Range;
  eBooks : Books;
  eFill : Fill;
  eCapitalBefore : Q
}.

Inductive EntryCheck : Type :=
| Refused (r : Reason)
| Accepted (e : Entry).

Definition capitalOf (w : World) (st : CertState) : option Q :=
  if PAPER_TRADING w then Some (paperBalance st)
  else balanceUsdc (collateral st).

Definition canEnterPosition (cfg : Config) (w : World) (st : CertState)
  (side : OutcomeSide) (tRem : option Z) : EntryCheck * CertState :=
  let books := getBooks w side in
  let reentryRequired := requireReentryUntilResolved (iState st) in
  if negb reentryRequired && negb (isWarmedUp w st side)
  then (Refused WarmingUp, st)
  else if negb reentryRequired
          && (match tRem with
              | None => true
              | Some t => (ENTRY_TIME_WINDOW_SEC cfg <? t)%Z
              end)
  then (Refused WaitForWindow, st)
  else
    match bkSummary books with
    | None => (Refused NoBestAsk, st)
    | Some summary =>
        let ask := bestAsk summary in
        if negb (Qgtb ask 0) then (Refused NoBestAsk, st)
        else if negb (spreadOk cfg (Some summary))
        then (Refused SpreadTooWide, st)
        else
          let (entryRange, st1) := getCurrentEntryRange cfg w st in
          if Qgtb ask (rMax entryRange + PRICE_EPS cfg)
          then (Refused AskAboveBand, st1)
          else if Qltb ask (rMin entryRange - PRICE_EPS cfg)
          then (Refused AskBelowBand, st1)
          else if negb reentryRequired && negb (isBullishMomentum cfg st1 side)
          then (Refused BearishCandle, st1)
          else
            match capitalOf w st1 with
            | None => (Refused NoCapital, st1)
            | Some capitalBefore =>
                if negb (Qgtb capitalBefore 0) then (Refused NoCapital, st1)
                else
                  let budget :=
                    if PAPER_TRADING w
                    then capitalBefore - ORDER_GAS_USDC cfg
                    else capitalBefore in
                  if negb (Qgtb budget 0) then (Refused CapitalTooSmall, st1)
                  else
                    match maxSharesForBudgetReal cfg (bkAsks books) budget
                            (Some (rMax entryRange)) (MIN_SHARES cfg) with
                    | None => (Refused InsufficientLiquidity, st1)
                    | Some fill =>
                        (Accepted {| eSide := side; eRange := entryRange;
                                     eBooks := books; eFill := fill;
                                     eCapitalBefore := capitalBefore |}, st1)
                    end
            end
    end.

(** *** Exit triggers *)

Definition exitReference (summary : option Summary) : option Q :=
  match summary with
  | None => None
  | Some s =>
      let px := if Qgtb (mark s) 0 then mark s else bestBid s in
      if Qgtb px 0 then Some px else None
  end.

(** [checkStopLoss]: armed two seconds after the entry. *)
Definition checkStopLoss (cfg : Config) (w : World) (o : CertOpen) : bool :=
  if (nowMs w - oOpenedAt o <? 2000)%Z then false
  else
    match exitReference (bkSummary (getBooks w (oSide o))) with
    | None => false
    | Some px => Qleb px (STOP_LOSS_PRICE cfg + PRICE_EPS cfg)
    end.

Definition checkTakeProfit (cfg : Config) (w : World) (o : CertOpen) : bool :=
  match exitReference (bkSummary (getBooks w (oSide o))) with
  | None => false
  | Some px =>
      Qgeb px (TAKE_PROFIT_MIN cfg - PRICE_EPS cfg)
      && Qleb px (TAKE_PROFIT_MAX cfg + PRICE_EPS cfg)
  end.

(** *** The ledger *)

Definition nextTradeId (st : CertState) : Z * CertState :=
  ((tradeSeq st + 1)%Z, withTradeSeq st (tradeSeq st + 1)%Z).

Definition recordTrade (st : CertState) (t : Trade) : CertState :=
  withTrades st (trades st ++ [t])%list.

(** [findTrade] followed by the writes to the entry found: the first
    entry with the identifier is rewritten. *)
Fixpoint updateTrade (ts : list Trade) (id : Z) (f : Trade -> Trade)
  : list Trade :=
  match ts with
  | [] => []
  | t :: rest =>
      if (tradeId t =? id)%Z then f t :: rest
      else t :: updateTrade rest id f
  end.

(** *** Entering *)

Definition afterEntry (i : IntervalState) : IntervalState :=
  {| iMarketId := iMarketId i;
     lastExitType := None;
     entryCount := (entryCount i + 1)%Z;
     startBtcPrice := startBtcPrice i;
     lastStopLossExitPrice := lastStopLossExitPrice i;
     requireReentryUntilResolved := false |}.

Definition executePaperBuy (cfg : Config) (w : World) (st : CertState)
  (tradeId0 : Z) (side : OutcomeSide) (tokenId : option string)
  (shares : Q) (fill : option Fill) (maxPrice01 : Q)
  (capitalBeforeUsdc0 : Q) : CertState :=
  match open st with
  | Some _ => st
  | None =>
      match fill with
      | None => st
      | Some fill =>
          if negb (Qgtb shares 0) then st
          else
            let gas := ORDER_GAS_USDC cfg in
            let total := fCost fill + gas in
            if Qgtb total (paperBalance st) then st
            else
              let st1 := withBalance st
                           (executePaperDelta (paperBalance st) (- total)) in
              let endSec := orElseZ (intervalEndEpochSec w)
                              (nowSec w + 15 * 60)%Z in
              let st2 := withOpen st1
                (Some {| oTradeId := tradeId0; oSide := side;
                         oTokenId := tokenId; oShares := shares;
                         entryCostUsdc := fCost fill;
                         entryLimitPrice := maxPrice01;
                         oOpenedAt := nowMs w; oEndEpochSec := endSec;
                         oMarketId := marketId w |}) in
              let st3 := withIState st2 (afterEntry (iState st2)) in
              recordTrade st3
                {| tradeId := tradeId0; entrySide := side;
                   entryPrice := maxPrice01; tShares := shares;
                   gasPaidUsdc := gas;
                   capitalBeforeUsdc := Some capitalBeforeUsdc0;
                   capitalAfterUsdc := Some (paperBalance st3);
                   status := OPEN; tExitType := None; exitPrice := None;
                   exitProceedsUsdc := None; roi := None |}
      end
  end.

(** What the exchange and the balance endpoint answer during one call of
    the handler. *)
Record Oracle : Type := mkOracle {
  refreshed : option Collateral;
  postResult : PostOutcome
}.

(** [executeLiveBuy]: the new state and whether the routine threw. *)
Definition executeLiveBuy (cfg : Config) (w : World) (st : CertState)
  (orc : Oracle) (entry : Entry) (tradeId0 : Z) (limitPrice01 : Q)
  : CertState * bool :=
  if PAPER_TRADING w then (st, false)
  else if negb (ENABLE_LIVE_ORDERS w) then (st, false)
  else if negb (truthyId (bkTokenId (eBooks entry))) then (st, true)
  else if negb (clobCreds w) then (st, true)
  else
    let costUsdc := fCost (eFill entry) in
    let capitalBefore := balanceUsdc (collateral st) in
    let st1 :=
      match liveCanSpendUsdc (collateral st) costUsdc with
      | SpendUnknown =>
          match refreshed orc with
          | Some c => withCollateral st c
          | None => st
          end
      | _ => st
      end in
    if negb (canSpendOk (liveCanSpendUsdc (collateral st1) costUsdc))
    then (st1, false)
    else
      match postResult orc with
      | Threw => (st1, true)
      | _ =>
          let endSec := orElseZ (intervalEndEpochSec w)
                          (nowSec w + 15 * 60)%Z in
          let st2 := withOpen st1
            (Some {| oTradeId := tradeId0; oSide := eSide entry;
                     oTokenId := bkTokenId (eBooks entry);
                     oShares := fShares (eFill entry);
                     entryCostUsdc := costUsdc;
                     entryLimitPrice := limitPrice01;
                     oOpenedAt := nowMs w; oEndEpochSec := endSec;
                     oMarketId := marketId w |}) in
          let st3 := withIState st2 (afterEntry (iState st2)) in
          (recordTrade st3
             {| tradeId := tradeId0; entrySide := eSide entry;
                entryPrice := limitPrice01;
                tShares := fShares (eFill entry);
                gasPaidUsdc := ORDER_GAS_USDC cfg;
                capitalBeforeUsdc := capitalBefore;
                capitalAfterUsdc := None;
                status := OPEN; tExitType := None; exitPrice := None;
                exitProceedsUsdc := None; roi := None |}, false)
      end.

(** *** Leaving *)

Definition statusOfExit (e : ExitType) : TradeStatus :=
  match e with TakeProfit => PROFIT | StopLoss => STOPPED end.

Definition roiOf (before after : option Q) (old : option Q) : option Q :=
  match before, after with
  | Some b, Some a => if Qgtb b 0 then Some ((a - b) / b) else old
  | _, _ => old
  end.

(** The interval record after an exit: a stop-loss with a known price
    stores that price and demands a re-entry. *)
Definition afterExit (i : IntervalState) (exitType : ExitType)
  (exitPx : option Q) : IntervalState :=
  match exitType, exitPx with
  | StopLoss, Some p =>
      {| iMarketId := iMarketId i;
         lastExitType := Some exitType;
         entryCount := entryCount i;
         startBtcPrice := startBtcPrice i;
         lastStopLossExitPrice := Some p;
         requireReentryUntilResolved := true |}
  | _, _ =>
      {| iMarketId := iMarketId i;
         lastExitType := Some exitType;
         entryCount := entryCount i;
         startBtcPrice := startBtcPrice i;
         lastStopLossExitPrice := lastStopLossExitPrice i;
         requireReentryUntilResolved := requireReentryUntilResolved i |}
  end.

Definition executePaperSell (cfg : Config) (st : CertState)
  (o : option CertOpen) (sellFill : option SellFillReal)
  (exitType : ExitType) : CertState :=
  match o, sellFill with
  | Some o, Some sellFill =>
      let gas := ORDER_GAS_USDC cfg in
      let bal := executePaperDelta
                   (executePaperDelta (paperBalance st) (sfrProceeds sellFill))
                   (- gas) in
      let st1 := withBalance st bal in
      let st2 := withTrades st1
        (updateTrade (trades st1) (oTradeId o)
           (fun t =>
              {| tradeId := tradeId t; entrySide := entrySide t;
                 entryPrice := entryPrice t; tShares := tShares t;
                 gasPaidUsdc := gasPaidUsdc t + gas;
                 capitalBeforeUsdc := capitalBeforeUsdc t;
                 capitalAfterUsdc := Some bal;
                 status := statusOfExit exitType;
                 tExitType := Some exitType;
                 exitPrice := sfrMinFilledPrice sellFill;
                 exitProceedsUsdc := Some (sfrProceeds sellFill);
                 roi := roiOf (capitalBeforeUsdc t) (Some bal) (roi t) |})) in
      let st3 := withIState st2
                   (afterExit (iState st2) exitType (sfrAvgPrice sellFill)) in
      withOpen st3 None
  | _, _ => st
  end.

(** [executeLiveSell]: the new state and whether the routine threw. *)
Definition executeLiveSell (cfg : Config) (w : World) (st : CertState)
  (orc : Oracle) (o : CertOpen) (tokenId : option string) (minPrice01 : Q)
  (proceedsUsdc : Q) (exitType : ExitType) : CertState * bool :=
  if PAPER_TRADING w then (st, false)
  else if negb (ENABLE_LIVE_ORDERS w) then (st, false)
  else if negb (truthyId tokenId) then (st, true)
  else if negb (clobCreds w) then (st, true)
  else
    match postResult orc with
    | Threw => (st, true)
    | _ =>
        let st1 := withIState st
                     (afterExit (iState st) exitType (Some minPrice01)) in
        let prevBal := qOrZero (balanceUsdc (collateral st1)) in
        let newBal := prevBal + proceedsUsdc - ORDER_GAS_USDC cfg in
        let st2 := withCollateral st1
                     {| balanceUsdc := Some newBal;
                        allowanceUsdc := allowanceUsdc (collateral st1) |} in
        let st3 := withTrades st2
          (updateTrade (trades st2) (oTradeId o)
             (fun t =>
                {| tradeId := tradeId t; entrySide := entrySide t;
                   entryPrice := entryPrice t; tShares := tShares t;
                   gasPaidUsdc := gasPaidUsdc t + ORDER_GAS_USDC cfg;
                   capitalBeforeUsdc := capitalBeforeUsdc t;
                   capitalAfterUsdc := Some newBal;
                   status := statusOfExit exitType;
                   tExitType := Some exitType;
                   exitPrice := Some minPrice01;
                   exitProceedsUsdc := Some proceedsUsdc;
                   roi := roiOf (capitalBeforeUsdc t) (Some newBal) (roi t) |})) in
        (withOpen st3 None, false)
    end.

(** *** Confirmation and cooldown *)

Definition cooldownOk (cfg : Config) (w : World) (st : CertState) : bool :=
  let last := match lastTradeAt st with Some t => t | None => 0%Z end in
  (COOLDOWN_MS cfg <=? nowMs w - last)%Z.

Definition sameSide (a : option OutcomeSide) (b : OutcomeSide) : bool :=
  match a with Some x => OutcomeSide_eqb x b | None => false end.

Definition bumpConfirm (st : CertState) (side : OutcomeSide)
  : Z * CertState :=
  let c := match confirm st with
           | Some c => c
           | None => {| cSide := None; ticks := 0 |}
           end in
  let c' := if sameSide (cSide c) side
            then {| cSide := cSide c; ticks := (ticks c + 1)%Z |}
            else {| cSide := Some side; ticks := 1 |} in
  (ticks c', withConfirm st (Some c')).

Definition clearConfirm (st : CertState) : CertState :=
  match confirm st with
  | Some _ => withConfirm st (Some {| cSide := None; ticks := 0 |})
  | None => st
  end.

(** *** The handler run on every order-book refresh *)

Definition idMismatch (a b : option string) : bool :=
  match a, b with
  | Some x, Some y =>
      truthyId (Some x) && truthyId (Some y) && negb (String.eqb x y)
  | _, _ => false
  end.

Definition feedCandle (w : World) (st : CertState) (side : OutcomeSide)
  : CertState :=
  match bkSummary (getBooks w side) with
  | Some s => updateOHLC w st side (bestAsk s)
  | None => st
  end.

(** The branch taken while a position is open. *)
Definition manageOpen (cfg : Config) (w : World) (orc : Oracle)
  (st : CertState) (o : CertOpen) : CertState :=
  if (oEndEpochSec o <=? nowSec w)%Z then st
  else if idMismatch
            (match oSide o with Up => upTokenId w | Down => downTokenId w end)
            (oTokenId o) then st
  else if idMismatch (oMarketId o) (marketId w) then st
  else
    let books := getBooks w (oSide o) in
    if checkTakeProfit cfg w o then
      let st1 := withTpConfirm st (tpConfirm st + 1)%Z in
      if (tpConfirm st1 <? CONFIRM_TICKS cfg)%Z then st1
      else if negb (cooldownOk cfg w st1) then st1
      else
        let minAcceptablePrice := TAKE_PROFIT_MIN cfg - TAKE_PROFIT_BUFFER cfg in
        match proceedsFromSellingSharesToBidsReal cfg (bkBids books)
                (oShares o) (Some minAcceptablePrice) with
        | None => st1
        | Some sellFill =>
            let (st2, threw) :=
              if PAPER_TRADING w
              then (executePaperSell cfg st1 (Some o) (Some sellFill)
                      TakeProfit, false)
              else executeLiveSell cfg w st1 orc o (bkTokenId books)
                     minAcceptablePrice (sfrProceeds sellFill) TakeProfit in
            if threw then st2
            else withStopConfirm
                   (withTpConfirm
                      (clearConfirm (withLastTradeAt st2 (Some (nowMs w)))) 0)
                   0
        end
    else if checkStopLoss cfg w o then
      let st1 := withStopConfirm st (stopConfirm st + 1)%Z in
      if (stopConfirm st1 <? CONFIRM_TICKS cfg)%Z then st1
      else if negb (cooldownOk cfg w st1) then st1
      else
        match findBestAvailableSellPrice cfg (bkBids books)
                (STOP_LOSS_PRICE cfg) (STOP_LOSS_BUFFER cfg) with
        | None => st1
        | Some bestAvailablePrice =>
            if Qeq_bool bestAvailablePrice 0 then st1
            else
              match proceedsFromSellingSharesToBidsReal cfg (bkBids books)
                      (oShares o) (Some bestAvailablePrice) with
              | None => st1
              | Some sellFill =>
                  let (st2, threw) :=
                    if PAPER_TRADING w
                    then (executePaperSell cfg st1 (Some o) (Some sellFill)
                            StopLoss, false)
                    else executeLiveSell cfg w st1 orc o (bkTokenId books)
                           bestAvailablePrice (sfrProceeds sellFill)
                           StopLoss in
                  let st3 :=
                    if threw then st2
                    else withStopConfirm
                           (clearConfirm
                              (withLastTradeAt st2 (Some (nowMs w)))) 0 in
                  withTpConfirm st3 0
              end
        end
    else withTpConfirm st 0.

(** The choice between the two sides when both are admitted. *)
Definition chooseEntry (upEntry downEntry : EntryCheck) : option Entry :=
  match upEntry, downEntry with
  | Accepted u, Accepted d =>
      if Qgeb (fShares (eFill u)) (fShares (eFill d)) then Some u else Some d
  | Accepted u, Refused _ => Some u
  | Refused _, Accepted d => Some d
  | Refused _, Refused _ => None
  end.

(** The branch taken while no position is open. *)
Definition seekEntry (cfg : Config) (w : World) (orc : Oracle)
  (st : CertState) (tRem : option Z) : CertState :=
  let st0 := withTpConfirm (withStopConfirm st 0) 0 in
  let (upEntry, st1) := canEnterPosition cfg w st0 Up tRem in
  let (downEntry, st2) := canEnterPosition cfg w st1 Down tRem in
  let st3 := snd (getCurrentEntryRange cfg w st2) in
  match chooseEntry upEntry downEntry with
  | None => clearConfirm st3
  | Some enter =>
      if negb (cooldownOk cfg w st3) then st3
      else
        let (n, st4) := bumpConfirm st3 (eSide enter) in
        if (n <? CONFIRM_TICKS cfg)%Z then st4
        else
          let (tradeId0, st5) := nextTradeId st4 in
          let limitPrice01 := rMax (eRange enter) in
          let (st6, threw) :=
            if PAPER_TRADING w
            then (executePaperBuy cfg w st5 tradeId0 (eSide enter)
                    (bkTokenId (eBooks enter)) (fShares (eFill enter))
                    (Some (eFill enter)) limitPrice01
                    (eCapitalBefore enter), false)
            else executeLiveBuy cfg w st5 orc enter tradeId0 limitPrice01 in
          if threw then st6
          else clearConfirm (withLastTradeAt st6 (Some (nowMs w)))
  end.

Definition onOrderbooks (cfg : Config) (w : World) (orc : Oracle)
  (st : CertState) : CertState :=
  let tRem := timeRemainingSec w in
  let st1 := feedCandle w (feedCandle w st Up) Down in
  match open st1 with
  | Some o => manageOpen cfg w orc st1 o
  | None => seekEntry cfg w orc st1 tRem
  end.

End Certainty.

(** ** StrategyLag *)

Module Lag.
Import BookMath Engine.

Inductive TakeProfitMode : Type := TpFixed | TpPercent | TpDynamic.
Inductive StopLossMode : Type := SlPercent | SlDynamic | SlStrict.

Record Config : Type := mkConfig {
  LAG_TAKE_PROFIT_CENTS : Q;
  LAG_TAKE_PROFIT_PCT : option Q;
  LAG_TAKE_PROFIT_MODE : TakeProfitMode;
  tpModeFromEnv : bool;
  LAG_MIN_PROFIT_CENTS : Q;
  LAG_TP_MIN_CENTS : Q;
  LAG_TP_MAX_CENTS : Q;
  LAG_TP_CENTS_PER_USD : Q;
  LAG_STOP_LOSS_PCT : Q;
  LAG_STOP_LOSS_MODE : StopLossMode;
  LAG_SL_MIN_CENTS : Q;
  LAG_SL_MAX_CENTS : Q;
  LAG_SL_RISK_FRAC : Q;
  LAG_STOP_GRACE_MS : Z;
  LAG_STOP_CONFIRM_TICKS : Z;
  LAG_STOP_COOLDOWN_MS : Z;
  LAG_COOLDOWN_MS : Z;
  LAG_HISTORY_SEC : Z;
  LAG_FEED_DISAGREE_USD_HARD : Q;
  LAG_BINANCE_MAX_AGE_MS : Z;
  LAG_CHAINLINK_MAX_AGE_MS : Z;
  LAG_ENTRY_CONFIRM_TICKS : Z
}.

(** The values used when the environment sets nothing. *)
Definition defaultConfig : Config :=
  {| LAG_TAKE_PROFIT_CENTS := 1;
     LAG_TAKE_PROFIT_PCT := None;
     LAG_TAKE_PROFIT_MODE := TpDynamic;
     tpModeFromEnv := false;
     LAG_MIN_PROFIT_CENTS := 1;
     LAG_TP_MIN_CENTS := 1;
     LAG_TP_MAX_CENTS := 10;
     LAG_TP_CENTS_PER_USD := 0.05;
     LAG_STOP_LOSS_PCT := 0.01;
     LAG_STOP_LOSS_MODE := SlStrict;
     LAG_SL_MIN_CENTS := 1;
     LAG_SL_MAX_CENTS := 3;
     LAG_SL_RISK_FRAC := 0.5;
     LAG_STOP_GRACE_MS := 3000;
     LAG_STOP_CONFIRM_TICKS := 2;
     LAG_STOP_COOLDOWN_MS := 15000;
     LAG_COOLDOWN_MS := 1500;
     LAG_HISTORY_SEC := 120;
     LAG_FEED_DISAGREE_USD_HARD := 150;
     LAG_BINANCE_MAX_AGE_MS := 5000;
     LAG_CHAINLINK_MAX_AGE_MS := 180000;
     LAG_ENTRY_CONFIRM_TICKS := 2 |}.

(** *** Targets and stops *)

Definition computeTargetSellPrice01 (entryLimitPrice01 profitCents : Q)
  (buyFeeBps sellFeeBps : Q) : option Q :=
  let desiredProfitUsdcPerShare := profitCents / 100 in
  let buyMult := 1 + buyFeeBps / 10000 in
  let sellMult := 1 - sellFeeBps / 10000 in
  if negb (Qgtb sellMult 0) then None
  else
    let numer := entryLimitPrice01 * buyMult + desiredProfitUsdcPerShare in
    let sRaw := numer / sellMult in
    if Qgeb sRaw 0.99 then None
    else
      let s := Qmin 0.99 (Qmax 0.001 sRaw) in
      if negb (Qgtb s entryLimitPrice01) then None else Some s.

Definition maxAchievableProfitCentsAtCap (entryLimitPrice01 feeBps : Q)
  (capPrice01 : Q) : option Q :=
  if negb (Qgtb capPrice01 0) then None
  else
    let entryCost := applyTakerFeeOnBuy entryLimitPrice01 feeBps in
    let bestExitProceeds := applyTakerFeeOnSell capPrice01 feeBps in
    Some ((bestExitProceeds - entryCost) * 100).

Definition profitCentsForEntry (cfg : Config) (entryPrice01 : Q)
  (spotDeltaUsd sideMarketMove01 : option Q) : Q :=
  let minProfit := if Qgtb (LAG_MIN_PROFIT_CENTS cfg) 0
                   then LAG_MIN_PROFIT_CENTS cfg else 0 in
  let byPercent :=
    match LAG_TAKE_PROFIT_PCT cfg with
    | Some pct =>
        if Qgtb pct 0 && Qgtb entryPrice01 0
        then Some (Qmax minProfit (entryPrice01 * 100 * pct))
        else None
    | None => None
    end in
  let dynamic :=
    let centsPerUsd := if Qgtb (LAG_TP_CENTS_PER_USD cfg) 0
                       then LAG_TP_CENTS_PER_USD cfg else 0 in
    let minC := LAG_TP_MIN_CENTS cfg in
    let maxC := LAG_TP_MAX_CENTS cfg in
    let spotMoveUsd := match spotDeltaUsd with
                       | Some d => Qabs d
                       | None => 0
                       end in
    let forecastCents := spotMoveUsd * centsPerUsd in
    let marketMoveCents :=
      match sideMarketMove01 with
      | Some m => if Qgtb m 0 then m * 100 else 0
      | None => 0
      end in
    let lagCents := Qmax 0 (forecastCents - marketMoveCents) in
    Qmax minProfit (Qmax minC (Qmin maxC lagCents)) in
  match LAG_TAKE_PROFIT_MODE cfg with
  | TpFixed => Qmax minProfit (LAG_TAKE_PROFIT_CENTS cfg)
  | TpPercent =>
      match byPercent with
      | Some v => v
      | None => Qmax minProfit (LAG_TAKE_PROFIT_CENTS cfg)
      end
  | TpDynamic =>
      if negb (tpModeFromEnv cfg) then
        match byPercent with
        | Some v => v
        | None => dynamic
        end
      else dynamic
  end.

Definition stopLossCentsForEntry (cfg : Config) (desiredProfitCents : Q) : Q :=
  let dyn := desiredProfitCents * LAG_SL_RISK_FRAC cfg in
  Qmax (LAG_SL_MIN_CENTS cfg) (Qmin (LAG_SL_MAX_CENTS cfg) dyn).

Definition clamp01 (x : Q) : Q := Qmin 0.99 (Qmax 0.001 x).

Definition computeStopPrice01 (cfg : Config) (entryPrice01 : Q)
  (desiredProfitCents : Q) : option Q :=
  if negb (Qgtb entryPrice01 0) then None
  else
    let stopPct := entryPrice01 * (1 - LAG_STOP_LOSS_PCT cfg) in
    let lossCents := stopLossCentsForEntry cfg desiredProfitCents in
    let stopDyn := entryPrice01 - lossCents / 100 in
    match LAG_STOP_LOSS_MODE cfg with
    | SlPercent => Some (clamp01 stopPct)
    | SlDynamic => Some (clamp01 stopDyn)
    | SlStrict => Some (clamp01 (Qmax stopPct stopDyn))
    end.

(** *** Feeds *)

Inductive RtdsSource : Type := Auto | BinanceWs | Chainlink.

Record Feed : Type := mkFeed {
  fPrice : option Q;
  fExchangeTimestampMs : option Z;
  fLastUpdated : option Z
}.

(** What the lag mode reads beyond the common snapshot. *)
Record LagWorld : Type := mkLagWorld {
  base : World;
  RTDS_SOURCE : RtdsSource;
  binance_ws : option Feed;
  chainlink : option Feed;
  exchangeTimestampMs : option Z
}.

Definition feedAgeMs (w : LagWorld) (feed : option Feed) : option Z :=
  match feed with
  | None => None
  | Some f =>
      let ts := match fExchangeTimestampMs f with
                | Some t => Some t
                | None => fLastUpdated f
                end in
      match ts with
      | None => None
      | Some t => Some (Z.max 0 (nowMs (base w) - t))
      end
  end.

Definition feedPrice (feed : option Feed) : option Q :=
  match feed with
  | None => None
  | Some f => fPrice f
  end.

(** [feedDisagreementUsd]: the distance between the two feeds, when the
    source is automatic and both are fresh. *)
Definition feedDisagreementUsd (cfg : Config) (w : LagWorld) : option Q :=
  match RTDS_SOURCE w with
  | Auto =>
      match feedPrice (binance_ws w), feedPrice (chainlink w) with
      | Some b, Some c =>
          if negb (Qgtb b 0) || negb (Qgtb c 0) then None
          else
            match feedAgeMs w (binance_ws w), feedAgeMs w (chainlink w) with
            | Some bAge, Some cAge =>
                if (LAG_BINANCE_MAX_AGE_MS cfg <? bAge)%Z then None
                else if (LAG_CHAINLINK_MAX_AGE_MS cfg <? cAge)%Z then None
                else Some (Qabs (b - c))
            | _, _ => None
            end
      | _, _ => None
      end
  | _ => None
  end.

(** *** The state the strategy owns *)

Inductive Signal : Type := LAG.

(** What [evalLagSignal] leaves for [maybeExecuteLag]. *)
Record Suggestion : Type := mkSuggestion {
  signal : option Signal;
  suggestedSide : option OutcomeSide;
  suggestedSpend : option Q;
  suggestedShares : option Q;
  suggestedLimitPrice : option Q;
  spotDeltaUsd : option Q;
  sideMarketMove01 : option Q
}.

Record Pending : Type := mkPending {
  pSide : OutcomeSide;
  pPx : Q;
  hits : Z;
  firstAt : Z
}.

Record LagOpen : Type := mkLagOpen {
  lSide : OutcomeSide;
  lTokenId : string;
  lShares : Q;
  lEntryPrice : Q;
  sellPrice : Q;
  stopPrice : Q;
  lFeeBps : Q;
  lEntryCostUsdc : option Q;
  lEndEpochSec : option Z;
  lMarketId : option string;
  stopHits : Z;
  lOpenedAt : Z
}.

Section WithLearning.

(** The calibrator, the linear model and the baselines of the signal
    model: whatever the rest of [evalLagSignal] keeps between calls. *)
Context {Learned : Type}.

Record LagState : Type := mkLagState {
  paperBalance : Q;
  lagOpen : option LagOpen;
  sug : Suggestion;
  pending : option Pending;
  lastTradeAt : option Z;
  lastStopAt : option Z;
  lastSignalAt : option Z;
  lastEvalAt : option Z;
  spotHistory : list (Z * Q);
  feedDisagreeUsd : option Q;
  learned : Learned
}.

Definition withBalance (st : LagState) (b : Q) : LagState :=
  mkLagState b (lagOpen st) (sug st) (pending st) (lastTradeAt st)
    (lastStopAt st) (lastSignalAt st) (lastEvalAt st) (spotHistory st)
    (feedDisagreeUsd st) (learned st).

Definition withOpen (st : LagState) (o : option LagOpen) : LagState :=
  mkLagState (paperBalance st) o (sug st) (pending st) (lastTradeAt st)
    (lastStopAt st) (lastSignalAt st) (lastEvalAt st) (spotHistory st)
    (feedDisagreeUsd st) (learned st).

Definition withSug (st : LagState) (s : Suggestion) : LagState :=
  mkLagState (paperBalance st) (lagOpen st) s (pending st) (lastTradeAt st)
    (lastStopAt st) (lastSignalAt st) (lastEvalAt st) (spotHistory st)
    (feedDisagreeUsd st) (learned st).

Definition withPending (st : LagState) (p : option Pending) : LagState :=
  mkLagState (paperBalance st) (lagOpen st) (sug st) p (lastTradeAt st)
    (lastStopAt st) (lastSignalAt st) (lastEvalAt st) (spotHistory st)
    (feedDisagreeUsd st) (learned st).

Definition withLastTradeAt (st : LagState) (t : option Z) : LagState :=
  mkLagState (paperBalance st) (lagOpen st) (sug st) (pending st) t
    (lastStopAt st) (lastSignalAt st) (lastEvalAt st) (spotHistory st)
    (feedDisagreeUsd st) (learned st).

Definition withLastStopAt (st : LagState) (t : option Z) : LagState :=
  mkLagState (paperBalance st) (lagOpen st) (sug st) (pending st)
    (lastTradeAt st) t (lastSignalAt st) (lastEvalAt st) (spotHistory st)
    (feedDisagreeUsd st) (learned st).

Definition withLastSignalAt (st : LagState) (t : option Z) : LagState :=
  mkLagState (paperBalance st) (lagOpen st) (sug st) (pending st)
    (lastTradeAt st) (lastStopAt st) t (lastEvalAt st) (spotHistory st)
    (feedDisagreeUsd st) (learned st).

Definition withLastEvalAt (st : LagState) (t : option Z) : LagState :=
  mkLagState (paperBalance st) (lagOpen st) (sug st) (pending st)
    (lastTradeAt st) (lastStopAt st) (lastSignalAt st) t (spotHistory st)
    (feedDisagreeUsd st) (learned st).

Definition withHistory (st : LagState) (h : list (Z * Q)) : LagState :=
  mkLagState (paperBalance st) (lagOpen st) (sug st) (pending st)
    (lastTradeAt st) (lastStopAt st) (lastSignalAt st) (lastEvalAt st) h
    (feedDisagreeUsd st) (learned st).

Definition withFeedDisagree (st : LagState) (d : option Q) : LagState :=
  mkLagState (paperBalance st) (lagOpen st) (sug st) (pending st)
    (lastTradeAt st) (lastStopAt st) (lastSignalAt st) (lastEvalAt st)
    (spotHistory st) d (learned st).

(** *** Spot samples *)

Fixpoint dropOlder (cutoff : Z) (h : list (Z * Q)) : list (Z * Q) :=
  match h with
  | [] => []
  | s :: rest => if (fst s <? cutoff)%Z then dropOlder cutoff rest else h
  end.

Definition pushSpotSample (cfg : Config) (w : LagWorld) (st : LagState)
  (spot : Q) : LagState :=
  let t := match exchangeTimestampMs w with
           | Some t => t
           | None => nowMs (base w)
           end in
  if negb (Qgtb spot 0) then st
  else
    let hist := spotHistory st in
    let tooSoon :=
      match List.last (List.map Some hist) None with
      | Some lastS => (Z.abs (t - fst lastS) <? 250)%Z
      | None => false
      end in
    if tooSoon then st
    else
      let cutoff := (t - Z.max 5 (LAG_HISTORY_SEC cfg) * 1000)%Z in
      withHistory st (dropOlder cutoff (hist ++ [(t, spot)])%list).

(** *** The signal *)

(** Everything [evalLagSignal] does once the feed check and the
    end-of-interval check have let the call through. *)
Variable evalLagSignalTail : Config -> LagWorld -> LagState -> LagState.

Definition hardStop (s : Suggestion) : Suggestion :=
  {| signal := Some LAG; suggestedSide := None; suggestedSpend := None;
     suggestedShares := None; suggestedLimitPrice := None;
     spotDeltaUsd := None; sideMarketMove01 := None |}.

Definition nearEnd (s : Suggestion) : Suggestion :=
  {| signal := None; suggestedSide := None; suggestedSpend := None;
     suggestedShares := None; suggestedLimitPrice := None;
     spotDeltaUsd := spotDeltaUsd s; sideMarketMove01 := sideMarketMove01 s |}.

(** Less than a minute to the end of the interval. *)
Definition closeToEnd (w : World) : bool :=
  match intervalEndEpochSec w with
  | Some e => (e * 1000 - nowMs w <=? 60 * 1000)%Z
  | None => false
  end.

Definition evalLagSignal (cfg : Config) (w : LagWorld) (st : LagState)
  : LagState :=
  match underlyingPrice (base w) with
  | None => st
  | Some spot =>
      if negb (Qgtb spot 0) then st
      else
        match up (base w), down (base w) with
        | Some u, Some d =>
            if negb (Qgtb (mark u) 0) || negb (Qgtb (mark d) 0) then st
            else
              let st1 := pushSpotSample cfg w st spot in
              let disagree := feedDisagreementUsd cfg w in
              let st2 := withFeedDisagree st1 disagree in
              if (match disagree with
                  | Some x => Qgtb x (LAG_FEED_DISAGREE_USD_HARD cfg)
                  | None => false
                  end)
              then withSug (withLastEvalAt st2 (Some (nowMs (base w))))
                     (hardStop (sug st2))
              else if closeToEnd (base w)
              then withSug (withLastEvalAt st2 (Some (nowMs (base w))))
                     (nearEnd (sug st2))
              else evalLagSignalTail cfg w
                     (withLastEvalAt st2 (Some (nowMs (base w))))
        | _, _ => st
        end
  end.

(** *** Leaving *)

(** The verdict on a live order once [confirmFokFilled] has looked at
    it. *)
Inductive LiveAnswer : Type := Confirmed | NotFilled | CallThrew.

Definition tokenOf (w : World) (side : OutcomeSide) : option string :=
  match side with Up => upTokenId w | Down => downTokenId w end.

Definition feeOf (w : World) (side : OutcomeSide) : option Q :=
  match side with Up => upFeeBps w | Down => downFeeBps w end.

Definition asksOf (w : World) (side : OutcomeSide) : Side :=
  match side with Up => upAsksLevels w | Down => downAsksLevels w end.

Definition bidsOf (w : World) (side : OutcomeSide) : Side :=
  match side with Up => upBidsLevels w | Down => downBidsLevels w end.

Definition summaryOf (w : World) (side : OutcomeSide) : option Summary :=
  match side with Up => up w | Down => down w end.

Definition withStopHits (o : LagOpen) (n : Z) : LagOpen :=
  mkLagOpen (lSide o) (lTokenId o) (lShares o) (lEntryPrice o) (sellPrice o)
    (stopPrice o) (lFeeBps o) (lEntryCostUsdc o) (lEndEpochSec o)
    (lMarketId o) n (lOpenedAt o).

(** [executeLiveLagExit] followed by [confirmFokFilled]. *)
Definition executeLiveLagExit (w : World) (tokenId : string)
  (ans : LiveAnswer) : LiveAnswer :=
  if PAPER_TRADING w then NotFilled
  else if negb (ENABLE_LIVE_ORDERS w) then NotFilled
  else if negb (truthyId (Some tokenId)) then CallThrew
  else if negb (clobCreds w) then CallThrew
  else ans.

Definition tokenMismatch (w : World) (o : LagOpen) : bool :=
  match tokenOf w (lSide o) with
  | Some cur =>
      truthyId (Some cur) && truthyId (Some (lTokenId o))
      && negb (String.eqb cur (lTokenId o))
  | None => false
  end.

Definition maybeExitLag (cfg : Config) (w : World) (st : LagState)
  (ans : LiveAnswer) : LagState :=
  match lagOpen st with
  | None => st
  | Some o =>
      if tokenMismatch w o then st
      else
        match summaryOf w (lSide o) with
        | None => st
        | Some book =>
            if negb (Qgtb (bestBid book) 0) then st
            else
              let tpTriggered := Qgeb (bestBid book) (sellPrice o) in
              let stopRef := if Qgtb (mark book) 0 then mark book
                             else bestBid book in
              let stopTriggeredRaw := Qleb stopRef (stopPrice o) in
              let stopArmed :=
                (LAG_STOP_GRACE_MS cfg <=? nowMs w - lOpenedAt o)%Z in
              let confirmTicks := Z.max 1 (LAG_STOP_CONFIRM_TICKS cfg) in
              let o1 := if stopTriggeredRaw && stopArmed
                        then withStopHits o (stopHits o + 1)%Z
                        else withStopHits o 0 in
              let st1 := withOpen st (Some o1) in
              let stopTriggered :=
                stopTriggeredRaw && stopArmed
                && (confirmTicks <=? stopHits o1)%Z in
              if negb tpTriggered && negb stopTriggered then st1
              else
                let minExit := if tpTriggered then sellPrice o else 0 in
                match proceedsFromSellingSharesToBids
                        (bidsOf w (lSide o)) (lShares o) (lFeeBps o)
                        minExit with
                | None => st1
                | Some est =>
                    let closeIt (s : LagState) :=
                      withOpen
                        (if tpTriggered then s
                         else withLastStopAt s (Some (nowMs w)))
                        None in
                    if PAPER_TRADING w
                    then closeIt
                           (withBalance st1
                              (executePaperDelta (paperBalance st1)
                                 (proceeds est)))
                    else if negb (ENABLE_LIVE_ORDERS w) then st1
                    else
                      match executeLiveLagExit w (lTokenId o) ans with
                      | Confirmed => closeIt st1
                      | _ => st1
                      end
                end
        end
  end.

(** *** Entering *)

(** [executeLiveLagTrade] followed by [confirmFokFilled]. *)
Definition executeLiveLagTrade (w : World) (tokenId : string)
  (shares limitPrice : Q) (ans : LiveAnswer) : LiveAnswer :=
  if PAPER_TRADING w then NotFilled
  else if negb (ENABLE_LIVE_ORDERS w) then NotFilled
  else if negb (truthyId (Some tokenId)) then CallThrew
  else if negb (clobCreds w) then CallThrew
  else
    let feeBps :=
      match upTokenId w with
      | Some u => if String.eqb tokenId u then upFeeBps w else downFeeBps w
      | None => downFeeBps w
      end in
    let estCost :=
      applyTakerFeeOnBuy (shares * limitPrice)
        (match feeBps with Some f => f | None => 0 end) in
    if negb (canSpendOk (liveCanSpendUsdc (collateral w) estCost))
    then NotFilled
    else ans.

Definition samePending (p : option Pending) (side0 : OutcomeSide) (px0 : Q)
  : bool :=
  match p with
  | None => false
  | Some p =>
      OutcomeSide_eqb (pSide p) side0
      && negb (Qgtb (Qabs (pPx p - px0)) 0.000000001)
  end.

Definition maybeExecuteLag (cfg : Config) (w : World) (st : LagState)
  (ans : LiveAnswer) : LagState :=
  match lagOpen st with
  | Some _ => st
  | None =>
      match signal (sug st) with
      | None => st
      | Some LAG =>
          let confirmN := Z.max 1 (LAG_ENTRY_CONFIRM_TICKS cfg) in
          match suggestedSide (sug st), suggestedLimitPrice (sug st) with
          | Some side0, Some px0 =>
              if negb (Qgtb px0 0) then st
              else if negb (samePending (pending st) side0 px0)
              then withPending st
                     (Some {| pSide := side0; pPx := px0; hits := 1;
                              firstAt := nowMs w |})
              else
                let st1 :=
                  withPending st
                    (option_map
                       (fun p => mkPending (pSide p) (pPx p)
                                   (hits p + 1)%Z (firstAt p))
                       (pending st)) in
                let hitsNow := match pending st1 with
                               | Some p => hits p
                               | None => 0%Z
                               end in
                if (hitsNow <? confirmN)%Z then st1
                else if closeToEnd w then st1
                else
                  let now := nowMs w in
                  let lastTrade := match lastTradeAt st1 with
                                   | Some t => t | None => 0%Z end in
                  if (now - lastTrade <? LAG_COOLDOWN_MS cfg)%Z then st1
                  else
                    let lastStop := match lastStopAt st1 with
                                    | Some t => t | None => 0%Z end in
                    if negb (lastStop =? 0)%Z
                       && (now - lastStop <? LAG_STOP_COOLDOWN_MS cfg)%Z
                    then st1
                    else
                      match suggestedShares (sug st1) with
                      | None => st1
                      | Some shares =>
                          let side := side0 in
                          let limitPrice := px0 in
                          if negb (Qgtb shares 0) then st1
                          else
                            match tokenOf w side, feeOf w side with
                            | Some tokenId, Some feeBps =>
                                if negb (truthyId (Some tokenId)) then st1
                                else if negb (Qltb limitPrice 0.99) then st1
                                else
                                  let desiredProfitCents :=
                                    profitCentsForEntry cfg limitPrice
                                      (spotDeltaUsd (sug st1))
                                      (sideMarketMove01 (sug st1)) in
                                  match maxAchievableProfitCentsAtCap
                                          limitPrice feeBps 0.99 with
                                  | None => st1
                                  | Some maxProfitCents =>
                                      if Qltb (maxProfitCents + 0.000001)
                                              desiredProfitCents
                                      then st1
                                      else
                                        match computeTargetSellPrice01
                                                limitPrice desiredProfitCents
                                                feeBps feeBps,
                                              computeStopPrice01 cfg
                                                limitPrice desiredProfitCents
                                        with
                                        | Some targetSell, Some stopPx =>
                                            if negb (Qgtb targetSell 0)
                                            then st1
                                            else if negb (Qgtb stopPx 0)
                                            then st1
                                            else
                                              let st2 :=
                                                withLastSignalAt st1
                                                  (Some now) in
                                              let opened (c : option Q) :=
                                                {| lSide := side;
                                                   lTokenId := tokenId;
                                                   lShares := shares;
                                                   lEntryPrice := limitPrice;
                                                   sellPrice := targetSell;
                                                   stopPrice := stopPx;
                                                   lFeeBps := feeBps;
                                                   lEntryCostUsdc := c;
                                                   lEndEpochSec :=
                                                     intervalEndEpochSec w;
                                                   lMarketId := marketId w;
                                                   stopHits := 0;
                                                   lOpenedAt := now |} in
                                              if PAPER_TRADING w then
                                                match costToBuySharesFromAsks
                                                        (asksOf w side)
                                                        shares feeBps with
                                                | None => st2
                                                | Some fill =>
                                                    if Qgtb (cost fill)
                                                         (paperBalance st2)
                                                    then st2
                                                    else
                                                      withLastTradeAt
                                                        (withOpen
                                                           (withBalance st2
                                                              (executePaperDelta
                                                                 (paperBalance st2)
                                                                 (- cost fill)))
                                                           (Some (opened
                                                              (Some (cost fill)))))
                                                        (Some now)
                                                end
                                              else if negb
                                                        (ENABLE_LIVE_ORDERS w)
                                              then st2
                                              else
                                                match executeLiveLagTrade w
                                                        tokenId shares
                                                        limitPrice ans with
                                                | Confirmed =>
                                                    withLastTradeAt
                                                      (withOpen st2
                                                         (Some (opened None)))
                                                      (Some now)
                                                | _ => st2
                                                end
                                        | _, _ => st1
                                        end
                                  end
                            | _, _ => st1
                            end
                      end
          | _, _ => st
          end
      end
  end.

(** Which answers the exchange gives during one call of the handler. *)
Record Answers : Type := mkAnswers {
  exitAnswer : LiveAnswer;
  entryAnswer : LiveAnswer
}.

(** [onOrderbooks] of the lag mode. *)
Definition onOrderbooks (cfg : Config) (w : LagWorld) (ans : Answers)
  (st : LagState) : LagState :=
  let st1 := evalLagSignal cfg w st in
  let st2 := maybeExitLag cfg (base w) st1 (exitAnswer ans) in
  maybeExecuteLag cfg (base w) st2 (entryAnswer ans).

End WithLearning.

End Lag.

(** * Vocabulary of the statements *)

Module Spec.
Import BookMath Engine.

(** A well-formed side: every level has a positive price and size. *)
Definition Ladder (levels : Side) : Prop :=
  Forall (fun l => 0 < price l /\ 0 < size l) levels.

(** Asks come cheapest first. *)
Definition Ascending (asks : Side) : Prop :=
  StronglySorted (fun a b => price a <= price b) asks.

(** Bids come dearest first. *)
Definition Descending (bids : Side) : Prop :=
  StronglySorted (fun a b => price b <= price a) bids.

(** What a sweep of [levels] for [r] shares leaves unfilled, and what it
    pays before fees: the two quantities the loop of
    [costToBuySharesFromAsks] accumulates, as functions of the request. *)
Fixpoint leftover (levels : Side) (r : Q) : Q :=
  match levels with
  | [] => r
  | l :: rest =>
      if negb (Qgtb r 0) then r
      else
        let take := Qmin r (size l) in
        if Qleb take 0 then leftover rest r
        else leftover rest (r - take)
  end.

Fixpoint notional (levels : Side) (r : Q) : Q :=
  match levels with
  | [] => 0
  | l :: rest =>
      if negb (Qgtb r 0) then 0
      else
        let take := Qmin r (size l) in
        if Qleb take 0 then notional rest r
        else take * price l + notional rest (r - take)
  end.

(** The shares a successful call of [costToBuySharesFromAsks] did not
    buy. *)
Definition buyShortfall (asks : Side) (shares : Q) : Q :=
  bRemaining (sweepAsks asks
                {| bRemaining := shares; bCost := 0; bMaxPrice := 0 |}).

(** The shares a successful call of [proceedsFromSellingSharesToBids] did
    not sell. *)
Definition sellShortfall (bids : Side) (shares minPrice01 : Q) : Q :=
  sRemaining (sweepBids bids minPrice01
                {| sRemaining := shares; sGross := 0; sMinFilled := None |}).

(** The same for [costToBuySharesFromAsksReal], which reports the request
    as [fShares] and the shares it did take through [rFilledShares]. *)
Definition realBuyFilled (cfg : Certainty.Config) (asks : Side) (shares : Q)
  (maxPrice01 : option Q) : Q :=
  Certainty.rFilledShares
    (Certainty.sweepAsksReal (Certainty.PRICE_EPS cfg) asks maxPrice01
       (Certainty.realSweepStart shares)).

(** [m] shares can be bought in full within the budget. *)
Definition Affordable (asks : Side) (feeBps maxUsdc : Q) (m : Z) : Prop :=
  exists fill,
    costToBuySharesFromAsks asks (inject_Z m) feeBps = Some fill
    /\ buyShortfall asks (inject_Z m) == 0
    /\ cost fill <= maxUsdc.

(** What holds each time the test of the search loop over [lo0..hi0] is
    reached. *)
Definition SearchInv {A : Type} (probe : Z -> option A) (lo0 hi0 : Z)
  (lo hi : Z) (best : option A) : Prop :=
  (lo0 <= lo)%Z /\ (hi <= hi0)%Z
  /\ (forall m, (hi < m <= hi0)%Z -> (lo0 <= m)%Z -> probe m = None)
  /\ match best with
     | None => lo = lo0
     | Some a => (lo0 < lo)%Z /\ (lo - 1 <= hi0)%Z /\ probe (lo - 1)%Z = Some a
     end.

(** What the search loop hands back: nothing when every count is refused,
    otherwise the answer of the probe at the largest accepted count. *)
Definition SearchPost {A : Type} (probe : Z -> option A) (lo0 hi0 : Z)
  (r : option A) : Prop :=
  match r with
  | None => forall m, (lo0 <= m <= hi0)%Z -> probe m = None
  | Some a =>
      exists m, (lo0 <= m <= hi0)%Z /\ probe m = Some a
                /\ forall m', (m < m' <= hi0)%Z -> probe m' = None
  end.

(** The shares taken and the shares still wanted add up to the request,
    in both sweeps of the certainty mode. *)
Definition RealInv (shares : Q) (st : Certainty.RealSweep) : Prop :=
  0 <= Certainty.rRemaining st
  /\ Certainty.rFilledShares st + Certainty.rRemaining st == shares.

(** [maxUsdc / approxPerShare] as [maxSharesForBudget] writes it. *)
Definition budgetQuotient (maxUsdc best feeBps : Q) : Expr :=
  Over (Num maxUsdc)
    (Times (Num best) (Plus (Num 1) (Over (Num feeBps) (Num 10000)))).

(** The bound [maxSharesForBudget] puts on its search from the budget and
    the best price, as the machine finds it, and the exact value of the
    same quotient. *)
Definition searchBound {M : Machine} (asks : Side) (feeBps maxUsdc : Q) : Z :=
  match asks with
  | [] => 0%Z
  | best :: _ => floorOf (budgetQuotient maxUsdc (price best) feeBps)
  end.

Definition exactBound (asks : Side) (feeBps maxUsdc : Q) : Z :=
  match asks with
  | [] => 0%Z
  | best :: _ => Qfloor (exactly (budgetQuotient maxUsdc (price best) feeBps))
  end.


(** The shares a side holds: a level without size, or with a negative
    one, holds none. *)
Fixpoint held (levels : Side) : Q :=
  match levels with
  | [] => 0
  | l :: rest => Qmax 0 (size l) + held rest
  end.

(** The shares the bids hold at [minPrice01] or above, from the best bid
    down to the first bid priced below it. *)
Fixpoint heldAbove (minPrice01 : Q) (bids : Side) : Q :=
  match bids with
  | [] => 0
  | l :: rest =>
      if Qgeb (price l) minPrice01
      then Qmax 0 (size l) + heldAbove minPrice01 rest
      else 0
  end.

(** The shares the asks hold for [costToBuySharesFromAsksReal]: those of
    the levels with a positive price and size, up to the first of them
    priced above the limit and its tolerance. *)
Fixpoint heldWithin (eps : Q) (maxPrice01 : option Q) (asks : Side) : Q :=
  match asks with
  | [] => 0
  | l :: rest =>
      if negb (Qgtb (price l) 0) || negb (Qgtb (size l) 0)
      then heldWithin eps maxPrice01 rest
      else if match maxPrice01 with
              | Some mx => Qgtb (price l) (mx + eps)
              | None => false
              end
      then 0
      else size l + heldWithin eps maxPrice01 rest
  end.

(** The fill property as the specification words it: a fill reported by a
    sweep leaves nothing of the request unfilled. *)
Definition ExactFillClaim : Prop :=
  (forall asks shares feeBps fill,
      costToBuySharesFromAsks asks shares feeBps = Some fill ->
      buyShortfall asks shares == 0)
  /\ (forall bids shares feeBps minPrice01 fill,
        proceedsFromSellingSharesToBids bids shares feeBps minPrice01
        = Some fill ->
        sellShortfall bids shares minPrice01 == 0)
  /\ (forall cfg asks shares maxPrice01 fill,
        Certainty.costToBuySharesFromAsksReal cfg asks shares maxPrice01
        = Some fill ->
        realBuyFilled cfg asks shares maxPrice01 == Certainty.fShares fill).




(** [maxUsdc / approxPerShare] as [computeEqualProfitStraddle] writes
    it. *)
Definition straddleQuotient (maxUsdc upBest upFee downBest downFee : Q)
  : Expr :=
  Over (Num maxUsdc)
    (Plus (Times (Num upBest) (Plus (Num 1) (Over (Num upFee) (Num 10000))))
          (Times (Num downBest)
             (Plus (Num 1) (Over (Num downFee) (Num 10000))))).

(** Atomicity of the straddle as the specification words it, for what a
    call of the handler leaves at the exchange: as many Up shares as Down
    shares. *)
Definition StraddleAtomicClaim : Prop :=
  forall cfg w st upRes downRes upTok downTok st' run,
    upTokenId w = Some upTok -> downTokenId w = Some downTok ->
    upTok <> downTok ->
    Arbitrage.onOrderbooks cfg w st upRes downRes = (st', run) ->
    Arbitrage.heldShares upTok run == Arbitrage.heldShares downTok run.

(** A world in which the live straddle goes to the exchange: forty shares
    offered at 0.40 on Up, twenty-five at 0.55 on Down, no fees, a funded
    and approved wallet. *)
Definition liveStraddleWorld : World :=
  {| nowMs := 1700000000000;
     PAPER_TRADING := false;
     ENABLE_LIVE_ORDERS := true;
     clobCreds := true;
     intervalEndEpochSec := Some 1700000600%Z;
     intervalEntrySpot := None;
     marketId := Some "m1"%string;
     referencePrice := None;
     underlyingPrice := Some 100000;
     upTokenId := Some "up"%string;
     downTokenId := Some "down"%string;
     upFeeBps := Some 0;
     downFeeBps := Some 0;
     up := Some {| bestBid := 0.39; bestAsk := 0.40; mark := 0.395 |};
     down := Some {| bestBid := 0.54; bestAsk := 0.55; mark := 0.545 |};
     upAsksLevels := [mkLevel 0.40 40];
     upBidsLevels := [mkLevel 0.39 40];
     downAsksLevels := [mkLevel 0.55 25];
     downBidsLevels := [mkLevel 0.54 25];
     collateral := {| balanceUsdc := Some 100; allowanceUsdc := Some 100 |} |}.

(** The same world in simulation. *)
Definition paperStraddleWorld : World :=
  {| nowMs := 1700000000000;
     PAPER_TRADING := true;
     ENABLE_LIVE_ORDERS := false;
     clobCreds := false;
     intervalEndEpochSec := Some 1700000600%Z;
     intervalEntrySpot := None;
     marketId := Some "m1"%string;
     referencePrice := None;
     underlyingPrice := Some 100000;
     upTokenId := Some "up"%string;
     downTokenId := Some "down"%string;
     upFeeBps := Some 0;
     downFeeBps := Some 0;
     up := Some {| bestBid := 0.39; bestAsk := 0.40; mark := 0.395 |};
     down := Some {| bestBid := 0.54; bestAsk := 0.55; mark := 0.545 |};
     upAsksLevels := [mkLevel 0.40 40];
     upBidsLevels := [mkLevel 0.39 40];
     downAsksLevels := [mkLevel 0.55 25];
     downBidsLevels := [mkLevel 0.54 25];
     collateral := {| balanceUsdc := None; allowanceUsdc := None |} |}.

Definition idleArbState (balance : Q) : Arbitrage.ArbState :=
  {| Arbitrage.paperBalance := balance;
     Arbitrage.arbOpen := None;
     Arbitrage.suggestedShares := None;
     Arbitrage.suggestedCost := None;
     Arbitrage.suggestedProfitCentsEach := None;
     Arbitrage.lastCost := None;
     Arbitrage.lastProfitCents := None;
     Arbitrage.lastTradeAt := None;
     Arbitrage.lastSignalAt := None;
     Arbitrage.opportunitiesFound := 0 |}.

(** *** The certainty gate in words *)

Definition lastCandle (h : list Certainty.Candle) : option Certainty.Candle :=
  List.last (List.map Some h) None.

(** The live candle is more than five seconds old. *)
Definition WarmedUp (w : World) (data : Certainty.CandleData) : Prop :=
  exists c, Certainty.current data = Some c
            /\ (5000 < nowMs w - Certainty.startTime c)%Z.

(** Bullish momentum as [isBullishMomentum] tests it: the close of the
    live candle is not below its open by more than [PRICE_EPS], or not
    below the close of the candle before it by more than [PRICE_EPS]. *)
Definition Bullish (cfg : Certainty.Config) (data : Certainty.CandleData)
  : Prop :=
  exists c,
    Certainty.current data = Some c
    /\ (Certainty.cOpen c - Certainty.PRICE_EPS cfg <= Certainty.cClose c
        \/ exists prev,
             lastCandle (Certainty.history data) = Some prev
             /\ Certainty.cClose prev - Certainty.PRICE_EPS cfg
                <= Certainty.cClose c).

Definition InWindow (cfg : Certainty.Config) (tRem : option Z) : Prop :=
  exists t, tRem = Some t /\ (t <= Certainty.ENTRY_TIME_WINDOW_SEC cfg)%Z.

Definition InBand (cfg : Certainty.Config) (r : Certainty.Range) (ask : Q)
  : Prop :=
  Certainty.rMin r - Certainty.PRICE_EPS cfg <= ask
  /\ ask <= Certainty.rMax r + Certainty.PRICE_EPS cfg.

Definition SpreadWithin (cfg : Certainty.Config) (s : Summary) : Prop :=
  0 < bestAsk s /\ 0 < bestBid s
  /\ bestAsk s - bestBid s <= Certainty.MAX_SPREAD cfg + 0.000000000001.

(** The entry gate as the specification words it: an admitted side meets
    all five conditions, each comparison read with the tolerance the code
    allows it. *)
Definition EntryGateClaim : Prop :=
  forall cfg w st side tRem e st',
    Certainty.canEnterPosition cfg w st side tRem
    = (Certainty.Accepted e, st') ->
    InWindow cfg tRem
    /\ WarmedUp w (Certainty.candlesOf st side)
    /\ Bullish cfg (Certainty.candlesOf st side)
    /\ exists s,
         Certainty.bkSummary (Certainty.getBooks w side) = Some s
         /\ InBand cfg (Certainty.eRange e) (bestAsk s)
         /\ SpreadWithin cfg s.

(** The interval record asks for a re-entry around [p] in market [m]. *)
Definition ReentryArmed (m : string) (p : Q) (st : Certainty.CertState)
  : Prop :=
  Certainty.iMarketId (Certainty.iState st) = Some m
  /\ Certainty.lastExitType (Certainty.iState st) = Some Certainty.StopLoss
  /\ Certainty.lastStopLossExitPrice (Certainty.iState st) = Some p.

(** The half-width of the re-entry band. *)
Definition reentryBuffer (cfg : Certainty.Config) : Q :=
  if Qeq_bool (Certainty.STOP_LOSS_BUFFER cfg) 0 then 0.015
  else Certainty.STOP_LOSS_BUFFER cfg.

(** The re-entry band as the specification words it. *)
Definition ReentryBandClaim : Prop :=
  forall cfg w st o sellFill p m,
    marketId w = Some m -> truthyId (Some m) = true ->
    Certainty.iMarketId (Certainty.iState st) = Some m ->
    Certainty.sfrAvgPrice sellFill = Some p ->
    let r := fst (Certainty.getCurrentEntryRange cfg w
                    (Certainty.executePaperSell cfg st (Some o)
                       (Some sellFill) Certainty.StopLoss)) in
    Certainty.rMin r == p - Certainty.STOP_LOSS_BUFFER cfg
    /\ Certainty.rMax r == p + Certainty.STOP_LOSS_BUFFER cfg.

(** A run of the handler over successive snapshots. *)
Fixpoint runTicks (cfg : Certainty.Config)
  (ticks : list (World * Certainty.Oracle)) (st : Certainty.CertState)
  : Certainty.CertState :=
  match ticks with
  | [] => st
  | (w, orc) :: rest =>
      runTicks cfg rest (Certainty.onOrderbooks cfg w orc st)
  end.

(** No snapshot of the run, in market [m], leaves a position open. *)
Fixpoint FlatThrough (cfg : Certainty.Config) (m : string)
  (ticks : list (World * Certainty.Oracle)) (st : Certainty.CertState)
  : Prop :=
  match ticks with
  | [] => True
  | (w, orc) :: rest =>
      marketId w = Some m
      /\ Certainty.open (Certainty.onOrderbooks cfg w orc st) = None
      /\ FlatThrough cfg m rest (Certainty.onOrderbooks cfg w orc st)
  end.

(** A simulated account holding ten Up shares bought at 0.82 in market
    m1. *)
Definition heldUp : Certainty.CertState :=
  {| Certainty.paperBalance := 0;
     Certainty.collateral := {| balanceUsdc := None; allowanceUsdc := None |};
     Certainty.open :=
       Some {| Certainty.oTradeId := 1; Certainty.oSide := Up;
               Certainty.oTokenId := Some "up"%string;
               Certainty.oShares := 10;
               Certainty.entryCostUsdc := 8.2;
               Certainty.entryLimitPrice := 0.82;
               Certainty.oOpenedAt := 1700000000000;
               Certainty.oEndEpochSec := 1700000900;
               Certainty.oMarketId := Some "m1"%string |};
     Certainty.iState :=
       {| Certainty.iMarketId := Some "m1"%string;
          Certainty.lastExitType := None;
          Certainty.entryCount := 1;
          Certainty.startBtcPrice := None;
          Certainty.lastStopLossExitPrice := None;
          Certainty.requireReentryUntilResolved := false |};
     Certainty.candlesUp :=
       {| Certainty.current := None; Certainty.history := [] |};
     Certainty.candlesDown :=
       {| Certainty.current := None; Certainty.history := [] |};
     Certainty.trades := [];
     Certainty.tradeSeq := 1;
     Certainty.confirm := None;
     Certainty.tpConfirm := 0;
     Certainty.stopConfirm := 0;
     Certainty.lastTradeAt := None |}.

(** Up has fallen to a bid of 0.745; Down is bid 0.25; the interval ends
    in 800 seconds. *)
Definition afterFallWorld : World :=
  {| nowMs := 1700000100000;
     PAPER_TRADING := true;
     ENABLE_LIVE_ORDERS := false;
     clobCreds := false;
     intervalEndEpochSec := Some 1700000900%Z;
     intervalEntrySpot := None;
     marketId := Some "m1"%string;
     referencePrice := None;
     underlyingPrice := Some 100000;
     upTokenId := Some "up"%string;
     downTokenId := Some "down"%string;
     upFeeBps := Some 0;
     downFeeBps := Some 0;
     up := Some {| bestBid := 0.745; bestAsk := 0.75; mark := 0.7475 |};
     down := Some {| bestBid := 0.25; bestAsk := 0.255; mark := 0.2525 |};
     upAsksLevels := [mkLevel 0.75 100];
     upBidsLevels := [mkLevel 0.745 50];
     downAsksLevels := [mkLevel 0.255 100];
     downBidsLevels := [mkLevel 0.25 100];
     collateral := {| balanceUsdc := None; allowanceUsdc := None |} |}.

(** The account after the stop-loss sale of the ten shares at 0.745. *)
Definition stoppedOut : Certainty.CertState :=
  Certainty.executePaperSell Certainty.defaultConfig heldUp
    (Certainty.open heldUp)
    (Certainty.proceedsFromSellingSharesToBidsReal Certainty.defaultConfig
       (upBidsLevels afterFallWorld) 10 (Some 0.745))
    Certainty.StopLoss.

(** A configuration that stops out only near a total loss. *)
Definition lowStopConfig : Certainty.Config :=
  Certainty.mkConfig 600 0.80 0.82 0.75 0.77 0.03 0.96 0.99 0.015 0.01
    0.02 1 0 1000 2 0.001.

(** A simulated account of 10 that has watched Up climb from 0.78 to 0.81
    for twenty seconds, and the snapshot it sees five minutes before the
    end of the interval. *)
Definition warmedUp : Certainty.CertState :=
  Certainty.withCandles
    (Certainty.initialState 10
       {| balanceUsdc := None; allowanceUsdc := None |})
    Up
    {| Certainty.current :=
         Some {| Certainty.minute := 28333335;
                 Certainty.cOpen := 0.78; Certainty.cHigh := 0.81;
                 Certainty.cLow := 0.78; Certainty.cClose := 0.81;
                 Certainty.startTime := 1700000100000 |};
       Certainty.history := [] |}.

(** The same account with a live candle that opened at 0.8105 and closes
    at 0.81: half a tenth of a cent in the red, and no candle before
    it. *)
Definition slightlyRed : Certainty.CertState :=
  Certainty.withCandles
    (Certainty.initialState 10
       {| balanceUsdc := None; allowanceUsdc := None |})
    Up
    {| Certainty.current :=
         Some {| Certainty.minute := 28333335;
                 Certainty.cOpen := 0.8105; Certainty.cHigh := 0.8105;
                 Certainty.cLow := 0.81; Certainty.cClose := 0.81;
                 Certainty.startTime := 1700000100000 |};
       Certainty.history := [] |}.

Definition risingWorld : World :=
  {| nowMs := 1700000120000;
     PAPER_TRADING := true;
     ENABLE_LIVE_ORDERS := false;
     clobCreds := false;
     intervalEndEpochSec := Some 1700000420%Z;
     intervalEntrySpot := None;
     marketId := Some "m1"%string;
     referencePrice := None;
     underlyingPrice := Some 100000;
     upTokenId := Some "up"%string;
     downTokenId := Some "down"%string;
     upFeeBps := Some 0;
     downFeeBps := Some 0;
     up := Some {| bestBid := 0.80; bestAsk := 0.81; mark := 0.805 |};
     down := Some {| bestBid := 0.19; bestAsk := 0.20; mark := 0.195 |};
     upAsksLevels := [mkLevel 0.81 100];
     upBidsLevels := [mkLevel 0.80 100];
     downAsksLevels := [mkLevel 0.20 100];
     downBidsLevels := [mkLevel 0.19 100];
     collateral := {| balanceUsdc := None; allowanceUsdc := None |} |}.

(** Up has collapsed to a bid of 0.02. *)
Definition crashWorld : World :=
  {| nowMs := 1700000100000;
     PAPER_TRADING := true;
     ENABLE_LIVE_ORDERS := false;
     clobCreds := false;
     intervalEndEpochSec := Some 1700000900%Z;
     intervalEntrySpot := None;
     marketId := Some "m1"%string;
     referencePrice := None;
     underlyingPrice := Some 100000;
     upTokenId := Some "up"%string;
     downTokenId := Some "down"%string;
     upFeeBps := Some 0;
     downFeeBps := Some 0;
     up := Some {| bestBid := 0.02; bestAsk := 0.03; mark := 0.025 |};
     down := Some {| bestBid := 0.97; bestAsk := 0.98; mark := 0.975 |};
     upAsksLevels := [mkLevel 0.03 100];
     upBidsLevels := [mkLevel 0.02 100];
     downAsksLevels := [mkLevel 0.98 100];
     downBidsLevels := [mkLevel 0.97 100];
     collateral := {| balanceUsdc := None; allowanceUsdc := None |} |}.

(** The market has turned: Down is now offered at 0.745. *)
Definition flipWorld : World :=
  {| nowMs := 1700000110000;
     PAPER_TRADING := true;
     ENABLE_LIVE_ORDERS := false;
     clobCreds := false;
     intervalEndEpochSec := Some 1700000900%Z;
     intervalEntrySpot := None;
     marketId := Some "m1"%string;
     referencePrice := None;
     underlyingPrice := Some 100000;
     upTokenId := Some "up"%string;
     downTokenId := Some "down"%string;
     upFeeBps := Some 0;
     downFeeBps := Some 0;
     up := Some {| bestBid := 0.25; bestAsk := 0.255; mark := 0.2525 |};
     down := Some {| bestBid := 0.74; bestAsk := 0.745; mark := 0.7425 |};
     upAsksLevels := [mkLevel 0.255 100];
     upBidsLevels := [mkLevel 0.25 100];
     downAsksLevels := [mkLevel 0.745 100];
     downBidsLevels := [mkLevel 0.74 100];
     collateral := {| balanceUsdc := None; allowanceUsdc := None |} |}.

Definition silentOracle : Certainty.Oracle :=
  {| Certainty.refreshed := None; Certainty.postResult := Killed |}.

(** *** The lag mode in words *)

(** The snapshot as the engine hands it to the handler: a valid spot price
    and, on both sides, a positive best ask with the mark computed from
    the best prices. *)
Definition Delivered (w : World) : Prop :=
  (exists spot, underlyingPrice w = Some spot /\ 0 < spot)
  /\ (exists u, up w = Some u /\ 0 < bestAsk u
                /\ mark u = computeMarkPrice (bestBid u) (bestAsk u))
  /\ (exists d, down w = Some d /\ 0 < bestAsk d
                /\ mark d = computeMarkPrice (bestBid d) (bestAsk d)).

(** Both feeds are present, positive and fresh under the automatic source,
    and lie further apart than the hard threshold. *)
Definition HardDisagreement (cfg : Lag.Config) (w : Lag.LagWorld) : Prop :=
  Lag.RTDS_SOURCE w = Lag.Auto
  /\ exists b c bAge cAge,
       Lag.feedPrice (Lag.binance_ws w) = Some b
       /\ Lag.feedPrice (Lag.chainlink w) = Some c
       /\ 0 < b /\ 0 < c
       /\ Lag.feedAgeMs w (Lag.binance_ws w) = Some bAge
       /\ Lag.feedAgeMs w (Lag.chainlink w) = Some cAge
       /\ (bAge <= Lag.LAG_BINANCE_MAX_AGE_MS cfg)%Z
       /\ (cAge <= Lag.LAG_CHAINLINK_MAX_AGE_MS cfg)%Z
       /\ Lag.LAG_FEED_DISAGREE_USD_HARD cfg < Qabs (b - c).

(** The position after is the position before, up to its count of stop
    confirmations, or none at all. *)
Definition NoNewPosition (before after : option Lag.LagOpen) : Prop :=
  after = None
  \/ exists o n, before = Some o /\ after = Some (Lag.withStopHits o n).

(** A run of the lag handler over successive snapshots. *)
Fixpoint runLag {Learned : Type}
  (tail : Lag.Config -> Lag.LagWorld -> Lag.LagState -> Lag.LagState)
  (cfg : Lag.Config) (calls : list (Lag.LagWorld * Lag.Answers))
  (st : @Lag.LagState Learned) : Lag.LagState :=
  match calls with
  | [] => st
  | (w, ans) :: rest =>
      runLag tail cfg rest (Lag.onOrderbooks tail cfg w ans st)
  end.

(** The simulated books as a refresh delivers them: the marks are the
    ones [computeMarkPrice] gives. *)
Definition deliveredWorld : World :=
  {| nowMs := 1700000000000;
     PAPER_TRADING := true;
     ENABLE_LIVE_ORDERS := false;
     clobCreds := false;
     intervalEndEpochSec := Some 1700000600%Z;
     intervalEntrySpot := None;
     marketId := Some "m1"%string;
     referencePrice := None;
     underlyingPrice := Some 100000;
     upTokenId := Some "up"%string;
     downTokenId := Some "down"%string;
     upFeeBps := Some 0;
     downFeeBps := Some 0;
     up := Some {| bestBid := 0.39; bestAsk := 0.40;
                   mark := computeMarkPrice 0.39 0.40 |};
     down := Some {| bestBid := 0.54; bestAsk := 0.55;
                     mark := computeMarkPrice 0.54 0.55 |};
     upAsksLevels := [mkLevel 0.40 40];
     upBidsLevels := [mkLevel 0.39 40];
     downAsksLevels := [mkLevel 0.55 25];
     downBidsLevels := [mkLevel 0.54 25];
     collateral := {| balanceUsdc := None; allowanceUsdc := None |} |}.

(** Those books with Binance at 100000 and Chainlink at 100200, both
    fresh: 200 apart, beyond the hard threshold of 150. *)
Definition feedsApart : Lag.LagWorld :=
  {| Lag.base := deliveredWorld;
     Lag.RTDS_SOURCE := Lag.Auto;
     Lag.binance_ws :=
       Some {| Lag.fPrice := Some 100000;
               Lag.fExchangeTimestampMs := Some 1699999999000%Z;
               Lag.fLastUpdated := Some 1699999999000%Z |};
     Lag.chainlink :=
       Some {| Lag.fPrice := Some 100200;
               Lag.fExchangeTimestampMs := Some 1699999990000%Z;
               Lag.fLastUpdated := Some 1699999990000%Z |};
     Lag.exchangeTimestampMs := Some 1699999999000%Z |}.

(** The same with Chainlink at 100010. *)
Definition feedsTogether : Lag.LagWorld :=
  {| Lag.base := deliveredWorld;
     Lag.RTDS_SOURCE := Lag.Auto;
     Lag.binance_ws :=
       Some {| Lag.fPrice := Some 100000;
               Lag.fExchangeTimestampMs := Some 1699999999000%Z;
               Lag.fLastUpdated := Some 1699999999000%Z |};
     Lag.chainlink :=
       Some {| Lag.fPrice := Some 100010;
               Lag.fExchangeTimestampMs := Some 1699999990000%Z;
               Lag.fLastUpdated := Some 1699999990000%Z |};
     Lag.exchangeTimestampMs := Some 1699999999000%Z |}.

(** A lag account that was told, one call ago, to buy ten Up shares at
    0.40 and has seen that suggestion once. *)
Definition suggestedUp (balance : Q) : @Lag.LagState unit :=
  {| Lag.paperBalance := balance;
     Lag.lagOpen := None;
     Lag.sug :=
       {| Lag.signal := Some Lag.LAG;
          Lag.suggestedSide := Some Up;
          Lag.suggestedSpend := Some 10;
          Lag.suggestedShares := Some 10;
          Lag.suggestedLimitPrice := Some 0.40;
          Lag.spotDeltaUsd := Some 40;
          Lag.sideMarketMove01 := Some 0 |};
     Lag.pending :=
       Some {| Lag.pSide := Up; Lag.pPx := 0.40; Lag.hits := 1;
               Lag.firstAt := 1699999998000 |};
     Lag.lastTradeAt := None;
     Lag.lastStopAt := None;
     Lag.lastSignalAt := None;
     Lag.lastEvalAt := None;
     Lag.spotHistory := [];
     Lag.feedDisagreeUsd := None;
     Lag.learned := tt |}.

(** A signal model that repeats the suggestion it finds. *)
Definition repeatSuggestion (cfg : Lag.Config) (w : Lag.LagWorld)
  (st : @Lag.LagState unit) : @Lag.LagState unit := st.

Definition bothConfirmed : Lag.Answers :=
  {| Lag.exitAnswer := Lag.Confirmed; Lag.entryAnswer := Lag.Confirmed |}.

End Spec.

(** * The rest of the engine around the strategies *)

(** ** From the exchange's books to the snapshot (engine.js) *)

Module Refresh.
Import BookMath Engine.

Definition INTERVAL_SECONDS : Z := 15 * 60.

(** [getIntervalStartEpoch], on the whole seconds it is called with. *)
Definition getIntervalStartEpoch (nowEpochSec : Z) : Z :=
  (nowEpochSec / INTERVAL_SECONDS * INTERVAL_SECONDS)%Z.

(** A level as the exchange sends it, each field after
    [Number.parseFloat]: [None] when the text is not a number. *)
Record RawLevel : Type := mkRawLevel {
  rawPrice : option Q;
  rawSize : option Q
}.

(** An order book as the exchange sends it; a missing side is empty. *)
Record RawBook : Type := mkRawBook {
  rawBids : list RawLevel;
  rawAsks : list RawLevel
}.

(** [normalizeLevels]: the levels whose price and size are both numbers,
    in the order received. *)
Definition normalizeLevels (levels : list RawLevel) : Side :=
  flat_map (fun l => match rawPrice l, rawSize l with
                     | Some p, Some s => [mkLevel p s]
                     | _, _ => []
                     end) levels.

(** [Array.prototype.sort] with a comparator is stable: it returns the one
    arrangement that follows the comparator and leaves levels that compare
    equal in the order they came.  Inserting the levels from the last to
    the first, each before the first level it does not come after, builds
    that arrangement. *)
Fixpoint insertLevel (notAfter : Level -> Level -> bool) (x : Level)
  (sorted : Side) : Side :=
  match sorted with
  | [] => [x]
  | y :: rest =>
      if notAfter x y then x :: y :: rest
      else y :: insertLevel notAfter x rest
  end.

Definition sortLevels (notAfter : Level -> Level -> bool) (levels : Side)
  : Side :=
  fold_right (insertLevel notAfter) [] levels.

(** [(a, b) => a.price - b.price] is not positive. *)
Definition askOrder (a b : Level) : bool := Qleb (price a) (price b).

(** [(a, b) => b.price - a.price] is not positive. *)
Definition bidOrder (a b : Level) : bool := Qleb (price b) (price a).

(** [sortBidsAsksFromBook]: the bids and the asks. *)
Definition sortBidsAsksFromBook (book : RawBook) : Side * Side :=
  (sortLevels bidOrder (normalizeLevels (rawBids book)),
   sortLevels askOrder (normalizeLevels (rawAsks book))).

(** What [summarizeOrderbook] returns for a book of the exchange. *)
Record BookSummary : Type := mkBookSummary {
  topBids : Side;
  topAsks : Side;
  figures : Summary
}.

Definition summarizeOrderbook (book : RawBook) : BookSummary :=
  let (bids, asks) := sortBidsAsksFromBook book in
  {| topBids := firstn 5 bids;
     topAsks := firstn 5 asks;
     figures := BookMath.summarizeOrderbook bids asks |}.

(** [refreshOrderbooks] from the moment both books have arrived: the new
    snapshot, and whether the handler of the mode is called on it. *)
Definition refreshOrderbooks (w : World) (upBook downBook : RawBook)
  : World * bool :=
  let upSides := sortBidsAsksFromBook upBook in
  let downSides := sortBidsAsksFromBook downBook in
  let upS := figures (summarizeOrderbook upBook) in
  let downS := figures (summarizeOrderbook downBook) in
  let w' :=
    {| nowMs := nowMs w;
       PAPER_TRADING := PAPER_TRADING w;
       ENABLE_LIVE_ORDERS := ENABLE_LIVE_ORDERS w;
       clobCreds := clobCreds w;
       intervalEndEpochSec := intervalEndEpochSec w;
       intervalEntrySpot := intervalEntrySpot w;
       marketId := marketId w;
       referencePrice := referencePrice w;
       underlyingPrice := underlyingPrice w;
       upTokenId := upTokenId w;
       downTokenId := downTokenId w;
       upFeeBps := upFeeBps w;
       downFeeBps := downFeeBps w;
       up := Some upS;
       down := Some downS;
       upAsksLevels := snd upSides;
       upBidsLevels := fst upSides;
       downAsksLevels := snd downSides;
       downBidsLevels := fst downSides;
       collateral := collateral w |} in
  if Qgtb (bestAsk upS) 0 && Qgtb (bestAsk downS) 0 then
    if Qgtb (bestAsk upS) 0.9 && Qgtb (bestAsk downS) 0.9
    then (w', false)
    else (w', true)
  else (w', false).

End Refresh.

(** ** Settling the simulated positions (engine.js) *)

Module Settlement.
Import BookMath Engine.

(** [resolveGammaWinnerForMarketId]: nothing without a market identifier;
    otherwise [gamma] is what the market service reports, the winning side
    once it names one. *)
Definition resolveGammaWinnerForMarketId
  (gamma : string -> option OutcomeSide) (marketId : option string)
  : option OutcomeSide :=
  match marketId with
  | Some m => if truthyId (Some m) then gamma m else None
  | None => None
  end.

(** The straddle block of [maybeSettlePaperPositions]. *)
Definition settleStraddle (w : World) (gamma : string -> option OutcomeSide)
  (st : Arbitrage.ArbState) : Arbitrage.ArbState :=
  if negb (PAPER_TRADING w) then st
  else
    match Arbitrage.arbOpen st with
    | None => st
    | Some o =>
        if (Arbitrage.endEpochSec o <=? nowSec w)%Z then
          match resolveGammaWinnerForMarketId gamma (Arbitrage.aMarketId o)
          with
          | Some _ =>
              let payout := inject_Z (Arbitrage.sharesPerSide o) * 1 in
              {| Arbitrage.paperBalance :=
                   executePaperDelta (Arbitrage.paperBalance st) payout;
                 Arbitrage.arbOpen := None;
                 Arbitrage.suggestedShares := Arbitrage.suggestedShares st;
                 Arbitrage.suggestedCost := Arbitrage.suggestedCost st;
                 Arbitrage.suggestedProfitCentsEach :=
                   Arbitrage.suggestedProfitCentsEach st;
                 Arbitrage.lastCost := Arbitrage.lastCost st;
                 Arbitrage.lastProfitCents := Arbitrage.lastProfitCents st;
                 Arbitrage.lastTradeAt := Arbitrage.lastTradeAt st;
                 Arbitrage.lastSignalAt := Arbitrage.lastSignalAt st;
                 Arbitrage.opportunitiesFound :=
                   Arbitrage.opportunitiesFound st |}
          | None => st
          end
        else st
    end.

(** The lag block of [maybeSettlePaperPositions]. *)
Definition settleLag {Learned : Type} (w : World)
  (gamma : string -> option OutcomeSide) (st : @Lag.LagState Learned)
  : @Lag.LagState Learned :=
  if negb (PAPER_TRADING w) then st
  else
    match Lag.lagOpen st with
    | None => st
    | Some o =>
        if (orElseZ (Lag.lEndEpochSec o) 0 <=? nowSec w)%Z then
          match resolveGammaWinnerForMarketId gamma (Lag.lMarketId o) with
          | Some winner =>
              let payout := if OutcomeSide_eqb winner (Lag.lSide o)
                            then Lag.lShares o * 1 else 0 in
              Lag.withOpen
                (Lag.withBalance st
                   (executePaperDelta (Lag.paperBalance st) payout))
                None
          | None => st
          end
        else st
    end.

End Settlement.

(** ** The helpers of the lag signal (modes/lag.js) *)

Module LagModel.
Import BookMath Engine.

(** [clampAbs]. *)
Definition clampAbs (x maxAbs : Q) : Q :=
  let m := Qabs maxAbs in
  if negb (Qgtb m 0) then x else Qmax (- m) (Qmin m x).

Record Pressure : Type := mkPressure {
  pBestBid : Q;
  pBestAsk : Q;
  spreadCents : Q;
  imbalance : Q;
  microPressure : Q
}.

(** [orderbookPressure]; [imbalanceLevels] is LAG_IMBALANCE_LEVELS. *)
Definition orderbookPressure (imbalanceLevels : Q) (bidsLevels asksLevels : Side)
  : option Pressure :=
  match bidsLevels, asksLevels with
  | b :: _, a :: _ =>
      let bestBid := price b in
      let bestAsk := price a in
      if negb (Qgtb bestBid 0) || negb (Qgtb bestAsk 0) then None
      else
        let n := Z.to_nat (Z.max 1 (Qfloor imbalanceLevels)) in
        let bidSize := sumSizes (firstn n bidsLevels) in
        let askSize := sumSizes (firstn n asksLevels) in
        let denom := bidSize + askSize in
        let imb := if Qgtb denom 0 then (bidSize - askSize) / denom else 0 in
        let topBidSize := size b in
        let topAskSize := size a in
        let mid := (bestBid + bestAsk) / 2 in
        let micro :=
          if Qgtb (topBidSize + topAskSize) 0
          then (bestAsk * topBidSize + bestBid * topAskSize)
               / (topBidSize + topAskSize)
          else mid in
        Some {| pBestBid := bestBid; pBestAsk := bestAsk;
                spreadCents := (bestAsk - bestBid) * 100;
                imbalance := imb;
                microPressure := micro - mid |}
  | _, _ => None
  end.

(** [breakevenDeltaCents]. *)
Definition breakevenDeltaCents (entryAsk01 : Q) (feeBps : option Q)
  : option Q :=
  if negb (Qgtb entryAsk01 0) then None
  else
    let fee := match feeBps with Some f => f | None => 0 end in
    let buyMult := 1 + fee / 10000 in
    let sellMult := 1 - fee / 10000 in
    if negb (Qgtb sellMult 0) then None
    else
      let breakEvenSell := (entryAsk01 * buyMult) / sellMult in
      Some (Qmax 0 ((breakEvenSell - entryAsk01) * 100)).

End LagModel.

(** ** Vocabulary of the further statements *)

Module Vocab.
Import BookMath Engine.

(** A candle whose low and high enclose its open and its close. *)
Definition CandleOk (c : Certainty.Candle) : Prop :=
  Certainty.cLow c <= Certainty.cOpen c
  /\ Certainty.cOpen c <= Certainty.cHigh c
  /\ Certainty.cLow c <= Certainty.cClose c
  /\ Certainty.cClose c <= Certainty.cHigh c.

(** Candle data as [updateOHLC] keeps it: well-formed candles, at most
    five of them archived. *)
Definition CandlesOk (d : Certainty.CandleData) : Prop :=
  match Certainty.current d with
  | Some c => CandleOk c
  | None => True
  end
  /\ Forall CandleOk (Certainty.history d)
  /\ (List.length (Certainty.history d) <= 5)%nat.

(** The shares a sweep of the certainty mode has taken so far were priced
    between [lo] and [hi]. *)
Definition PricedWithin (lo hi : Q) (st : Certainty.RealSweep) : Prop :=
  0 <= Certainty.rFilledShares st
  /\ lo * Certainty.rFilledShares st <= Certainty.rNotional st
  /\ Certainty.rNotional st <= hi * Certainty.rFilledShares st
  /\ Certainty.rWeightedPriceSum st == Certainty.rNotional st
  /\ (forall p, Certainty.rLastFilled st = Some p ->
        lo <= p /\ p <= hi /\ 0 < Certainty.rFilledShares st)
  /\ (Certainty.rLastFilled st = None -> Certainty.rFilledShares st == 0).

(** A bid the stop-loss search may pick: it has size and lies in the band
    from [target - below] to [target], widened by the tolerance. *)
Definition Pickable (cfg : Certainty.Config) (target below : Q) (l : Level)
  : Prop :=
  0 < size l
  /\ target - below - Certainty.PRICE_EPS cfg <= price l
  /\ price l <= target + Certainty.PRICE_EPS cfg.

(** The identifiers of the ledger, oldest entry first. *)
Definition ledgerIds (st : Certainty.CertState) : list Z :=
  List.map Certainty.tradeId (Certainty.trades st).

(** The ledger's identifiers grow strictly and none is above the
    counter. *)
Definition LedgerOk (st : Certainty.CertState) : Prop :=
  StronglySorted Z.lt (ledgerIds st)
  /\ Forall (fun id => (id <= Certainty.tradeSeq st)%Z) (ledgerIds st).

(** Two states with the same ledger identifiers and the same counter. *)
Definition SameLedger (a b : Certainty.CertState) : Prop :=
  ledgerIds b = ledgerIds a /\ Certainty.tradeSeq b = Certainty.tradeSeq a.

(** A raw book of two bids and three asks, out of order, one ask without
    a size. *)
Definition shuffledBook : Refresh.RawBook :=
  {| Refresh.rawBids :=
       [Refresh.mkRawLevel (Some 0.38) (Some 10);
        Refresh.mkRawLevel (Some 0.39) (Some 40)];
     Refresh.rawAsks :=
       [Refresh.mkRawLevel (Some 0.45) (Some 100);
        Refresh.mkRawLevel (Some 0.40) (Some 40);
        Refresh.mkRawLevel (Some 0.42) None] |}.

Definition shuffledDownBook : Refresh.RawBook :=
  {| Refresh.rawBids :=
       [Refresh.mkRawLevel (Some 0.54) (Some 25);
        Refresh.mkRawLevel (Some 0.50) (Some 5)];
     Refresh.rawAsks :=
       [Refresh.mkRawLevel (Some 0.60) (Some 50);
        Refresh.mkRawLevel (Some 0.55) (Some 25)] |}.

(** The simulated snapshot a hundred seconds after the end of its
    interval. *)
Definition afterEndWorld : World :=
  {| nowMs := 1700000700000;
     PAPER_TRADING := true;
     ENABLE_LIVE_ORDERS := false;
     clobCreds := false;
     intervalEndEpochSec := Some 1700001500%Z;
     intervalEntrySpot := None;
     marketId := Some "m2"%string;
     referencePrice := None;
     underlyingPrice := Some 100100;
     upTokenId := Some "up2"%string;
     downTokenId := Some "down2"%string;
     upFeeBps := Some 0;
     downFeeBps := Some 0;
     up := None;
     down := None;
     upAsksLevels := [];
     upBidsLevels := [];
     downAsksLevels := [];
     downBidsLevels := [];
     collateral := {| balanceUsdc := None; allowanceUsdc := None |} |}.

(** The newest sample of a spot history. *)
Definition lastSample (h : list (Z * Q)) : option (Z * Q) :=
  List.last (List.map Some h) None.

(** Ten Up shares bought at 0.30, to be sold at 0.38 or stopped at
    0.29. *)
Definition tenUpAt30 : Lag.LagOpen :=
  {| Lag.lSide := Up; Lag.lTokenId := "up"%string; Lag.lShares := 10;
     Lag.lEntryPrice := 0.30; Lag.sellPrice := 0.38; Lag.stopPrice := 0.29;
     Lag.lFeeBps := 0; Lag.lEntryCostUsdc := Some 3;
     Lag.lEndEpochSec := Some 1700000600%Z;
     Lag.lMarketId := Some "m1"%string; Lag.stopHits := 0;
     Lag.lOpenedAt := 1699999990000 |}.

(** A market service that reports Up as the winner of every market. *)
Definition upWins (m : string) : option OutcomeSide := Some Up.

End Vocab.

(** * Proofs *)

(** ** Reading the boolean tests *)

Lemma Qgtb_true x y : Qgtb x y = true <-> y < x.
Proof.
  unfold Qgtb. rewrite negb_true_iff, <- not_true_iff_false, Qle_bool_iff.
  split; [apply Qnot_le_lt | apply Qlt_not_le].
Qed.

Lemma Qgtb_false x y : Qgtb x y = false <-> x <= y.
Proof.
  unfold Qgtb. rewrite negb_false_iff. apply Qle_bool_iff.
Qed.

Lemma Qltb_true x y : Qltb x y = true <-> x < y.
Proof. unfold Qltb. apply (Qgtb_true y x). Qed.

Lemma Qltb_false x y : Qltb x y = false <-> y <= x.
Proof. unfold Qltb. apply (Qgtb_false y x). Qed.

Lemma Qleb_true x y : Qleb x y = true <-> x <= y.
Proof. apply Qle_bool_iff. Qed.

Lemma Qleb_false x y : Qleb x y = false <-> y < x.
Proof.
  unfold Qleb. rewrite <- not_true_iff_false, Qle_bool_iff.
  split; [apply Qnot_le_lt | apply Qlt_not_le].
Qed.

Lemma Qgeb_true x y : Qgeb x y = true <-> y <= x.
Proof. apply Qle_bool_iff. Qed.

Lemma Qgeb_false x y : Qgeb x y = false <-> x < y.
Proof. unfold Qgeb. apply (Qleb_false y x). Qed.

(** Turns every boolean test of the context and of the goal into the
    order fact it stands for. *)
Ltac qbool :=
  repeat match goal with
  | H : Qgtb _ _ = true |- _ => apply Qgtb_true in H
  | H : Qgtb _ _ = false |- _ => apply Qgtb_false in H
  | H : Qltb _ _ = true |- _ => apply Qltb_true in H
  | H : Qltb _ _ = false |- _ => apply Qltb_false in H
  | H : Qleb _ _ = true |- _ => apply Qleb_true in H
  | H : Qleb _ _ = false |- _ => apply Qleb_false in H
  | H : Qgeb _ _ = true |- _ => apply Qgeb_true in H
  | H : Qgeb _ _ = false |- _ => apply Qgeb_false in H
  | H : negb _ = true |- _ => apply negb_true_iff in H
  | H : negb _ = false |- _ => apply negb_false_iff in H
  | H : _ && _ = true |- _ => apply andb_true_iff in H; destruct H
  | H : _ || _ = false |- _ => apply orb_false_iff in H; destruct H
  end.

(** [Math.min] returns one of its arguments. *)
Lemma Qmin_cases x y :
  (x <= y /\ Qmin x y = x) \/ (y < x /\ Qmin x y = y).
Proof.
  unfold Qmin, GenericMinMax.gmin.
  destruct (x ?= y) eqn:E.
  - left. split; [apply Qeq_alt in E; rewrite E; apply Qle_refl | reflexivity].
  - left. split; [apply Qlt_alt in E; apply Qlt_le_weak, E | reflexivity].
  - right. split; [apply Qgt_alt in E; exact E | reflexivity].
Qed.

Lemma Qmax_cases x y :
  (y <= x /\ Qmax x y = x) \/ (x < y /\ Qmax x y = y).
Proof.
  unfold Qmax, GenericMinMax.gmax.
  destruct (x ?= y) eqn:E.
  - left. split; [apply Qeq_alt in E; rewrite E; apply Qle_refl | reflexivity].
  - right. split; [apply Qlt_alt in E; exact E | reflexivity].
  - left. split; [apply Qgt_alt in E; apply Qlt_le_weak, E | reflexivity].
Qed.

Module BookFacts.
Import BookMath Spec.

(** ** The sweep as a function of the request *)

Lemma sweepAsks_leftover asks st :
  bRemaining (sweepAsks asks st) = leftover asks (bRemaining st).
Proof.
  revert st. induction asks as [|l rest IH]; intros st; simpl; [reflexivity|].
  destruct (negb (Qgtb (bRemaining st) 0)); [reflexivity|].
  destruct (Qleb (Qmin (bRemaining st) (size l)) 0); rewrite IH; reflexivity.
Qed.

Lemma sweepAsks_notional asks st :
  bCost (sweepAsks asks st) == bCost st + notional asks (bRemaining st).
Proof.
  revert st. induction asks as [|l rest IH]; intros st; simpl; [ring|].
  destruct (negb (Qgtb (bRemaining st) 0)); [ring|].
  destruct (Qleb (Qmin (bRemaining st) (size l)) 0); rewrite IH; simpl; ring.
Qed.

Lemma buyShortfall_leftover asks shares :
  buyShortfall asks shares = leftover asks shares.
Proof. unfold buyShortfall. rewrite sweepAsks_leftover. reflexivity. Qed.

(** What is left is never negative and never more than the request. *)
Lemma leftover_bounds levels r :
  0 <= r -> 0 <= leftover levels r /\ leftover levels r <= r.
Proof.
  revert r. induction levels as [|l rest IH]; intros r Hr; simpl.
  - split; [exact Hr | apply Qle_refl].
  - destruct (negb (Qgtb r 0)) eqn:E1; [split; [exact Hr | apply Qle_refl]|].
    destruct (Qleb (Qmin r (size l)) 0) eqn:E2; [apply IH, Hr|].
    qbool.
    destruct (Qmin_cases r (size l)) as [[Hle Hm]|[Hlt Hm]];
      rewrite Hm in *.
    + destruct (IH (r - r)) as [A B]; [lra|]. split; lra.
    + destruct (IH (r - size l)) as [A B]; [lra|]. split; lra.
Qed.

Lemma notional_nonneg levels r :
  (forall l, In l levels -> 0 <= price l) -> 0 <= notional levels r.
Proof.
  revert r. induction levels as [|l rest IH]; intros r Hp; simpl.
  - apply Qle_refl.
  - destruct (negb (Qgtb r 0)); [apply Qle_refl|].
    destruct (Qleb (Qmin r (size l)) 0) eqn:E2.
    + apply IH. intros; apply Hp; right; assumption.
    + qbool.
      assert (0 <= price l) by (apply Hp; left; reflexivity).
      assert (0 <= notional rest (r - Qmin r (size l)))
        by (apply IH; intros; apply Hp; right; assumption).
      nra.
Qed.

(** The requests are compared, never the terms that denote them. *)
Lemma leftover_comp levels r r' :
  r == r' -> leftover levels r == leftover levels r'.
Proof.
  revert r r'. induction levels as [|l rest IH]; intros r r' E; simpl.
  - exact E.
  - assert (Hg : Qgtb r 0 = Qgtb r' 0).
    { destruct (Qgtb r 0) eqn:A, (Qgtb r' 0) eqn:B; try reflexivity;
        qbool; lra. }
    rewrite <- Hg. destruct (negb (Qgtb r 0)); [exact E|].
    assert (Hm : Qmin r (size l) == Qmin r' (size l))
      by (rewrite E; reflexivity).
    assert (Hl : Qleb (Qmin r (size l)) 0 = Qleb (Qmin r' (size l)) 0).
    { destruct (Qleb (Qmin r (size l)) 0) eqn:A,
               (Qleb (Qmin r' (size l)) 0) eqn:B; try reflexivity;
        qbool; lra. }
    rewrite <- Hl. destruct (Qleb (Qmin r (size l)) 0).
    + apply IH, E.
    + apply IH. lra.
Qed.

Lemma notional_comp levels r r' :
  r == r' -> notional levels r == notional levels r'.
Proof.
  revert r r'. induction levels as [|l rest IH]; intros r r' E; simpl.
  - reflexivity.
  - assert (Hg : Qgtb r 0 = Qgtb r' 0).
    { destruct (Qgtb r 0) eqn:A, (Qgtb r' 0) eqn:B; try reflexivity;
        qbool; lra. }
    rewrite <- Hg. destruct (negb (Qgtb r 0)); [reflexivity|].
    assert (Hm : Qmin r (size l) == Qmin r' (size l))
      by (rewrite E; reflexivity).
    assert (Hl : Qleb (Qmin r (size l)) 0 = Qleb (Qmin r' (size l)) 0).
    { destruct (Qleb (Qmin r (size l)) 0) eqn:A,
               (Qleb (Qmin r' (size l)) 0) eqn:B; try reflexivity;
        qbool; lra. }
    rewrite <- Hl. destruct (Qleb (Qmin r (size l)) 0).
    + apply IH, E.
    + rewrite (IH (r - Qmin r (size l)) (r' - Qmin r' (size l))) by lra.
      rewrite Hm. reflexivity.
Qed.

(** A larger request never pays less, whatever the order of the levels. *)
Lemma notional_monotone levels r1 r2 :
  (forall l, In l levels -> 0 <= price l) ->
  r1 <= r2 -> notional levels r1 <= notional levels r2.
Proof.
  revert r1 r2. induction levels as [|l rest IH]; intros r1 r2 Hp Hr; simpl.
  - apply Qle_refl.
  - assert (Hp' : forall l0, In l0 rest -> 0 <= price l0)
      by (intros; apply Hp; right; assumption).
    assert (Hpl : 0 <= price l) by (apply Hp; left; reflexivity).
    destruct (negb (Qgtb r1 0)) eqn:E1.
    + (* nothing asked for on the left *)
      pose proof (notional_nonneg (l :: rest) r2 Hp) as N. simpl in N.
      exact N.
    + qbool.
      assert (G2 : Qgtb r2 0 = true) by (apply Qgtb_true; lra).
      rewrite G2. simpl.
      destruct (Qmin_cases r1 (size l)) as [[H1 M1]|[H1 M1]];
      destruct (Qmin_cases r2 (size l)) as [[H2 M2]|[H2 M2]];
        rewrite M1, M2.
      * (* both requests end inside this level *)
        assert (L1 : Qleb r1 0 = false) by (apply Qleb_false; lra).
        assert (L2 : Qleb r2 0 = false) by (apply Qleb_false; lra).
        rewrite L1, L2.
        assert (A := IH (r1 - r1) (r2 - r2) Hp' ltac:(lra)).
        nra.
      * (* the larger request goes on to the next levels *)
        assert (L1 : Qleb r1 0 = false) by (apply Qleb_false; lra).
        assert (L2 : Qleb (size l) 0 = false) by (apply Qleb_false; lra).
        rewrite L1, L2.
        assert (A := IH (r1 - r1) (r2 - size l) Hp' ltac:(lra)).
        nra.
      * (* impossible: the smaller request exceeds the level, the larger
           one does not *)
        lra.
      * destruct (Qleb (size l) 0) eqn:L.
        -- apply IH; assumption.
        -- assert (A := IH (r1 - size l) (r2 - size l) Hp' ltac:(lra)).
           lra.
Qed.

(** ** Depth of a well-formed side *)

Lemma fold_sizes_from levels acc :
  fold_left (fun a l => a + size l) levels acc
  == acc + fold_left (fun a l => a + size l) levels 0.
Proof.
  revert acc. induction levels as [|l rest IH]; intros acc; simpl.
  - ring.
  - rewrite (IH (acc + size l)), (IH (0 + size l)). ring.
Qed.

Lemma sumSizes_cons l rest :
  sumSizes (l :: rest) == size l + sumSizes rest.
Proof.
  unfold sumSizes. simpl. rewrite fold_sizes_from. ring.
Qed.

Lemma sumSizes_nonneg levels :
  (forall l, In l levels -> 0 <= size l) -> 0 <= sumSizes levels.
Proof.
  induction levels as [|l rest IH]; intros H.
  - unfold sumSizes; simpl; apply Qle_refl.
  - rewrite sumSizes_cons.
    assert (0 <= size l) by (apply H; left; reflexivity).
    assert (0 <= sumSizes rest) by (apply IH; intros; apply H; right; assumption).
    lra.
Qed.


Lemma Ladder_prices levels :
  Ladder levels -> forall l, In l levels -> 0 <= price l.
Proof.
  intros H l Hin. unfold Ladder in H. rewrite Forall_forall in H.
  destruct (H l Hin). lra.
Qed.



Lemma Ascending_head l rest :
  Ascending (l :: rest) -> forall x, In x (l :: rest) -> price l <= price x.
Proof.
  intros H x [<-|Hin]; [apply Qle_refl|].
  inversion H as [|? ? _ Hall]; subst.
  rewrite Forall_forall in Hall. apply Hall, Hin.
Qed.

(** ** What [costToBuySharesFromAsks] returns *)

Lemma costToBuy_Some asks shares feeBps fill :
  costToBuySharesFromAsks asks shares feeBps = Some fill ->
  0 < shares
  /\ leftover asks shares <= FILL_EPS
  /\ cost fill == notional asks shares * (1 + feeBps / 10000).
Proof.
  intros H.
  pose proof (sweepAsks_leftover asks (mkBuySweep shares 0 0)) as HL.
  pose proof (sweepAsks_notional asks (mkBuySweep shares 0 0)) as HN.
  unfold costToBuySharesFromAsks in H.
  destruct asks as [|l rest]; [discriminate|].
  remember (sweepAsks (l :: rest) (mkBuySweep shares 0 0)) as st eqn:Est.
  destruct (negb (Qgtb shares 0)) eqn:E1; [discriminate|].
  destruct (Qgtb (bRemaining st) FILL_EPS) eqn:E2; [discriminate|].
  injection H as <-. qbool. cbn [bRemaining bCost cost] in *.
  rewrite <- HL. repeat split; try assumption.
  rewrite HN. ring.
Qed.


Lemma costToBuy_None asks shares feeBps :
  0 < shares ->
  costToBuySharesFromAsks asks shares feeBps = None ->
  asks = [] \/ FILL_EPS < leftover asks shares.
Proof.
  intros Hs. unfold costToBuySharesFromAsks.
  destruct asks as [|l rest]; [left; reflexivity|].
  assert (E1 : Qgtb shares 0 = true) by (apply Qgtb_true; exact Hs).
  rewrite E1. cbn [negb]. rewrite sweepAsks_leftover. cbn [bRemaining].
  destruct (Qgtb _ FILL_EPS) eqn:E2; [|discriminate].
  intros _. right. qbool. exact E2.
Qed.

(** ** The binary search *)

Section Search.
Context {A : Type} (probe : Z -> option A) (lo0 hi0 : Z).

(** Once a count is refused, every larger count is refused. *)
Hypothesis refusal_upward :
  forall m m', (lo0 <= m <= m')%Z -> (m' <= hi0)%Z ->
               probe m = None -> probe m' = None.

Lemma SearchInv_exit lo hi best :
  (hi < lo)%Z -> SearchInv probe lo0 hi0 lo hi best ->
  SearchPost probe lo0 hi0 best.
Proof.
  intros Hexit (Hlo & Hhi & Hrej & Hbest).
  destruct best as [a|]; simpl.
  - destruct Hbest as (H1 & H2 & H3).
    exists (lo - 1)%Z. repeat split; try lia; try assumption.
    intros m' Hm'. apply Hrej; lia.
  - subst lo. intros m Hm. apply Hrej; lia.
Qed.

Lemma halving_left lo hi n :
  (lo <= hi)%Z -> (hi - lo + 1 < 2 ^ Z.of_nat (S n))%Z ->
  ((lo + hi) / 2 - 1 - lo + 1 < 2 ^ Z.of_nat n)%Z.
Proof.
  intros Hle Hw.
  rewrite Nat2Z.inj_succ, Z.pow_succ_r in Hw by lia.
  assert (H := Z.div_mod (lo + hi) 2 ltac:(lia)).
  assert (H' := Z.mod_pos_bound (lo + hi) 2 ltac:(lia)).
  lia.
Qed.

Lemma halving_right lo hi n :
  (lo <= hi)%Z -> (hi - lo + 1 < 2 ^ Z.of_nat (S n))%Z ->
  (hi - ((lo + hi) / 2 + 1) + 1 < 2 ^ Z.of_nat n)%Z.
Proof.
  intros Hle Hw.
  rewrite Nat2Z.inj_succ, Z.pow_succ_r in Hw by lia.
  assert (H := Z.div_mod (lo + hi) 2 ltac:(lia)).
  assert (H' := Z.mod_pos_bound (lo + hi) 2 ltac:(lia)).
  lia.
Qed.

Lemma mid_between lo hi :
  (lo <= hi)%Z -> (lo <= (lo + hi) / 2 <= hi)%Z.
Proof.
  intros Hle.
  assert (H := Z.div_mod (lo + hi) 2 ltac:(lia)).
  assert (H' := Z.mod_pos_bound (lo + hi) 2 ltac:(lia)).
  lia.
Qed.

(** With fuel for the width of the interval the loop runs to its exit
    test, and what it returns is the largest accepted count. *)
Lemma searchLoop_post fuel :
  forall lo hi best,
    (hi - lo + 1 < 2 ^ Z.of_nat fuel)%Z ->
    SearchInv probe lo0 hi0 lo hi best ->
    SearchPost probe lo0 hi0 (searchLoop fuel probe lo hi best).
Proof.
  induction fuel as [|n IH]; intros lo hi best Hw Hinv.
  - simpl in *. apply (SearchInv_exit lo hi); [lia | exact Hinv].
  - cbn [searchLoop].
    destruct (lo <=? hi)%Z eqn:Hle.
    + apply Z.leb_le in Hle.
      pose proof (mid_between lo hi Hle) as Hmid.
      destruct Hinv as (Hlo & Hhi & Hrej & Hbest).
      destruct (probe ((lo + hi) / 2)%Z) as [a|] eqn:Hp.
      * apply IH; [apply halving_right; assumption|].
        repeat split; try lia; try assumption.
        -- replace ((lo + hi) / 2 + 1 - 1)%Z with ((lo + hi) / 2)%Z by lia.
           exact Hp.
      * apply IH; [apply halving_left; assumption|].
        repeat split; try lia; try assumption.
        intros m Hm Hm0.
        destruct (Z_lt_le_dec hi m) as [Hgt|Hin].
        -- apply Hrej; lia.
        -- apply (refusal_upward ((lo + hi) / 2)%Z m); try lia. exact Hp.
    + apply Z.leb_gt in Hle.
      apply (SearchInv_exit lo hi); [lia | exact Hinv].
Qed.

End Search.

(** The fuel of [searchFuel] covers the interval. *)
Lemma searchFuel_enough lo hi :
  (hi - lo + 1 < 2 ^ Z.of_nat (searchFuel lo hi))%Z.
Proof.
  unfold searchFuel.
  destruct (Z_le_gt_dec (hi - lo + 1) 0) as [Hle|Hgt].
  - assert (0 < 2 ^ Z.of_nat (S (Z.to_nat (Z.log2 (hi - lo + 1)))))%Z
      by (apply Z.pow_pos_nonneg; lia).
    lia.
  - rewrite Nat2Z.inj_succ, Z2Nat.id by apply Z.log2_nonneg.
    apply Z.log2_spec. lia.
Qed.

(** More fuel than the width needs changes nothing: the loop has left
    through its exit test. *)
Lemma searchLoop_fuel_stable {A : Type} (probe : Z -> option A) fuel :
  forall extra lo hi best,
    (hi - lo + 1 < 2 ^ Z.of_nat fuel)%Z ->
    searchLoop (fuel + extra) probe lo hi best
    = searchLoop fuel probe lo hi best.
Proof.
  induction fuel as [|n IH]; intros extra lo hi best Hw.
  - simpl in Hw. assert (Hlt : (lo <=? hi)%Z = false) by (apply Z.leb_gt; lia).
    destruct extra; simpl; [reflexivity|]. rewrite Hlt. reflexivity.
  - cbn [Nat.add searchLoop].
    destruct (lo <=? hi)%Z eqn:Hle; [|reflexivity].
    apply Z.leb_le in Hle.
    destruct (probe ((lo + hi) / 2)%Z).
    + apply IH, halving_right; assumption.
    + apply IH, halving_left; assumption.
Qed.

(** Whatever the probe, an answer of the loop is an answer of the probe
    inside the interval. *)
Lemma searchLoop_sound {A : Type} (probe : Z -> option A) fuel :
  forall lo hi best a,
    searchLoop fuel probe lo hi best = Some a ->
    best = Some a \/ exists m, (lo <= m <= hi)%Z /\ probe m = Some a.
Proof.
  induction fuel as [|n IH]; intros lo hi best a H.
  - left. exact H.
  - cbn [searchLoop] in H.
    destruct (lo <=? hi)%Z eqn:Hle; [|left; exact H].
    apply Z.leb_le in Hle.
    pose proof (mid_between lo hi Hle) as Hmid.
    destruct (probe ((lo + hi) / 2)%Z) as [b|] eqn:Hp.
    + destruct (IH _ _ _ _ H) as [E|(m & Hm & Hpm)].
      * injection E as <-. right. exists ((lo + hi) / 2)%Z. split; [lia|exact Hp].
      * right. exists m. split; [lia | exact Hpm].
    + destruct (IH _ _ _ _ H) as [E|(m & Hm & Hpm)].
      * left; exact E.
      * right. exists m. split; [lia | exact Hpm].
Qed.

(** ** [maxSharesForBudget] *)




Lemma clampInt_Z z lo hi :
  clampInt (inject_Z z) lo hi = Z.max lo (Z.min hi z).
Proof. unfold clampInt. rewrite Qfloor_Z. reflexivity. Qed.

Lemma inject_Z_le a b : (a <= b)%Z -> inject_Z a <= inject_Z b.
Proof. intros. rewrite <- Zle_Qle. assumption. Qed.

Lemma inject_Z_pos a : (1 <= a)%Z -> 0 < inject_Z a.
Proof.
  intros H. change 0 with (inject_Z 0). rewrite <- Zlt_Qlt. lia.
Qed.

Lemma le_floor z x : inject_Z z <= x -> (z <= Qfloor x)%Z.
Proof.
  intros H. rewrite <- (Qfloor_Z z). apply Qfloor_resp_le, H.
Qed.

Lemma floor_le z x : (z <= Qfloor x)%Z -> inject_Z z <= x.
Proof.
  intros H. apply Qle_trans with (inject_Z (Qfloor x));
    [apply inject_Z_le, H | apply Qfloor_le].
Qed.

Section Sizing.
Context {M : Machine}.
Variables (asks : Side) (feeBps maxUsdc : Q) (minShares : Z).
Hypothesis wf : Ladder asks.
Hypothesis sorted : Ascending asks.
Hypothesis fee_nonneg : 0 <= feeBps.
Hypothesis min_pos : (1 <= minShares)%Z.

Let factor := 1 + feeBps / 10000.

Lemma factor_pos : 1 <= factor.
Proof.
  unfold factor.
  assert (0 <= feeBps / 10000) by (apply Qle_shift_div_l; lra).
  lra.
Qed.






End Sizing.
End BookFacts.

(** * The claims *)

Import BookMath Spec BookFacts.


(** The bound the search starts from, rounded as the doubles round it:
    with a million shares offered at 0.39 and a budget of 1.17 the
    quotient is 2.9999999999999996, the search stops at two shares, and
    three shares cost 1.17. *)
Lemma maxSharesForBudget_rounded_bound :
  exists r,
    maxSharesForBudget [mkLevel 0.39 1000000] 0 1.17 1 = Some r
    /\ sfShares r = 2%Z
    /\ searchBound [mkLevel 0.39 1000000] 0 1.17 = 2%Z
    /\ exactBound [mkLevel 0.39 1000000] 0 1.17 = 3%Z
    /\ Affordable [mkLevel 0.39 1000000] 0 1.17 3.
Proof.
  eexists. split; [vm_compute; reflexivity|].
  split; [reflexivity|]. split; [vm_compute; reflexivity|].
  split; [vm_compute; reflexivity|].
  unfold Affordable. eexists. split; [vm_compute; reflexivity|].
  split; [vm_compute; reflexivity | vm_compute; discriminate].
Qed.



(** C2.  On a side of positive prices and sizes, with a fee rate that is
    not negative, the fee-inclusive cost of [n] shares is at most that of
    [n + 1] shares whenever [costToBuySharesFromAsks] returns both. *)
Theorem C2_cost_monotone_in_shares :
  forall asks feeBps n c1 c2,
    Ladder asks -> 0 <= feeBps -> (1 <= n)%Z ->
    costToBuySharesFromAsks asks (inject_Z n) feeBps = Some c1 ->
    costToBuySharesFromAsks asks (inject_Z (n + 1)) feeBps = Some c2 ->
    cost c1 <= cost c2.
Proof.
  intros asks feeBps n c1 c2 wf Hfee Hn H1 H2.
  apply costToBuy_Some in H1. destruct H1 as (_ & _ & E1).
  apply costToBuy_Some in H2. destruct H2 as (_ & _ & E2).
  rewrite E1, E2.
  pose proof (factor_pos feeBps Hfee) as Hfac.
  assert (Hmono : notional asks (inject_Z n) <= notional asks (inject_Z (n + 1)))
    by (apply notional_monotone;
        [apply Ladder_prices, wf | apply inject_Z_le; lia]).
  assert (0 <= notional asks (inject_Z n))
    by (apply notional_nonneg, Ladder_prices, wf).
  nra.
Qed.

(** Four shares at 0.50 and the fifth at 0.60, with a fee of 100 basis
    points. *)
Lemma C2_cost_monotone_witness :
  exists c1 c2,
    costToBuySharesFromAsks [mkLevel 0.50 4; mkLevel 0.60 10]
      (inject_Z 4) 100 = Some c1
    /\ costToBuySharesFromAsks [mkLevel 0.50 4; mkLevel 0.60 10]
         (inject_Z (4 + 1)) 100 = Some c2
    /\ cost c1 <= cost c2.
Proof.
  eexists. eexists.
  split; [vm_compute; reflexivity|]. split; [vm_compute; reflexivity|].
  apply (C2_cost_monotone_in_shares
           [mkLevel 0.50 4; mkLevel 0.60 10] 100 4%Z).
  - repeat constructor.
  - discriminate.
  - lia.
  - vm_compute; reflexivity.
  - vm_compute; reflexivity.
Defined.

(** ** The other sweeps *)

Lemma sweepBids_bounds bids minPrice01 st :
  0 <= sRemaining st ->
  0 <= sRemaining (sweepBids bids minPrice01 st)
  /\ sRemaining (sweepBids bids minPrice01 st) <= sRemaining st.
Proof.
  revert st. induction bids as [|l rest IH]; intros st Hr; simpl.
  - split; [exact Hr | apply Qle_refl].
  - destruct (negb (Qgtb (sRemaining st) 0)) eqn:E1;
      [split; [exact Hr | apply Qle_refl]|].
    destruct (negb (Qgeb (price l) minPrice01));
      [split; [exact Hr | apply Qle_refl]|].
    destruct (Qleb (Qmin (sRemaining st) (size l)) 0) eqn:E2; [apply IH, Hr|].
    qbool.
    destruct (Qmin_cases (sRemaining st) (size l)) as [[Hle Hm]|[Hlt Hm]];
      rewrite Hm in *.
    + match goal with |- context [sweepBids rest minPrice01 ?s] =>
        destruct (IH s) as [A B] end; cbn [sRemaining] in *; [lra|].
      split; lra.
    + match goal with |- context [sweepBids rest minPrice01 ?s] =>
        destruct (IH s) as [A B] end; cbn [sRemaining] in *; [lra|].
      split; lra.
Qed.


Import Certainty.

Lemma realTake_inv shares st p sz :
  RealInv shares st -> 0 < rRemaining st -> 0 < sz ->
  RealInv shares (realTake st p sz).
Proof.
  intros [H0 Hs] Hr Hsz. unfold RealInv, realTake. cbn.
  destruct (Qmin_cases (rRemaining st) sz) as [[Hle Hm]|[Hlt Hm]];
    rewrite Hm; split; lra.
Qed.

Lemma sweepAsksReal_inv eps asks maxPrice01 shares st :
  RealInv shares st ->
  RealInv shares (sweepAsksReal eps asks maxPrice01 st).
Proof.
  revert st. induction asks as [|l rest IH]; intros st Hinv; simpl.
  - exact Hinv.
  - destruct (negb (Qgtb (rRemaining st) 0)) eqn:E1; [exact Hinv|].
    destruct (negb (Qgtb (price l) 0) || negb (Qgtb (size l) 0)) eqn:E2;
      [apply IH, Hinv|].
    qbool.
    destruct maxPrice01 as [mx|].
    + destruct (Qgtb (price l) (mx + eps)); [exact Hinv|].
      apply IH, realTake_inv; assumption.
    + apply IH, realTake_inv; assumption.
Qed.

Lemma sweepBidsReal_inv eps bids minPrice01 shares st :
  RealInv shares st ->
  RealInv shares (sweepBidsReal eps bids minPrice01 st).
Proof.
  revert st. induction bids as [|l rest IH]; intros st Hinv; simpl.
  - exact Hinv.
  - destruct (negb (Qgtb (rRemaining st) 0)) eqn:E1; [exact Hinv|].
    destruct (negb (Qgtb (size l) 0)) eqn:E2; [apply IH, Hinv|].
    qbool.
    destruct minPrice01 as [mn|].
    + destruct (Qltb (price l) (mn - eps)); [exact Hinv|].
      apply IH, realTake_inv; assumption.
    + apply IH, realTake_inv; assumption.
Qed.

Lemma realSweepStart_inv shares :
  0 < shares -> RealInv shares (realSweepStart shares).
Proof. intros H. unfold RealInv, realSweepStart. cbn. split; lra. Qed.

Lemma costToBuyReal_Some cfg asks shares maxPrice01 fill :
  costToBuySharesFromAsksReal cfg asks shares maxPrice01 = Some fill ->
  0 < shares
  /\ fShares fill = shares
  /\ rRemaining (sweepAsksReal (PRICE_EPS cfg) asks maxPrice01
                   (realSweepStart shares)) <= FILL_EPS.
Proof.
  unfold costToBuySharesFromAsksReal.
  destruct asks as [|l rest]; [discriminate|].
  destruct (negb (Qgtb shares 0)) eqn:E1; [discriminate|].
  match goal with |- context [Qgtb (rRemaining ?s) FILL_EPS] =>
    destruct (Qgtb (rRemaining s) FILL_EPS) eqn:E2 end; [discriminate|].
  intros [= <-]. qbool. cbn [fShares]. auto.
Qed.

(** *** What the levels hold *)

Ltac qcases :=
  repeat match goal with
  | |- context [Qmax ?a ?b] =>
      let H := fresh in let E := fresh in
      destruct (Qmax_cases a b) as [[H E]|[H E]]; rewrite E in *; clear E
  | |- context [Qmin ?a ?b] =>
      let H := fresh in let E := fresh in
      destruct (Qmin_cases a b) as [[H E]|[H E]]; rewrite E in *; clear E
  | H0 : context [Qmax ?a ?b] |- _ =>
      let H := fresh in let E := fresh in
      destruct (Qmax_cases a b) as [[H E]|[H E]]; rewrite E in *; clear E
  | H0 : context [Qmin ?a ?b] |- _ =>
      let H := fresh in let E := fresh in
      destruct (Qmin_cases a b) as [[H E]|[H E]]; rewrite E in *; clear E
  end.

Lemma held_nonneg levels : 0 <= held levels.
Proof.
  induction levels as [|l rest IH]; simpl; [apply Qle_refl|].
  qcases; lra.
Qed.

Lemma heldAbove_nonneg minPrice01 bids : 0 <= heldAbove minPrice01 bids.
Proof.
  induction bids as [|l rest IH]; simpl; [apply Qle_refl|].
  destruct (Qgeb (price l) minPrice01); [|apply Qle_refl].
  qcases; lra.
Qed.

Lemma heldWithin_nonneg eps maxPrice01 asks :
  0 <= heldWithin eps maxPrice01 asks.
Proof.
  induction asks as [|l rest IH]; simpl; [apply Qle_refl|].
  destruct (negb (Qgtb (price l) 0) || negb (Qgtb (size l) 0)) eqn:E;
    [exact IH|].
  apply orb_false_iff in E. destruct E as [_ E].
  apply negb_false_iff, Qgtb_true in E.
  destruct (match maxPrice01 with Some _ => _ | None => _ end);
    [apply Qle_refl | lra].
Qed.

(** The sweep of the asks takes from each level what the level holds, as
    far as the request goes: it leaves the request less the shares
    held. *)
Lemma leftover_held levels r :
  0 <= r -> leftover levels r == Qmax 0 (r - held levels).
Proof.
  revert r. induction levels as [|l rest IH]; intros r Hr; simpl.
  - qcases; lra.
  - pose proof (held_nonneg rest) as Hh.
    destruct (negb (Qgtb r 0)) eqn:E1.
    + qbool. qcases; lra.
    + qbool.
      destruct (Qleb (Qmin r (size l)) 0) eqn:E2; qbool.
      * rewrite (IH r Hr). qcases; lra.
      * assert (Hr' : 0 <= r - Qmin r (size l)) by (qcases; lra).
        rewrite (IH _ Hr'). qcases; lra.
Qed.

(** The same for the sweep of the bids, down to the price floor. *)
Lemma sweepBids_held bids minPrice01 st :
  0 <= sRemaining st ->
  sRemaining (sweepBids bids minPrice01 st)
  == Qmax 0 (sRemaining st - heldAbove minPrice01 bids).
Proof.
  revert st. induction bids as [|l rest IH]; intros st Hr; simpl.
  - qcases; lra.
  - pose proof (heldAbove_nonneg minPrice01 rest) as Hh.
    destruct (negb (Qgtb (sRemaining st) 0)) eqn:E1.
    + qbool. destruct (Qgeb (price l) minPrice01); qcases; lra.
    + qbool. destruct (Qgeb (price l) minPrice01); cbn [negb].
      * destruct (Qleb (Qmin (sRemaining st) (size l)) 0) eqn:E2; qbool.
        -- rewrite (IH st Hr). qcases; lra.
        -- rewrite IH by (cbn [sRemaining]; qcases; lra).
           cbn [sRemaining]. qcases; lra.
      * qcases; lra.
Qed.

(** The same for the sweep of [costToBuySharesFromAsksReal], which also
    counts what it takes. *)
Lemma sweepAsksReal_held eps asks maxPrice01 st :
  0 <= rRemaining st ->
  rRemaining (sweepAsksReal eps asks maxPrice01 st)
  == Qmax 0 (rRemaining st - heldWithin eps maxPrice01 asks)
  /\ rFilledShares (sweepAsksReal eps asks maxPrice01 st)
     == rFilledShares st
        + Qmin (rRemaining st) (heldWithin eps maxPrice01 asks).
Proof.
  revert st. induction asks as [|l rest IH]; intros st Hr; simpl.
  - split; qcases; lra.
  - pose proof (heldWithin_nonneg eps maxPrice01 rest) as Hh.
    destruct (negb (Qgtb (rRemaining st) 0)) eqn:E1.
    + qbool.
      destruct (negb (Qgtb (price l) 0) || negb (Qgtb (size l) 0)) eqn:E2.
      * split; qcases; lra.
      * apply orb_false_iff in E2. destruct E2 as [_ E2].
        apply negb_false_iff, Qgtb_true in E2.
        destruct (match maxPrice01 with Some _ => _ | None => _ end);
          split; qcases; lra.
    + qbool.
      destruct (negb (Qgtb (price l) 0) || negb (Qgtb (size l) 0)) eqn:E2;
        [apply IH, Hr|].
      apply orb_false_iff in E2. destruct E2 as [_ E2].
      apply negb_false_iff, Qgtb_true in E2.
      assert (Htake : forall st',
                st' = realTake st (price l) (size l) ->
                rRemaining (sweepAsksReal eps rest maxPrice01 st')
                == Qmax 0 (rRemaining st
                           - (size l + heldWithin eps maxPrice01 rest))
                /\ rFilledShares (sweepAsksReal eps rest maxPrice01 st')
                   == rFilledShares st
                      + Qmin (rRemaining st)
                          (size l + heldWithin eps maxPrice01 rest)).
      { intros st' ->.
        destruct (IH (realTake st (price l) (size l))) as [A B].
        { unfold realTake. cbn [rRemaining]. qcases; lra. }
        unfold realTake in A, B. cbn [rRemaining rFilledShares] in A, B.
        rewrite A, B. split; qcases; lra. }
      destruct maxPrice01 as [mx|].
      * destruct (Qgtb (price l) (mx + eps)); [split; qcases; lra|].
        apply Htake. reflexivity.
      * apply Htake. reflexivity.
Qed.

(** A sliver of 0.9999999995 shares on offer, one share asked for: the
    sweep of the asks reports a fill. *)
Lemma C3_tolerance_counterexample : ~ ExactFillClaim.
Proof.
  intros (Hbuy & _ & _).
  set (asks := [mkLevel 0.5 0.9999999995]).
  destruct (costToBuySharesFromAsks asks 1 0) as [f|] eqn:Hf;
    [|vm_compute in Hf; discriminate].
  specialize (Hbuy asks 1 0 f Hf).
  vm_compute in Hbuy. discriminate Hbuy.
Qed.

(** C3 (amended).  A sweep takes from a level no more than the level
    holds, so what it fills is the smaller of the request and the shares
    held by the levels it may take from: every level for
    [costToBuySharesFromAsks], the bids down to the price floor for
    [proceedsFromSellingSharesToBids], the asks of positive price and size
    up to the price limit for [costToBuySharesFromAsksReal].  On a side
    that is not empty and for a positive request it reports a fill exactly
    when those levels hold the request less 10^-9 share; the shortfall of
    a fill reported is therefore at most 10^-9 share, and beyond that
    shortfall the sweep returns nothing. *)
Theorem C3_sweeps_fill_up_to_tolerance :
  forall cfg asks bids shares feeBps minPrice01 maxPrice01,
    (forall fill,
        costToBuySharesFromAsks asks shares feeBps = Some fill ->
        0 <= buyShortfall asks shares <= FILL_EPS
        /\ buyShortfall asks shares == Qmax 0 (shares - held asks)
        /\ shares - FILL_EPS <= held asks)
    /\ (forall fill,
          proceedsFromSellingSharesToBids bids shares feeBps minPrice01
          = Some fill ->
          0 <= sellShortfall bids shares minPrice01 <= FILL_EPS
          /\ sellShortfall bids shares minPrice01
             == Qmax 0 (shares - heldAbove minPrice01 bids)
          /\ shares - FILL_EPS <= heldAbove minPrice01 bids)
    /\ (forall fill,
          costToBuySharesFromAsksReal cfg asks shares maxPrice01 = Some fill ->
          fShares fill = shares
          /\ shares - FILL_EPS <= realBuyFilled cfg asks shares maxPrice01
          /\ realBuyFilled cfg asks shares maxPrice01 <= shares
          /\ realBuyFilled cfg asks shares maxPrice01
             == Qmin shares (heldWithin (PRICE_EPS cfg) maxPrice01 asks)
          /\ shares - FILL_EPS <= heldWithin (PRICE_EPS cfg) maxPrice01 asks)
    /\ (0 < shares -> FILL_EPS < buyShortfall asks shares ->
        costToBuySharesFromAsks asks shares feeBps = None)
    /\ (0 < shares -> FILL_EPS < sellShortfall bids shares minPrice01 ->
        proceedsFromSellingSharesToBids bids shares feeBps minPrice01 = None)
    /\ (costToBuySharesFromAsks asks shares feeBps <> None
        <-> asks <> [] /\ 0 < shares /\ shares - FILL_EPS <= held asks)
    /\ (proceedsFromSellingSharesToBids bids shares feeBps minPrice01 <> None
        <-> bids <> [] /\ 0 < shares
            /\ shares - FILL_EPS <= heldAbove minPrice01 bids)
    /\ (costToBuySharesFromAsksReal cfg asks shares maxPrice01 <> None
        <-> asks <> [] /\ 0 < shares
            /\ shares - FILL_EPS
               <= heldWithin (PRICE_EPS cfg) maxPrice01 asks).
Proof.
  intros cfg asks bids shares feeBps minPrice01 maxPrice01.
  (* the three shortfalls, by what the levels hold *)
  assert (Hbuy : 0 < shares ->
            buyShortfall asks shares == Qmax 0 (shares - held asks)).
  { intros Hs. rewrite buyShortfall_leftover. apply leftover_held. lra. }
  assert (Hsell : 0 < shares ->
            sellShortfall bids shares minPrice01
            == Qmax 0 (shares - heldAbove minPrice01 bids)).
  { intros Hs. unfold sellShortfall.
    rewrite sweepBids_held by (cbn [sRemaining]; lra).
    cbn [sRemaining]. reflexivity. }
  assert (Hreal : 0 < shares ->
            rRemaining (sweepAsksReal (PRICE_EPS cfg) asks maxPrice01
                          (realSweepStart shares))
            == Qmax 0 (shares - heldWithin (PRICE_EPS cfg) maxPrice01 asks)
            /\ realBuyFilled cfg asks shares maxPrice01
               == Qmin shares (heldWithin (PRICE_EPS cfg) maxPrice01 asks)).
  { intros Hs. unfold realBuyFilled.
    destruct (sweepAsksReal_held (PRICE_EPS cfg) asks maxPrice01
                (realSweepStart shares)) as [A B].
    { cbn [realSweepStart rRemaining]. lra. }
    cbn [realSweepStart rRemaining rFilledShares] in A, B.
    split; [exact A | rewrite B; ring]. }
  (* when each sweep answers *)
  assert (Hbuy_iff : costToBuySharesFromAsks asks shares feeBps <> None
            <-> asks <> [] /\ 0 < shares /\ shares - FILL_EPS <= held asks).
  { unfold costToBuySharesFromAsks.
    destruct asks as [|l rest] eqn:Ea.
    { split; [congruence | intros (H & _); congruence]. }
    rewrite <- Ea in *.
    destruct (negb (Qgtb shares 0)) eqn:E1; qbool.
    { split; [congruence | intros (_ & H & _); lra]. }
    fold (buyShortfall asks shares).
    specialize (Hbuy E1).
    destruct (Qgtb (buyShortfall asks shares) FILL_EPS) eqn:E2; qbool.
    - split; [congruence|]. intros (_ & _ & H).
      rewrite Hbuy in E2. exfalso. unfold FILL_EPS in *. qcases; lra.
    - split; [|discriminate]. intros _.
      split; [rewrite Ea; discriminate|]. split; [exact E1|].
      rewrite Hbuy in E2. unfold FILL_EPS in *. qcases; lra. }
  assert (Hsell_iff :
            proceedsFromSellingSharesToBids bids shares feeBps minPrice01
            <> None
            <-> bids <> [] /\ 0 < shares
                /\ shares - FILL_EPS <= heldAbove minPrice01 bids).
  { unfold proceedsFromSellingSharesToBids.
    destruct bids as [|l rest] eqn:Eb.
    { split; [congruence | intros (H & _); congruence]. }
    rewrite <- Eb in *.
    destruct (negb (Qgtb shares 0)) eqn:E1; qbool.
    { split; [congruence | intros (_ & H & _); lra]. }
    fold (sellShortfall bids shares minPrice01).
    specialize (Hsell E1).
    destruct (Qgtb (sellShortfall bids shares minPrice01) FILL_EPS) eqn:E2;
      qbool.
    - split; [congruence|]. intros (_ & _ & H).
      rewrite Hsell in E2. exfalso. unfold FILL_EPS in *. qcases; lra.
    - split; [|discriminate]. intros _.
      split; [rewrite Eb; discriminate|]. split; [exact E1|].
      rewrite Hsell in E2. unfold FILL_EPS in *. qcases; lra. }
  assert (Hreal_iff :
            costToBuySharesFromAsksReal cfg asks shares maxPrice01 <> None
            <-> asks <> [] /\ 0 < shares
                /\ shares - FILL_EPS
                   <= heldWithin (PRICE_EPS cfg) maxPrice01 asks).
  { unfold costToBuySharesFromAsksReal.
    destruct asks as [|l rest] eqn:Ea.
    { split; [congruence | intros (H & _); congruence]. }
    rewrite <- Ea in *.
    destruct (negb (Qgtb shares 0)) eqn:E1; qbool.
    { split; [congruence | intros (_ & H & _); lra]. }
    destruct (Hreal E1) as [Hrem _].
    destruct (Qgtb (rRemaining
                      (sweepAsksReal (PRICE_EPS cfg) asks maxPrice01
                         (realSweepStart shares))) FILL_EPS) eqn:E2; qbool.
    - split; [congruence|]. intros (_ & _ & H).
      rewrite Hrem in E2. exfalso. unfold FILL_EPS in *. qcases; lra.
    - split; [|discriminate]. intros _.
      split; [rewrite Ea; discriminate|]. split; [exact E1|].
      rewrite Hrem in E2. unfold FILL_EPS in *. qcases; lra. }
  split; [|split; [|split; [|split; [|split; [|split; [|split]]]]]].
  - intros fill H.
    pose proof (costToBuy_Some _ _ _ _ H) as (Hs & Hl & _).
    assert (Hne : costToBuySharesFromAsks asks shares feeBps <> None)
      by congruence.
    apply Hbuy_iff in Hne. destruct Hne as (_ & _ & Hheld).
    rewrite buyShortfall_leftover.
    destruct (leftover_bounds asks shares ltac:(lra)).
    split; [split; assumption|]. split; [|exact Hheld].
    rewrite <- buyShortfall_leftover. exact (Hbuy Hs).
  - intros fill H.
    assert (Hne : proceedsFromSellingSharesToBids bids shares feeBps
                    minPrice01 <> None) by congruence.
    apply Hsell_iff in Hne. destruct Hne as (_ & Hs & Hheld).
    specialize (Hsell Hs).
    split; [|split; [exact Hsell | exact Hheld]].
    rewrite Hsell. unfold FILL_EPS in *. qcases; lra.
  - intros fill H.
    assert (Hne : costToBuySharesFromAsksReal cfg asks shares maxPrice01
                  <> None) by congruence.
    apply Hreal_iff in Hne. destruct Hne as (_ & Hs & Hheld).
    destruct (Hreal Hs) as [_ Hfilled].
    apply costToBuyReal_Some in H. destruct H as (_ & Hsh & _).
    split; [exact Hsh|].
    split; [|split; [|split; [exact Hfilled | exact Hheld]]];
      rewrite Hfilled; unfold FILL_EPS in *; qcases; lra.
  - intros Hs Hl.
    destruct (costToBuySharesFromAsks asks shares feeBps) eqn:E;
      [|reflexivity].
    exfalso.
    destruct (proj1 Hbuy_iff ltac:(discriminate)) as (_ & _ & Hheld).
    rewrite (Hbuy Hs) in Hl. unfold FILL_EPS in *. qcases; lra.
  - intros Hs Hl.
    destruct (proceedsFromSellingSharesToBids bids shares feeBps minPrice01)
      eqn:E; [|reflexivity].
    exfalso.
    destruct (proj1 Hsell_iff ltac:(discriminate)) as (_ & _ & Hheld).
    rewrite (Hsell Hs) in Hl. unfold FILL_EPS in *. qcases; lra.
  - exact Hbuy_iff.
  - exact Hsell_iff.
  - exact Hreal_iff.
Qed.

(** Five shares from a side that holds fourteen; twenty from the same
    side, which holds six too few. *)
Lemma C3_sweeps_witness :
  (0 <= buyShortfall [mkLevel 0.50 4; mkLevel 0.60 10] 5 <= FILL_EPS)
  /\ (0 <= sellShortfall [mkLevel 0.60 10; mkLevel 0.50 4] 5 0 <= FILL_EPS)
  /\ 5 - FILL_EPS <= held [mkLevel 0.50 4; mkLevel 0.60 10]
  /\ costToBuySharesFromAsks [mkLevel 0.50 4; mkLevel 0.60 10] 20 0 = None.
Proof.
  pose proof (C3_sweeps_fill_up_to_tolerance defaultConfig
                [mkLevel 0.50 4; mkLevel 0.60 10]
                [mkLevel 0.60 10; mkLevel 0.50 4] 5 0 0 None)
    as (Hbuy & Hsell & _).
  pose proof (C3_sweeps_fill_up_to_tolerance defaultConfig
                [mkLevel 0.50 4; mkLevel 0.60 10]
                [mkLevel 0.60 10; mkLevel 0.50 4] 20 0 0 None)
    as (_ & _ & _ & Hnone & _).
  destruct (costToBuySharesFromAsks [mkLevel 0.50 4; mkLevel 0.60 10] 5 0)
    as [fb|] eqn:Eb; [|vm_compute in Eb; discriminate].
  destruct (proceedsFromSellingSharesToBids
              [mkLevel 0.60 10; mkLevel 0.50 4] 5 0 0)
    as [fs|] eqn:Es; [|vm_compute in Es; discriminate].
  destruct (Hbuy fb eq_refl) as (A & _ & B).
  destruct (Hsell fs eq_refl) as (C & _).
  split; [exact A|]. split; [exact C|]. split; [exact B|].
  apply Hnone; vm_compute; reflexivity.
Defined.

(** *** A side and its mirror *)










(** ** The straddle *)

Import Arbitrage.

Lemma straddleProbe_Some upAsks downAsks upFee downFee maxUsdc minProfit m a :
  straddleProbe upAsks downAsks upFee downFee maxUsdc minProfit m = Some a ->
  exists upFill downFill,
    costToBuySharesFromAsks upAsks (inject_Z m) upFee = Some upFill
    /\ costToBuySharesFromAsks downAsks (inject_Z m) downFee = Some downFill
    /\ cost upFill + cost downFill <= maxUsdc
    /\ minProfit <= (inject_Z m - (cost upFill + cost downFill)) * 100
    /\ a = {| shares := m;
              sCost := cost upFill + cost downFill;
              profitCentsEach :=
                (inject_Z m - (cost upFill + cost downFill)) * 100;
              upCost := cost upFill; downCost := cost downFill;
              upMaxPrice := maxPrice upFill;
              downMaxPrice := maxPrice downFill |}.
Proof.
  unfold straddleProbe.
  destruct (costToBuySharesFromAsks upAsks (inject_Z m) upFee) as [fu|];
    [|discriminate].
  destruct (costToBuySharesFromAsks downAsks (inject_Z m) downFee) as [fd|];
    [|discriminate].
  destruct (Qleb (cost fu + cost fd) maxUsdc
            && Qgeb ((inject_Z m - (cost fu + cost fd)) * 100) minProfit)
    eqn:E; [|discriminate].
  intros [= <-]. exists fu, fd. qbool. auto 6.
Qed.

Lemma straddleProbe_accepts upAsks downAsks upFee downFee maxUsdc minProfit
  m upFill downFill :
  costToBuySharesFromAsks upAsks (inject_Z m) upFee = Some upFill ->
  costToBuySharesFromAsks downAsks (inject_Z m) downFee = Some downFill ->
  cost upFill + cost downFill <= maxUsdc ->
  minProfit <= (inject_Z m - (cost upFill + cost downFill)) * 100 ->
  straddleProbe upAsks downAsks upFee downFee maxUsdc minProfit m <> None.
Proof.
  intros Hu Hd Hc Hp. unfold straddleProbe. rewrite Hu, Hd.
  assert (E1 : Qleb (cost upFill + cost downFill) maxUsdc = true)
    by (apply Qleb_true, Hc).
  assert (E2 : Qgeb ((inject_Z m - (cost upFill + cost downFill)) * 100)
                 minProfit = true) by (apply Qgeb_true, Hp).
  rewrite E1, E2. discriminate.
Qed.

(** A request the best level can serve alone is filled there, at its
    price. *)
Lemma first_level_fills l rest r feeBps :
  0 < r -> r <= size l ->
  exists fill,
    costToBuySharesFromAsks (l :: rest) r feeBps = Some fill
    /\ cost fill == r * price l * (1 + feeBps / 10000)
    /\ maxPrice fill = price l.
Proof.
  intros Hr Hs.
  assert (Hsweep : sweepAsks (l :: rest) (mkBuySweep r 0 0)
                   = mkBuySweep (r - r) (0 + r * price l) (price l)).
  { cbn [sweepAsks bRemaining bCost].
    assert (E1 : Qgtb r 0 = true) by (apply Qgtb_true, Hr).
    rewrite E1. cbn [negb].
    destruct (Qmin_cases r (size l)) as [[_ Hm]|[Hlt _]]; [|lra].
    rewrite Hm.
    assert (E2 : Qleb r 0 = false) by (apply Qleb_false, Hr).
    rewrite E2.
    destruct rest as [|l' rest']; [reflexivity|].
    cbn [sweepAsks bRemaining].
    assert (E3 : Qgtb (r - r) 0 = false) by (apply Qgtb_false; lra).
    rewrite E3. reflexivity. }
  unfold costToBuySharesFromAsks.
  assert (E1 : Qgtb r 0 = true) by (apply Qgtb_true, Hr).
  rewrite E1. cbn [negb]. rewrite Hsweep. cbn [bRemaining bCost bMaxPrice].
  assert (E4 : Qgtb (r - r) FILL_EPS = false)
    by (apply Qgtb_false; unfold FILL_EPS; lra).
  rewrite E4. eexists. split; [reflexivity|]. cbn [cost maxPrice].
  split; [ring | reflexivity].
Qed.

Lemma sumSizes_head_le l rest :
  (forall x, In x rest -> 0 <= size x) -> size l <= sumSizes (l :: rest).
Proof.
  intros H. rewrite sumSizes_cons.
  pose proof (sumSizes_nonneg rest H). lra.
Qed.

(** The straddle at 0.40 and 0.55 on any machine: with ten shares or more
    at each of these two prices, both fee rates zero, the default budget
    of 10, minimum of one share and minimum profit of 0.25 cent, a machine
    that finds the floored quotient of the budget by the two best prices
    between 1 and 10 makes the computation propose that many shares at
    0.95 a share. *)
Lemma straddle_at_040_055 :
  forall (M : Machine) upSize downSize upRest downRest,
    10 <= upSize -> 10 <= downSize ->
    (forall l, In l upRest -> 0 <= size l) ->
    (forall l, In l downRest -> 0 <= size l) ->
    let maxUsdc := STRADDLE_MAX_USDC defaultConfig in
    let bound := floorOf (straddleQuotient maxUsdc 0.40 0 0.55 0) in
    (1 <= bound <= 10)%Z ->
    exists s,
      computeEqualProfitStraddle
        (mkLevel 0.40 upSize :: upRest) (mkLevel 0.55 downSize :: downRest)
        (Some 0) (Some 0) maxUsdc
        (STRADDLE_MIN_SHARES defaultConfig)
        (STRADDLE_MIN_PROFIT_CENTS defaultConfig) = Some s
      /\ shares s = bound
      /\ (0 < shares s)%Z
      /\ sCost s == 0.95 * inject_Z (shares s)
      /\ (inject_Z (shares s) - sCost s) / inject_Z (shares s) == 0.05
      /\ 5 <= profitCentsEach s.
Proof.
  intros M upSize downSize upRest downRest Hu Hd Hur Hdr maxUsdc hi Hhi.
  cbn [STRADDLE_MAX_USDC STRADDLE_MIN_SHARES STRADDLE_MIN_PROFIT_CENTS
       defaultConfig] in *.
  destruct Hhi as [Hhi1 Hhi10].
  set (upAsks := mkLevel 0.40 upSize :: upRest).
  set (downAsks := mkLevel 0.55 downSize :: downRest).
  (* every count of the interval is accepted *)
  assert (Hprobe : forall m, (1 <= m <= hi)%Z ->
            exists a,
              straddleProbe upAsks downAsks 0 0 maxUsdc 0.25 m = Some a
              /\ shares a = m
              /\ sCost a == 0.95 * inject_Z m
              /\ profitCentsEach a == 5 * inject_Z m).
  { intros m Hm.
    pose proof (inject_Z_pos m ltac:(lia)) as Hmpos.
    assert (Hm10 : inject_Z m <= 10).
    { change 10 with (inject_Z 10). apply inject_Z_le. lia. }
    assert (Hm1 : 1 <= inject_Z m).
    { change 1 with (inject_Z 1). apply inject_Z_le. lia. }
    destruct (first_level_fills (mkLevel 0.40 upSize) upRest (inject_Z m) 0
                Hmpos ltac:(cbn [size]; lra)) as (fu & Hfu & Hcu & _).
    destruct (first_level_fills (mkLevel 0.55 downSize) downRest (inject_Z m) 0
                Hmpos ltac:(cbn [size]; lra)) as (fd & Hfd & Hcd & _).
    cbn [price] in Hcu, Hcd.
    assert (Htot : cost fu + cost fd == 0.95 * inject_Z m)
      by (rewrite Hcu, Hcd; field).
    destruct (straddleProbe upAsks downAsks 0 0 maxUsdc 0.25 m) as [a|] eqn:Ha.
    - exists a. split; [reflexivity|].
      apply straddleProbe_Some in Ha.
      destruct Ha as (fu' & fd' & Hfu' & Hfd' & _ & _ & ->).
      unfold upAsks in Hfu'. unfold downAsks in Hfd'.
      rewrite Hfu in Hfu'. rewrite Hfd in Hfd'.
      injection Hfu' as <-. injection Hfd' as <-.
      cbn [shares sCost profitCentsEach].
      split; [reflexivity|]. split; [exact Htot|]. rewrite Htot. ring.
    - exfalso. revert Ha.
      apply (straddleProbe_accepts upAsks downAsks 0 0 maxUsdc 0.25 m fu fd
               Hfu Hfd); rewrite Htot; unfold maxUsdc; lra. }
  (* the guards before the loop *)
  assert (Hsu : 10 <= sumSizes upAsks).
  { pose proof (sumSizes_head_le (mkLevel 0.40 upSize) upRest Hur) as H.
    cbn [size] in H. unfold upAsks. lra. }
  assert (Hsd : 10 <= sumSizes downAsks).
  { pose proof (sumSizes_head_le (mkLevel 0.55 downSize) downRest Hdr) as H.
    cbn [size] in H. unfold downAsks. lra. }
  set (mf := Qfloor (Qmin (sumSizes upAsks) (sumSizes downAsks))).
  assert (Hmf : (10 <= mf)%Z).
  { apply le_floor. change (inject_Z 10) with 10.
    destruct (Qmin_cases (sumSizes upAsks) (sumSizes downAsks))
      as [[_ ->]|[_ ->]]; assumption. }
  assert (Hcall :
            computeEqualProfitStraddle upAsks downAsks (Some 0) (Some 0)
              maxUsdc 1 0.25
            = searchLoop (searchFuel 1 hi)
                (straddleProbe upAsks downAsks 0 0 maxUsdc 0.25) 1 hi None).
  { unfold computeEqualProfitStraddle. cbn [feeOrZero].
    fold mf.
    assert (E1 : (mf <? 1)%Z = false) by (apply Z.ltb_ge; lia).
    rewrite E1. cbn [upAsks downAsks bestPrice price exactly].
    change (Qgtb maxUsdc 0) with true.
    change (Qgtb 0.40 0) with true. change (Qgtb 0.55 0) with true.
    change (Qgtb (0.40 * (1 + 0 / 10000) + 0.55 * (1 + 0 / 10000)) 0)
      with true.
    cbn [andb negb].
    fold (straddleQuotient maxUsdc 0.40 0 0.55 0). fold hi.
    rewrite clampInt_Z.
    fold upAsks downAsks.
    replace (Z.max 0 (Z.min SHARE_CAP (Z.min mf hi))) with hi
      by (unfold SHARE_CAP; lia).
    assert (E4 : (hi <? 1)%Z = false) by (apply Z.ltb_ge; lia).
    rewrite E4. reflexivity. }
  assert (Hpost :
            SearchPost (straddleProbe upAsks downAsks 0 0 maxUsdc 0.25) 1 hi
              (searchLoop (searchFuel 1 hi)
                 (straddleProbe upAsks downAsks 0 0 maxUsdc 0.25) 1 hi None)).
  { apply searchLoop_post.
    - intros m m' Hm Hm' Hnone.
      destruct (Hprobe m ltac:(lia)) as (a & Ha & _). congruence.
    - apply searchFuel_enough.
    - unfold SearchInv. repeat split; lia. }
  rewrite Hcall.
  destruct (searchLoop (searchFuel 1 hi)
              (straddleProbe upAsks downAsks 0 0 maxUsdc 0.25) 1 hi None)
    as [s|]; cbn [SearchPost] in Hpost.
  - destruct Hpost as (m & Hm & Hpm & Hrej).
    assert (m = hi).
    { destruct (Z.eq_dec m hi) as [E|N]; [exact E|].
      specialize (Hrej hi ltac:(lia)).
      destruct (Hprobe hi ltac:(lia)) as (a & Ha & _). congruence. }
    subst m.
    destruct (Hprobe hi ltac:(lia)) as (a & Ha & Hsh & Hco & Hpr).
    rewrite Hpm in Ha. injection Ha as <-.
    pose proof (inject_Z_pos hi Hhi1) as Hpos.
    exists s. split; [reflexivity|].
    rewrite Hsh.
    split; [reflexivity|]. split; [lia|]. split; [exact Hco|].
    split.
    + rewrite Hco. field. lra.
    + rewrite Hpr.
      assert (1 <= inject_Z hi)
        by (change 1 with (inject_Z 1); apply inject_Z_le; lia).
      lra.
  - exfalso. specialize (Hpost 1%Z ltac:(lia)).
    destruct (Hprobe 1%Z ltac:(lia)) as (a & Ha & _). congruence.
Qed.

(** C5.  With the Up side offered at 0.40 and the Down side at 0.55, ten
    shares or more at each of these two prices (ample for the default
    budget of 10), both fee rates zero and the default minimum of one
    share and of 0.25 cent of profit, the straddle computation proposes
    ten shares, a positive count, for 9.50, which is a profit of 0.05 per
    share; the profit it reports is five cents or more. *)
Theorem C5_straddle_at_040_055 :
  forall upSize downSize upRest downRest,
    10 <= upSize -> 10 <= downSize ->
    (forall l, In l upRest -> 0 <= size l) ->
    (forall l, In l downRest -> 0 <= size l) ->
    exists s,
      computeEqualProfitStraddle
        (mkLevel 0.40 upSize :: upRest) (mkLevel 0.55 downSize :: downRest)
        (Some 0) (Some 0) (STRADDLE_MAX_USDC defaultConfig)
        (STRADDLE_MIN_SHARES defaultConfig)
        (STRADDLE_MIN_PROFIT_CENTS defaultConfig) = Some s
      /\ shares s = 10%Z
      /\ (0 < shares s)%Z
      /\ sCost s == 9.5
      /\ (inject_Z (shares s) - sCost s) / inject_Z (shares s) == 0.05
      /\ 5 <= profitCentsEach s.
Proof.
  intros upSize downSize upRest downRest Hu Hd Hur Hdr.
  destruct (straddle_at_040_055 binary64 upSize downSize upRest downRest
              Hu Hd Hur Hdr) as (s & Hs & Hsh & Hpos & Hc & Hper & Hp).
  - vm_compute. split; discriminate.
  - assert (E : shares s = 10%Z) by (rewrite Hsh; vm_compute; reflexivity).
    exists s. split; [exact Hs|]. split; [exact E|]. split; [exact Hpos|].
    split; [rewrite Hc, E; reflexivity|]. split; [exact Hper | exact Hp].
Qed.

(** The default budget of 10 against forty shares at 0.40 and twenty-five
    at 0.55, with deeper levels behind; on the doubles 0.40 + 0.55 is
    0.9500000000000001 and the floored quotient is 10. *)
Lemma C5_straddle_witness :
  exists s,
    computeEqualProfitStraddle
      [mkLevel 0.40 40; mkLevel 0.45 100]
      [mkLevel 0.55 25; mkLevel 0.60 50]
      (Some 0) (Some 0) 10 1 0.25 = Some s
    /\ shares s = 10%Z
    /\ sCost s == 9.5
    /\ 5 <= profitCentsEach s.
Proof.
  destruct (C5_straddle_at_040_055 40 25 [mkLevel 0.45 100]
              [mkLevel 0.60 50]) as (s & Hs & Hsh & _ & Hc & _ & Hp).
  - discriminate.
  - discriminate.
  - intros l [<-|[]]; discriminate.
  - intros l [<-|[]]; discriminate.
  - exists s. split; [exact Hs|]. split; [exact Hsh|].
    split; [exact Hc | exact Hp].
Defined.

(** On the same books a budget of 0.95, the price of one share of each
    side, buys nothing and a budget of 1.90 buys one share of each: the
    doubles make 0.40 + 0.55 a little more than 0.95. *)
Lemma computeEqualProfitStraddle_rounded_bound :
  computeEqualProfitStraddle [mkLevel 0.40 40] [mkLevel 0.55 25]
    (Some 0) (Some 0) 0.95 1 0.25 = None
  /\ exists s,
       computeEqualProfitStraddle [mkLevel 0.40 40] [mkLevel 0.55 25]
         (Some 0) (Some 0) 1.9 1 0.25 = Some s
       /\ shares s = 1%Z.
Proof.
  split; [vm_compute; reflexivity|].
  eexists. split; [vm_compute; reflexivity | reflexivity].
Qed.

(** ** Entering the straddle *)

Import Engine.

(** Up fills, Down is killed: forty cents of every share bought, and no
    Down share to go with it. *)
Lemma C4_live_single_leg_counterexample : ~ StraddleAtomicClaim.
Proof.
  intros claim.
  destruct (onOrderbooks defaultConfig liveStraddleWorld (idleArbState 0)
              Matched Killed) as [st' run] eqn:E.
  specialize (claim defaultConfig liveStraddleWorld (idleArbState 0)
                Matched Killed "up"%string "down"%string st' run
                eq_refl eq_refl ltac:(discriminate) E).
  vm_compute in E. injection E as <- <-.
  vm_compute in claim. discriminate claim.
Qed.

Lemma executePaperStraddle_cases w st n c :
  executePaperStraddle w st n c = st
  \/ (arbOpen st = None /\ 0 < c /\ c <= paperBalance st
      /\ paperBalance (executePaperStraddle w st n c)
         = paperBalance st + - c
      /\ exists o, arbOpen (executePaperStraddle w st n c) = Some o
                   /\ sharesPerSide o = n /\ totalCostUsdc o = c).
Proof.
  unfold executePaperStraddle.
  destruct (negb (Qgtb c 0)) eqn:E1; [left; reflexivity|].
  destruct (Qgtb c (paperBalance st)) eqn:E2; [left; reflexivity|].
  destruct (arbOpen st) eqn:E3; [left; reflexivity|].
  right. qbool. cbn. repeat split; try assumption.
  eexists. split; [reflexivity|]. cbn. split; reflexivity.
Qed.

(** What a straddle returned by the computation is made of. *)
Lemma computeEqualProfitStraddle_legs upAsks downAsks upFeeBps downFeeBps
  maxUsdc minShares minProfit s :
  computeEqualProfitStraddle upAsks downAsks upFeeBps downFeeBps maxUsdc
    minShares minProfit = Some s ->
  exists upFill downFill,
    costToBuySharesFromAsks upAsks (inject_Z (shares s)) (feeOrZero upFeeBps)
    = Some upFill
    /\ costToBuySharesFromAsks downAsks (inject_Z (shares s))
         (feeOrZero downFeeBps) = Some downFill
    /\ sCost s = cost upFill + cost downFill
    /\ sCost s <= maxUsdc.
Proof.
  unfold computeEqualProfitStraddle.
  destruct (_ <? minShares)%Z; [discriminate|].
  destruct (bestPrice upAsks); [|discriminate].
  destruct (bestPrice downAsks); [|discriminate].
  destruct (negb _); [discriminate|].
  destruct (_ <? minShares)%Z; [discriminate|].
  intros H. apply searchLoop_sound in H.
  destruct H as [H|(m & _ & H)]; [discriminate|].
  apply straddleProbe_Some in H.
  destruct H as (fu & fd & Hu & Hd & Hc & _ & ->).
  exists fu, fd. cbn. auto.
Qed.

(** What one call of the handler does to the account and sends to the
    exchange.  In simulation it changes neither the position nor the
    balance, or opens one position that stands for the same number of
    shares on both sides and takes the summed cost of the two legs off the
    balance once.  In live execution it sends two separate fill-or-kill
    buys of one and the same size, the Down order after the Up order has
    come back, and looks at neither answer. *)
Lemma onOrderbooks_entry_cases :
  forall cfg w st upRes downRes st' run,
    onOrderbooks cfg w st upRes downRes = (st', run) ->
    (PAPER_TRADING w = true ->
       posted run = []
       /\ ((arbOpen st' = arbOpen st /\ paperBalance st' = paperBalance st)
           \/ (arbOpen st = None
               /\ exists o upFill downFill,
                    arbOpen st' = Some o
                    /\ costToBuySharesFromAsks (upAsksLevels w)
                         (inject_Z (sharesPerSide o)) (feeOrZero (upFeeBps w))
                       = Some upFill
                    /\ costToBuySharesFromAsks (downAsksLevels w)
                         (inject_Z (sharesPerSide o))
                         (feeOrZero (downFeeBps w)) = Some downFill
                    /\ totalCostUsdc o = cost upFill + cost downFill
                    /\ paperBalance st'
                       = paperBalance st + - totalCostUsdc o)))
    /\ (PAPER_TRADING w = false ->
          arbOpen st' = arbOpen st /\ paperBalance st' = paperBalance st
          /\ (posted run = []
              \/ (exists upOrder, posted run = [(upOrder, Threw)])
              \/ (exists upOrder downOrder,
                    posted run = [(upOrder, upRes); (downOrder, downRes)]
                    /\ upTokenId w = Some (tokenID upOrder)
                    /\ downTokenId w = Some (tokenID downOrder)
                    /\ oSide upOrder = BUY /\ oSide downOrder = BUY
                    /\ oSize upOrder = oSize downOrder))).
Proof.
  intros cfg w st upRes downRes st' run H.
  unfold onOrderbooks in H.
  destruct (PAPER_TRADING w) eqn:Hpaper.
  - (* simulation *)
    split; [intros _|discriminate].
    cbn [andb] in H.
    destruct (arbOpen st) as [o0|] eqn:Ho.
    { injection H as <- <-. split; [reflexivity|]. left. rewrite Ho. auto. }
    destruct (negb _); [injection H as <- <-; cbn; try rewrite Ho; auto|].
    destruct (upFeeBps w) as [uf|] eqn:Huf;
      [|injection H as <- <-; cbn; try rewrite Ho; auto].
    destruct (downFeeBps w) as [df|] eqn:Hdf;
      [|injection H as <- <-; cbn; try rewrite Ho; auto].
    destruct (computeEqualProfitStraddle _ _ _ _ _ _ _) as [sd|] eqn:Hsd;
      [|injection H as <- <-; cbn; try rewrite Ho; auto].
    destruct (negb (_ <=? _)%Z);
      [injection H as <- <-; cbn; try rewrite Ho; auto|].
    injection H as <- <-. split; [reflexivity|].
    cbn [arbOpen paperBalance].
    match goal with |- context [executePaperStraddle w ?s ?n ?c] =>
      destruct (executePaperStraddle_cases w s n c)
        as [E|(_ & _ & _ & Hbal & o & Hopen & Hn & Hc)]
    end.
    + left. rewrite E. cbn. auto.
    + right. split; [reflexivity|].
      apply computeEqualProfitStraddle_legs in Hsd.
      destruct Hsd as (fu & fd & Hu & Hd & Hcost & _).
      exists o, fu, fd. cbn [paperBalance] in Hbal.
      rewrite Hopen, Hn, Hc, Hbal. cbn [feeOrZero] in *.
      repeat split; try assumption; reflexivity.
  - (* live *)
    split; [discriminate|intros _].
    cbn [andb] in H.
    destruct (negb _); [injection H as <- <-; auto|].
    destruct (upFeeBps w) as [uf|]; [|injection H as <- <-; cbn; auto].
    destruct (downFeeBps w) as [df|]; [|injection H as <- <-; cbn; auto].
    destruct (computeEqualProfitStraddle _ _ _ _ _ _ _) as [sd|];
      [|injection H as <- <-; cbn; auto].
    destruct (negb (_ <=? _)%Z); [injection H as <- <-; cbn; auto|].
    destruct (negb (ENABLE_LIVE_ORDERS w)) eqn:Hen;
      [injection H as <- <-; cbn; auto|].
    assert (Hrun :
      let r := executeLiveStraddle w sd upRes downRes in
      posted r = []
      \/ (exists upOrder, posted r = [(upOrder, Threw)])
      \/ (exists upOrder downOrder,
            posted r = [(upOrder, upRes); (downOrder, downRes)]
            /\ upTokenId w = Some (tokenID upOrder)
            /\ downTokenId w = Some (tokenID downOrder)
            /\ oSide upOrder = BUY /\ oSide downOrder = BUY
            /\ oSize upOrder = oSize downOrder)).
    { cbv zeta. unfold executeLiveStraddle. rewrite Hpaper, Hen.
      destruct (upTokenId w) as [ut|]; [|left; reflexivity].
      destruct (downTokenId w) as [dt|]; [|left; reflexivity].
      destruct (negb (truthyId _ && truthyId _)); [left; reflexivity|].
      destruct (negb (clobCreds w)); [left; reflexivity|].
      destruct (negb (canSpendOk _)); [left; reflexivity|].
      destruct upRes.
      - destruct downRes.
        + right; right. do 2 eexists. split; [reflexivity|]. cbn. auto 6.
        + right; right. do 2 eexists. split; [reflexivity|]. cbn. auto 6.
        + right; right. do 2 eexists. split; [reflexivity|]. cbn. auto 6.
      - destruct downRes.
        + right; right. do 2 eexists. split; [reflexivity|]. cbn. auto 6.
        + right; right. do 2 eexists. split; [reflexivity|]. cbn. auto 6.
        + right; right. do 2 eexists. split; [reflexivity|]. cbn. auto 6.
      - right; left. eexists. reflexivity. }
    cbv zeta in Hrun.
    destruct (returned (executeLiveStraddle w sd upRes downRes));
      injection H as <- <-; cbn; auto.
Qed.

(** C4.  The live straddle with the Up order matched and the Down order
    killed: forty shares offered at 0.40 on Up and twenty-five at 0.55 on
    Down, no fees, a funded and approved wallet, default settings.  The
    handler posts two fill-or-kill buys of ten shares each, takes the
    attempt for done (it stamps the trade time, and the source logs the
    straddle as filled), and leaves the account with ten Up shares and no
    Down share. *)
Theorem C4_live_single_leg_run :
  exists st' upOrder downOrder,
    onOrderbooks defaultConfig liveStraddleWorld (idleArbState 0)
      Matched Killed
    = (st', {| posted := [(upOrder, Matched); (downOrder, Killed)];
               returned := true |})
    /\ tokenID upOrder = "up"%string /\ tokenID downOrder = "down"%string
    /\ oSide upOrder = BUY /\ oSide downOrder = BUY
    /\ oSize upOrder == 10 /\ oSize downOrder == 10
    /\ heldShares "up"
         {| posted := [(upOrder, Matched); (downOrder, Killed)];
            returned := true |} == 10
    /\ heldShares "down"
         {| posted := [(upOrder, Matched); (downOrder, Killed)];
            returned := true |} == 0
    /\ arbOpen st' = None
    /\ Arbitrage.lastTradeAt st' = Some (nowMs liveStraddleWorld).
Proof.
  do 3 eexists. split; [vm_compute; reflexivity|].
  repeat split; vm_compute; reflexivity.
Qed.

(** X30.  In simulation a call of the arbitrage handler sends nothing to
    the exchange and is atomic over the two legs: it leaves position and
    balance as they were, or, on an account without a position, opens one
    position that stands for the same number of shares on Up and on Down,
    each leg bought in full from its book by [costToBuySharesFromAsks],
    and takes the summed cost of the two legs off the balance once. *)
Theorem X30_paper_straddle_entry_atomic :
  forall cfg w st upRes downRes st' run,
    PAPER_TRADING w = true ->
    onOrderbooks cfg w st upRes downRes = (st', run) ->
    posted run = []
    /\ ((arbOpen st' = arbOpen st /\ paperBalance st' = paperBalance st)
        \/ (arbOpen st = None
            /\ exists o upFill downFill,
                 arbOpen st' = Some o
                 /\ costToBuySharesFromAsks (upAsksLevels w)
                      (inject_Z (sharesPerSide o)) (feeOrZero (upFeeBps w))
                    = Some upFill
                 /\ costToBuySharesFromAsks (downAsksLevels w)
                      (inject_Z (sharesPerSide o))
                      (feeOrZero (downFeeBps w)) = Some downFill
                 /\ totalCostUsdc o = cost upFill + cost downFill
                 /\ paperBalance st'
                    = paperBalance st + - totalCostUsdc o)).
Proof.
  intros cfg w st upRes downRes st' run Hpaper H.
  exact (proj1 (onOrderbooks_entry_cases cfg w st upRes downRes st' run H)
           Hpaper).
Qed.

(** The simulated straddle on an account of 20: ten shares a side for
    9.50. *)
Lemma X30_paper_straddle_entry_witness :
  posted (snd (onOrderbooks defaultConfig paperStraddleWorld
                 (idleArbState 20) Matched Matched)) = []
  /\ exists o,
       arbOpen (fst (onOrderbooks defaultConfig paperStraddleWorld
                       (idleArbState 20) Matched Matched)) = Some o
       /\ paperBalance (fst (onOrderbooks defaultConfig paperStraddleWorld
                               (idleArbState 20) Matched Matched))
          = 20 + - totalCostUsdc o.
Proof.
  destruct (onOrderbooks defaultConfig paperStraddleWorld (idleArbState 20)
              Matched Matched) as [st1 run1] eqn:E1.
  destruct (X30_paper_straddle_entry_atomic defaultConfig paperStraddleWorld
              (idleArbState 20) Matched Matched st1 run1 eq_refl E1)
    as [Hposted [[Hsame _]|(_ & o & _ & _ & Ho & _ & _ & _ & Hbal)]].
  - exfalso. vm_compute in E1. injection E1 as <- _.
    cbn in Hsame. discriminate Hsame.
  - split; [exact Hposted|]. exists o. cbn [fst].
    split; [exact Ho | exact Hbal].
Defined.

(** ** The certainty gate *)

Import Certainty.

Lemma getCurrentEntryRange_candles cfg w st side :
  candlesOf (snd (getCurrentEntryRange cfg w st)) side = candlesOf st side.
Proof.
  unfold getCurrentEntryRange.
  destruct (negb _); [destruct side; reflexivity|].
  destruct (lastExitType (iState st)) as [[|]|]; try reflexivity.
  destruct (lastStopLossExitPrice (iState st)); reflexivity.
Qed.

Lemma getCurrentEntryRange_keeps cfg w st :
  paperBalance (snd (getCurrentEntryRange cfg w st)) = paperBalance st
  /\ open (snd (getCurrentEntryRange cfg w st)) = open st
  /\ collateral (snd (getCurrentEntryRange cfg w st)) = collateral st
  /\ requireReentryUntilResolved (iState (snd (getCurrentEntryRange cfg w st)))
     = requireReentryUntilResolved (iState st).
Proof.
  unfold getCurrentEntryRange.
  destruct (negb _); [cbn; auto|].
  destruct (lastExitType (iState st)) as [[|]|]; cbn; auto.
  destruct (lastStopLossExitPrice (iState st)); cbn; auto.
Qed.

Lemma isWarmedUp_spec w st side :
  isWarmedUp w st side = true <-> WarmedUp w (candlesOf st side).
Proof.
  unfold isWarmedUp, WarmedUp.
  destruct (current (candlesOf st side)) as [c|].
  - rewrite Z.ltb_lt. split.
    + intros H. exists c. split; [reflexivity | lia].
    + intros (c' & [= <-] & H). lia.
  - split; [discriminate | intros (c' & E & _); discriminate].
Qed.

Lemma isBullishMomentum_spec cfg st side :
  isBullishMomentum cfg st side = true <-> Bullish cfg (candlesOf st side).
Proof.
  unfold isBullishMomentum, Bullish, lastCandle.
  destruct (current (candlesOf st side)) as [c|].
  - destruct (Qgeb (cClose c) (cOpen c - PRICE_EPS cfg)) eqn:E1.
    + qbool. split; [|reflexivity].
      intros _. exists c. split; [reflexivity | left; exact E1].
    + qbool.
      destruct (List.last (List.map Some (history (candlesOf st side))) None)
        as [prev|].
      * rewrite Qgeb_true. split.
        -- intros H. exists c. split; [reflexivity|]. right.
           exists prev. split; [reflexivity | exact H].
        -- intros (c' & Hc & [H|(prev' & Hp & H)]);
             injection Hc as <-; [lra|].
           injection Hp as <-. exact H.
      * split; [discriminate|].
        intros (c' & Hc & [H|(prev' & Hp & _)]);
          injection Hc as <-; [lra | discriminate].
  - split; [discriminate | intros (c' & E & _); discriminate].
Qed.

Lemma spreadOk_spec cfg s :
  spreadOk cfg (Some s) = true <-> SpreadWithin cfg s.
Proof.
  unfold spreadOk, SpreadWithin.
  destruct (negb (Qgtb (bestAsk s) 0) || negb (Qgtb (bestBid s) 0)) eqn:E.
  - split; [discriminate|]. intros (Ha & Hb & _).
    apply orb_true_iff in E. destruct E as [E|E];
      apply negb_true_iff in E; qbool; lra.
  - qbool. rewrite Qleb_true. tauto.
Qed.

(** The account after a stop-loss at 0.745 is admitted on the Up side
    around that price with 800 seconds left and no candle at all: outside
    the window, cold, and without momentum. *)
Lemma C6_reentry_bypass_counterexample : ~ EntryGateClaim.
Proof.
  intros claim.
  destruct (canEnterPosition defaultConfig afterFallWorld stoppedOut Up
              (Some 800%Z)) as [[r|e] st'] eqn:E.
  - vm_compute in E. discriminate E.
  - destruct (claim _ _ _ _ _ _ _ E) as ((t & [= <-] & Ht) & _).
    cbn in Ht. lia.
Qed.

(** The momentum test allows [PRICE_EPS]: a live candle that closes at
    0.81 after opening at 0.8105, with no candle before it, is admitted
    at the default tolerance of 0.001. *)
Lemma canEnterPosition_momentum_tolerance :
  (exists e st',
      canEnterPosition defaultConfig risingWorld slightlyRed Up
        (timeRemainingSec risingWorld) = (Accepted e, st'))
  /\ exists c,
       current (candlesOf slightlyRed Up) = Some c
       /\ cClose c < cOpen c
       /\ history (candlesOf slightlyRed Up) = [].
Proof.
  split.
  - destruct (canEnterPosition defaultConfig risingWorld slightlyRed Up
                (timeRemainingSec risingWorld)) as [[r|e] st'] eqn:E.
    + vm_compute in E. discriminate E.
    + exists e, st'. reflexivity.
  - eexists. split; [reflexivity|]. split; reflexivity.
Qed.

(** C6 (amended).  A side admitted by [canEnterPosition] has a best ask
    inside the band that [getCurrentEntryRange] requires, up to
    [PRICE_EPS] at either end, and a spread within the maximum, up to
    10^-12.  Unless a stop-loss has left a re-entry pending, it also has
    the time remaining inside the entry window, a live candle older than
    the warm-up of five seconds, and bullish momentum up to [PRICE_EPS]:
    the live candle closes no more than [PRICE_EPS] below its open, or no
    more than [PRICE_EPS] below the close of the candle before it.  While
    a re-entry is pending these three conditions are not looked at. *)
Theorem C6_entry_gate :
  forall cfg w st side tRem e st',
    canEnterPosition cfg w st side tRem = (Accepted e, st') ->
    (exists s,
        bkSummary (getBooks w side) = Some s
        /\ eRange e = fst (getCurrentEntryRange cfg w st)
        /\ InBand cfg (eRange e) (bestAsk s)
        /\ SpreadWithin cfg s)
    /\ (requireReentryUntilResolved (iState st) = false ->
        InWindow cfg tRem
        /\ WarmedUp w (candlesOf st side)
        /\ Bullish cfg (candlesOf st side)).
Proof.
  intros cfg w st side tRem e st' H.
  unfold canEnterPosition in H.
  destruct (negb (requireReentryUntilResolved (iState st))
            && negb (isWarmedUp w st side)) eqn:Ewarm;
    [discriminate|].
  destruct (negb (requireReentryUntilResolved (iState st))
            && match tRem with
               | Some t => (ENTRY_TIME_WINDOW_SEC cfg <? t)%Z
               | None => true
               end) eqn:Ewin; [discriminate|].
  destruct (bkSummary (getBooks w side)) as [s|] eqn:Es; [|discriminate].
  destruct (negb (Qgtb (bestAsk s) 0)) eqn:Eask; [discriminate|].
  destruct (negb (spreadOk cfg (Some s))) eqn:Espread; [discriminate|].
  destruct (getCurrentEntryRange cfg w st) as [range st1] eqn:Erange.
  destruct (Qgtb (bestAsk s) (rMax range + PRICE_EPS cfg)) eqn:Ehi;
    [discriminate|].
  destruct (Qltb (bestAsk s) (rMin range - PRICE_EPS cfg)) eqn:Elo;
    [discriminate|].
  destruct (negb (requireReentryUntilResolved (iState st))
            && negb (isBullishMomentum cfg st1 side)) eqn:Ebull;
    [discriminate|].
  destruct (capitalOf w st1) as [cap|]; [|discriminate].
  destruct (negb (Qgtb cap 0)); [discriminate|].
  destruct (negb (Qgtb (if PAPER_TRADING w then _ else _) 0));
    [discriminate|].
  destruct (maxSharesForBudgetReal _ _ _ _ _) as [fill|]; [|discriminate].
  injection H as <- <-. cbn [eRange].
  split.
  - exists s. split; [reflexivity|]. split; [reflexivity|].
    apply negb_false_iff in Espread. apply spreadOk_spec in Espread.
    qbool. unfold InBand. cbn [fst]. auto.
  - intros Hreq. rewrite Hreq in *. cbn [negb andb] in *.
    apply negb_false_iff in Ewarm, Ebull.
    split; [|split].
    + destruct tRem as [t|]; [|discriminate].
      exists t. split; [reflexivity|]. apply Z.ltb_ge in Ewin. exact Ewin.
    + apply isWarmedUp_spec, Ewarm.
    + apply isBullishMomentum_spec.
      unfold isBullishMomentum in *.
      rewrite <- (getCurrentEntryRange_candles cfg w st side).
      rewrite Erange. exact Ebull.
Qed.

(** The rising market met by a warmed-up account: admitted on Up, inside
    the window, with a green candle, at an ask inside 0.80-0.82. *)
Lemma C6_entry_gate_witness :
  (exists s,
      bkSummary (getBooks risingWorld Up) = Some s
      /\ InBand defaultConfig (defaultRange defaultConfig) (bestAsk s)
      /\ SpreadWithin defaultConfig s)
  /\ InWindow defaultConfig (timeRemainingSec risingWorld)
  /\ WarmedUp risingWorld (candlesOf warmedUp Up)
  /\ Bullish defaultConfig (candlesOf warmedUp Up).
Proof.
  destruct (canEnterPosition defaultConfig risingWorld warmedUp Up
              (timeRemainingSec risingWorld)) as [[r|e] st'] eqn:E.
  - vm_compute in E. discriminate E.
  - destruct (C6_entry_gate _ _ _ _ _ _ _ E)
      as ((s & Hs & Hr & Hband & Hspread) & Hrest).
    split; [|apply Hrest; reflexivity].
    exists s. split; [exact Hs|]. split; [|exact Hspread].
    rewrite Hr in Hband. exact Hband.
Defined.

(** ** The re-entry band *)

Lemma getCurrentEntryRange_armed cfg w st m p :
  marketId w = Some m -> truthyId (Some m) = true -> ReentryArmed m p st ->
  getCurrentEntryRange cfg w st
  = ({| rMin := Qmax 0.01 (p - reentryBuffer cfg);
        rMax := p + reentryBuffer cfg |}, st).
Proof.
  intros Hw Ht (Hm & He & Hp). unfold getCurrentEntryRange.
  rewrite Hw, Hm, Ht, String.eqb_refl, He, Hp. reflexivity.
Qed.

Lemma getCurrentEntryRange_same_interval cfg w st m :
  marketId w = Some m -> truthyId (Some m) = true ->
  iMarketId (iState st) = Some m ->
  snd (getCurrentEntryRange cfg w st) = st.
Proof.
  intros Hw Ht Hm. unfold getCurrentEntryRange.
  rewrite Hw, Hm, Ht, String.eqb_refl. cbn [negb andb].
  destruct (lastExitType (iState st)) as [[|]|]; try reflexivity.
  destruct (lastStopLossExitPrice (iState st)); reflexivity.
Qed.

Lemma getCurrentEntryRange_after_entry cfg w st m :
  marketId w = Some m -> truthyId (Some m) = true ->
  iMarketId (iState st) = Some m -> lastExitType (iState st) = None ->
  fst (getCurrentEntryRange cfg w st) = defaultRange cfg.
Proof.
  intros Hw Ht Hm He. unfold getCurrentEntryRange.
  rewrite Hw, Hm, Ht, String.eqb_refl, He. reflexivity.
Qed.

Lemma executePaperSell_arms cfg st o sellFill m p :
  iMarketId (iState st) = Some m -> sfrAvgPrice sellFill = Some p ->
  ReentryArmed m p (executePaperSell cfg st (Some o) (Some sellFill) StopLoss)
  /\ open (executePaperSell cfg st (Some o) (Some sellFill) StopLoss) = None
  /\ requireReentryUntilResolved
       (iState (executePaperSell cfg st (Some o) (Some sellFill) StopLoss))
     = true.
Proof.
  intros Hm Hp. unfold executePaperSell, ReentryArmed. cbn.
  unfold afterExit. rewrite Hp. cbn. auto.
Qed.

Lemma executeLiveSell_arms cfg w st orc o tokenId minPrice01 proceedsUsdc m :
  iMarketId (iState st) = Some m -> open st = Some o ->
  open (fst (executeLiveSell cfg w st orc o tokenId minPrice01 proceedsUsdc
               StopLoss)) = None ->
  ReentryArmed m minPrice01
    (fst (executeLiveSell cfg w st orc o tokenId minPrice01 proceedsUsdc
            StopLoss)).
Proof.
  intros Hm Ho. unfold executeLiveSell.
  destruct (PAPER_TRADING w); [cbn; congruence|].
  destruct (negb (ENABLE_LIVE_ORDERS w)); [cbn; congruence|].
  destruct (negb (truthyId tokenId)); [cbn; congruence|].
  destruct (negb (clobCreds w)); [cbn; congruence|].
  destruct (postResult orc); cbn; try congruence;
    intros _; unfold ReentryArmed; cbn; auto.
Qed.

(** What [executePaperBuy] can do. *)
Lemma executePaperBuy_cases cfg w st tid side tok sh fill mx cap :
  executePaperBuy cfg w st tid side tok sh fill mx cap = st
  \/ (exists f o,
        fill = Some f /\ open st = None
        /\ fCost f + ORDER_GAS_USDC cfg <= paperBalance st
        /\ open (executePaperBuy cfg w st tid side tok sh fill mx cap) = Some o
        /\ oSide o = side
        /\ paperBalance (executePaperBuy cfg w st tid side tok sh fill mx cap)
           = paperBalance st + - (fCost f + ORDER_GAS_USDC cfg)
        /\ iState (executePaperBuy cfg w st tid side tok sh fill mx cap)
           = afterEntry (iState st)).
Proof.
  unfold executePaperBuy.
  destruct (open st) eqn:Ho; [left; reflexivity|].
  destruct fill as [f|]; [|left; reflexivity].
  destruct (negb (Qgtb sh 0)); [left; reflexivity|].
  destruct (Qgtb (fCost f + ORDER_GAS_USDC cfg) (paperBalance st)) eqn:E;
    [left; reflexivity|].
  right. qbool. exists f. eexists. cbn.
  repeat split; try reflexivity; assumption.
Qed.

(** What [executeLiveBuy] can do. *)
Lemma executeLiveBuy_cases cfg w st orc entry tid limit :
  let r := fst (executeLiveBuy cfg w st orc entry tid limit) in
  (open r = open st /\ iState r = iState st
   /\ paperBalance r = paperBalance st)
  \/ (exists o, open r = Some o /\ oSide o = eSide entry
                /\ iState r = afterEntry (iState st)).
Proof.
  cbv zeta. unfold executeLiveBuy.
  destruct (PAPER_TRADING w); [left; cbn; auto|].
  destruct (negb (ENABLE_LIVE_ORDERS w)); [left; cbn; auto|].
  destruct (negb (truthyId _)); [left; cbn; auto|].
  destruct (negb (clobCreds w)); [left; cbn; auto|].
  match goal with |- context [negb (canSpendOk (liveCanSpendUsdc
                                      (collateral ?s) _))] =>
    assert (Hs : open s = open st /\ iState s = iState st
                 /\ paperBalance s = paperBalance st)
      by (destruct (liveCanSpendUsdc (collateral st) _); cbn; auto;
          destruct (refreshed orc); cbn; auto);
    remember s as st1 eqn:Est1
  end.
  destruct Hs as (H1 & H2 & H3).
  destruct (negb (canSpendOk _)); [left; cbn; auto|].
  destruct (postResult orc).
  - right. eexists. cbn. rewrite H2. auto.
  - right. eexists. cbn. rewrite H2. auto.
  - left. cbn. auto.
Qed.

Lemma feedCandle_keeps w st side :
  open (feedCandle w st side) = open st
  /\ iState (feedCandle w st side) = iState st
  /\ paperBalance (feedCandle w st side) = paperBalance st.
Proof.
  unfold feedCandle. destruct (bkSummary (getBooks w side)); [|auto].
  unfold updateOHLC, withCandles. destruct side; cbn; auto.
Qed.

Lemma clearConfirm_keeps st :
  open (clearConfirm st) = open st /\ iState (clearConfirm st) = iState st
  /\ paperBalance (clearConfirm st) = paperBalance st.
Proof. unfold clearConfirm. destruct (confirm st); cbn; auto. Qed.

(** In the interval of the record, the gate leaves the state alone. *)
Lemma canEnterPosition_same_interval cfg w st side tRem m :
  marketId w = Some m -> truthyId (Some m) = true ->
  iMarketId (iState st) = Some m ->
  snd (canEnterPosition cfg w st side tRem) = st.
Proof.
  intros Hw Ht Hm. unfold canEnterPosition.
  destruct (_ && negb (isWarmedUp w st side)); [reflexivity|].
  destruct (_ && _); [reflexivity|].
  destruct (bkSummary (getBooks w side)) as [s|]; [|reflexivity].
  destruct (negb (Qgtb (bestAsk s) 0)); [reflexivity|].
  destruct (negb (spreadOk cfg (Some s))); [reflexivity|].
  pose proof (getCurrentEntryRange_same_interval cfg w st m Hw Ht Hm) as Hsame.
  destruct (getCurrentEntryRange cfg w st) as [range st1].
  cbn [snd] in Hsame. subst st1.
  destruct (Qgtb _ _); [reflexivity|].
  destruct (Qltb _ _); [reflexivity|].
  destruct (_ && _); [reflexivity|].
  destruct (capitalOf w st) as [cap|]; [|reflexivity].
  destruct (negb (Qgtb cap 0)); [reflexivity|].
  destruct (negb (Qgtb (if PAPER_TRADING w then _ else _) 0)); [reflexivity|].
  destruct (maxSharesForBudgetReal _ _ _ _ _); reflexivity.
Qed.

(** One call of the handler with no position open, in the interval of the
    record: either a position is open afterwards and the record is the one
    an entry leaves, or the position, the record and the simulated balance
    are untouched. *)
Lemma seekEntry_cases cfg w orc st tRem m :
  marketId w = Some m -> truthyId (Some m) = true ->
  iMarketId (iState st) = Some m -> open st = None ->
  (open (seekEntry cfg w orc st tRem) = None
   /\ iState (seekEntry cfg w orc st tRem) = iState st
   /\ paperBalance (seekEntry cfg w orc st tRem) = paperBalance st)
  \/ (exists o, open (seekEntry cfg w orc st tRem) = Some o
                /\ iState (seekEntry cfg w orc st tRem)
                   = afterEntry (iState st)).
Proof.
  intros Hw Ht Hm Ho. unfold seekEntry.
  set (st0 := withTpConfirm (withStopConfirm st 0) 0).
  assert (Hm0 : iMarketId (iState st0) = Some m) by exact Hm.
  pose proof (canEnterPosition_same_interval cfg w st0 Up tRem m Hw Ht Hm0)
    as H1.
  destruct (canEnterPosition cfg w st0 Up tRem) as [upEntry st1].
  cbn [snd] in H1. subst st1.
  pose proof (canEnterPosition_same_interval cfg w st0 Down tRem m Hw Ht Hm0)
    as H2.
  destruct (canEnterPosition cfg w st0 Down tRem) as [downEntry st2].
  cbn [snd] in H2. subst st2.
  rewrite (getCurrentEntryRange_same_interval cfg w st0 m Hw Ht Hm0).
  destruct (chooseEntry upEntry downEntry) as [enter|].
  2:{ left. destruct (clearConfirm_keeps st0) as (A & B & C).
      rewrite A, B, C. cbn. auto. }
  destruct (negb (cooldownOk cfg w st0)); [left; cbn; auto|].
  destruct (bumpConfirm st0 (eSide enter)) as [n st4] eqn:Eb.
  assert (H4 : open st4 = None /\ iState st4 = iState st
               /\ paperBalance st4 = paperBalance st).
  { unfold bumpConfirm in Eb. injection Eb as _ <-. cbn. auto. }
  destruct H4 as (A4 & B4 & C4).
  destruct (n <? CONFIRM_TICKS cfg)%Z; [left; auto|].
  cbn [nextTradeId].
  set (st5 := withTradeSeq st4 (tradeSeq st4 + 1)).
  assert (H5 : open st5 = None /\ iState st5 = iState st
               /\ paperBalance st5 = paperBalance st) by (cbn; auto).
  destruct H5 as (A5 & B5 & C5).
  destruct (PAPER_TRADING w).
  - match goal with |- context [executePaperBuy cfg w st5 ?a ?b ?c ?d ?e ?f ?g]
      => destruct (executePaperBuy_cases cfg w st5 a b c d e f g)
           as [E|(f0 & o & _ & _ & _ & Hop & _ & _ & Hi)]
    end.
    + left. rewrite E.
      match goal with |- context [clearConfirm ?s] =>
        destruct (clearConfirm_keeps s) as (A & B & C) end.
      rewrite A, B, C. cbn. auto.
    + right. exists o.
      match goal with |- context [clearConfirm ?s] =>
        destruct (clearConfirm_keeps s) as (A & B & _) end.
      rewrite A, B. cbn. rewrite Hop, Hi, B5. auto.
  - pose proof (executeLiveBuy_cases cfg w st5 orc enter (tradeSeq st4 + 1)
                  (rMax (eRange enter))) as Hl.
    cbv zeta in Hl.
    destruct (executeLiveBuy cfg w st5 orc enter (tradeSeq st4 + 1)
                (rMax (eRange enter))) as [st6 threw].
    cbn [fst] in Hl.
    destruct Hl as [(A6 & B6 & C6)|(o & A6 & _ & B6)].
    + left. destruct threw.
      * rewrite A6, B6, C6. auto.
      * match goal with |- context [clearConfirm ?s] =>
          destruct (clearConfirm_keeps s) as (A & B & C) end.
        rewrite A, B, C. cbn. rewrite A6, B6, C6. auto.
    + right. exists o. destruct threw.
      * rewrite A6, B6, B5. auto.
      * match goal with |- context [clearConfirm ?s] =>
          destruct (clearConfirm_keeps s) as (A & B & _) end.
        rewrite A, B. cbn. rewrite A6, B6, B5. auto.
Qed.

Lemma onOrderbooks_flat_cases cfg w orc st m :
  marketId w = Some m -> truthyId (Some m) = true ->
  iMarketId (iState st) = Some m -> open st = None ->
  (open (onOrderbooks cfg w orc st) = None
   /\ iState (onOrderbooks cfg w orc st) = iState st
   /\ paperBalance (onOrderbooks cfg w orc st) = paperBalance st)
  \/ (exists o, open (onOrderbooks cfg w orc st) = Some o
                /\ iState (onOrderbooks cfg w orc st)
                   = afterEntry (iState st)).
Proof.
  intros Hw Ht Hm Ho. unfold onOrderbooks.
  set (st1 := feedCandle w (feedCandle w st Up) Down).
  assert (H1 : open st1 = None /\ iState st1 = iState st
               /\ paperBalance st1 = paperBalance st).
  { unfold st1.
    destruct (feedCandle_keeps w (feedCandle w st Up) Down) as (A & B & C).
    destruct (feedCandle_keeps w st Up) as (A' & B' & C').
    rewrite A, B, C, A', B', C'. auto. }
  destruct H1 as (A1 & B1 & C1). rewrite A1.
  destruct (seekEntry_cases cfg w orc st1 (timeRemainingSec w) m Hw Ht
              ltac:(rewrite B1; exact Hm) A1) as [(A & B & C)|(o & A & B)].
  - left. rewrite A, B, C. auto.
  - right. exists o. rewrite A, B, B1. auto.
Qed.

(** With the stop at 0.03 the ten shares are sold at 0.02, on the second
    call that sees the collapse: the band asked for next starts at 0.01,
    not at 0.02 - 0.015. *)
Lemma C7_floor_counterexample : ~ ReentryBandClaim.
Proof.
  intros claim.
  destruct (proceedsFromSellingSharesToBidsReal lowStopConfig
              (upBidsLevels crashWorld) 10 (Some 0.02)) as [f|] eqn:Hf;
    [|vm_compute in Hf; discriminate].
  destruct (sfrAvgPrice f) as [p|] eqn:Hp;
    [|vm_compute in Hf; injection Hf as <-; discriminate].
  destruct (open heldUp) as [o|] eqn:Ho; [|discriminate].
  pose proof (claim lowStopConfig crashWorld heldUp o f p "m1"%string
                eq_refl eq_refl eq_refl Hp) as H.
  cbv zeta in H. destruct H as [Hmin _].
  vm_compute in Hf. injection Hf as <-.
  vm_compute in Hp. injection Hp as <-.
  vm_compute in Hmin. discriminate Hmin.
Qed.

(** The handler itself takes that path. *)
Example crash_stop_loss_band :
  let st := runTicks lowStopConfig
              [(crashWorld, silentOracle); (crashWorld, silentOracle)]
              heldUp in
  open st = None
  /\ (exists p, lastStopLossExitPrice (iState st) = Some p /\ p == 0.02)
  /\ rMin (fst (getCurrentEntryRange lowStopConfig crashWorld st)) == 0.01.
Proof.
  vm_compute. split; [reflexivity|]. split; [|reflexivity].
  eexists. split; reflexivity.
Qed.

(** C7 (amended).  Within the interval [m] of the record: (a) a stop-loss
    sale at the average price [p], simulated or live, leaves the record
    asking for a re-entry around [p]; (b) while it does, the band required
    is [max(0.01, p - buffer), p + buffer], not the default band; (c) any
    run of the handler that leaves no position open keeps it so; (d) a
    call of the handler that opens a position, on whichever side, clears
    it, and the band is the default one again. *)
Theorem C7_reentry_band :
  forall cfg m p,
    truthyId (Some m) = true ->
    (forall st o sellFill,
        iMarketId (iState st) = Some m -> sfrAvgPrice sellFill = Some p ->
        ReentryArmed m p
          (executePaperSell cfg st (Some o) (Some sellFill) StopLoss))
    /\ (forall w st orc o tokenId proceedsUsdc,
          iMarketId (iState st) = Some m -> open st = Some o ->
          open (fst (executeLiveSell cfg w st orc o tokenId p proceedsUsdc
                       StopLoss)) = None ->
          ReentryArmed m p
            (fst (executeLiveSell cfg w st orc o tokenId p proceedsUsdc
                    StopLoss)))
    /\ (forall w st,
          marketId w = Some m -> ReentryArmed m p st ->
          getCurrentEntryRange cfg w st
          = ({| rMin := Qmax 0.01 (p - reentryBuffer cfg);
                rMax := p + reentryBuffer cfg |}, st))
    /\ (forall calls st,
          ReentryArmed m p st -> open st = None ->
          FlatThrough cfg m calls st ->
          ReentryArmed m p (runTicks cfg calls st)
          /\ open (runTicks cfg calls st) = None)
    /\ (forall w orc st o,
          marketId w = Some m -> ReentryArmed m p st -> open st = None ->
          open (onOrderbooks cfg w orc st) = Some o ->
          lastExitType (iState (onOrderbooks cfg w orc st)) = None
          /\ requireReentryUntilResolved
               (iState (onOrderbooks cfg w orc st)) = false
          /\ fst (getCurrentEntryRange cfg w (onOrderbooks cfg w orc st))
             = defaultRange cfg).
Proof.
  intros cfg m p Ht.
  split; [|split; [|split; [|split]]].
  - intros st o sellFill Hm Hp.
    apply (executePaperSell_arms cfg st o sellFill m p Hm Hp).
  - intros w st orc o tokenId proceedsUsdc Hm Ho Hclosed.
    apply (executeLiveSell_arms cfg w st orc o tokenId p proceedsUsdc m
             Hm Ho Hclosed).
  - intros w st Hw Harm.
    apply (getCurrentEntryRange_armed cfg w st m p Hw Ht Harm).
  - intros calls.
    induction calls as [|[w orc] rest IH]; intros st Harm Ho Hflat.
    + cbn. auto.
    + cbn [runTicks]. cbn [FlatThrough] in Hflat.
      destruct Hflat as (Hw & Hnone & Hrest).
      destruct Harm as (Hm & He & Hp).
      destruct (onOrderbooks_flat_cases cfg w orc st m Hw Ht Hm Ho)
        as [(_ & Hi & _)|(o & Hop & _)]; [|congruence].
      apply IH; [|exact Hnone|exact Hrest].
      unfold ReentryArmed. rewrite Hi. auto.
  - intros w orc st o Hw (Hm & He & Hp) Ho Hop.
    destruct (onOrderbooks_flat_cases cfg w orc st m Hw Ht Hm Ho)
      as [(Hnone & _)|(o' & _ & Hi)]; [congruence|].
    rewrite Hi. cbn [afterEntry lastExitType requireReentryUntilResolved].
    split; [reflexivity|]. split; [reflexivity|].
    apply (getCurrentEntryRange_after_entry cfg w _ m Hw Ht);
      rewrite Hi; [exact Hm | reflexivity].
Qed.

(** The ten Up shares stopped out at 0.745: the band asked for is
    0.73-0.76; one call of the handler later it still is; the next call
    buys Down inside that band, and the band is the default one again. *)
Lemma C7_reentry_band_witness :
  exists p,
    p == 0.745
    /\ ReentryArmed "m1" p stoppedOut
    /\ rMin (fst (getCurrentEntryRange defaultConfig afterFallWorld
                    stoppedOut)) == 0.73
    /\ rMax (fst (getCurrentEntryRange defaultConfig afterFallWorld
                    stoppedOut)) == 0.76
    /\ ReentryArmed "m1" p
         (runTicks defaultConfig [(flipWorld, silentOracle)] stoppedOut)
    /\ (exists o,
          open (runTicks defaultConfig
                  [(flipWorld, silentOracle); (flipWorld, silentOracle)]
                  stoppedOut) = Some o
          /\ oSide o = Down)
    /\ fst (getCurrentEntryRange defaultConfig flipWorld
              (runTicks defaultConfig
                 [(flipWorld, silentOracle); (flipWorld, silentOracle)]
                 stoppedOut))
       = defaultRange defaultConfig.
Proof.
  destruct (proceedsFromSellingSharesToBidsReal defaultConfig
              (upBidsLevels afterFallWorld) 10 (Some 0.745)) as [f|] eqn:Hf;
    [|vm_compute in Hf; discriminate].
  destruct (sfrAvgPrice f) as [p|] eqn:Hp;
    [|vm_compute in Hf; injection Hf as <-; discriminate].
  destruct (open heldUp) as [o|] eqn:Ho; [|discriminate].
  destruct (C7_reentry_band defaultConfig "m1"%string p eq_refl)
    as (Hsell & _ & Hband & Hkeep & Hclear).
  assert (Harm : ReentryArmed "m1" p stoppedOut).
  { unfold stoppedOut. rewrite Hf, Ho.
    apply Hsell; [reflexivity | exact Hp]. }
  assert (Hpv : p == 0.745).
  { vm_compute in Hf. injection Hf as <-. vm_compute in Hp.
    injection Hp as <-. reflexivity. }
  assert (Hflat : open stoppedOut = None) by reflexivity.
  exists p. split; [exact Hpv|]. split; [exact Harm|].
  rewrite (Hband afterFallWorld stoppedOut eq_refl Harm).
  cbn [fst rMin rMax].
  split.
  { destruct (Qmax_cases 0.01 (p - reentryBuffer defaultConfig))
      as [[Hle ->]|[_ ->]].
    - exfalso. rewrite Hpv in Hle. vm_compute in Hle. apply Hle. reflexivity.
    - rewrite Hpv. reflexivity. }
  split; [rewrite Hpv; reflexivity|].
  destruct (Hkeep [(flipWorld, silentOracle)] stoppedOut Harm Hflat)
    as [Harm1 Hflat1].
  { cbn [FlatThrough]. split; [reflexivity|]. split; [|exact I].
    vm_compute. reflexivity. }
  split; [exact Harm1|].
  cbn [runTicks] in *.
  destruct (open (onOrderbooks defaultConfig flipWorld silentOracle
                    (onOrderbooks defaultConfig flipWorld silentOracle
                       stoppedOut))) as [o2|] eqn:Ho2;
    [|vm_compute in Ho2; discriminate].
  destruct (Hclear flipWorld silentOracle _ o2 eq_refl Harm1 Hflat1 Ho2)
    as (_ & _ & Hdef).
  split; [|exact Hdef].
  exists o2. split; [reflexivity|].
  vm_compute in Ho2. injection Ho2 as <-. reflexivity.
Defined.

(** ** The lag mode *)

Import Lag.

Lemma computeMarkPrice_pos bid ask :
  0 < ask -> 0 < computeMarkPrice bid ask.
Proof.
  intros Ha. unfold computeMarkPrice.
  assert (E : Qgtb ask 0 = true) by (apply Qgtb_true, Ha).
  rewrite E.
  destruct (Qgtb bid 0) eqn:Eb; cbn [andb]; [|exact Ha].
  qbool. apply Qlt_shift_div_l; [reflexivity | lra].
Qed.

Lemma feedDisagreementUsd_hard cfg w :
  HardDisagreement cfg w ->
  exists d, feedDisagreementUsd cfg w = Some d
            /\ LAG_FEED_DISAGREE_USD_HARD cfg < d.
Proof.
  intros (Hsrc & b & c & bAge & cAge & Hb & Hc & Hbp & Hcp & Hba & Hca
          & Hbf & Hcf & Hd).
  unfold feedDisagreementUsd. rewrite Hsrc, Hb, Hc.
  assert (E1 : Qgtb b 0 = true) by (apply Qgtb_true, Hbp).
  assert (E2 : Qgtb c 0 = true) by (apply Qgtb_true, Hcp).
  rewrite E1, E2. cbn [negb orb]. rewrite Hba, Hca.
  assert (E3 : (LAG_BINANCE_MAX_AGE_MS cfg <? bAge)%Z = false)
    by (apply Z.ltb_ge; exact Hbf).
  assert (E4 : (LAG_CHAINLINK_MAX_AGE_MS cfg <? cAge)%Z = false)
    by (apply Z.ltb_ge; exact Hcf).
  rewrite E3, E4. exists (Qabs (b - c)). split; [reflexivity | exact Hd].
Qed.

Section LagFacts.
Context {Learned : Type}.
Variable tail : Config -> LagWorld -> @LagState Learned -> @LagState Learned.

Lemma pushSpotSample_keeps cfg w (st : @LagState Learned) spot :
  lagOpen (pushSpotSample cfg w st spot) = lagOpen st
  /\ paperBalance (pushSpotSample cfg w st spot) = paperBalance st.
Proof.
  unfold pushSpotSample.
  destruct (negb (Qgtb spot 0)); [auto|].
  destruct (match List.last _ None with Some _ => _ | None => _ end);
    cbn; auto.
Qed.

(** On a delivered snapshot with the feeds far apart, the signal step
    ends in its hard stop. *)
Lemma evalLagSignal_hard cfg w (st : @LagState Learned) :
  Delivered (base w) -> HardDisagreement cfg w ->
  sug (evalLagSignal tail cfg w st)
  = {| signal := Some LAG; suggestedSide := None; suggestedSpend := None;
       suggestedShares := None; suggestedLimitPrice := None;
       spotDeltaUsd := None; sideMarketMove01 := None |}
  /\ lagOpen (evalLagSignal tail cfg w st) = lagOpen st
  /\ paperBalance (evalLagSignal tail cfg w st) = paperBalance st.
Proof.
  intros ((spot & Hspot & Hsp) & (u & Hu & Hua & Hum) & (d & Hd & Hda & Hdm))
         Hhard.
  destruct (feedDisagreementUsd_hard cfg w Hhard) as (x & Hx & Hgt).
  unfold evalLagSignal. rewrite Hspot, Hu, Hd, Hx.
  assert (E1 : Qgtb spot 0 = true) by (apply Qgtb_true, Hsp).
  assert (E2 : Qgtb (mark u) 0 = true)
    by (apply Qgtb_true; rewrite Hum; apply computeMarkPrice_pos, Hua).
  assert (E3 : Qgtb (mark d) 0 = true)
    by (apply Qgtb_true; rewrite Hdm; apply computeMarkPrice_pos, Hda).
  assert (E4 : Qgtb x (LAG_FEED_DISAGREE_USD_HARD cfg) = true)
    by (apply Qgtb_true, Hgt).
  rewrite E1, E2, E3, E4. cbn [negb orb].
  destruct (pushSpotSample_keeps cfg w st spot) as [A B].
  cbn. auto.
Qed.

(** Leaving never opens, and never touches the suggestion. *)
Lemma maybeExitLag_keeps cfg w (st : @LagState Learned) ans :
  sug (maybeExitLag cfg w st ans) = sug st
  /\ (lagOpen st = None -> lagOpen (maybeExitLag cfg w st ans) = None)
  /\ NoNewPosition (lagOpen st) (lagOpen (maybeExitLag cfg w st ans)).
Proof.
  unfold maybeExitLag, NoNewPosition.
  destruct (lagOpen st) as [o|] eqn:Ho; [|rewrite Ho; auto].
  assert (Hsame : sug st = sug st /\ (Some o = None -> lagOpen st = None)
                  /\ (lagOpen st = None
                      \/ exists o0 n, Some o = Some o0
                                      /\ lagOpen st = Some (withStopHits o0 n))).
  { split; [reflexivity|]. split; [discriminate|]. right.
    exists o, (stopHits o). split; [reflexivity|]. rewrite Ho.
    destruct o; reflexivity. }
  destruct (tokenMismatch w o); [exact Hsame|].
  destruct (summaryOf w (lSide o)) as [book|]; [|exact Hsame].
  destruct (negb (Qgtb (bestBid book) 0)); [exact Hsame|].
  clear Hsame.
  match goal with |- context [withOpen st (Some ?x)] => set (o1 := x) end.
  assert (Ho1 : exists n, o1 = withStopHits o n)
    by (unfold o1; destruct (_ && _); eexists; reflexivity).
  destruct Ho1 as (n & Ho1).
  assert (Hkeep : forall s : @LagState Learned,
             lagOpen s = Some o1 -> sug s = sug st ->
             sug s = sug st /\ (Some o = None -> lagOpen s = None)
             /\ (lagOpen s = None
                 \/ exists o0 n0, Some o = Some o0
                                  /\ lagOpen s = Some (withStopHits o0 n0))).
  { intros s Hs Hg. split; [exact Hg|]. split; [discriminate|].
    right. exists o, n. rewrite Hs, Ho1. auto. }
  destruct (negb _ && negb _); [apply Hkeep; reflexivity|].
  destruct (proceedsFromSellingSharesToBids _ _ _ _) as [est|];
    [|apply Hkeep; reflexivity].
  destruct (PAPER_TRADING w).
  - destruct (Qgeb (bestBid book) (sellPrice o)); cbn; auto.
  - destruct (negb (ENABLE_LIVE_ORDERS w)); [apply Hkeep; reflexivity|].
    destruct (executeLiveLagExit w (lTokenId o) ans);
      try (apply Hkeep; reflexivity).
    destruct (Qgeb (bestBid book) (sellPrice o)); cbn; auto.
Qed.

(** Without a suggested side nothing is entered. *)
Lemma maybeExecuteLag_no_side cfg w (st : @LagState Learned) ans :
  suggestedSide (sug st) = None -> maybeExecuteLag cfg w st ans = st.
Proof.
  intros H. unfold maybeExecuteLag.
  destruct (lagOpen st); [reflexivity|].
  destruct (signal (sug st)) as [[]|]; [|reflexivity].
  rewrite H. reflexivity.
Qed.

(** One call of the handler under a hard disagreement. *)
Lemma onOrderbooks_hard cfg w ans (st : @LagState Learned) :
  Delivered (base w) -> HardDisagreement cfg w ->
  suggestedSide (sug (onOrderbooks tail cfg w ans st)) = None
  /\ suggestedShares (sug (onOrderbooks tail cfg w ans st)) = None
  /\ suggestedLimitPrice (sug (onOrderbooks tail cfg w ans st)) = None
  /\ NoNewPosition (lagOpen st) (lagOpen (onOrderbooks tail cfg w ans st))
  /\ (lagOpen st = None -> lagOpen (onOrderbooks tail cfg w ans st) = None).
Proof.
  intros Hdel Hhard. unfold onOrderbooks.
  destruct (evalLagSignal_hard cfg w st Hdel Hhard) as (Hsug & Hopen & _).
  destruct (maybeExitLag_keeps cfg (base w) (evalLagSignal tail cfg w st)
              (exitAnswer ans)) as (Hsug2 & Hnone2 & Hnew2).
  rewrite maybeExecuteLag_no_side by (rewrite Hsug2, Hsug; reflexivity).
  rewrite Hsug2, Hsug. cbn [suggestedSide suggestedShares suggestedLimitPrice].
  rewrite Hopen in Hnew2, Hnone2. auto.
Qed.

End LagFacts.

(** C8.  On every call of the lag handler with a snapshot as the engine
    delivers it (valid spot price, both best asks positive) on which the
    Binance and Chainlink feeds, both fresh under the automatic source,
    lie further apart than the hard threshold: the suggested side, shares
    and limit price are cleared and no position is opened, in simulation
    and live, whatever the rest of the signal model would have done; and
    over any run of such calls an account without a position stays
    without one. *)
Theorem C8_hard_disagreement_blocks_entries :
  forall (Learned : Type)
         (tail : Config -> LagWorld -> @LagState Learned -> @LagState Learned)
         cfg,
    (forall w ans st,
        Delivered (base w) -> HardDisagreement cfg w ->
        suggestedSide (sug (onOrderbooks tail cfg w ans st)) = None
        /\ suggestedShares (sug (onOrderbooks tail cfg w ans st)) = None
        /\ suggestedLimitPrice (sug (onOrderbooks tail cfg w ans st)) = None
        /\ NoNewPosition (lagOpen st)
             (lagOpen (onOrderbooks tail cfg w ans st)))
    /\ (forall calls st,
          Forall (fun c => Delivered (base (fst c))
                           /\ HardDisagreement cfg (fst c)) calls ->
          lagOpen st = None ->
          lagOpen (runLag tail cfg calls st) = None).
Proof.
  intros Learned tail cfg. split.
  - intros w ans st Hdel Hhard.
    destruct (onOrderbooks_hard tail cfg w ans st Hdel Hhard)
      as (A & B & C & D & _). auto.
  - intros calls. induction calls as [|[w ans] rest IH]; intros st Hall Hnone.
    + exact Hnone.
    + cbn [runLag]. inversion Hall as [|? ? [Hdel Hhard] Hrest]; subst.
      cbn [fst] in *. apply IH; [exact Hrest|].
      destruct (onOrderbooks_hard tail cfg w ans st Hdel Hhard)
        as (_ & _ & _ & _ & E). apply E, Hnone.
Qed.

(** ** Paying for an entry *)

Lemma maybeExecuteLag_paper {Learned : Type} cfg w (st : @LagState Learned)
  ans :
  PAPER_TRADING w = true ->
  (lagOpen (maybeExecuteLag cfg w st ans) = lagOpen st
   /\ paperBalance (maybeExecuteLag cfg w st ans) = paperBalance st)
  \/ (lagOpen st = None
      /\ exists side shares fee fill o,
           suggestedSide (sug st) = Some side
           /\ suggestedShares (sug st) = Some shares
           /\ feeOf w side = Some fee
           /\ costToBuySharesFromAsks (asksOf w side) shares fee = Some fill
           /\ cost fill <= paperBalance st
           /\ lagOpen (maybeExecuteLag cfg w st ans) = Some o
           /\ lShares o = shares
           /\ paperBalance (maybeExecuteLag cfg w st ans)
              = paperBalance st + - cost fill).
Proof.
  intros Hpaper. unfold maybeExecuteLag. rewrite Hpaper.
  repeat match goal with
  | |- context [match ?x with _ => _ end] =>
      destruct x eqn:?; try solve [left; cbn; auto]
  end.
  right. split; [reflexivity|].
  cbn in *.
  match goal with
  | Hfee : feeOf w ?side = Some ?fee,
    Hfill : costToBuySharesFromAsks (asksOf w ?side) ?sh ?fee = Some ?fill,
    Hbal : Qgtb (cost ?fill) _ = false |- _ =>
      exists side, sh, fee, fill; eexists; qbool;
      repeat split; try eassumption; try reflexivity
  end.
Qed.

(** With the feeds together the repeated suggestion is executed on this
    call: ten Up shares are bought for 4. *)
Example lag_enters_when_feeds_agree :
  exists o,
    lagOpen (onOrderbooks repeatSuggestion defaultConfig feedsTogether
               bothConfirmed (suggestedUp 20)) = Some o
    /\ lShares o == 10.
Proof. vm_compute. eexists. split; reflexivity. Qed.

(** With the feeds 200 apart the same call clears the suggestion and buys
    nothing. *)
Lemma C8_hard_disagreement_witness :
  suggestedSide (sug (onOrderbooks repeatSuggestion defaultConfig feedsApart
                        bothConfirmed (suggestedUp 20))) = None
  /\ suggestedShares (sug (onOrderbooks repeatSuggestion defaultConfig
                             feedsApart bothConfirmed (suggestedUp 20)))
     = None
  /\ suggestedLimitPrice (sug (onOrderbooks repeatSuggestion defaultConfig
                                 feedsApart bothConfirmed (suggestedUp 20)))
     = None
  /\ lagOpen (runLag repeatSuggestion defaultConfig
                [(feedsApart, bothConfirmed); (feedsApart, bothConfirmed)]
                (suggestedUp 20)) = None.
Proof.
  destruct (C8_hard_disagreement_blocks_entries unit repeatSuggestion
              defaultConfig) as [Hone Hrun].
  assert (Hdel : Delivered (base feedsApart)).
  { unfold Delivered. cbn.
    split; [eexists; split; [reflexivity | reflexivity]|].
    split; eexists; (split; [reflexivity|]); split; reflexivity. }
  assert (Hhard : HardDisagreement defaultConfig feedsApart).
  { unfold HardDisagreement. split; [reflexivity|].
    exists 100000, 100200, 1000%Z, 10000%Z. cbn.
    repeat split; try reflexivity; try discriminate. }
  destruct (Hone feedsApart bothConfirmed (suggestedUp 20) Hdel Hhard)
    as (A & B & C & _).
  split; [exact A|]. split; [exact B|]. split; [exact C|].
  apply Hrun; [|reflexivity].
  apply Forall_cons; [split; assumption|].
  apply Forall_cons; [split; assumption|].
  apply Forall_nil.
Defined.

(** C10.  In simulation each entry compares what it is about to pay with
    the balance first.  The straddle, with its two-leg cost: a cost above
    the balance changes nothing.  The lag entry, with the fee-inclusive
    cost of the suggested shares: a cost above the balance leaves the
    position and the balance as they were.  The certainty buy, with the
    fee-inclusive cost plus the order gas: a total above the balance
    changes nothing.  In all three a balance that is not negative before
    the entry is not negative after it. *)
Theorem C10_paper_entries_within_balance :
  (forall w st n c,
      (Arbitrage.paperBalance st < c -> executePaperStraddle w st n c = st)
      /\ (0 <= Arbitrage.paperBalance st ->
          0 <= Arbitrage.paperBalance (executePaperStraddle w st n c)))
  /\ (forall (Learned : Type) cfg w (st : @LagState Learned) ans,
        PAPER_TRADING w = true ->
        (forall side shares fee fill,
            suggestedSide (sug st) = Some side ->
            suggestedShares (sug st) = Some shares ->
            feeOf w side = Some fee ->
            costToBuySharesFromAsks (asksOf w side) shares fee = Some fill ->
            Lag.paperBalance st < cost fill ->
            lagOpen (maybeExecuteLag cfg w st ans) = lagOpen st
            /\ Lag.paperBalance (maybeExecuteLag cfg w st ans)
               = Lag.paperBalance st)
        /\ (0 <= Lag.paperBalance st ->
            0 <= Lag.paperBalance (maybeExecuteLag cfg w st ans)))
  /\ (forall cfg w st tid side tok sh fill mx cap,
        (Certainty.paperBalance st < fCost fill + ORDER_GAS_USDC cfg ->
         executePaperBuy cfg w st tid side tok sh (Some fill) mx cap = st)
        /\ (0 <= Certainty.paperBalance st ->
            0 <= Certainty.paperBalance
                   (executePaperBuy cfg w st tid side tok sh (Some fill)
                      mx cap))).
Proof.
  split; [|split].
  - intros w st n c.
    destruct (executePaperStraddle_cases w st n c)
      as [E|(_ & _ & Hle & Hbal & _)].
    + rewrite E. auto.
    + split; [intros Hlt; lra | intros _; rewrite Hbal; lra].
  - intros Learned cfg w st ans Hpaper.
    destruct (maybeExecuteLag_paper cfg w st ans Hpaper)
      as [(Ho & Hb)|(_ & side & shares & fee & fill & o & Hs & Hsh & Hf & Hfill
                     & Hle & _ & _ & Hbal)].
    + rewrite Ho, Hb. auto.
    + split.
      * intros side' shares' fee' fill' Hs' Hsh' Hf' Hfill' Hlt.
        rewrite Hs in Hs'. injection Hs' as <-.
        rewrite Hsh in Hsh'. injection Hsh' as <-.
        rewrite Hf in Hf'. injection Hf' as <-.
        rewrite Hfill in Hfill'. injection Hfill' as <-.
        lra.
      * intros _. rewrite Hbal. lra.
  - intros cfg w st tid side tok sh fill mx cap.
    destruct (executePaperBuy_cases cfg w st tid side tok sh (Some fill)
                mx cap)
      as [E|(f & o & Hf & _ & Hle & _ & _ & Hbal & _)].
    + rewrite E. auto.
    + injection Hf as <-.
      split; [intros Hlt; lra | intros _; rewrite Hbal; lra].
Qed.

(** A straddle of 9.50 against 5, ten Up shares for 4 against 3, and a
    certainty buy of 8.24 against 8: none goes through; against 20 each
    leaves a balance that is not negative. *)
Lemma C10_paper_entries_witness :
  executePaperStraddle paperStraddleWorld (idleArbState 5) 10 9.5
  = idleArbState 5
  /\ 0 <= Arbitrage.paperBalance
            (executePaperStraddle paperStraddleWorld (idleArbState 20) 10 9.5)
  /\ lagOpen (maybeExecuteLag defaultConfig paperStraddleWorld (suggestedUp 3)
                Confirmed) = None
  /\ 0 <= Lag.paperBalance
            (maybeExecuteLag defaultConfig paperStraddleWorld (suggestedUp 20)
               Confirmed)
  /\ executePaperBuy Certainty.defaultConfig risingWorld
       (Certainty.withBalance warmedUp 8) 1 Up (Some "up"%string) 10
       (Some (mkFill 10 8.1 0.14 8.24 0.81 0.81)) 0.82 8
     = Certainty.withBalance warmedUp 8.
Proof.
  destruct C10_paper_entries_within_balance as (Harb & Hlag & Hcert).
  split; [|split; [|split; [|split]]].
  - apply (proj1 (Harb paperStraddleWorld (idleArbState 5) 10%Z 9.5)).
    reflexivity.
  - apply (proj2 (Harb paperStraddleWorld (idleArbState 20) 10%Z 9.5)).
    discriminate.
  - destruct (Hlag unit defaultConfig paperStraddleWorld (suggestedUp 3)
                Confirmed eq_refl) as [Hno _].
    destruct (costToBuySharesFromAsks (asksOf paperStraddleWorld Up) 10 0)
      as [fill|] eqn:Hfill; [|vm_compute in Hfill; discriminate].
    apply (Hno Up 10 0 fill eq_refl eq_refl eq_refl Hfill).
    vm_compute in Hfill. injection Hfill as <-. reflexivity.
  - destruct (Hlag unit defaultConfig paperStraddleWorld (suggestedUp 20)
                Confirmed eq_refl) as [_ Hpos].
    apply Hpos. discriminate.
  - apply (proj1 (Hcert Certainty.defaultConfig risingWorld
                    (Certainty.withBalance warmedUp 8) 1%Z Up
                    (Some "up"%string) 10
                    (mkFill 10 8.1 0.14 8.24 0.81 0.81) 0.82 8)).
    reflexivity.
Defined.

(** * Further properties of the code *)

(** ** Sorting the books *)

Lemma insertLevel_perm ord x l :
  Permutation (x :: l) (Refresh.insertLevel ord x l).
Proof.
  induction l as [|y rest IH]; cbn.
  - apply Permutation_refl.
  - destruct (ord x y).
    + apply Permutation_refl.
    + eapply Permutation_trans; [apply perm_swap|].
      apply perm_skip, IH.
Qed.

Lemma sortLevels_perm ord l : Permutation l (Refresh.sortLevels ord l).
Proof.
  induction l as [|x rest IH]; cbn.
  - apply Permutation_refl.
  - eapply Permutation_trans; [apply perm_skip, IH|].
    apply insertLevel_perm.
Qed.

Section Sorting.
Variable ord : Level -> Level -> bool.
Variable R : Level -> Level -> Prop.
Hypothesis ord_true : forall a b, ord a b = true -> R a b.
Hypothesis ord_false : forall a b, ord a b = false -> R b a.
Hypothesis R_trans : forall a b c, R a b -> R b c -> R a c.

Lemma insertLevel_sorted x l :
  StronglySorted R l -> StronglySorted R (Refresh.insertLevel ord x l).
Proof.
  induction 1 as [|y rest Hs IH Hall]; cbn.
  - repeat constructor.
  - destruct (ord x y) eqn:E.
    + constructor; [constructor; assumption|].
      constructor; [apply ord_true, E|].
      apply ord_true in E.
      eapply Forall_impl; [|exact Hall]. intros z Hz. eauto.
    + constructor; [exact IH|].
      apply ord_false in E.
      eapply Permutation_Forall; [apply insertLevel_perm|].
      constructor; assumption.
Qed.

Lemma sortLevels_sorted l : StronglySorted R (Refresh.sortLevels ord l).
Proof.
  induction l as [|x rest IH]; cbn.
  - constructor.
  - apply insertLevel_sorted, IH.
Qed.

End Sorting.

Lemma askOrder_sorted l : Ascending (Refresh.sortLevels Refresh.askOrder l).
Proof.
  apply sortLevels_sorted.
  - intros a b H. apply Qleb_true, H.
  - intros a b H. apply Qleb_false in H. apply Qlt_le_weak, H.
  - intros a b c. apply Qle_trans.
Qed.

Lemma bidOrder_sorted l : Descending (Refresh.sortLevels Refresh.bidOrder l).
Proof.
  apply sortLevels_sorted.
  - intros a b H. apply Qleb_true, H.
  - intros a b H. apply Qleb_false in H. apply Qlt_le_weak, H.
  - intros a b c H1 H2. eapply Qle_trans; eassumption.
Qed.

(** Levels of one price stay in the order they came in. *)
Lemma insertLevel_stable ord p x l :
  (forall a b, ord a b = false -> ~ price a == price b) ->
  filter (fun l => Qeq_bool (price l) p) (Refresh.insertLevel ord x l)
  = filter (fun l => Qeq_bool (price l) p) (x :: l).
Proof.
  intros Hord. induction l as [|y rest IH].
  - reflexivity.
  - cbn [Refresh.insertLevel]. destruct (ord x y) eqn:E; [reflexivity|].
    cbn [filter]. rewrite IH. cbn [filter].
    destruct (Qeq_bool (price y) p) eqn:Ey;
      destruct (Qeq_bool (price x) p) eqn:Ex; try reflexivity.
    exfalso. apply (Hord _ _ E).
    apply Qeq_bool_iff in Ex, Ey. rewrite Ex, Ey. reflexivity.
Qed.

Lemma sortLevels_stable ord p l :
  (forall a b, ord a b = false -> ~ price a == price b) ->
  filter (fun l => Qeq_bool (price l) p) (Refresh.sortLevels ord l)
  = filter (fun l => Qeq_bool (price l) p) l.
Proof.
  intros Hord. induction l as [|x rest IH].
  - reflexivity.
  - cbn [Refresh.sortLevels fold_right].
    fold (Refresh.sortLevels ord rest).
    rewrite (insertLevel_stable ord p x _ Hord).
    cbn [filter]. rewrite IH. reflexivity.
Qed.

Lemma askOrder_strict a b :
  Refresh.askOrder a b = false -> ~ price a == price b.
Proof.
  unfold Refresh.askOrder. intros H E. apply Qleb_false in H.
  rewrite E in H. apply (Qlt_irrefl _ H).
Qed.

Lemma bidOrder_strict a b :
  Refresh.bidOrder a b = false -> ~ price a == price b.
Proof.
  unfold Refresh.bidOrder. intros H E. apply Qleb_false in H.
  rewrite E in H. apply (Qlt_irrefl _ H).
Qed.

Lemma sortBidsAsksFromBook_sides book :
  Permutation (Refresh.normalizeLevels (Refresh.rawBids book))
    (fst (Refresh.sortBidsAsksFromBook book))
  /\ Permutation (Refresh.normalizeLevels (Refresh.rawAsks book))
       (snd (Refresh.sortBidsAsksFromBook book))
  /\ Descending (fst (Refresh.sortBidsAsksFromBook book))
  /\ Ascending (snd (Refresh.sortBidsAsksFromBook book)).
Proof.
  unfold Refresh.sortBidsAsksFromBook. cbn [fst snd].
  split; [apply sortLevels_perm|].
  split; [apply sortLevels_perm|].
  split; [apply bidOrder_sorted|apply askOrder_sorted].
Qed.

(** X1.  [sortBidsAsksFromBook] returns, for each side, exactly the levels
    of the exchange whose price and size are numbers: the asks by rising
    price, the bids by falling price, and levels of one price in the order
    the exchange sent them. *)
Theorem X1_sortBidsAsksFromBook_sorts :
  forall book,
    Permutation (Refresh.normalizeLevels (Refresh.rawBids book))
      (fst (Refresh.sortBidsAsksFromBook book))
    /\ Permutation (Refresh.normalizeLevels (Refresh.rawAsks book))
         (snd (Refresh.sortBidsAsksFromBook book))
    /\ Descending (fst (Refresh.sortBidsAsksFromBook book))
    /\ Ascending (snd (Refresh.sortBidsAsksFromBook book))
    /\ (forall p,
          filter (fun l => Qeq_bool (price l) p)
            (fst (Refresh.sortBidsAsksFromBook book))
          = filter (fun l => Qeq_bool (price l) p)
              (Refresh.normalizeLevels (Refresh.rawBids book)))
    /\ (forall p,
          filter (fun l => Qeq_bool (price l) p)
            (snd (Refresh.sortBidsAsksFromBook book))
          = filter (fun l => Qeq_bool (price l) p)
              (Refresh.normalizeLevels (Refresh.rawAsks book))).
Proof.
  intros book.
  destruct (sortBidsAsksFromBook_sides book) as (Pb & Pa & Sb & Sa).
  split; [exact Pb|]. split; [exact Pa|].
  split; [exact Sb|]. split; [exact Sa|].
  unfold Refresh.sortBidsAsksFromBook. cbn [fst snd].
  split; intros p.
  - apply sortLevels_stable, bidOrder_strict.
  - apply sortLevels_stable, askOrder_strict.
Qed.

Lemma Descending_head l rest :
  Descending (l :: rest) -> forall x, In x (l :: rest) -> price x <= price l.
Proof.
  intros H x [<-|Hin]; [apply Qle_refl|].
  inversion H as [|? ? _ Hall]; subst.
  rewrite Forall_forall in Hall. apply Hall, Hin.
Qed.

(** What the summary of a book reads off its sorted sides. *)
Lemma summarizeOrderbook_best book :
  let s := Refresh.figures (Refresh.summarizeOrderbook book) in
  let bids := Refresh.normalizeLevels (Refresh.rawBids book) in
  let asks := Refresh.normalizeLevels (Refresh.rawAsks book) in
  (asks = [] -> bestAsk s = 0)
  /\ (asks <> [] ->
      (exists l, In l asks /\ bestAsk s = price l)
      /\ forall l, In l asks -> bestAsk s <= price l)
  /\ (bids = [] -> bestBid s = 0)
  /\ (bids <> [] ->
      (exists l, In l bids /\ bestBid s = price l)
      /\ forall l, In l bids -> price l <= bestBid s)
  /\ mark s = computeMarkPrice (bestBid s) (bestAsk s).
Proof.
  cbv zeta. unfold Refresh.summarizeOrderbook, Refresh.sortBidsAsksFromBook.
  cbn [Refresh.figures BookMath.summarizeOrderbook bestAsk bestBid mark].
  set (bids := Refresh.normalizeLevels (Refresh.rawBids book)).
  set (asks := Refresh.normalizeLevels (Refresh.rawAsks book)).
  pose proof (sortLevels_perm Refresh.askOrder asks) as Pa.
  pose proof (sortLevels_perm Refresh.bidOrder bids) as Pb.
  pose proof (askOrder_sorted asks) as Sa.
  pose proof (bidOrder_sorted bids) as Sb.
  split; [|split; [|split; [|split]]].
  - intros E. rewrite E. reflexivity.
  - intros Hne.
    destruct (Refresh.sortLevels Refresh.askOrder asks) as [|a rest] eqn:E.
    + apply Permutation_sym, Permutation_nil in Pa. contradiction.
    + split.
      * exists a. split; [|reflexivity].
        eapply Permutation_in; [apply Permutation_sym, Pa|]. left; reflexivity.
      * intros l Hl. apply (Ascending_head a rest Sa).
        eapply Permutation_in; [apply Pa|exact Hl].
  - intros E. rewrite E. reflexivity.
  - intros Hne.
    destruct (Refresh.sortLevels Refresh.bidOrder bids) as [|b rest] eqn:E.
    + apply Permutation_sym, Permutation_nil in Pb. contradiction.
    + split.
      * exists b. split; [|reflexivity].
        eapply Permutation_in; [apply Permutation_sym, Pb|]. left; reflexivity.
      * intros l Hl. apply (Descending_head b rest Sb).
        eapply Permutation_in; [apply Pb|exact Hl].
  - reflexivity.
Qed.

(** X2.  [summarizeOrderbook] reports as best ask the lowest price among
    the asks of the exchange that carry a numeric price and size, and as
    best bid the highest price among such bids, in whatever order the
    exchange lists them; a side without such a level is reported as 0.
    It keeps the five best levels of each side. *)
Theorem X2_summarizeOrderbook_best_prices :
  forall book,
    let sum := Refresh.summarizeOrderbook book in
    let bids := Refresh.normalizeLevels (Refresh.rawBids book) in
    let asks := Refresh.normalizeLevels (Refresh.rawAsks book) in
    (asks = [] -> bestAsk (Refresh.figures sum) = 0)
    /\ (asks <> [] ->
        (exists l, In l asks /\ bestAsk (Refresh.figures sum) = price l)
        /\ forall l, In l asks -> bestAsk (Refresh.figures sum) <= price l)
    /\ (bids = [] -> bestBid (Refresh.figures sum) = 0)
    /\ (bids <> [] ->
        (exists l, In l bids /\ bestBid (Refresh.figures sum) = price l)
        /\ forall l, In l bids -> price l <= bestBid (Refresh.figures sum))
    /\ Refresh.topAsks sum
       = firstn 5 (snd (Refresh.sortBidsAsksFromBook book))
    /\ Refresh.topBids sum
       = firstn 5 (fst (Refresh.sortBidsAsksFromBook book))
    /\ (List.length (Refresh.topAsks sum) <= 5)%nat
    /\ (List.length (Refresh.topBids sum) <= 5)%nat.
Proof.
  intros book. cbv zeta.
  destruct (summarizeOrderbook_best book) as (A & B & C & D & _).
  repeat split; try assumption;
    try (apply B; assumption); try (apply D; assumption).
  - unfold Refresh.summarizeOrderbook, Refresh.sortBidsAsksFromBook.
    cbn [Refresh.topAsks]. apply firstn_le_length.
  - unfold Refresh.summarizeOrderbook, Refresh.sortBidsAsksFromBook.
    cbn [Refresh.topBids]. apply firstn_le_length.
Qed.

(** A book sent out of order, its best ask 0.40 and best bid 0.39. *)
Lemma X2_summarizeOrderbook_witness :
  bestAsk (Refresh.figures (Refresh.summarizeOrderbook Vocab.shuffledBook))
  <= 0.45
  /\ 0.38 <= bestBid (Refresh.figures
                        (Refresh.summarizeOrderbook Vocab.shuffledBook)).
Proof.
  destruct (X2_summarizeOrderbook_best_prices Vocab.shuffledBook)
    as (_ & A & _ & B & _).
  split.
  - apply (proj2 (A ltac:(discriminate)) (mkLevel 0.45 100)).
    left. reflexivity.
  - apply (proj2 (B ltac:(discriminate)) (mkLevel 0.38 10)).
    left. reflexivity.
Defined.

(** X3.  When [refreshOrderbooks] calls the handler of the mode, the
    snapshot it has stored holds, for Up and for Down, asks by rising
    price and bids by falling price, a best ask that is positive and is
    the lowest ask price, a best bid that no bid exceeds, and a positive
    mark computed from the two; and the two best asks are not both above
    0.90.  Everything else of the snapshot is as it was. *)
Theorem X3_refreshOrderbooks_hands_over_sorted_books :
  forall w upBook downBook w',
    Refresh.refreshOrderbooks w upBook downBook = (w', true) ->
    Ascending (upAsksLevels w') /\ Descending (upBidsLevels w')
    /\ Ascending (downAsksLevels w') /\ Descending (downBidsLevels w')
    /\ (exists u d,
          up w' = Some u /\ down w' = Some d
          /\ 0 < bestAsk u /\ 0 < bestAsk d
          /\ ~ (0.9 < bestAsk u /\ 0.9 < bestAsk d)
          /\ (forall l, In l (upAsksLevels w') -> bestAsk u <= price l)
          /\ (forall l, In l (downAsksLevels w') -> bestAsk d <= price l)
          /\ (forall l, In l (upBidsLevels w') -> price l <= bestBid u)
          /\ (forall l, In l (downBidsLevels w') -> price l <= bestBid d)
          /\ mark u = computeMarkPrice (bestBid u) (bestAsk u)
          /\ mark d = computeMarkPrice (bestBid d) (bestAsk d)
          /\ 0 < mark u /\ 0 < mark d)
    /\ nowMs w' = nowMs w /\ marketId w' = marketId w
    /\ underlyingPrice w' = underlyingPrice w
    /\ upTokenId w' = upTokenId w /\ downTokenId w' = downTokenId w
    /\ upFeeBps w' = upFeeBps w /\ downFeeBps w' = downFeeBps w
    /\ Engine.collateral w' = Engine.collateral w.
Proof.
  intros w upBook downBook w' H.
  unfold Refresh.refreshOrderbooks in H.
  set (upS := Refresh.figures (Refresh.summarizeOrderbook upBook)) in *.
  set (downS := Refresh.figures (Refresh.summarizeOrderbook downBook)) in *.
  destruct (Qgtb (bestAsk upS) 0 && Qgtb (bestAsk downS) 0) eqn:Epos;
    [|discriminate].
  destruct (Qgtb (bestAsk upS) 0.9 && Qgtb (bestAsk downS) 0.9) eqn:Ehigh;
    [discriminate|].
  injection H as <-. cbn [upAsksLevels upBidsLevels downAsksLevels
    downBidsLevels up down nowMs marketId underlyingPrice upTokenId
    downTokenId upFeeBps downFeeBps Engine.collateral].
  destruct (sortBidsAsksFromBook_sides upBook) as (Pub & Pua & Sub & Sua).
  destruct (sortBidsAsksFromBook_sides downBook) as (Pdb & Pda & Sdb & Sda).
  pose proof (summarizeOrderbook_best upBook) as Hu.
  pose proof (summarizeOrderbook_best downBook) as Hd.
  cbv zeta in Hu, Hd. fold upS in Hu. fold downS in Hd.
  destruct Hu as (Ua0 & Ua & Ub0 & Ub & Um).
  destruct Hd as (Da0 & Da & Db0 & Db & Dm).
  apply andb_true_iff in Epos. destruct Epos as [Eu Ed].
  apply Qgtb_true in Eu, Ed.
  split; [exact Sua|]. split; [exact Sub|].
  split; [exact Sda|]. split; [exact Sdb|].
  split; [|repeat split; reflexivity].
  exists upS, downS. split; [reflexivity|]. split; [reflexivity|].
  split; [exact Eu|]. split; [exact Ed|].
  split.
  { intros [A B]. apply Qgtb_true in A, B. rewrite A, B in Ehigh.
    discriminate. }
  assert (Hua : Refresh.normalizeLevels (Refresh.rawAsks upBook) <> []).
  { intros E. rewrite (Ua0 E) in Eu. apply (Qlt_irrefl _ Eu). }
  assert (Hda : Refresh.normalizeLevels (Refresh.rawAsks downBook) <> []).
  { intros E. rewrite (Da0 E) in Ed. apply (Qlt_irrefl _ Ed). }
  split.
  { intros l Hl. apply (proj2 (Ua Hua)).
    eapply Permutation_in; [apply Permutation_sym, Pua|exact Hl]. }
  split.
  { intros l Hl. apply (proj2 (Da Hda)).
    eapply Permutation_in; [apply Permutation_sym, Pda|exact Hl]. }
  split.
  { intros l Hl.
    assert (Hin : In l (Refresh.normalizeLevels (Refresh.rawBids upBook))).
    { eapply Permutation_in; [apply Permutation_sym, Pub|exact Hl]. }
    apply (proj2 (Ub ltac:(intros E; rewrite E in Hin; exact Hin))), Hin. }
  split.
  { intros l Hl.
    assert (Hin : In l (Refresh.normalizeLevels (Refresh.rawBids downBook))).
    { eapply Permutation_in; [apply Permutation_sym, Pdb|exact Hl]. }
    apply (proj2 (Db ltac:(intros E; rewrite E in Hin; exact Hin))), Hin. }
  split; [exact Um|]. split; [exact Dm|].
  split.
  - rewrite Um. apply computeMarkPrice_pos, Eu.
  - rewrite Dm. apply computeMarkPrice_pos, Ed.
Qed.

(** The two shuffled books of the vocabulary on the simulated snapshot. *)
Lemma X3_refreshOrderbooks_witness :
  Ascending (upAsksLevels
               (fst (Refresh.refreshOrderbooks paperStraddleWorld
                       Vocab.shuffledBook Vocab.shuffledDownBook)))
  /\ Descending (downBidsLevels
                   (fst (Refresh.refreshOrderbooks paperStraddleWorld
                           Vocab.shuffledBook Vocab.shuffledDownBook))).
Proof.
  destruct (Refresh.refreshOrderbooks paperStraddleWorld Vocab.shuffledBook
              Vocab.shuffledDownBook) as [w' called] eqn:E.
  assert (Hc : called = true).
  { vm_compute in E. injection E as _ <-. reflexivity. }
  subst called.
  destruct (X3_refreshOrderbooks_hands_over_sorted_books _ _ _ _ E)
    as (A & _ & _ & D & _).
  cbn [fst]. split; assumption.
Defined.

(** ** The engine's small helpers *)

(** X4.  [liveCanSpendUsdc] approves an amount exactly when it is not
    positive, or when balance and allowance are both known, the balance is
    at least 0.50, and neither falls short of the amount by more than
    1e-9.  With a positive amount and an unknown balance or allowance it
    answers that they are still loading. *)
Theorem X4_liveCanSpendUsdc_approval :
  forall c requiredUsdc,
    (liveCanSpendUsdc c requiredUsdc = SpendOk <->
     (requiredUsdc <= 0
      \/ exists bal allow,
           balanceUsdc c = Some bal /\ allowanceUsdc c = Some allow
           /\ 0.5 <= bal
           /\ requiredUsdc <= bal + 0.000000001
           /\ requiredUsdc <= allow + 0.000000001))
    /\ (liveCanSpendUsdc c requiredUsdc = SpendUnknown <->
        (0 < requiredUsdc
         /\ (balanceUsdc c = None \/ allowanceUsdc c = None))).
Proof.
  intros c req. unfold liveCanSpendUsdc.
  destruct (negb (Qgtb req 0)) eqn:Ereq.
  - qbool. split; split.
    + intros _. left. exact Ereq.
    + reflexivity.
    + discriminate.
    + intros [H _]. lra.
  - qbool.
    destruct (balanceUsdc c) as [bal|] eqn:Eb;
      destruct (allowanceUsdc c) as [allow|] eqn:Ea.
    2,3,4: split; split;
      [discriminate
      | intros [H | (b & a & Hb & Ha & _)]; [lra | discriminate]
      | intros _; split; [exact Ereq | auto]
      | reflexivity].
    destruct (Qltb bal 0.5) eqn:E1.
    { qbool. split; split; try discriminate.
      - intros [H | (b & a & [= <-] & _ & Hb & _)]; lra.
      - intros [_ [H|H]]; discriminate. }
    destruct (Qltb (bal + 0.000000001) req) eqn:E2.
    { qbool. split; split; try discriminate.
      - intros [H | (b & a & [= <-] & _ & _ & Hb & _)]; lra.
      - intros [_ [H|H]]; discriminate. }
    destruct (Qltb (allow + 0.000000001) req) eqn:E3.
    { qbool. split; split; try discriminate.
      - intros [H | (b & a & _ & [= <-] & _ & _ & Hb)]; lra.
      - intros [_ [H|H]]; discriminate. }
    qbool. split; split; try discriminate.
    + intros _. right. exists bal, allow. auto.
    + reflexivity.
    + intros [_ [H|H]]; discriminate.
Qed.

(** X5.  The mark of [computeMarkPrice] is never negative; with both
    quotes positive it is their midpoint, which lies between the bid and
    the ask when the book is not crossed; with one quote missing it is the
    other one; and it is zero exactly when neither quote is positive. *)
Theorem X5_computeMarkPrice_between_quotes :
  forall bid ask,
    0 <= computeMarkPrice bid ask
    /\ (0 < bid -> 0 < ask -> computeMarkPrice bid ask == (bid + ask) / 2)
    /\ (0 < bid -> bid <= ask ->
        bid <= computeMarkPrice bid ask /\ computeMarkPrice bid ask <= ask)
    /\ (bid <= 0 -> 0 < ask -> computeMarkPrice bid ask = ask)
    /\ (0 < bid -> ask <= 0 -> computeMarkPrice bid ask = bid)
    /\ (computeMarkPrice bid ask == 0 <-> bid <= 0 /\ ask <= 0).
Proof.
  intros bid ask. unfold computeMarkPrice.
  destruct (Qgtb bid 0) eqn:Eb; destruct (Qgtb ask 0) eqn:Ea;
    cbn [andb]; qbool.
  - assert (Hm : 0 < (bid + ask) / 2)
      by (apply Qlt_shift_div_l; [reflexivity | lra]).
    assert (Hlo : bid <= ask -> bid <= (bid + ask) / 2)
      by (intros; apply Qle_shift_div_l; [reflexivity | lra]).
    assert (Hhi : bid <= ask -> (bid + ask) / 2 <= ask)
      by (intros; apply Qle_shift_div_r; [reflexivity | lra]).
    split; [lra|]. split; [reflexivity|]. split; [auto|].
    split; [intros; lra|]. split; [intros; lra|].
    split; [intros E; rewrite E in Hm; lra | intros [H _]; lra].
  - split; [lra|]. split; [intros; lra|]. split; [intros; lra|].
    split; [intros; lra|]. split; [reflexivity|].
    split; [intros E; lra | intros [H _]; lra].
  - split; [lra|]. split; [intros; lra|]. split; [intros; lra|].
    split; [reflexivity|]. split; [intros; lra|].
    split; [intros E; lra | intros [_ H]; lra].
  - split; [lra|]. split; [intros; lra|]. split; [intros; lra|].
    split; [intros; lra|]. split; [intros; lra|].
    split; [intros _; split; assumption | reflexivity].
Qed.

(** A quote of 0.39 bid, 0.40 offered. *)
Lemma X5_computeMarkPrice_witness :
  0.39 <= computeMarkPrice 0.39 0.40 /\ computeMarkPrice 0.39 0.40 <= 0.40.
Proof.
  destruct (X5_computeMarkPrice_between_quotes 0.39 0.40)
    as (_ & _ & H & _).
  apply H; [reflexivity | discriminate].
Defined.

(** X6.  [getIntervalStartEpoch] returns the start of the quarter hour
    that holds the given second: a multiple of 900 that is not after it and
    less than 900 seconds before it; the start of an interval is its own
    start, and a later second never has an earlier start. *)
Theorem X6_getIntervalStartEpoch_quarter_hour :
  forall nowSec0,
    (Refresh.getIntervalStartEpoch nowSec0 <= nowSec0
     < Refresh.getIntervalStartEpoch nowSec0 + Refresh.INTERVAL_SECONDS)%Z
    /\ (Refresh.getIntervalStartEpoch nowSec0 mod 900 = 0)%Z
    /\ Refresh.getIntervalStartEpoch (Refresh.getIntervalStartEpoch nowSec0)
       = Refresh.getIntervalStartEpoch nowSec0
    /\ (forall later, (nowSec0 <= later)%Z ->
          (Refresh.getIntervalStartEpoch nowSec0
           <= Refresh.getIntervalStartEpoch later)%Z).
Proof.
  intros n. unfold Refresh.getIntervalStartEpoch, Refresh.INTERVAL_SECONDS.
  change (15 * 60)%Z with 900%Z.
  pose proof (Z.div_mod n 900 ltac:(lia)) as Hdm.
  pose proof (Z.mod_pos_bound n 900 ltac:(lia)) as Hb.
  split; [lia|].
  split; [apply Z.mod_mul; lia|].
  split.
  - rewrite Z.div_mul by lia. reflexivity.
  - intros later Hle.
    pose proof (Z.div_le_mono n later 900 ltac:(lia) Hle). lia.
Qed.

(** A second in the middle of an interval. *)
Lemma X6_getIntervalStartEpoch_witness :
  (Refresh.getIntervalStartEpoch 1700000000
   <= Refresh.getIntervalStartEpoch 1700000450)%Z.
Proof.
  destruct (X6_getIntervalStartEpoch_quarter_hour 1700000000)
    as (_ & _ & _ & H).
  apply H. lia.
Defined.

(** X7.  [normalizeFeeBps] accepts exactly what [Number] turns into a
    number that is not negative, and a fee rate it accepts is never
    negative: [null] is accepted as 0, a number strictly between 0 and 1
    is read as a fraction and multiplied by 10000, every other number from
    0 on (0 itself, and 1 or more) is kept as it is; a negative number
    and what is no number are rejected.  With an accepted rate a buy of a
    non-negative amount costs at least that amount and a sale nets at
    most its proceeds. *)
Theorem X7_normalizeFeeBps_accepts_no_negative_fee :
  forall raw,
    (forall fee,
        normalizeFeeBps raw = Some fee ->
        0 <= fee
        /\ (raw = RawNull -> fee = 0)
        /\ (forall x, raw = RawNumber x ->
              0 <= x
              /\ (0 < x -> x < 1 -> fee = x * 10000)
              /\ (x <= 0 \/ 1 <= x -> fee = x))
        /\ (forall amount, 0 <= amount ->
              amount <= applyTakerFeeOnBuy amount fee
              /\ applyTakerFeeOnSell amount fee <= amount))
    /\ (normalizeFeeBps raw = None
        <-> raw = RawOther \/ exists x, raw = RawNumber x /\ x < 0)
    /\ normalizeFeeBps RawNull = Some 0.
Proof.
  intros raw.
  assert (Hnum : forall x fee,
            (if Qltb x 0 then None
             else if Qgtb x 0 && Qltb x 1 then Some (x * 10000)
             else Some x) = Some fee ->
            0 <= x /\ 0 <= fee
            /\ (0 < x -> x < 1 -> fee = x * 10000)
            /\ (x <= 0 \/ 1 <= x -> fee = x)).
  { intros x fee H.
    destruct (Qltb x 0) eqn:Eneg; [discriminate|]. qbool.
    split; [exact Eneg|]. split.
    - destruct (Qgtb x 0 && Qltb x 1); injection H as <-; lra.
    - split.
      + intros H0 H1.
        assert (E : Qgtb x 0 && Qltb x 1 = true).
        { apply andb_true_iff.
          split; [apply Qgtb_true | apply Qltb_true]; assumption. }
        rewrite E in H. injection H as <-. reflexivity.
      + intros [H0|H1].
        * assert (E : Qgtb x 0 = false) by (apply Qgtb_false, H0).
          rewrite E in H. injection H as <-. reflexivity.
        * assert (E : Qltb x 1 = false) by (apply Qltb_false, H1).
          rewrite E, andb_false_r in H. injection H as <-. reflexivity. }
  split; [|split].
  - intros fee H. unfold normalizeFeeBps in H.
    assert (Hfee : 0 <= fee).
    { destruct raw as [x| |]; cbn [Number] in H; [| |discriminate].
      - apply (Hnum x fee H).
      - injection H as <-. apply Qle_refl. }
    split; [exact Hfee|]. split; [|split].
    + intros ->. cbn in H. injection H as <-. reflexivity.
    + intros x ->. cbn [Number] in H.
      destruct (Hnum x fee H) as (A & _ & B & C). auto.
    + intros amount Ha. unfold applyTakerFeeOnBuy, applyTakerFeeOnSell.
      assert (0 <= fee / 10000) by (apply Qle_shift_div_l; lra).
      split; nra.
  - unfold normalizeFeeBps. destruct raw as [x| |]; cbn [Number].
    + destruct (Qltb x 0) eqn:Eneg.
      * qbool. split; [|reflexivity]. intros _. right. exists x. auto.
      * qbool. split.
        -- destruct (Qgtb x 0 && Qltb x 1); discriminate.
        -- intros [H|(y & [= <-] & Hy)]; [discriminate | lra].
    + split; [discriminate|].
      intros [H|(y & H & _)]; discriminate.
    + split; [|reflexivity]. intros _. left. reflexivity.
  - reflexivity.
Qed.

(** A rate given as the fraction 0.02 becomes 200 basis points. *)
Lemma X7_normalizeFeeBps_witness :
  exists fee, normalizeFeeBps (RawNumber 0.02) = Some fee /\ 0 <= fee.
Proof.
  destruct (normalizeFeeBps (RawNumber 0.02)) as [fee|] eqn:E;
    [|vm_compute in E; discriminate].
  exists fee. split; [reflexivity|].
  exact (proj1 (proj1 (X7_normalizeFeeBps_accepts_no_negative_fee
                         (RawNumber 0.02)) fee E)).
Defined.

(** ** The floor of a sale *)

(** Every level a sale takes is priced at the floor or above. *)
Lemma sweepBids_floor bids minPrice01 st :
  0 <= sRemaining st ->
  let st' := sweepBids bids minPrice01 st in
  sGross st + minPrice01 * (sRemaining st - sRemaining st') <= sGross st'
  /\ (forall p, sMinFilled st' = Some p ->
        sMinFilled st = Some p \/ minPrice01 <= p).
Proof.
  cbv zeta. revert st. induction bids as [|l rest IH]; intros st Hr.
  - cbn. split; [lra | auto].
  - cbn [sweepBids].
    destruct (negb (Qgtb (sRemaining st) 0)) eqn:E0; [split; [lra|auto]|].
    destruct (negb (Qgeb (price l) minPrice01)) eqn:E1;
      [split; [lra|auto]|].
    destruct (Qleb (Qmin (sRemaining st) (size l)) 0) eqn:E2;
      [apply IH, Hr|].
    qbool.
    set (take := Qmin (sRemaining st) (size l)) in *.
    assert (Htake : take <= sRemaining st).
    { subst take. destruct (Qmin_cases (sRemaining st) (size l))
        as [[_ ->]|[? ->]]; lra. }
    specialize (IH {| sRemaining := sRemaining st - take;
                      sGross := sGross st + take * price l;
                      sMinFilled := Some (price l) |}).
    cbn [sRemaining sGross sMinFilled] in IH.
    destruct (IH ltac:(lra)) as [Hg Hm].
    split.
    + nra.
    + intros p Hp. right. destruct (Hm p Hp) as [[= <-]|H]; assumption.
Qed.

Lemma proceedsFromSelling_Some bids shares feeBps minPrice01 fill :
  proceedsFromSellingSharesToBids bids shares feeBps minPrice01
  = Some fill ->
  minPrice01 * (shares - sellShortfall bids shares minPrice01)
  <= gross fill
  /\ (0 <= minPrice01 -> minPrice01 * (shares - FILL_EPS) <= gross fill)
  /\ (forall p, minFilledPrice fill = Some p -> minPrice01 <= p)
  /\ proceeds fill == gross fill * (1 - feeBps / 10000)
  /\ (0 <= minPrice01 -> 0 <= feeBps -> feeBps <= 10000 ->
      0 <= proceeds fill /\ proceeds fill <= gross fill).
Proof.
  intros H.
  unfold proceedsFromSellingSharesToBids in H.
  destruct bids as [|l rest] eqn:El; [discriminate|]. rewrite <- El in *.
  destruct (negb (Qgtb shares 0)) eqn:Es; [discriminate|].
  destruct (Qgtb _ FILL_EPS) eqn:Ef; [discriminate|].
  qbool. injection H as <-. cbn [gross proceeds minFilledPrice].
  pose proof (sweepBids_floor bids minPrice01
                {| sRemaining := shares; sGross := 0; sMinFilled := None |})
    as Hfl.
  cbn [sRemaining sGross sMinFilled] in Hfl. cbv zeta in Hfl.
  destruct (Hfl ltac:(lra)) as [Hg Hm].
  pose proof (sweepBids_bounds bids minPrice01
                {| sRemaining := shares; sGross := 0; sMinFilled := None |})
    as Hb.
  cbn [sRemaining] in Hb. destruct (Hb ltac:(lra)) as [Hb0 Hb1].
  unfold sellShortfall.
  set (st' := sweepBids bids minPrice01 _) in *.
  assert (Hgross : 0 <= minPrice01 ->
                   minPrice01 * (shares - FILL_EPS) <= sGross st').
  { intros Hmin. unfold FILL_EPS in *. nra. }
  split; [lra|]. split; [exact Hgross|].
  split.
  { intros p Hp. destruct (Hm p Hp) as [H|H]; [discriminate|exact H]. }
  split; [reflexivity|].
  intros Hmin Hfee0 Hfee1. unfold applyTakerFeeOnSell.
  assert (0 <= feeBps / 10000) by (apply Qle_shift_div_l; lra).
  assert (feeBps / 10000 <= 1) by (apply Qle_shift_div_r; lra).
  assert (0 <= sGross st') by (unfold FILL_EPS in *; nra).
  split; nra.
Qed.

(** X8.  A sale reported by [proceedsFromSellingSharesToBids] takes no
    level below the floor it was given: the lowest price filled is at the
    floor or above, and the gross is at least the floor times the shares
    actually sold, which fall short of the request by at most 1e-9.  The
    proceeds are the gross less the fee; with a rate between 0 and 10000
    basis points and prices that are not negative they lie between zero
    and the gross. *)
Theorem X8_sale_respects_price_floor :
  forall bids shares feeBps minPrice01 fill,
    proceedsFromSellingSharesToBids bids shares feeBps minPrice01
    = Some fill ->
    minPrice01 * (shares - sellShortfall bids shares minPrice01)
    <= gross fill
    /\ (0 <= minPrice01 -> minPrice01 * (shares - FILL_EPS) <= gross fill)
    /\ (forall p, minFilledPrice fill = Some p -> minPrice01 <= p)
    /\ proceeds fill == gross fill * (1 - feeBps / 10000)
    /\ (0 <= minPrice01 -> 0 <= feeBps -> feeBps <= 10000 ->
        0 <= proceeds fill /\ proceeds fill <= gross fill).
Proof.
  intros bids shares feeBps minPrice01 fill H.
  apply (proceedsFromSelling_Some _ _ _ _ _ H).
Qed.

(** Five shares sold into bids of 0.60 and 0.50 with a floor of 0.55. *)
Lemma X8_sale_floor_witness :
  exists fill,
    proceedsFromSellingSharesToBids [mkLevel 0.60 10; mkLevel 0.50 4] 5 100
      0.55 = Some fill
    /\ 0.55 * (5 - FILL_EPS) <= gross fill.
Proof.
  destruct (proceedsFromSellingSharesToBids [mkLevel 0.60 10; mkLevel 0.50 4]
              5 100 0.55) as [fill|] eqn:E; [|vm_compute in E; discriminate].
  exists fill. split; [reflexivity|].
  destruct (X8_sale_respects_price_floor _ _ _ _ _ E) as (_ & H & _).
  apply H. discriminate.
Defined.

(** ** The straddle *)

(** X9.  A straddle returned by [computeEqualProfitStraddle] has a share
    count between the minimum asked for (and one) and 10^9 that both ask
    sides hold; both legs are bought in full by [costToBuySharesFromAsks],
    its cost is the sum of the two leg costs and within the budget, and
    the profit it reports, the share count less the cost in cents, is at
    least the minimum profit.  Nothing is returned when a side has no
    asks, and nothing for a budget that is not positive. *)
Theorem X9_computeEqualProfitStraddle_sound :
  forall upAsks downAsks upFeeBps downFeeBps maxUsdc minShares minProfitCents,
    (forall s,
        computeEqualProfitStraddle upAsks downAsks upFeeBps downFeeBps
          maxUsdc minShares minProfitCents = Some s ->
        (minShares <= shares s)%Z /\ (1 <= shares s <= SHARE_CAP)%Z
        /\ inject_Z (shares s) <= sumSizes upAsks
        /\ inject_Z (shares s) <= sumSizes downAsks
        /\ (exists upFill downFill,
              costToBuySharesFromAsks upAsks (inject_Z (shares s))
                (feeOrZero upFeeBps) = Some upFill
              /\ costToBuySharesFromAsks downAsks (inject_Z (shares s))
                   (feeOrZero downFeeBps) = Some downFill
              /\ upCost s = cost upFill /\ downCost s = cost downFill
              /\ upMaxPrice s = maxPrice upFill
              /\ downMaxPrice s = maxPrice downFill)
        /\ sCost s = upCost s + downCost s
        /\ sCost s <= maxUsdc
        /\ profitCentsEach s = (inject_Z (shares s) - sCost s) * 100
        /\ minProfitCents <= profitCentsEach s)
    /\ (upAsks = [] \/ downAsks = [] ->
        computeEqualProfitStraddle upAsks downAsks upFeeBps downFeeBps
          maxUsdc minShares minProfitCents = None)
    /\ (maxUsdc <= 0 ->
        computeEqualProfitStraddle upAsks downAsks upFeeBps downFeeBps
          maxUsdc minShares minProfitCents = None).
Proof.
  intros upAsks downAsks upFeeBps downFeeBps maxUsdc minShares minProfit.
  split; [|split].
  - intros s H. unfold computeEqualProfitStraddle in H.
    destruct (_ <? minShares)%Z eqn:Efill; [discriminate|].
    destruct (bestPrice upAsks); [|discriminate].
    destruct (bestPrice downAsks); [|discriminate].
    destruct (negb _); [discriminate|].
    destruct (clampInt _ _ _ <? minShares)%Z eqn:Ehi; [discriminate|].
    apply searchLoop_sound in H.
    destruct H as [H|(m & [Hlo Hhi] & H)]; [discriminate|].
    apply straddleProbe_Some in H.
    destruct H as (fu & fd & Hu & Hd & Hc & Hp & ->).
    cbn [shares sCost upCost downCost upMaxPrice downMaxPrice
         profitCentsEach].
    pose proof (costToBuy_Some _ _ _ _ Hu) as (Hpos & _).
    assert (Hm1 : (1 <= m)%Z).
    { destruct (Z_lt_le_dec m 1) as [Hlt|]; [|assumption].
      assert (inject_Z m <= inject_Z 0) by (apply inject_Z_le; lia).
      change (inject_Z 0) with 0 in *. lra. }
    rewrite clampInt_Z in Hhi.
    assert (Hmf : (m <= Qfloor (Qmin (sumSizes upAsks) (sumSizes downAsks)))%Z)
      by lia.
    apply floor_le in Hmf.
    pose proof (Q.le_min_l (sumSizes upAsks) (sumSizes downAsks)).
    pose proof (Q.le_min_r (sumSizes upAsks) (sumSizes downAsks)).
    split; [lia|]. split; [unfold SHARE_CAP in *; lia|].
    split; [lra|]. split; [lra|].
    split; [exists fu, fd; auto 10|].
    split; [reflexivity|]. split; [exact Hc|].
    split; [reflexivity | exact Hp].
  - intros Hempty. unfold computeEqualProfitStraddle.
    destruct (_ <? minShares)%Z; [reflexivity|].
    destruct Hempty as [-> | ->]; cbn [bestPrice];
      [reflexivity | destruct (bestPrice upAsks); reflexivity].
  - intros Hbudget. unfold computeEqualProfitStraddle.
    destruct (_ <? minShares)%Z; [reflexivity|].
    destruct (bestPrice upAsks); [|reflexivity].
    destruct (bestPrice downAsks); [|reflexivity].
    destruct (negb _); [reflexivity|].
    assert (E : Qgtb maxUsdc 0 = false) by (apply Qgtb_false, Hbudget).
    rewrite E. cbn [andb]. rewrite clampInt_Z.
    destruct (Z.max _ _ <? minShares)%Z eqn:Ehi; [reflexivity|].
    apply Z.ltb_ge in Ehi.
    destruct (searchLoop _ _ minShares _ None) as [a|] eqn:Es; [|reflexivity].
    apply searchLoop_sound in Es.
    destruct Es as [Es|(m & [Hlo Hm] & Es)]; [discriminate|].
    apply straddleProbe_Some in Es.
    destruct Es as (fu & _ & Hu & _).
    pose proof (costToBuy_Some _ _ _ _ Hu) as (Hpos & _).
    assert (inject_Z m <= inject_Z 0) by (apply inject_Z_le; lia).
    change (inject_Z 0) with 0 in *. lra.
Qed.

(** The books at 0.40 and 0.55 with a budget of 10. *)
Lemma X9_computeEqualProfitStraddle_witness :
  exists s,
    computeEqualProfitStraddle [mkLevel 0.40 40] [mkLevel 0.55 25]
      (Some 0) (Some 0) 10 1 0.25 = Some s
    /\ sCost s <= 10 /\ 0.25 <= profitCentsEach s.
Proof.
  destruct (computeEqualProfitStraddle [mkLevel 0.40 40] [mkLevel 0.55 25]
              (Some 0) (Some 0) 10 1 0.25) as [s|] eqn:E;
    [|vm_compute in E; discriminate].
  exists s. split; [reflexivity|].
  destruct (X9_computeEqualProfitStraddle_sound [mkLevel 0.40 40]
              [mkLevel 0.55 25] (Some 0) (Some 0) 10 1 0.25) as (H & _).
  destruct (H s E) as (_ & _ & _ & _ & _ & _ & Hc & _ & Hp).
  split; assumption.
Defined.

(** What a call of the handler did when a simulated straddle is open
    after it and none was before. *)
Lemma onOrderbooks_paper_opened cfg w st upRes downRes st1 run o :
  PAPER_TRADING w = true -> arbOpen st = None ->
  Arbitrage.onOrderbooks cfg w st upRes downRes = (st1, run) ->
  arbOpen st1 = Some o ->
  exists upFee downFee sd,
    upFeeBps w = Some upFee /\ downFeeBps w = Some downFee
    /\ computeEqualProfitStraddle (upAsksLevels w) (downAsksLevels w)
         (Some upFee) (Some downFee)
         (Qmin (Arbitrage.paperBalance st) (STRADDLE_MAX_USDC cfg))
         (STRADDLE_MIN_SHARES cfg) (STRADDLE_MIN_PROFIT_CENTS cfg) = Some sd
    /\ sharesPerSide o = shares sd /\ totalCostUsdc o = sCost sd
    /\ Arbitrage.paperBalance st1 = Arbitrage.paperBalance st + - sCost sd
    /\ Arbitrage.lastTradeAt st1 = Some (nowMs w)
    /\ (STRADDLE_COOLDOWN_MS cfg
        <= nowMs w - match Arbitrage.lastTradeAt st with
                     | Some t => t | None => 0 end)%Z.
Proof.
  intros Hpaper Hnone H Ho. unfold Arbitrage.onOrderbooks in H.
  rewrite Hpaper, Hnone in H. cbn [andb] in H.
  destruct (negb _) eqn:Eask;
    [injection H as <- <-; congruence|].
  destruct (upFeeBps w) as [uf|];
    [|injection H as <- <-; cbn in Ho; congruence].
  destruct (downFeeBps w) as [df|];
    [|injection H as <- <-; cbn in Ho; congruence].
  destruct (computeEqualProfitStraddle _ _ _ _ _ _ _) as [sd|] eqn:Hsd;
    [|injection H as <- <-; cbn in Ho; congruence].
  destruct (negb (_ <=? _)%Z) eqn:Ecool;
    [injection H as <- <-; cbn in Ho; congruence|].
  injection H as <- <-.
  apply negb_false_iff, Z.leb_le in Ecool.
  cbn [arbOpen Arbitrage.paperBalance Arbitrage.lastTradeAt] in *.
  match type of Ho with
  | arbOpen (executePaperStraddle ?w0 ?s0 ?n0 ?c0) = _ =>
      destruct (executePaperStraddle_cases w0 s0 n0 c0)
        as [E|(_ & _ & _ & Hbal & o' & Ho' & Hn & Hc)]
  end.
  - rewrite E in Ho. cbn in Ho. congruence.
  - rewrite Ho' in Ho. injection Ho as <-.
    exists uf, df, sd. repeat split; try assumption; try reflexivity.
Qed.

(** X10.  The arbitrage handler leaves position and balance alone and
    sends nothing to the exchange: in simulation while a straddle is open
    (the whole state is untouched); when a side has no positive best ask
    (the whole state is untouched); when a fee rate is unknown (the
    suggestion is cleared); and when the last trade is less than the
    cooldown ago. *)
Theorem X10_arbitrage_handler_stands_still :
  forall cfg w st upRes downRes,
    (PAPER_TRADING w = true -> arbOpen st <> None ->
       Arbitrage.onOrderbooks cfg w st upRes downRes
       = (st, {| posted := []; returned := true |}))
    /\ (summaryAsk (up w) <= 0 \/ summaryAsk (down w) <= 0 ->
        Arbitrage.onOrderbooks cfg w st upRes downRes
        = (st, {| posted := []; returned := true |}))
    /\ (upFeeBps w = None \/ downFeeBps w = None ->
        let r := Arbitrage.onOrderbooks cfg w st upRes downRes in
        arbOpen (fst r) = arbOpen st
        /\ Arbitrage.paperBalance (fst r) = Arbitrage.paperBalance st
        /\ posted (snd r) = []
        /\ (PAPER_TRADING w && match arbOpen st with
                               | Some _ => true | None => false end = false ->
            0 < summaryAsk (up w) -> 0 < summaryAsk (down w) ->
            Arbitrage.suggestedShares (fst r) = None
            /\ Arbitrage.suggestedCost (fst r) = None))
    /\ (forall t, Arbitrage.lastTradeAt st = Some t ->
          (nowMs w - t < STRADDLE_COOLDOWN_MS cfg)%Z ->
          let r := Arbitrage.onOrderbooks cfg w st upRes downRes in
          arbOpen (fst r) = arbOpen st
          /\ Arbitrage.paperBalance (fst r) = Arbitrage.paperBalance st
          /\ Arbitrage.lastTradeAt (fst r) = Some t
          /\ posted (snd r) = []).
Proof.
  intros cfg w st upRes downRes.
  split; [|split; [|split]].
  - intros Hpaper Hopen. unfold Arbitrage.onOrderbooks. rewrite Hpaper.
    destruct (arbOpen st); [reflexivity | contradiction].
  - intros Hask. unfold Arbitrage.onOrderbooks.
    destruct (PAPER_TRADING w && _); [reflexivity|].
    assert (E : Qgtb (summaryAsk (up w)) 0 && Qgtb (summaryAsk (down w)) 0
                = false).
    { apply andb_false_iff.
      destruct Hask as [H|H]; [left|right]; apply Qgtb_false, H. }
    rewrite E. reflexivity.
  - intros Hfee. cbv zeta. unfold Arbitrage.onOrderbooks.
    destruct (PAPER_TRADING w && _) eqn:Ep.
    { cbn [fst snd posted].
      repeat match goal with |- _ /\ _ => split end; try reflexivity.
      intros Hf. discriminate Hf. }
    destruct (negb _) eqn:Ea.
    { cbn [fst snd posted].
      repeat match goal with |- _ /\ _ => split end; try reflexivity.
      intros _ Hu Hd.
      apply negb_true_iff, andb_false_iff in Ea.
      destruct Ea as [Ea|Ea]; apply Qgtb_false in Ea; lra. }
    destruct (upFeeBps w) as [uf|]; destruct (downFeeBps w) as [df|];
      try (cbn; repeat match goal with |- _ /\ _ => split end;
           try reflexivity; intros; split; reflexivity).
    destruct Hfee; discriminate.
  - intros t Hlast Hcool. cbv zeta. unfold Arbitrage.onOrderbooks.
    destruct (PAPER_TRADING w && _); [cbn; auto|].
    destruct (negb _); [cbn; auto|].
    destruct (upFeeBps w) as [uf|]; [|cbn; auto].
    destruct (downFeeBps w) as [df|]; [|cbn; auto].
    destruct (computeEqualProfitStraddle _ _ _ _ _ _ _) as [sd|];
      [|cbn; auto].
    rewrite Hlast.
    assert (E : (STRADDLE_COOLDOWN_MS cfg <=? nowMs w - t)%Z = false)
      by (apply Z.leb_gt, Hcool).
    rewrite E. cbn. auto.
Qed.

(** The simulated books one second after a trade, cooldown 2.5 s. *)
Lemma X10_arbitrage_cooldown_witness :
  arbOpen (fst (Arbitrage.onOrderbooks Arbitrage.defaultConfig
                  paperStraddleWorld
                  (Arbitrage.mkArbState 20 None None None None None None
                     (Some 1699999999000%Z) None 0)
                  Matched Matched)) = None.
Proof.
  destruct (X10_arbitrage_handler_stands_still Arbitrage.defaultConfig
              paperStraddleWorld
              (Arbitrage.mkArbState 20 None None None None None None
                 (Some 1699999999000%Z) None 0)
              Matched Matched) as (_ & _ & _ & H).
  destruct (H 1699999999000%Z eq_refl ltac:(reflexivity)) as (Ho & _).
  exact Ho.
Defined.

(** ** Settlement *)

(** X11.  A straddle bought in simulation by the arbitrage handler and
    settled after the end of its interval, once the market service names a
    winner, leaves the account with what it had before the purchase plus
    the share count less the cost, which is at least the configured
    minimum profit; which side has won makes no difference. *)
Theorem X11_paper_straddle_settles_with_profit :
  forall cfg w st upRes downRes st1 run o gamma w2 winner,
    PAPER_TRADING w = true -> arbOpen st = None ->
    Arbitrage.onOrderbooks cfg w st upRes downRes = (st1, run) ->
    arbOpen st1 = Some o ->
    PAPER_TRADING w2 = true -> (endEpochSec o <= nowSec w2)%Z ->
    Settlement.resolveGammaWinnerForMarketId gamma (aMarketId o)
    = Some winner ->
    arbOpen (Settlement.settleStraddle w2 gamma st1) = None
    /\ Arbitrage.paperBalance (Settlement.settleStraddle w2 gamma st1)
       == Arbitrage.paperBalance st
          + (inject_Z (sharesPerSide o) - totalCostUsdc o)
    /\ Arbitrage.paperBalance st + STRADDLE_MIN_PROFIT_CENTS cfg / 100
       <= Arbitrage.paperBalance (Settlement.settleStraddle w2 gamma st1).
Proof.
  intros cfg w st upRes downRes st1 run o gamma w2 winner
    Hpaper Hnone H Ho Hpaper2 Hend Hwin.
  destruct (onOrderbooks_paper_opened _ _ _ _ _ _ _ _ Hpaper Hnone H Ho)
    as (uf & df & sd & _ & _ & Hsd & Hn & Hc & Hbal & _).
  unfold Settlement.settleStraddle.
  rewrite Hpaper2, Ho. cbn [negb].
  apply Z.leb_le in Hend. rewrite Hend, Hwin.
  cbn [arbOpen Arbitrage.paperBalance]. unfold executePaperDelta.
  unfold computeEqualProfitStraddle in Hsd.
  destruct (_ <? _)%Z; [discriminate|].
  destruct (bestPrice (upAsksLevels w)); [|discriminate].
  destruct (bestPrice (downAsksLevels w)); [|discriminate].
  destruct (negb _); [discriminate|].
  destruct (_ <? _)%Z; [discriminate|].
  apply searchLoop_sound in Hsd.
  destruct Hsd as [Hsd|(m & _ & Hsd)]; [discriminate|].
  apply straddleProbe_Some in Hsd.
  destruct Hsd as (fu & fd & _ & _ & _ & Hp & ->).
  cbn [shares sCost] in *.
  rewrite Hbal, Hn, Hc.
  split; [reflexivity|]. split; [lra|].
  assert (STRADDLE_MIN_PROFIT_CENTS cfg / 100
          <= inject_Z m - (cost fu + cost fd))
    by (apply Qle_shift_div_r; [reflexivity | lra]).
  lra.
Qed.

(** The account of 20 buys ten shares a side for 9.50 and is paid 10 a
    hundred seconds after the end of the interval. *)
Lemma X11_paper_straddle_witness :
  20 + STRADDLE_MIN_PROFIT_CENTS Arbitrage.defaultConfig / 100
  <= Arbitrage.paperBalance
       (Settlement.settleStraddle Vocab.afterEndWorld Vocab.upWins
          (fst (Arbitrage.onOrderbooks Arbitrage.defaultConfig
                  paperStraddleWorld (idleArbState 20) Matched Matched))).
Proof.
  destruct (Arbitrage.onOrderbooks Arbitrage.defaultConfig paperStraddleWorld
              (idleArbState 20) Matched Matched) as [st1 run] eqn:E.
  destruct (arbOpen st1) as [o|] eqn:Ho.
  - assert (Hend : endEpochSec o = 1700000600%Z).
    { vm_compute in E. injection E as <- _. cbn in Ho. injection Ho as <-.
      reflexivity. }
    assert (Hid : aMarketId o = Some "m1"%string).
    { vm_compute in E. injection E as <- _. cbn in Ho. injection Ho as <-.
      reflexivity. }
    destruct (X11_paper_straddle_settles_with_profit Arbitrage.defaultConfig
                paperStraddleWorld (idleArbState 20) Matched Matched st1 run
                o Vocab.upWins Vocab.afterEndWorld Up eq_refl eq_refl E Ho
                eq_refl)
      as (_ & _ & H).
    + rewrite Hend. vm_compute. discriminate.
    + rewrite Hid. reflexivity.
    + cbn [fst]. exact H.
  - exfalso. vm_compute in E. injection E as <- _. discriminate Ho.
Defined.

(** X12.  The settlement of simulated positions does nothing in live
    mode, nothing before the end of the position's interval, and nothing
    while the market service names no winner, which includes every
    position stored without a market identifier.  Otherwise it clears the
    position and pays: a straddle one per share a side whoever has won, a
    lag position one per share when its side has won and nothing when it
    has lost.  Settling a second time changes nothing. *)
Theorem X12_settlement_pays_once_after_the_end :
  forall (Learned : Type) w gamma (a : Arbitrage.ArbState)
         (l : @LagState Learned),
    (PAPER_TRADING w = false ->
       Settlement.settleStraddle w gamma a = a
       /\ Settlement.settleLag w gamma l = l)
    /\ (forall o, arbOpen a = Some o ->
          ((nowSec w < endEpochSec o)%Z
           \/ aMarketId o = None
           \/ Settlement.resolveGammaWinnerForMarketId gamma (aMarketId o)
              = None ->
           Settlement.settleStraddle w gamma a = a)
          /\ (PAPER_TRADING w = true -> (endEpochSec o <= nowSec w)%Z ->
              forall winner,
                Settlement.resolveGammaWinnerForMarketId gamma (aMarketId o)
                = Some winner ->
                arbOpen (Settlement.settleStraddle w gamma a) = None
                /\ Arbitrage.paperBalance (Settlement.settleStraddle w gamma a)
                   == Arbitrage.paperBalance a + inject_Z (sharesPerSide o)))
    /\ (forall o, lagOpen l = Some o ->
          ((nowSec w < orElseZ (lEndEpochSec o) 0)%Z
           \/ lMarketId o = None
           \/ Settlement.resolveGammaWinnerForMarketId gamma (lMarketId o)
              = None ->
           Settlement.settleLag w gamma l = l)
          /\ (PAPER_TRADING w = true ->
              (orElseZ (lEndEpochSec o) 0 <= nowSec w)%Z ->
              forall winner,
                Settlement.resolveGammaWinnerForMarketId gamma (lMarketId o)
                = Some winner ->
                lagOpen (Settlement.settleLag w gamma l) = None
                /\ (winner = lSide o ->
                    Lag.paperBalance (Settlement.settleLag w gamma l)
                    == Lag.paperBalance l + lShares o)
                /\ (winner <> lSide o ->
                    Lag.paperBalance (Settlement.settleLag w gamma l)
                    == Lag.paperBalance l)))
    /\ Settlement.settleStraddle w gamma (Settlement.settleStraddle w gamma a)
       = Settlement.settleStraddle w gamma a
    /\ Settlement.settleLag w gamma (Settlement.settleLag w gamma l)
       = Settlement.settleLag w gamma l.
Proof.
  intros Learned w gamma a l.
  split; [|split; [|split; [|split]]].
  - intros Hlive. unfold Settlement.settleStraddle, Settlement.settleLag.
    rewrite Hlive. split; reflexivity.
  - intros o Ho. split.
    + intros Hwait. unfold Settlement.settleStraddle. rewrite Ho.
      destruct (negb (PAPER_TRADING w)); [reflexivity|].
      destruct (endEpochSec o <=? nowSec w)%Z eqn:Eend; [|reflexivity].
      apply Z.leb_le in Eend.
      destruct Hwait as [H|[H|H]]; [lia | rewrite H | rewrite H];
        reflexivity.
    + intros Hpaper Hend winner Hwin. unfold Settlement.settleStraddle.
      rewrite Hpaper, Ho. cbn [negb].
      apply Z.leb_le in Hend. rewrite Hend, Hwin.
      cbn [arbOpen Arbitrage.paperBalance]. unfold executePaperDelta.
      split; [reflexivity | lra].
  - intros o Ho. split.
    + intros Hwait. unfold Settlement.settleLag. rewrite Ho.
      destruct (negb (PAPER_TRADING w)); [reflexivity|].
      destruct (orElseZ (lEndEpochSec o) 0 <=? nowSec w)%Z eqn:Eend;
        [|reflexivity].
      apply Z.leb_le in Eend.
      destruct Hwait as [H|[H|H]]; [lia | rewrite H | rewrite H];
        reflexivity.
    + intros Hpaper Hend winner Hwin. unfold Settlement.settleLag.
      rewrite Hpaper, Ho. cbn [negb].
      apply Z.leb_le in Hend. rewrite Hend, Hwin.
      cbn [lagOpen Lag.withOpen Lag.withBalance Lag.paperBalance].
      unfold executePaperDelta.
      split; [reflexivity|]. split.
      * intros ->. destruct (lSide o); cbn [OutcomeSide_eqb]; lra.
      * intros Hne. destruct winner, (lSide o); cbn [OutcomeSide_eqb];
          try lra; contradiction.
  - unfold Settlement.settleStraddle.
    destruct (negb (PAPER_TRADING w)) eqn:Ep; [reflexivity|].
    destruct (arbOpen a) as [o|] eqn:Ho; [|rewrite Ho; reflexivity].
    destruct (endEpochSec o <=? nowSec w)%Z eqn:Eend;
      [|rewrite Ho, Eend; reflexivity].
    destruct (Settlement.resolveGammaWinnerForMarketId gamma (aMarketId o))
      eqn:Ew; [reflexivity | rewrite Ho, Eend, Ew; reflexivity].
  - unfold Settlement.settleLag.
    destruct (negb (PAPER_TRADING w)) eqn:Ep; [reflexivity|].
    destruct (lagOpen l) as [o|] eqn:Ho; [|rewrite Ho; reflexivity].
    destruct (orElseZ (lEndEpochSec o) 0 <=? nowSec w)%Z eqn:Eend;
      [|rewrite Ho, Eend; reflexivity].
    destruct (Settlement.resolveGammaWinnerForMarketId gamma (lMarketId o))
      eqn:Ew; [reflexivity | rewrite Ho, Eend, Ew; reflexivity].
Qed.

(** ** The book arithmetic of the certainty mode *)

Lemma findBestLoop_spec cfg target below bids :
  forall best,
    (forall b, best = Some b ->
       target - below - PRICE_EPS cfg <= b /\ b <= target + PRICE_EPS cfg) ->
    match findBestLoop (PRICE_EPS cfg) bids target (target - below) best with
    | Some p =>
        (best = Some p
         \/ exists l, In l bids /\ price l = p
                      /\ Vocab.Pickable cfg target below l)
        /\ (forall b, best = Some b -> b <= p)
        /\ (forall l, In l bids -> Vocab.Pickable cfg target below l ->
              price l <= p)
        /\ target - below - PRICE_EPS cfg <= p
        /\ p <= target + PRICE_EPS cfg
    | None =>
        best = None
        /\ forall l, In l bids -> ~ Vocab.Pickable cfg target below l
    end.
Proof.
  induction bids as [|l rest IH]; intros best Hbest.
  - cbn. destruct best as [b|].
    + destruct (Hbest b eq_refl). repeat split; auto.
      * intros b' [= <-]. apply Qle_refl.
      * intros l [].
    + split; [reflexivity | intros l []].
  - cbn [findBestLoop].
    destruct (negb (Qgtb (size l) 0)) eqn:Esz.
    { qbool. specialize (IH best Hbest).
      destruct (findBestLoop _ rest _ _ best) as [p|].
      - destruct IH as (A & B & C & D & E).
        split; [|split; [|split; [|split]]]; auto.
        + destruct A as [A|(x & Hx & Hp & Hpick)]; [left; exact A|].
          right. exists x. split; [right; exact Hx | auto].
        + intros x [<-|Hx] Hpick; [|apply C; assumption].
          destruct Hpick as [Hpos _]. lra.
      - destruct IH as [A B]. split; [exact A|].
        intros x [<-|Hx]; [|apply B, Hx].
        intros [Hpos _]. lra. }
    destruct (Qleb (price l) (target + PRICE_EPS cfg)
              && Qgeb (price l) (target - below - PRICE_EPS cfg)) eqn:Eband.
    + qbool.
      assert (Hpick : Vocab.Pickable cfg target below l)
        by (unfold Vocab.Pickable; auto).
      destruct best as [b|].
      * destruct (Hbest b eq_refl) as [Hb1 Hb2].
        destruct (Qgtb (price l) b) eqn:Egt; qbool.
        -- specialize (IH (Some (price l))).
           destruct (findBestLoop _ rest _ _ (Some (price l))) as [p|].
           ++ destruct IH as (A & B & C & D & E).
              { intros b' [= <-]. destruct Hpick as (_ & ? & ?). auto. }
              pose proof (B _ eq_refl) as Hlp.
              split; [|split; [|split; [|split]]]; auto.
              ** right. destruct A as [[= <-]|(x & Hx & Hp & Hx')].
                 --- exists l. split; [left; reflexivity | auto].
                 --- exists x. split; [right; exact Hx | auto].
              ** intros b' [= <-]. lra.
              ** intros x [<-|Hx] Hx'; [exact Hlp | apply C; assumption].
           ++ destruct IH as [A _]; [|discriminate].
              intros b' [= <-]. destruct Hpick as (_ & ? & ?). auto.
        -- specialize (IH (Some b) Hbest).
           destruct (findBestLoop _ rest _ _ (Some b)) as [p|].
           ++ destruct IH as (A & B & C & D & E).
              pose proof (B _ eq_refl) as Hbp.
              split; [|split; [|split; [|split]]]; auto.
              ** destruct A as [A|(x & Hx & Hp & Hx')]; [left; exact A|].
                 right. exists x. split; [right; exact Hx | auto].
              ** intros x [<-|Hx] Hx'; [lra | apply C; assumption].
           ++ destruct IH as [A _]. discriminate.
      * specialize (IH (Some (price l))).
        destruct (findBestLoop _ rest _ _ (Some (price l))) as [p|].
        -- destruct IH as (A & B & C & D & E).
           { intros b' [= <-]. destruct Hpick as (_ & ? & ?). auto. }
           pose proof (B _ eq_refl) as Hlp.
           split; [|split; [|split; [|split]]]; auto.
           ++ right. destruct A as [[= <-]|(x & Hx & Hp & Hx')].
              ** exists l. split; [left; reflexivity | auto].
              ** exists x. split; [right; exact Hx | auto].
           ++ intros b' Hb'. discriminate.
           ++ intros x [<-|Hx] Hx'; [exact Hlp | apply C; assumption].
        -- destruct IH as [A _]; [|discriminate].
           intros b' [= <-]. destruct Hpick as (_ & ? & ?). auto.
    + assert (Hno : ~ Vocab.Pickable cfg target below l).
      { intros (_ & H1 & H2).
        apply andb_false_iff in Eband.
        destruct Eband as [E|E]; qbool; lra. }
      specialize (IH best Hbest).
      destruct (findBestLoop _ rest _ _ best) as [p|].
      * destruct IH as (A & B & C & D & E).
        split; [|split; [|split; [|split]]]; auto.
        -- destruct A as [A|(x & Hx & Hp & Hx')]; [left; exact A|].
           right. exists x. split; [right; exact Hx | auto].
        -- intros x [<-|Hx] Hx'; [contradiction | apply C; assumption].
      * destruct IH as [A B]. split; [exact A|].
        intros x [<-|Hx]; [exact Hno | apply B, Hx].
Qed.

(** X13.  [findBestAvailableSellPrice] returns the price of a bid that
    has size and lies between the target less the allowance and the
    target, both ends widened by the price tolerance, and no such bid is
    priced higher; it returns nothing exactly when the book holds no such
    bid, in whatever order the bids are listed. *)
Theorem X13_findBestAvailableSellPrice_highest_bid_in_band :
  forall cfg bids targetPrice maxPriceBelow,
    (forall p,
        findBestAvailableSellPrice cfg bids targetPrice maxPriceBelow
        = Some p ->
        (exists l, In l bids /\ price l = p
                   /\ Vocab.Pickable cfg targetPrice maxPriceBelow l)
        /\ (forall l, In l bids ->
              Vocab.Pickable cfg targetPrice maxPriceBelow l ->
              price l <= p))
    /\ (findBestAvailableSellPrice cfg bids targetPrice maxPriceBelow = None
        <-> forall l, In l bids ->
              ~ Vocab.Pickable cfg targetPrice maxPriceBelow l).
Proof.
  intros cfg bids target below.
  pose proof (findBestLoop_spec cfg target below bids None
                ltac:(intros b; discriminate)) as H.
  unfold findBestAvailableSellPrice.
  destruct (findBestLoop _ bids _ _ None) as [p|].
  - destruct H as (A & _ & C & _).
    split.
    + intros p' [= <-]. split; [|exact C].
      destruct A as [A|A]; [discriminate | exact A].
    + split; [discriminate|].
      intros Hnone. destruct A as [A|(l & Hl & _ & Hp)]; [discriminate|].
      exfalso. apply (Hnone l Hl Hp).
  - destruct H as [_ B]. split; [discriminate|].
    split; auto.
Qed.

(** Bids of 0.80, 0.745 and 0.70 around a stop at 0.75 with 0.015 of
    allowance: 0.745 is picked, 0.80 is too high and 0.70 too low. *)
Lemma X13_findBestAvailableSellPrice_witness :
  exists p,
    findBestAvailableSellPrice Certainty.defaultConfig
      [mkLevel 0.80 5; mkLevel 0.745 20; mkLevel 0.70 50] 0.75 0.015 = Some p
    /\ 0.745 <= p.
Proof.
  destruct (findBestAvailableSellPrice Certainty.defaultConfig
              [mkLevel 0.80 5; mkLevel 0.745 20; mkLevel 0.70 50] 0.75 0.015)
    as [p|] eqn:E; [|vm_compute in E; discriminate].
  exists p. split; [reflexivity|].
  destruct (X13_findBestAvailableSellPrice_highest_bid_in_band
              Certainty.defaultConfig
              [mkLevel 0.80 5; mkLevel 0.745 20; mkLevel 0.70 50] 0.75 0.015)
    as [H _].
  destruct (H p E) as [_ Hmax].
  apply (Hmax (mkLevel 0.745 20)).
  - right. left. reflexivity.
  - unfold Vocab.Pickable. cbn. repeat split; discriminate.
Defined.

(** *** What the two sweeps of the certainty mode have taken *)

Lemma realTake_priced lo hi st p sz :
  Vocab.PricedWithin lo hi st -> 0 < rRemaining st -> 0 < sz ->
  lo <= p -> p <= hi ->
  Vocab.PricedWithin lo hi (realTake st p sz).
Proof.
  intros (H0 & H1 & H2 & H3 & H4 & H5) Hr Hsz Hlo Hhi.
  unfold Vocab.PricedWithin, realTake.
  cbn [rFilledShares rNotional rWeightedPriceSum rLastFilled].
  set (take := Qmin (rRemaining st) sz).
  assert (Htake : 0 < take).
  { subst take. destruct (Qmin_cases (rRemaining st) sz) as [[_ ->]|[_ ->]];
      assumption. }
  split; [lra|]. split; [nra|]. split; [nra|].
  split; [rewrite H3; reflexivity|].
  split; [intros q [= <-]; repeat split; try assumption; lra | discriminate].
Qed.

Lemma realSweepStart_priced lo hi shares :
  Vocab.PricedWithin lo hi (realSweepStart shares).
Proof.
  unfold Vocab.PricedWithin, realSweepStart. cbn.
  repeat split; try lra; try discriminate; try reflexivity.
Qed.

Lemma sweepBidsReal_priced eps bids minPrice01 lo hi :
  (forall l, In l bids -> 0 < size l ->
     match minPrice01 with Some mn => mn - eps <= price l | None => True end ->
     lo <= price l /\ price l <= hi) ->
  forall st, Vocab.PricedWithin lo hi st ->
    Vocab.PricedWithin lo hi (sweepBidsReal eps bids minPrice01 st).
Proof.
  induction bids as [|l rest IH]; intros Hall st Hinv; cbn [sweepBidsReal].
  - exact Hinv.
  - assert (Hrest : forall x, In x rest -> 0 < size x ->
              match minPrice01 with
              | Some mn => mn - eps <= price x | None => True end ->
              lo <= price x /\ price x <= hi)
      by (intros x Hx; apply Hall; right; exact Hx).
    destruct (negb (Qgtb (rRemaining st) 0)) eqn:E1; [exact Hinv|].
    destruct (negb (Qgtb (size l) 0)) eqn:E2; [apply IH; assumption|].
    qbool.
    destruct minPrice01 as [mn|].
    + destruct (Qltb (price l) (mn - eps)) eqn:E3; [exact Hinv|].
      qbool. destruct (Hall l (or_introl eq_refl) E2 E3).
      apply IH; [exact Hrest|]. apply realTake_priced; assumption.
    + destruct (Hall l (or_introl eq_refl) E2 I).
      apply IH; [exact Hrest|]. apply realTake_priced; assumption.
Qed.

Lemma sweepAsksReal_priced eps asks maxPrice01 lo hi :
  (forall l, In l asks -> 0 < price l -> 0 < size l ->
     match maxPrice01 with Some mx => price l <= mx + eps | None => True end ->
     lo <= price l /\ price l <= hi) ->
  forall st, Vocab.PricedWithin lo hi st ->
    Vocab.PricedWithin lo hi (sweepAsksReal eps asks maxPrice01 st).
Proof.
  induction asks as [|l rest IH]; intros Hall st Hinv; cbn [sweepAsksReal].
  - exact Hinv.
  - assert (Hrest : forall x, In x rest -> 0 < price x -> 0 < size x ->
              match maxPrice01 with
              | Some mx => price x <= mx + eps | None => True end ->
              lo <= price x /\ price x <= hi)
      by (intros x Hx; apply Hall; right; exact Hx).
    destruct (negb (Qgtb (rRemaining st) 0)) eqn:E1; [exact Hinv|].
    destruct (negb (Qgtb (price l) 0) || negb (Qgtb (size l) 0)) eqn:E2;
      [apply IH; assumption|].
    qbool.
    destruct maxPrice01 as [mx|].
    + destruct (Qgtb (price l) (mx + eps)) eqn:E3; [exact Hinv|].
      qbool.
      match goal with
      | Hp : 0 < price l, Hs : 0 < size l |- _ =>
          destruct (Hall l (or_introl eq_refl) Hp Hs E3);
          apply IH; [exact Hrest|]; apply realTake_priced; assumption
      end.
    + match goal with
      | Hp : 0 < price l, Hs : 0 < size l |- _ =>
          destruct (Hall l (or_introl eq_refl) Hp Hs I);
          apply IH; [exact Hrest|]; apply realTake_priced; assumption
      end.
Qed.

(** The average of prices between [lo] and [hi] lies between them. *)
Lemma priced_average lo hi st :
  Vocab.PricedWithin lo hi st -> 0 < rFilledShares st ->
  lo <= rWeightedPriceSum st / rFilledShares st
  /\ rWeightedPriceSum st / rFilledShares st <= hi.
Proof.
  intros (H0 & H1 & H2 & H3 & _) Hpos. rewrite H3. split.
  - apply Qle_shift_div_l; [exact Hpos | lra].
  - apply Qle_shift_div_r; [exact Hpos | lra].
Qed.

Lemma prices_bounded (levels : Side) :
  exists hi, forall l, In l levels -> price l <= hi.
Proof.
  induction levels as [|x rest [hi IH]].
  - exists 0. intros l [].
  - exists (Qmax (price x) hi). intros l [<-|Hl].
    + apply Q.le_max_l.
    + eapply Qle_trans; [apply IH, Hl | apply Q.le_max_r].
Qed.

Lemma calcPolymarketFee_bounds n a :
  0 <= n -> 0 <= a -> a <= 1 ->
  0 <= calcPolymarketFee n a /\ calcPolymarketFee n a <= 0.02 * n.
Proof.
  intros Hn Ha0 Ha1. unfold calcPolymarketFee, POLYMARKET_FEE_RATE.
  split; nra.
Qed.

(** X14.  A sale reported by [proceedsFromSellingSharesToBidsReal] with a
    floor takes no bid more than the price tolerance below the floor: the
    lowest price filled is within the tolerance of the floor or above it,
    and when that bound is not negative the gross is at least the bound
    times the request less 1e-9 share.  The proceeds are the gross less
    the fee.  When no bid is priced above 1 the average price lies between
    the bound and 1, the fee is not negative and at most 2% of the gross,
    so the proceeds are between 98% of the gross and the gross. *)
Theorem X14_certainty_sale_floor_and_fee :
  forall cfg bids shares floorPrice fill,
    proceedsFromSellingSharesToBidsReal cfg bids shares (Some floorPrice)
    = Some fill ->
    sfrShares fill = shares
    /\ sfrProceeds fill = sfrGross fill - sfrFee fill
    /\ (forall p, sfrMinFilledPrice fill = Some p ->
          floorPrice - PRICE_EPS cfg <= p)
    /\ (0 <= floorPrice - PRICE_EPS cfg ->
        (floorPrice - PRICE_EPS cfg) * (shares - FILL_EPS) <= sfrGross fill)
    /\ ((forall l, In l bids -> price l <= 1) ->
        0 <= floorPrice - PRICE_EPS cfg ->
        (forall a, sfrAvgPrice fill = Some a ->
           floorPrice - PRICE_EPS cfg <= a /\ a <= 1)
        /\ 0 <= sfrFee fill /\ sfrFee fill <= 0.02 * sfrGross fill
        /\ 0.98 * sfrGross fill <= sfrProceeds fill
        /\ sfrProceeds fill <= sfrGross fill).
Proof.
  intros cfg bids shares mn fill H.
  unfold proceedsFromSellingSharesToBidsReal in H.
  destruct bids as [|l0 rest0] eqn:El; [discriminate|]. rewrite <- El in *.
  clear El l0 rest0.
  destruct (negb (Qgtb shares 0)) eqn:Es; [discriminate|].
  destruct (Qgtb _ FILL_EPS) eqn:Ef; [discriminate|].
  qbool.
  pose proof (sweepBidsReal_inv (PRICE_EPS cfg) bids (Some mn) shares _
                (realSweepStart_inv shares Es)) as [Hrem Hsum].
  set (st := sweepBidsReal (PRICE_EPS cfg) bids (Some mn)
               (realSweepStart shares)) in *.
  assert (Hpriced : forall hi, (forall l, In l bids -> price l <= hi) ->
                    Vocab.PricedWithin (mn - PRICE_EPS cfg) hi st).
  { intros hi Hhi. apply sweepBidsReal_priced.
    - intros l Hl _ Hmn. split; [exact Hmn | apply Hhi, Hl].
    - apply realSweepStart_priced. }
  injection H as <-.
  cbn [sfrShares sfrProceeds sfrGross sfrFee sfrMinFilledPrice sfrAvgPrice].
  split; [reflexivity|]. split; [reflexivity|].
  destruct (prices_bounded bids) as [hi0 Hhi0].
  destruct (Hpriced hi0 Hhi0) as (F0 & F1 & _ & _ & F4 & _).
  split; [intros p Hp; apply (F4 p Hp)|].
  split.
  { intros Hlo. unfold FILL_EPS in *. nra. }
  intros Hone Hlo.
  destruct (Hpriced 1 Hone) as (G0 & G1 & G2 & G3 & G4 & G5).
  assert (Hgross : 0 <= rNotional st) by nra.
  destruct (Qgtb (rFilledShares st) 0) eqn:Efilled; qbool.
  - destruct (priced_average _ _ _ (Hpriced 1 Hone) Efilled) as [Ha0 Ha1].
    destruct (calcPolymarketFee_bounds (rNotional st)
                (rWeightedPriceSum st / rFilledShares st) Hgross
                ltac:(lra) Ha1) as [Hf0 Hf1].
    split; [intros a [= <-]; split; assumption|].
    split; [exact Hf0|]. split; [exact Hf1|]. split; lra.
  - assert (Hzero : rNotional st == 0) by nra.
    destruct (rLastFilled st) as [p|] eqn:Elast.
    + destruct (G4 p eq_refl) as (_ & _ & Hpos). lra.
    + split; [discriminate|]. rewrite Hzero. split; [lra|]. split; lra.
Qed.

(** Ten shares sold into bids of 0.745 and 0.70 with a floor of 0.735. *)
Lemma X14_certainty_sale_witness :
  exists fill,
    proceedsFromSellingSharesToBidsReal Certainty.defaultConfig
      [mkLevel 0.745 20; mkLevel 0.70 50] 10 (Some 0.735) = Some fill
    /\ 0.98 * sfrGross fill <= sfrProceeds fill.
Proof.
  destruct (proceedsFromSellingSharesToBidsReal Certainty.defaultConfig
              [mkLevel 0.745 20; mkLevel 0.70 50] 10 (Some 0.735))
    as [fill|] eqn:E; [|vm_compute in E; discriminate].
  exists fill. split; [reflexivity|].
  destruct (X14_certainty_sale_floor_and_fee _ _ _ _ _ E)
    as (_ & _ & _ & _ & H).
  destruct H as (_ & _ & _ & H & _).
  - intros l [<-|[<-|[]]]; discriminate.
  - discriminate.
  - exact H.
Defined.

(** X15.  A purchase reported by [costToBuySharesFromAsksReal] with a
    price limit takes no ask more than the price tolerance above the
    limit: the highest price filled is within the tolerance of the limit,
    and the notional is at most that bound times the request.  The cost
    is the notional plus the fee.  When the bound is at most 1 the average
    price lies between 0 and the bound, the fee is not negative and at
    most 2% of the notional, so the cost is between the notional and 102%
    of it. *)
Theorem X15_certainty_purchase_limit_and_fee :
  forall cfg asks shares limitPrice fill,
    costToBuySharesFromAsksReal cfg asks shares (Some limitPrice)
    = Some fill ->
    0 <= limitPrice + PRICE_EPS cfg ->
    fShares fill = shares
    /\ fCost fill = fNotional fill + fFee fill
    /\ 0 <= fMaxPrice fill /\ fMaxPrice fill <= limitPrice + PRICE_EPS cfg
    /\ 0 <= fNotional fill
    /\ fNotional fill <= (limitPrice + PRICE_EPS cfg) * shares
    /\ 0 <= fAvgPrice fill /\ fAvgPrice fill <= limitPrice + PRICE_EPS cfg
    /\ (limitPrice + PRICE_EPS cfg <= 1 ->
        0 <= fFee fill /\ fFee fill <= 0.02 * fNotional fill
        /\ fNotional fill <= fCost fill
        /\ fCost fill <= 1.02 * fNotional fill).
Proof.
  intros cfg asks shares mx fill H Hmx.
  unfold costToBuySharesFromAsksReal in H.
  destruct asks as [|l0 rest0] eqn:El; [discriminate|]. rewrite <- El in *.
  clear El l0 rest0.
  destruct (negb (Qgtb shares 0)) eqn:Es; [discriminate|].
  destruct (Qgtb _ FILL_EPS) eqn:Ef; [discriminate|].
  qbool.
  pose proof (sweepAsksReal_inv (PRICE_EPS cfg) asks (Some mx) shares _
                (realSweepStart_inv shares Es)) as [Hrem Hsum].
  assert (Hpriced : Vocab.PricedWithin 0 (mx + PRICE_EPS cfg)
                      (sweepAsksReal (PRICE_EPS cfg) asks (Some mx)
                         (realSweepStart shares))).
  { apply sweepAsksReal_priced.
    - intros l _ Hp _ Hle. split; [lra | exact Hle].
    - apply realSweepStart_priced. }
  set (st := sweepAsksReal (PRICE_EPS cfg) asks (Some mx)
               (realSweepStart shares)) in *.
  injection H as <-.
  cbn [fShares fCost fNotional fFee fMaxPrice fAvgPrice].
  destruct Hpriced as (G0 & G1 & G2 & G3 & G4 & G5).
  assert (Hn0 : 0 <= rNotional st) by lra.
  assert (Hlast : 0 <= qOrZero (rLastFilled st)
                  /\ qOrZero (rLastFilled st) <= mx + PRICE_EPS cfg).
  { destruct (rLastFilled st) as [p|]; cbn [qOrZero].
    - destruct (G4 p eq_refl) as (? & ? & _). split; assumption.
    - split; [lra | exact Hmx]. }
  assert (Havg : 0 <= (if Qgtb (rFilledShares st) 0
                       then rWeightedPriceSum st / rFilledShares st
                       else qOrZero (rLastFilled st))
                 /\ (if Qgtb (rFilledShares st) 0
                     then rWeightedPriceSum st / rFilledShares st
                     else qOrZero (rLastFilled st)) <= mx + PRICE_EPS cfg).
  { destruct (Qgtb (rFilledShares st) 0) eqn:Efilled; qbool.
    - apply (priced_average 0 (mx + PRICE_EPS cfg) st); [|exact Efilled].
      unfold Vocab.PricedWithin. auto 10.
    - exact Hlast. }
  split; [reflexivity|]. split; [reflexivity|].
  split; [apply Hlast|]. split; [apply Hlast|].
  split; [exact Hn0|].
  split; [nra|].
  split; [apply Havg|]. split; [apply Havg|].
  intros Hone.
  destruct Havg as [Ha0 Ha1].
  destruct (calcPolymarketFee_bounds (rNotional st) _ Hn0 Ha0
              ltac:(lra)) as [Hf0 Hf1].
  split; [exact Hf0|]. split; [exact Hf1|]. split; lra.
Qed.

(** Ten shares bought from asks of 0.81 and 0.83 with a limit of 0.82. *)
Lemma X15_certainty_purchase_witness :
  exists fill,
    costToBuySharesFromAsksReal Certainty.defaultConfig
      [mkLevel 0.81 40; mkLevel 0.83 100] 10 (Some 0.82) = Some fill
    /\ fCost fill <= 1.02 * fNotional fill.
Proof.
  destruct (costToBuySharesFromAsksReal Certainty.defaultConfig
              [mkLevel 0.81 40; mkLevel 0.83 100] 10 (Some 0.82))
    as [fill|] eqn:E; [|vm_compute in E; discriminate].
  exists fill. split; [reflexivity|].
  destruct (X15_certainty_purchase_limit_and_fee _ _ _ _ _ E)
    as (_ & _ & _ & _ & _ & _ & _ & _ & H).
  - discriminate.
  - destruct H as (_ & _ & _ & H); [discriminate | exact H].
Defined.

Lemma realProbe_Some cfg asks budgetUsdc maxPrice01 m fill :
  realProbe cfg asks budgetUsdc maxPrice01 m = Some fill ->
  costToBuySharesFromAsksReal cfg asks (inject_Z m) maxPrice01 = Some fill
  /\ fCost fill <= budgetUsdc + 0.000000001.
Proof.
  unfold realProbe.
  destruct (costToBuySharesFromAsksReal _ _ _ _) as [f|]; [|discriminate].
  destruct (Qleb _ _) eqn:E; [|discriminate].
  intros [= <-]. qbool. auto.
Qed.

(** X16.  A fill returned by [maxSharesForBudgetReal] is the fill
    [costToBuySharesFromAsksReal] reports for a whole number of shares
    that is at least one, at least the minimum asked for and no more than
    the asks hold; its cost, fee included, exceeds the budget by at most
    1e-9.  Nothing is returned for an empty ask side, for a budget that is
    not positive, or when the best ask is more than the tolerance above
    the price limit. *)
Theorem X16_maxSharesForBudgetReal_sound :
  forall cfg asks budgetUsdc maxPrice01 minShares,
    (forall fill,
        maxSharesForBudgetReal cfg asks budgetUsdc maxPrice01 minShares
        = Some fill ->
        exists n,
          (1 <= n)%Z /\ (minShares <= n)%Z
          /\ inject_Z n <= sumSizes asks
          /\ costToBuySharesFromAsksReal cfg asks (inject_Z n) maxPrice01
             = Some fill
          /\ fShares fill = inject_Z n
          /\ fCost fill <= budgetUsdc + 0.000000001
          /\ 0 < budgetUsdc)
    /\ (asks = [] ->
        maxSharesForBudgetReal cfg asks budgetUsdc maxPrice01 minShares = None)
    /\ (budgetUsdc <= 0 ->
        maxSharesForBudgetReal cfg asks budgetUsdc maxPrice01 minShares = None)
    /\ (forall best rest mx,
          asks = best :: rest -> maxPrice01 = Some mx ->
          mx + PRICE_EPS cfg < price best ->
          maxSharesForBudgetReal cfg asks budgetUsdc maxPrice01 minShares
          = None).
Proof.
  intros cfg asks budget maxPrice01 minShares.
  split; [|split; [|split]].
  - intros fill H. unfold maxSharesForBudgetReal in H.
    destruct (bestPrice asks) as [best|]; [|discriminate].
    destruct (negb (Qgtb budget 0)) eqn:Eb; [discriminate|].
    destruct (Qfloor (sumSizes asks) <? minShares)%Z; [discriminate|].
    destruct (negb (Qgtb best 0)); [discriminate|].
    destruct (match maxPrice01 with Some _ => _ | None => _ end);
      [discriminate|].
    destruct (Z.max _ _ <? minShares)%Z; [discriminate|].
    apply searchLoop_sound in H.
    destruct H as [H|(m & [Hlo Hhi] & H)]; [discriminate|].
    apply realProbe_Some in H. destruct H as [Hfill Hcost].
    pose proof (costToBuyReal_Some _ _ _ _ _ Hfill) as (Hpos & Hsh & _).
    assert (Hm1 : (1 <= m)%Z).
    { destruct (Z_lt_le_dec m 1) as [Hlt|]; [|assumption].
      assert (inject_Z m <= inject_Z 0) by (apply inject_Z_le; lia).
      change (inject_Z 0) with 0 in *. lra. }
    qbool. exists m.
    split; [exact Hm1|]. split; [exact Hlo|].
    split; [apply floor_le; lia|].
    split; [exact Hfill|]. split; [exact Hsh|].
    split; assumption.
  - intros ->. reflexivity.
  - intros Hb. unfold maxSharesForBudgetReal.
    destruct (bestPrice asks); [|reflexivity].
    assert (E : Qgtb budget 0 = false) by (apply Qgtb_false, Hb).
    rewrite E. reflexivity.
  - intros best rest mx -> -> Hhigh. unfold maxSharesForBudgetReal.
    cbn [bestPrice].
    destruct (negb (Qgtb budget 0)); [reflexivity|].
    destruct (_ <? minShares)%Z; [reflexivity|].
    destruct (negb (Qgtb (price best) 0)); [reflexivity|].
    assert (E : Qgtb (price best) (mx + PRICE_EPS cfg) = true)
      by (apply Qgtb_true, Hhigh).
    rewrite E. reflexivity.
Qed.

(** A budget of 8.30 against forty shares at 0.81, limit 0.82. *)
Lemma X16_maxSharesForBudgetReal_witness :
  exists fill,
    maxSharesForBudgetReal Certainty.defaultConfig
      [mkLevel 0.81 40; mkLevel 0.83 100] 8.3 (Some 0.82) 1 = Some fill
    /\ fCost fill <= 8.3 + 0.000000001.
Proof.
  destruct (maxSharesForBudgetReal Certainty.defaultConfig
              [mkLevel 0.81 40; mkLevel 0.83 100] 8.3 (Some 0.82) 1)
    as [fill|] eqn:E; [|vm_compute in E; discriminate].
  exists fill. split; [reflexivity|].
  destruct (X16_maxSharesForBudgetReal_sound Certainty.defaultConfig
              [mkLevel 0.81 40; mkLevel 0.83 100] 8.3 (Some 0.82) 1)
    as (H & _).
  destruct (H fill E) as (n & _ & _ & _ & _ & _ & Hc & _).
  exact Hc.
Defined.

(** ** Candles *)

Lemma archive_ok h c :
  Forall Vocab.CandleOk h -> (List.length h <= 5)%nat -> Vocab.CandleOk c ->
  Forall Vocab.CandleOk (archive h c) /\ (List.length (archive h c) <= 5)%nat.
Proof.
  intros Hall Hlen Hc. unfold archive.
  assert (Hall' : Forall Vocab.CandleOk (h ++ [c])).
  { apply Forall_app. split; [exact Hall|].
    constructor; [exact Hc | constructor]. }
  assert (Hlen' : List.length (h ++ [c]) = S (List.length h)).
  { rewrite length_app. cbn. lia. }
  destruct (5 <? Z.of_nat (List.length (h ++ [c])))%Z eqn:E.
  - destruct (h ++ [c]) as [|x rest] eqn:Eh; cbn [tl].
    + split; [constructor | cbn; lia].
    + inversion Hall'; subst. split; [assumption|].
      cbn [List.length] in Hlen'. lia.
  - apply Z.ltb_ge in E. split; [exact Hall' | lia].
Qed.

(** X17.  [updateOHLC] keeps the candles of a side well formed: when
    every candle's low and high enclose its open and close and at most
    five candles are archived before a price is fed, the same holds after.
    The live candle then belongs to the current minute and closes at the
    price fed.  Within the minute of the live candle its open and start
    time stay and nothing is archived; in another minute the live candle
    is archived and a candle opening at the price fed takes its place.
    Nothing but the candles of that side changes. *)
Theorem X17_updateOHLC_keeps_candles_well_formed :
  forall w st side px,
    Vocab.CandlesOk (candlesOf st side) ->
    Vocab.CandlesOk (candlesOf (updateOHLC w st side px) side)
    /\ (exists c,
          current (candlesOf (updateOHLC w st side px) side) = Some c
          /\ cClose c = px /\ minute c = (nowMs w / 60000)%Z
          /\ cLow c <= px /\ px <= cHigh c)
    /\ (forall c0, current (candlesOf st side) = Some c0 ->
          minute c0 = (nowMs w / 60000)%Z ->
          history (candlesOf (updateOHLC w st side px) side)
          = history (candlesOf st side)
          /\ exists c,
               current (candlesOf (updateOHLC w st side px) side) = Some c
               /\ cOpen c = cOpen c0 /\ startTime c = startTime c0
               /\ cLow c <= cLow c0 /\ cHigh c0 <= cHigh c)
    /\ (forall c0, current (candlesOf st side) = Some c0 ->
          minute c0 <> (nowMs w / 60000)%Z ->
          history (candlesOf (updateOHLC w st side px) side)
          = archive (history (candlesOf st side)) c0
          /\ exists c,
               current (candlesOf (updateOHLC w st side px) side) = Some c
               /\ cOpen c = px /\ cHigh c = px /\ cLow c = px
               /\ startTime c = nowMs w)
    /\ (forall other, other <> side ->
          candlesOf (updateOHLC w st side px) other = candlesOf st other)
    /\ Certainty.paperBalance (updateOHLC w st side px)
       = Certainty.paperBalance st
    /\ open (updateOHLC w st side px) = open st
    /\ trades (updateOHLC w st side px) = trades st
    /\ iState (updateOHLC w st side px) = iState st.
Proof.
  intros w st side px (Hcur & Hhist & Hlen).
  assert (Hside : forall d, candlesOf (withCandles st side d) side = d)
    by (intros d; destruct side; reflexivity).
  assert (Hother : forall d other, other <> side ->
            candlesOf (withCandles st side d) other = candlesOf st other).
  { intros d other Hne. destruct side, other; try reflexivity;
      contradiction. }
  unfold updateOHLC. rewrite Hside.
  split; [|split; [|split; [|split; [|split]]]].
  - unfold Vocab.CandlesOk, Vocab.CandleOk.
    destruct (current (candlesOf st side)) as [c|] eqn:Ec.
    + destruct (negb (minute c =? nowMs w / 60000)%Z) eqn:Em;
        cbn [current history cLow cOpen cHigh cClose].
      * destruct (archive_ok _ c Hhist Hlen Hcur) as [A B].
        destruct (Qgtb px px) eqn:E1; destruct (Qltb px px) eqn:E2;
          qbool; repeat split; try lra; try assumption.
      * rewrite Ec. cbn [current history cLow cOpen cHigh cClose].
        destruct Hcur as (C1 & C2 & C3 & C4).
        destruct (Qgtb px (cHigh c)) eqn:E1;
          destruct (Qltb px (cLow c)) eqn:E2;
          qbool; repeat split; try lra; try assumption.
    + cbn [current history cLow cOpen cHigh cClose].
      destruct (Qgtb px px) eqn:E1; destruct (Qltb px px) eqn:E2;
        qbool; repeat split; try lra; try assumption.
  - destruct (current (candlesOf st side)) as [c|] eqn:Ec.
    + destruct (negb (minute c =? nowMs w / 60000)%Z) eqn:Em;
        cbn [current].
      * eexists. split; [reflexivity|].
        cbn [cClose minute cLow cHigh].
        destruct (Qgtb px px) eqn:E1; destruct (Qltb px px) eqn:E2;
          qbool; repeat split; try lra; reflexivity.
      * rewrite Ec. eexists. split; [reflexivity|].
        cbn [cClose minute cLow cHigh].
        apply negb_false_iff, Z.eqb_eq in Em.
        destruct Hcur as (C1 & C2 & C3 & C4).
        destruct (Qgtb px (cHigh c)) eqn:E1;
          destruct (Qltb px (cLow c)) eqn:E2;
          qbool; repeat split; try lra; assumption.
    + cbn [current]. eexists. split; [reflexivity|].
      cbn [cClose minute cLow cHigh].
      destruct (Qgtb px px) eqn:E1; destruct (Qltb px px) eqn:E2;
        qbool; repeat split; try lra; reflexivity.
  - intros c0 Ec Hmin. rewrite Ec.
    assert (Em : negb (minute c0 =? nowMs w / 60000)%Z = false)
      by (apply negb_false_iff, Z.eqb_eq, Hmin).
    rewrite Em, Ec. cbn [current history].
    split; [reflexivity|].
    eexists. split; [reflexivity|].
    cbn [cOpen startTime cLow cHigh].
    destruct (Qgtb px (cHigh c0)) eqn:E1; destruct (Qltb px (cLow c0)) eqn:E2;
      qbool; repeat split; try lra; reflexivity.
  - intros c0 Ec Hmin. rewrite Ec.
    assert (Em : negb (minute c0 =? nowMs w / 60000)%Z = true)
      by (apply negb_true_iff, Z.eqb_neq, Hmin).
    rewrite Em. cbn [current history].
    split; [reflexivity|].
    eexists. split; [reflexivity|].
    cbn [cOpen startTime cLow cHigh].
    destruct (Qgtb px px) eqn:E1; destruct (Qltb px px) eqn:E2;
      qbool; repeat split; try lra; reflexivity.
  - intros other Hne. apply Hother, Hne.
  - destruct side; repeat split; reflexivity.
Qed.

(** A first price fed to an account without candles. *)
Lemma X17_updateOHLC_witness :
  Vocab.CandlesOk
    (candlesOf (updateOHLC paperStraddleWorld
                  (Certainty.initialState 20
                     {| balanceUsdc := None; allowanceUsdc := None |})
                  Up 0.81) Up).
Proof.
  apply (X17_updateOHLC_keeps_candles_well_formed paperStraddleWorld
           (Certainty.initialState 20
              {| balanceUsdc := None; allowanceUsdc := None |}) Up 0.81).
  unfold Vocab.CandlesOk. cbn. repeat split; [constructor | lia].
Defined.

(** ** The ledger *)

Lemma SameLedger_refl st : Vocab.SameLedger st st.
Proof. split; reflexivity. Qed.

Lemma SameLedger_trans a b c :
  Vocab.SameLedger a b -> Vocab.SameLedger b c -> Vocab.SameLedger a c.
Proof. intros [A1 A2] [B1 B2]. split; congruence. Qed.

Lemma updateTrade_ids ts id f :
  (forall t, tradeId (f t) = tradeId t) ->
  List.map tradeId (updateTrade ts id f) = List.map tradeId ts.
Proof.
  intros Hf. induction ts as [|t rest IH]; cbn; [reflexivity|].
  destruct (tradeId t =? id)%Z; cbn; [rewrite Hf | rewrite IH]; reflexivity.
Qed.

Lemma feedCandle_ledger w st side : Vocab.SameLedger st (feedCandle w st side).
Proof.
  unfold feedCandle. destruct (bkSummary (getBooks w side));
    [|apply SameLedger_refl].
  unfold updateOHLC. destruct side; split; reflexivity.
Qed.

Lemma clearConfirm_ledger st : Vocab.SameLedger st (clearConfirm st).
Proof.
  unfold clearConfirm. destruct (confirm st); split; reflexivity.
Qed.

Lemma getCurrentEntryRange_ledger cfg w st :
  Vocab.SameLedger st (snd (getCurrentEntryRange cfg w st)).
Proof.
  unfold getCurrentEntryRange.
  destruct (negb _); [split; reflexivity|].
  destruct (lastExitType (iState st)) as [[|]|]; try (split; reflexivity).
  destruct (lastStopLossExitPrice (iState st)); split; reflexivity.
Qed.

Lemma canEnterPosition_ledger cfg w st side tRem :
  Vocab.SameLedger st (snd (canEnterPosition cfg w st side tRem)).
Proof.
  unfold canEnterPosition.
  destruct (negb _ && negb _); [apply SameLedger_refl|].
  destruct (negb _ && _); [apply SameLedger_refl|].
  destruct (bkSummary (getBooks w side)) as [s|]; [|apply SameLedger_refl].
  destruct (negb (Qgtb (bestAsk s) 0)); [apply SameLedger_refl|].
  destruct (negb (spreadOk cfg (Some s))); [apply SameLedger_refl|].
  pose proof (getCurrentEntryRange_ledger cfg w st) as H.
  destruct (getCurrentEntryRange cfg w st) as [range st1]. cbn [snd] in H.
  repeat match goal with
  | |- context [if ?b then _ else _] => destruct b
  | |- context [match ?x with _ => _ end] => destruct x
  end; exact H.
Qed.

Lemma executePaperSell_ledger cfg st o sellFill exitType :
  Vocab.SameLedger st (executePaperSell cfg st o sellFill exitType).
Proof.
  unfold executePaperSell.
  destruct o as [o|]; [|apply SameLedger_refl].
  destruct sellFill as [f|]; [|apply SameLedger_refl].
  split; [|reflexivity].
  unfold Vocab.ledgerIds. cbn [trades Certainty.withOpen withIState withTrades].
  apply updateTrade_ids. reflexivity.
Qed.

Lemma executeLiveSell_ledger cfg w st orc o tok minPrice01 proceedsUsdc
  exitType :
  Vocab.SameLedger st
    (fst (executeLiveSell cfg w st orc o tok minPrice01 proceedsUsdc
            exitType)).
Proof.
  unfold executeLiveSell.
  destruct (PAPER_TRADING w); [apply SameLedger_refl|].
  destruct (negb (ENABLE_LIVE_ORDERS w)); [apply SameLedger_refl|].
  destruct (negb (truthyId tok)); [apply SameLedger_refl|].
  destruct (negb (clobCreds w)); [apply SameLedger_refl|].
  destruct (postResult orc); try apply SameLedger_refl;
    (split; [|reflexivity]);
    unfold Vocab.ledgerIds;
    cbn [fst trades Certainty.withOpen withIState withTrades withCollateral];
    apply updateTrade_ids; reflexivity.
Qed.

Lemma executePaperBuy_ledger cfg w st tid side tok sh fill mx cap :
  let st' := executePaperBuy cfg w st tid side tok sh fill mx cap in
  tradeSeq st' = tradeSeq st
  /\ (Vocab.ledgerIds st' = Vocab.ledgerIds st
      \/ Vocab.ledgerIds st' = (Vocab.ledgerIds st ++ [tid])%list).
Proof.
  cbv zeta. unfold executePaperBuy.
  destruct (open st); [auto|].
  destruct fill as [f|]; [|auto].
  destruct (negb (Qgtb sh 0)); [auto|].
  destruct (Qgtb _ _); [auto|].
  split; [reflexivity|]. right.
  unfold Vocab.ledgerIds, recordTrade.
  cbn [trades withTrades withIState Certainty.withOpen Certainty.withBalance].
  rewrite map_app. reflexivity.
Qed.

Lemma executeLiveBuy_ledger cfg w st orc entry tid limit :
  let st' := fst (executeLiveBuy cfg w st orc entry tid limit) in
  tradeSeq st' = tradeSeq st
  /\ (Vocab.ledgerIds st' = Vocab.ledgerIds st
      \/ Vocab.ledgerIds st' = (Vocab.ledgerIds st ++ [tid])%list).
Proof.
  cbv zeta. unfold executeLiveBuy.
  destruct (PAPER_TRADING w); [auto|].
  destruct (negb (ENABLE_LIVE_ORDERS w)); [auto|].
  destruct (negb (truthyId _)); [auto|].
  destruct (negb (clobCreds w)); [auto|].
  set (st1 := match liveCanSpendUsdc _ _ with
              | SpendUnknown => _ | _ => st end).
  assert (H1 : Vocab.SameLedger st st1).
  { subst st1. destruct (liveCanSpendUsdc _ _); try apply SameLedger_refl.
    destruct (refreshed orc); split; reflexivity. }
  destruct H1 as [Hids Hseq]. clearbody st1.
  destruct (negb (canSpendOk _)); [cbn [fst]; split; [exact Hseq | auto]|].
  destruct (postResult orc); cbv zeta; cbn [fst].
  - split; [exact Hseq|]. right.
    unfold Vocab.ledgerIds, recordTrade in *.
    cbn [trades withTrades withIState Certainty.withOpen].
    rewrite map_app, Hids. reflexivity.
  - split; [exact Hseq|]. right.
    unfold Vocab.ledgerIds, recordTrade in *.
    cbn [trades withTrades withIState Certainty.withOpen].
    rewrite map_app, Hids. reflexivity.
  - split; [exact Hseq | auto].
Qed.

Lemma withTpConfirm_ledger st n : Vocab.SameLedger st (withTpConfirm st n).
Proof. split; reflexivity. Qed.

Lemma withStopConfirm_ledger st n :
  Vocab.SameLedger st (withStopConfirm st n).
Proof. split; reflexivity. Qed.

Lemma withLastTradeAt_ledger st t :
  Vocab.SameLedger st (Certainty.withLastTradeAt st t).
Proof. split; reflexivity. Qed.

Lemma withConfirm_ledger st c : Vocab.SameLedger st (withConfirm st c).
Proof. split; reflexivity. Qed.

Lemma manageOpen_ledger cfg w orc st o :
  Vocab.SameLedger st (manageOpen cfg w orc st o).
Proof.
  assert (Hdone : forall s, Vocab.SameLedger st s ->
            Vocab.SameLedger st
              (withStopConfirm
                 (withTpConfirm
                    (clearConfirm
                       (Certainty.withLastTradeAt s (Some (nowMs w)))) 0) 0)).
  { intros s Hs.
    eapply SameLedger_trans; [|apply withStopConfirm_ledger].
    eapply SameLedger_trans; [|apply withTpConfirm_ledger].
    eapply SameLedger_trans; [|apply clearConfirm_ledger].
    eapply SameLedger_trans; [exact Hs | apply withLastTradeAt_ledger]. }
  assert (Hdone2 : forall s, Vocab.SameLedger st s ->
            Vocab.SameLedger st
              (withTpConfirm
                 (withStopConfirm
                    (clearConfirm
                       (Certainty.withLastTradeAt s (Some (nowMs w)))) 0) 0)).
  { intros s Hs.
    eapply SameLedger_trans; [|apply withTpConfirm_ledger].
    eapply SameLedger_trans; [|apply withStopConfirm_ledger].
    eapply SameLedger_trans; [|apply clearConfirm_ledger].
    eapply SameLedger_trans; [exact Hs | apply withLastTradeAt_ledger]. }
  unfold manageOpen.
  destruct (oEndEpochSec o <=? nowSec w)%Z; [apply SameLedger_refl|].
  destruct (idMismatch _ (oTokenId o)); [apply SameLedger_refl|].
  destruct (idMismatch (oMarketId o) _); [apply SameLedger_refl|].
  destruct (checkTakeProfit cfg w o).
  - set (st1 := withTpConfirm st (tpConfirm st + 1)%Z).
    assert (H1 : Vocab.SameLedger st st1) by (split; reflexivity).
    destruct (tpConfirm st1 <? CONFIRM_TICKS cfg)%Z; [exact H1|].
    destruct (negb (cooldownOk cfg w st1)); [exact H1|].
    destruct (proceedsFromSellingSharesToBidsReal _ _ _ _) as [sf|];
      [|exact H1].
    destruct (PAPER_TRADING w).
    + cbn [negb]. apply Hdone.
      eapply SameLedger_trans; [exact H1 | apply executePaperSell_ledger].
    + pose proof (executeLiveSell_ledger cfg w st1 orc o
                    (bkTokenId (getBooks w (Certainty.oSide o)))
                    (TAKE_PROFIT_MIN cfg - TAKE_PROFIT_BUFFER cfg)
                    (sfrProceeds sf) TakeProfit) as H2.
      destruct (executeLiveSell _ _ _ _ _ _ _ _ _) as [st2 threw].
      cbn [fst] in H2.
      pose proof (SameLedger_trans _ _ _ H1 H2) as H3.
      destruct threw; [exact H3 | apply Hdone, H3].
  - destruct (checkStopLoss cfg w o).
    + set (st1 := withStopConfirm st (stopConfirm st + 1)%Z).
      assert (H1 : Vocab.SameLedger st st1) by (split; reflexivity).
      destruct (stopConfirm st1 <? CONFIRM_TICKS cfg)%Z; [exact H1|].
      destruct (negb (cooldownOk cfg w st1)); [exact H1|].
      destruct (findBestAvailableSellPrice _ _ _ _) as [bp|]; [|exact H1].
      destruct (Qeq_bool bp 0); [exact H1|].
      destruct (proceedsFromSellingSharesToBidsReal _ _ _ _) as [sf|];
        [|exact H1].
      destruct (PAPER_TRADING w).
      * cbn [negb]. apply Hdone2.
        eapply SameLedger_trans; [exact H1 | apply executePaperSell_ledger].
      * pose proof (executeLiveSell_ledger cfg w st1 orc o
                      (bkTokenId (getBooks w (Certainty.oSide o)))
                      bp (sfrProceeds sf) StopLoss) as H2.
        destruct (executeLiveSell _ _ _ _ _ _ _ _ _) as [st2 threw].
        cbn [fst] in H2.
        pose proof (SameLedger_trans _ _ _ H1 H2) as H3.
        destruct threw.
        -- eapply SameLedger_trans; [exact H3 | apply withTpConfirm_ledger].
        -- apply Hdone2, H3.
    + split; reflexivity.
Qed.

(** What a call of the handler without a position does to the ledger. *)
Lemma seekEntry_ledger cfg w orc st tRem :
  let st' := seekEntry cfg w orc st tRem in
  (Vocab.ledgerIds st' = Vocab.ledgerIds st
   /\ (tradeSeq st' = tradeSeq st \/ tradeSeq st' = (tradeSeq st + 1)%Z))
  \/ (Vocab.ledgerIds st' = (Vocab.ledgerIds st ++ [(tradeSeq st + 1)%Z])%list
      /\ tradeSeq st' = (tradeSeq st + 1)%Z).
Proof.
  cbv zeta. unfold seekEntry.
  set (st0 := withTpConfirm (withStopConfirm st 0) 0).
  assert (H0 : Vocab.SameLedger st st0) by (split; reflexivity).
  pose proof (canEnterPosition_ledger cfg w st0 Up tRem) as H1.
  destruct (canEnterPosition cfg w st0 Up tRem) as [upEntry st1].
  cbn [snd] in H1.
  pose proof (canEnterPosition_ledger cfg w st1 Down tRem) as H2.
  destruct (canEnterPosition cfg w st1 Down tRem) as [downEntry st2].
  cbn [snd] in H2.
  pose proof (getCurrentEntryRange_ledger cfg w st2) as H3.
  set (st3 := snd (getCurrentEntryRange cfg w st2)) in *.
  assert (H03 : Vocab.SameLedger st st3).
  { eapply SameLedger_trans; [exact H0|].
    eapply SameLedger_trans; [exact H1|].
    eapply SameLedger_trans; [exact H2 | exact H3]. }
  clearbody st3. clear H0 H1 H2 H3.
  destruct (chooseEntry upEntry downEntry) as [enter|].
  2: { left. destruct (SameLedger_trans _ _ _ H03 (clearConfirm_ledger st3)).
       auto. }
  destruct (negb (cooldownOk cfg w st3)); [left; destruct H03; auto|].
  unfold bumpConfirm.
  set (st4 := withConfirm st3 _).
  assert (H04 : Vocab.SameLedger st st4)
    by (eapply SameLedger_trans; [exact H03 | apply withConfirm_ledger]).
  cbn [fst snd].
  match goal with
  | |- context [if ?b then _ else _] => destruct b
  end; [left; destruct H04; auto|].
  unfold nextTradeId.
  set (st5 := withTradeSeq st4 (tradeSeq st4 + 1)%Z).
  assert (H5 : Vocab.ledgerIds st5 = Vocab.ledgerIds st
               /\ tradeSeq st5 = (tradeSeq st + 1)%Z).
  { destruct H04 as [A B]. subst st5. unfold Vocab.ledgerIds in *.
    cbn [trades tradeSeq withTradeSeq]. rewrite A, B. auto. }
  destruct H5 as [H5a H5b].
  assert (Hid : (tradeSeq st4 + 1)%Z = (tradeSeq st + 1)%Z)
    by (destruct H04 as [_ ->]; reflexivity).
  destruct (PAPER_TRADING w).
  - cbn [negb].
    pose proof (executePaperBuy_ledger cfg w st5 (tradeSeq st4 + 1)%Z
                  (eSide enter) (bkTokenId (eBooks enter))
                  (fShares (eFill enter)) (Some (eFill enter))
                  (rMax (eRange enter)) (eCapitalBefore enter)) as H6.
    cbv zeta in H6. destruct H6 as [H6a H6b].
    set (st6 := executePaperBuy _ _ _ _ _ _ _ _ _ _) in *.
    destruct (SameLedger_trans _ _ _
                (withLastTradeAt_ledger st6 (Some (nowMs w)))
                (clearConfirm_ledger _)) as [C1 C2].
    rewrite C1, C2, H6a, H5b.
    destruct H6b as [H6b|H6b]; rewrite H6b, H5a;
      [left; auto | right; rewrite Hid; auto].
  - pose proof (executeLiveBuy_ledger cfg w st5 orc enter
                  (tradeSeq st4 + 1)%Z (rMax (eRange enter))) as H6.
    cbv zeta in H6.
    destruct (executeLiveBuy _ _ _ _ _ _ _) as [st6 threw].
    cbn [fst] in H6. destruct H6 as [H6a H6b].
    destruct threw.
    + rewrite H6a, H5b.
      destruct H6b as [H6b|H6b]; rewrite H6b, H5a;
        [left; auto | right; rewrite Hid; auto].
    + destruct (SameLedger_trans _ _ _
                  (withLastTradeAt_ledger st6 (Some (nowMs w)))
                  (clearConfirm_ledger _)) as [C1 C2].
      rewrite C1, C2, H6a, H5b.
      destruct H6b as [H6b|H6b]; rewrite H6b, H5a;
        [left; auto | right; rewrite Hid; auto].
Qed.

Lemma sorted_snoc ids next :
  StronglySorted Z.lt ids -> Forall (fun id => (id < next)%Z) ids ->
  StronglySorted Z.lt (ids ++ [next]).
Proof.
  induction 1 as [|x rest Hs IH Hall]; intros Hlt; cbn.
  - repeat constructor.
  - inversion Hlt; subst. constructor; [apply IH; assumption|].
    apply Forall_app. split; [exact Hall | repeat constructor; assumption].
Qed.

(** X18.  The certainty handler only ever appends to its ledger: after a
    call the identifiers recorded before are still there in the same
    order, followed by at most one new identifier, which is the counter
    after the call; the counter moves up by at most one.  It follows that
    identifiers that grew strictly and stayed at or below the counter
    before the call do so after it, so no two ledger entries share an
    identifier. *)
Theorem X18_certainty_ledger_append_only :
  forall cfg w orc st,
    let st' := Certainty.onOrderbooks cfg w orc st in
    (Vocab.ledgerIds st' = Vocab.ledgerIds st
     \/ Vocab.ledgerIds st'
        = (Vocab.ledgerIds st ++ [tradeSeq st'])%list)
    /\ (tradeSeq st <= tradeSeq st' <= tradeSeq st + 1)%Z
    /\ (open st <> None -> Vocab.ledgerIds st' = Vocab.ledgerIds st
                           /\ tradeSeq st' = tradeSeq st)
    /\ (Vocab.LedgerOk st ->
        Vocab.LedgerOk st' /\ NoDup (Vocab.ledgerIds st')).
Proof.
  intros cfg w orc st. cbv zeta. unfold Certainty.onOrderbooks.
  set (st1 := feedCandle w (feedCandle w st Up) Down).
  assert (H1 : Vocab.SameLedger st st1).
  { eapply SameLedger_trans; apply feedCandle_ledger. }
  assert (Ho1 : open st1 = open st).
  { subst st1. rewrite (proj1 (feedCandle_keeps w _ Down)).
    apply feedCandle_keeps. }
  assert (Hcases :
    let st' := match open st1 with
               | Some o => manageOpen cfg w orc st1 o
               | None => seekEntry cfg w orc st1 (timeRemainingSec w)
               end in
    (Vocab.ledgerIds st' = Vocab.ledgerIds st
     /\ (tradeSeq st' = tradeSeq st \/ tradeSeq st' = (tradeSeq st + 1)%Z))
    \/ (Vocab.ledgerIds st'
        = (Vocab.ledgerIds st ++ [(tradeSeq st + 1)%Z])%list
        /\ tradeSeq st' = (tradeSeq st + 1)%Z)).
  { cbv zeta. destruct H1 as [A B]. destruct (open st1) as [o|].
    - destruct (manageOpen_ledger cfg w orc st1 o) as [C D].
      left. rewrite C, D, A, B. auto.
    - pose proof (seekEntry_ledger cfg w orc st1 (timeRemainingSec w)) as H.
      cbv zeta in H. rewrite A, B in H. exact H. }
  cbv zeta in Hcases.
  split; [|split; [|split]].
  - destruct Hcases as [[A _]|[A B]]; [left; exact A|].
    right. rewrite A, B. reflexivity.
  - destruct Hcases as [[_ [B|B]]|[_ B]]; lia.
  - intros Hopen. rewrite Ho1.
    destruct (open st) as [o|]; [|contradiction].
    destruct H1 as [A B].
    destruct (manageOpen_ledger cfg w orc st1 o) as [C D].
    rewrite C, D, A, B. auto.
  - intros [Hs Hb].
    assert (Hok : Vocab.LedgerOk
                    match open st1 with
                    | Some o => manageOpen cfg w orc st1 o
                    | None => seekEntry cfg w orc st1 (timeRemainingSec w)
                    end).
    { unfold Vocab.LedgerOk.
      destruct Hcases as [[A B]|[A B]]; rewrite A.
      - split; [exact Hs|].
        eapply Forall_impl; [|exact Hb]. intros id Hid. cbv beta in *.
        destruct B as [B|B]; rewrite B; lia.
      - rewrite B. split.
        + apply sorted_snoc; [exact Hs|].
          eapply Forall_impl; [|exact Hb]. intros id Hid. cbv beta in *. lia.
        + apply Forall_app. split.
          * eapply Forall_impl; [|exact Hb]. intros id Hid. cbv beta in *.
            lia.
          * repeat constructor. lia. }
    split; [exact Hok|].
    destruct Hok as [Hs' _].
    revert Hs'. generalize (Vocab.ledgerIds
      match open st1 with
      | Some o => manageOpen cfg w orc st1 o
      | None => seekEntry cfg w orc st1 (timeRemainingSec w)
      end).
    intros ids Hs'. induction Hs' as [|x rest Hr IH Hall]; constructor.
    + intros Hin. rewrite Forall_forall in Hall.
      specialize (Hall x Hin). lia.
    + exact IH.
Qed.

(** A ledger that starts empty stays free of duplicates. *)
Lemma X18_certainty_ledger_witness :
  NoDup (Vocab.ledgerIds
           (Certainty.onOrderbooks Certainty.defaultConfig risingWorld
              silentOracle warmedUp)).
Proof.
  destruct (X18_certainty_ledger_append_only Certainty.defaultConfig
              risingWorld silentOracle warmedUp) as (_ & _ & _ & H).
  apply H. unfold Vocab.LedgerOk. vm_compute. split; constructor.
Defined.

(** ** Leaving a position *)

(** X19.  In simulation a call of the certainty handler with a position
    open never buys: afterwards the same position is open with balance
    and interval record untouched, or no position is open.  In the second
    case the interval of the position had not ended, all its shares were
    sold into the bids of its side by
    [proceedsFromSellingSharesToBidsReal], and the balance has grown by
    the proceeds less the order gas.  The sale was a take-profit with the
    floor at the take-profit minimum less its buffer when the take-profit
    test held; otherwise it was a stop-loss, the stop-loss test held and
    the floor was the price [findBestAvailableSellPrice] picked.  A
    position whose interval has ended is always left as it is. *)
Theorem X19_open_position_is_held_or_sold_whole :
  forall cfg w orc st o,
    open st = Some o -> PAPER_TRADING w = true ->
    ((open (Certainty.onOrderbooks cfg w orc st) = Some o
      /\ Certainty.paperBalance (Certainty.onOrderbooks cfg w orc st)
         = Certainty.paperBalance st
      /\ iState (Certainty.onOrderbooks cfg w orc st) = iState st)
     \/ (open (Certainty.onOrderbooks cfg w orc st) = None
         /\ (nowSec w < oEndEpochSec o)%Z
         /\ exists floorPrice sellFill exitType,
              proceedsFromSellingSharesToBidsReal cfg
                (bkBids (getBooks w (Certainty.oSide o))) (oShares o)
                (Some floorPrice) = Some sellFill
              /\ Certainty.paperBalance (Certainty.onOrderbooks cfg w orc st)
                 = Certainty.paperBalance st + sfrProceeds sellFill
                   + - ORDER_GAS_USDC cfg
              /\ iState (Certainty.onOrderbooks cfg w orc st)
                 = afterExit (iState st) exitType (sfrAvgPrice sellFill)
              /\ match exitType with
                 | TakeProfit =>
                     checkTakeProfit cfg w o = true
                     /\ floorPrice
                        = TAKE_PROFIT_MIN cfg - TAKE_PROFIT_BUFFER cfg
                 | StopLoss =>
                     checkTakeProfit cfg w o = false
                     /\ checkStopLoss cfg w o = true
                     /\ findBestAvailableSellPrice cfg
                          (bkBids (getBooks w (Certainty.oSide o)))
                          (STOP_LOSS_PRICE cfg) (STOP_LOSS_BUFFER cfg)
                        = Some floorPrice
                 end))
    /\ ((oEndEpochSec o <= nowSec w)%Z ->
        open (Certainty.onOrderbooks cfg w orc st) = Some o
        /\ Certainty.paperBalance (Certainty.onOrderbooks cfg w orc st)
           = Certainty.paperBalance st).
Proof.
  intros cfg w orc st o Ho Hpaper. unfold Certainty.onOrderbooks.
  set (st1 := feedCandle w (feedCandle w st Up) Down).
  assert (Ho1 : open st1 = Some o).
  { subst st1. rewrite (proj1 (feedCandle_keeps w _ Down)).
    rewrite (proj1 (feedCandle_keeps w _ Up)). exact Ho. }
  assert (Hi1 : iState st1 = iState st).
  { subst st1. rewrite (proj1 (proj2 (feedCandle_keeps w _ Down))).
    apply feedCandle_keeps. }
  assert (Hb1 : Certainty.paperBalance st1 = Certainty.paperBalance st).
  { subst st1. rewrite (proj2 (proj2 (feedCandle_keeps w _ Down))).
    apply feedCandle_keeps. }
  clearbody st1. rewrite Ho1. unfold manageOpen.
  destruct (oEndEpochSec o <=? nowSec w)%Z eqn:Eend.
  { split; [left|intros _]; auto. }
  apply Z.leb_gt in Eend.
  split; [|intros Hend; lia].
  destruct (idMismatch _ (oTokenId o)); [left; auto|].
  destruct (idMismatch (oMarketId o) _); [left; auto|].
  rewrite Hpaper.
  destruct (checkTakeProfit cfg w o) eqn:Etp.
  - cbn [tpConfirm withTpConfirm].
    destruct (_ <? CONFIRM_TICKS cfg)%Z; [left; auto|].
    destruct (negb (cooldownOk cfg w _)); [left; auto|].
    destruct (proceedsFromSellingSharesToBidsReal _ _ _ _) as [sf|] eqn:Esf;
      [|left; auto].
    right. cbn [negb]. split; [|split; [exact Eend|]].
    + unfold executePaperSell, clearConfirm.
      cbn [confirm Certainty.withLastTradeAt Certainty.withOpen withIState
           withTrades Certainty.withBalance withTpConfirm].
      destruct (confirm st1); reflexivity.
    + exists (TAKE_PROFIT_MIN cfg - TAKE_PROFIT_BUFFER cfg), sf, TakeProfit.
      split; [exact Esf|].
      unfold executePaperSell, clearConfirm, executePaperDelta.
      cbn [confirm Certainty.withLastTradeAt Certainty.withOpen withIState
           withTrades Certainty.withBalance withTpConfirm].
      destruct (confirm st1); cbn; rewrite ?Hb1, ?Hi1; auto.
  - destruct (checkStopLoss cfg w o) eqn:Esl; [|left; auto].
    cbn [stopConfirm withStopConfirm].
    destruct (_ <? CONFIRM_TICKS cfg)%Z; [left; auto|].
    destruct (negb (cooldownOk cfg w _)); [left; auto|].
    destruct (findBestAvailableSellPrice _ _ _ _) as [bp|] eqn:Ebp;
      [|left; auto].
    destruct (Qeq_bool bp 0); [left; auto|].
    destruct (proceedsFromSellingSharesToBidsReal _ _ _ _) as [sf|] eqn:Esf;
      [|left; auto].
    right. split; [|split; [exact Eend|]].
    + unfold executePaperSell, clearConfirm.
      cbn [confirm Certainty.withLastTradeAt Certainty.withOpen withIState
           withTrades Certainty.withBalance withStopConfirm].
      destruct (confirm st1); reflexivity.
    + exists bp, sf, StopLoss.
      split; [exact Esf|].
      unfold executePaperSell, clearConfirm, executePaperDelta.
      cbn [confirm Certainty.withLastTradeAt Certainty.withOpen withIState
           withTrades Certainty.withBalance withStopConfirm].
      destruct (confirm st1); cbn; rewrite ?Hb1, ?Hi1; auto.
Qed.

(** The ten Up shares held at 0.745 bid: kept or sold, never added to. *)
Lemma X19_open_position_witness :
  open (Certainty.onOrderbooks Certainty.defaultConfig afterFallWorld
          silentOracle heldUp) = open heldUp
  \/ open (Certainty.onOrderbooks Certainty.defaultConfig afterFallWorld
             silentOracle heldUp) = None.
Proof.
  destruct (open heldUp) as [o|] eqn:Ho; [|right; discriminate Ho].
  destruct (X19_open_position_is_held_or_sold_whole Certainty.defaultConfig
              afterFallWorld silentOracle heldUp o Ho eq_refl)
    as [[(H & _)|(H & _)] _]; [left | right]; exact H.
Defined.

(** ** Targets and stops of the lag mode *)

Lemma computeTargetSellPrice01_Some entry profit buyFee sellFee s :
  computeTargetSellPrice01 entry profit buyFee sellFee = Some s ->
  entry < s /\ 0.001 <= s /\ s < 0.99 /\ sellFee < 10000
  /\ applyTakerFeeOnBuy entry buyFee + profit / 100
     <= applyTakerFeeOnSell s sellFee.
Proof.
  intros H. unfold computeTargetSellPrice01 in H.
  destruct (negb (Qgtb (1 - sellFee / 10000) 0)) eqn:Esell; [discriminate|].
  destruct (Qgeb _ 0.99) eqn:Ecap; [discriminate|].
  destruct (negb (Qgtb _ entry)) eqn:Eabove; [discriminate|].
  injection H as <-. qbool.
  set (numer := entry * (1 + buyFee / 10000) + profit / 100) in *.
  set (sellMult := 1 - sellFee / 10000) in *.
  assert (Hraw : numer / sellMult * sellMult == numer).
  { rewrite Qmult_comm. apply Qmult_div_r. intros E. lra. }
  assert (Hs : Qmin 0.99 (Qmax 0.001 (numer / sellMult))
               = Qmax 0.001 (numer / sellMult)).
  { destruct (Qmin_cases 0.99 (Qmax 0.001 (numer / sellMult)))
      as [[Hle _]|[_ E]]; [|exact E].
    exfalso.
    destruct (Qmax_cases 0.001 (numer / sellMult)) as [[_ E]|[_ E]];
      rewrite E in Hle; lra. }
  rewrite Hs in *.
  assert (Hge : numer / sellMult <= Qmax 0.001 (numer / sellMult))
    by apply Q.le_max_r.
  assert (H001 : 0.001 <= Qmax 0.001 (numer / sellMult))
    by apply Q.le_max_l.
  assert (Hlt : Qmax 0.001 (numer / sellMult) < 0.99).
  { destruct (Qmax_cases 0.001 (numer / sellMult)) as [[_ E]|[_ E]];
      rewrite E; lra. }
  split; [exact Eabove|]. split; [exact H001|]. split; [exact Hlt|].
  split.
  + assert (Hf : sellFee / 10000 < 1) by (subst sellMult; lra).
    assert (Hx : sellFee == sellFee / 10000 * 10000) by field.
    lra.
  + unfold applyTakerFeeOnBuy, applyTakerFeeOnSell.
    fold numer. fold sellMult. nra.
Qed.

(** X20.  A target price returned by [computeTargetSellPrice01] lies
    strictly above the entry price, at or above 0.001 and strictly below
    0.99, and selling at it nets, after the sell fee, at least what the
    entry cost with its buy fee plus the profit asked for.  Nothing is
    returned when the sell fee is 100% or more. *)
Theorem X20_computeTargetSellPrice01_reaches_profit :
  forall entryLimitPrice01 profitCents buyFeeBps sellFeeBps,
    (forall s,
        computeTargetSellPrice01 entryLimitPrice01 profitCents buyFeeBps
          sellFeeBps = Some s ->
        entryLimitPrice01 < s /\ 0.001 <= s /\ s < 0.99
        /\ sellFeeBps < 10000
        /\ applyTakerFeeOnBuy entryLimitPrice01 buyFeeBps + profitCents / 100
           <= applyTakerFeeOnSell s sellFeeBps)
    /\ (10000 <= sellFeeBps ->
        computeTargetSellPrice01 entryLimitPrice01 profitCents buyFeeBps
          sellFeeBps = None).
Proof.
  intros entry profit buyFee sellFee. split.
  - intros s H. apply (computeTargetSellPrice01_Some _ _ _ _ _ H).
  - intros Hfee. unfold computeTargetSellPrice01.
    assert (E : Qgtb (1 - sellFee / 10000) 0 = false).
    { apply Qgtb_false.
      assert (1 <= sellFee / 10000) by (apply Qle_shift_div_l; lra). lra. }
    rewrite E. reflexivity.
Qed.

(** An entry at 0.40 with one cent of profit asked for and 100 basis
    points of fee either way. *)
Lemma X20_computeTargetSellPrice01_witness :
  exists s,
    computeTargetSellPrice01 0.40 1 100 100 = Some s
    /\ applyTakerFeeOnBuy 0.40 100 + 1 / 100 <= applyTakerFeeOnSell s 100.
Proof.
  destruct (computeTargetSellPrice01 0.40 1 100 100) as [s|] eqn:E;
    [|vm_compute in E; discriminate].
  exists s. split; [reflexivity|].
  destruct (X20_computeTargetSellPrice01_reaches_profit 0.40 1 100 100)
    as [H _].
  destruct (H s E) as (_ & _ & _ & _ & Hp). exact Hp.
Defined.

Lemma clamp01_bounds x : 0.001 <= clamp01 x /\ clamp01 x <= 0.99.
Proof.
  unfold clamp01.
  destruct (Qmin_cases 0.99 (Qmax 0.001 x)) as [[H ->]|[H ->]];
    destruct (Qmax_cases 0.001 x) as [[H' E]|[H' E]];
    rewrite ?E in *; split; lra.
Qed.

Lemma clamp01_le x y : x <= y -> 0.001 <= y -> clamp01 x <= y.
Proof.
  intros Hxy Hy. unfold clamp01.
  destruct (Qmin_cases 0.99 (Qmax 0.001 x)) as [[H ->]|[H ->]];
    destruct (Qmax_cases 0.001 x) as [[H' E]|[H' E]];
    rewrite ?E in *; lra.
Qed.

Lemma clamp01_mono x y : x <= y -> clamp01 x <= clamp01 y.
Proof.
  intros Hxy. unfold clamp01.
  apply Q.min_le_compat_l, Q.max_le_compat_l, Hxy.
Qed.

Lemma computeStopPrice01_Some cfg entry profit stop :
  computeStopPrice01 cfg entry profit = Some stop ->
  0 < entry /\ 0.001 <= stop /\ stop <= 0.99.
Proof.
  unfold computeStopPrice01.
  destruct (negb (Qgtb entry 0)) eqn:Epos; [discriminate|]. qbool.
  destruct (LAG_STOP_LOSS_MODE cfg); intros [= <-];
    (split; [exact Epos | apply clamp01_bounds]).
Qed.

(** X21.  The allowed loss of [stopLossCentsForEntry] is never below the
    configured minimum.  A stop price returned by [computeStopPrice01]
    lies between 0.001 and 0.99; in the strict mode it is the higher, that
    is the nearer to the entry, of the percent stop and the dynamic stop;
    and when the percent and the minimum loss are not negative it is not
    above an entry price of 0.001 or more.  No stop is returned for an
    entry price that is not positive. *)
Theorem X21_computeStopPrice01_bounded_below_entry :
  forall cfg entryPrice01 desiredProfitCents,
    LAG_SL_MIN_CENTS cfg <= stopLossCentsForEntry cfg desiredProfitCents
    /\ (forall stop,
          computeStopPrice01 cfg entryPrice01 desiredProfitCents = Some stop ->
          0 < entryPrice01 /\ 0.001 <= stop /\ stop <= 0.99
          /\ (LAG_STOP_LOSS_MODE cfg = SlStrict ->
              clamp01 (entryPrice01 * (1 - LAG_STOP_LOSS_PCT cfg)) <= stop
              /\ clamp01 (entryPrice01
                          - stopLossCentsForEntry cfg desiredProfitCents / 100)
                 <= stop)
          /\ (0 <= LAG_STOP_LOSS_PCT cfg -> 0 <= LAG_SL_MIN_CENTS cfg ->
              0.001 <= entryPrice01 -> stop <= entryPrice01))
    /\ (entryPrice01 <= 0 ->
        computeStopPrice01 cfg entryPrice01 desiredProfitCents = None).
Proof.
  intros cfg entry profit.
  assert (Hloss : LAG_SL_MIN_CENTS cfg <= stopLossCentsForEntry cfg profit)
    by (unfold stopLossCentsForEntry; apply Q.le_max_l).
  split; [exact Hloss|]. split.
  - intros stop H. unfold computeStopPrice01 in H.
    destruct (negb (Qgtb entry 0)) eqn:Epos; [discriminate|]. qbool.
    set (stopPct := entry * (1 - LAG_STOP_LOSS_PCT cfg)) in *.
    set (stopDyn := entry - stopLossCentsForEntry cfg profit / 100) in *.
    assert (Hpct : 0 <= LAG_STOP_LOSS_PCT cfg -> stopPct <= entry)
      by (intros; subst stopPct; nra).
    assert (Hdyn : 0 <= LAG_SL_MIN_CENTS cfg -> stopDyn <= entry).
    { intros. subst stopDyn.
      assert (0 <= stopLossCentsForEntry cfg profit / 100)
        by (apply Qle_shift_div_l; lra).
      lra. }
    split; [exact Epos|].
    destruct (LAG_STOP_LOSS_MODE cfg) eqn:Emode; injection H as <-;
      (split; [apply clamp01_bounds|]); (split; [apply clamp01_bounds|]);
      (split; [try discriminate|]).
    + intros Hp Hm He. apply clamp01_le; auto.
    + intros Hp Hm He. apply clamp01_le; auto.
    + intros _. split; apply clamp01_mono;
        [apply Q.le_max_l | apply Q.le_max_r].
    + intros Hp Hm He. apply clamp01_le; [|exact He].
      apply Q.max_lub; auto.
  - intros Hneg. unfold computeStopPrice01.
    assert (E : Qgtb entry 0 = false) by (apply Qgtb_false, Hneg).
    rewrite E. reflexivity.
Qed.

(** The default stop for an entry at 0.40 with one cent asked for. *)
Lemma X21_computeStopPrice01_witness :
  exists stop,
    computeStopPrice01 Lag.defaultConfig 0.40 1 = Some stop /\ stop <= 0.40.
Proof.
  destruct (computeStopPrice01 Lag.defaultConfig 0.40 1) as [stop|] eqn:E;
    [|vm_compute in E; discriminate].
  exists stop. split; [reflexivity|].
  destruct (X21_computeStopPrice01_bounded_below_entry Lag.defaultConfig
              0.40 1) as (_ & H & _).
  destruct (H stop E) as (_ & _ & _ & _ & Hle).
  apply Hle; discriminate.
Defined.

(** The profit asked for is never below the configured floor. *)
Lemma profitCentsForEntry_floor cfg entryPrice01 spotDelta marketMove :
  0 <= profitCentsForEntry cfg entryPrice01 spotDelta marketMove
  /\ LAG_MIN_PROFIT_CENTS cfg
     <= profitCentsForEntry cfg entryPrice01 spotDelta marketMove.
Proof.
  unfold profitCentsForEntry.
  set (minProfit := if Qgtb (LAG_MIN_PROFIT_CENTS cfg) 0
                    then LAG_MIN_PROFIT_CENTS cfg else 0).
  assert (Hmin : 0 <= minProfit /\ LAG_MIN_PROFIT_CENTS cfg <= minProfit).
  { subst minProfit. destruct (Qgtb (LAG_MIN_PROFIT_CENTS cfg) 0) eqn:E;
      qbool; split; lra. }
  assert (Hmax : forall x, 0 <= Qmax minProfit x
                           /\ LAG_MIN_PROFIT_CENTS cfg <= Qmax minProfit x).
  { intros x. pose proof (Q.le_max_l minProfit x). split; lra. }
  destruct (LAG_TAKE_PROFIT_MODE cfg).
  - apply Hmax.
  - destruct (LAG_TAKE_PROFIT_PCT cfg) as [pct|]; [|apply Hmax].
    destruct (Qgtb pct 0 && Qgtb entryPrice01 0); apply Hmax.
  - destruct (negb (tpModeFromEnv cfg)); [|apply Hmax].
    destruct (LAG_TAKE_PROFIT_PCT cfg) as [pct|]; [|apply Hmax].
    destruct (Qgtb pct 0 && Qgtb entryPrice01 0); apply Hmax.
Qed.

(** ** Entering a lag position *)

(** Everything that held when a call of [maybeExecuteLag] opened a
    position. *)
Lemma maybeExecuteLag_opened {Learned : Type} cfg w
  (st : @LagState Learned) ans o :
  lagOpen st = None -> lagOpen (maybeExecuteLag cfg w st ans) = Some o ->
  exists side px shares tokenId fee target stopPx p,
    signal (sug st) = Some LAG
    /\ suggestedSide (sug st) = Some side
    /\ suggestedLimitPrice (sug st) = Some px
    /\ Lag.suggestedShares (sug st) = Some shares
    /\ 0 < px /\ px < 0.99 /\ 0 < shares
    /\ pending st = Some p /\ samePending (pending st) side px = true
    /\ (Z.max 1 (LAG_ENTRY_CONFIRM_TICKS cfg) <= hits p + 1)%Z
    /\ closeToEnd w = false
    /\ (LAG_COOLDOWN_MS cfg
        <= nowMs w - match Lag.lastTradeAt st with
                     | Some t => t | None => 0 end)%Z
    /\ (forall t, lastStopAt st = Some t -> t <> 0%Z ->
          (LAG_STOP_COOLDOWN_MS cfg <= nowMs w - t)%Z)
    /\ tokenOf w side = Some tokenId /\ feeOf w side = Some fee
    /\ computeTargetSellPrice01 px
         (profitCentsForEntry cfg px (spotDeltaUsd (sug st))
            (sideMarketMove01 (sug st))) fee fee = Some target
    /\ computeStopPrice01 cfg px
         (profitCentsForEntry cfg px (spotDeltaUsd (sug st))
            (sideMarketMove01 (sug st))) = Some stopPx
    /\ lSide o = side /\ lTokenId o = tokenId /\ lShares o = shares
    /\ lEntryPrice o = px /\ sellPrice o = target /\ stopPrice o = stopPx
    /\ lFeeBps o = fee /\ stopHits o = 0%Z /\ lOpenedAt o = nowMs w
    /\ Lag.lastTradeAt (maybeExecuteLag cfg w st ans) = Some (nowMs w).
Proof.
  intros Hnone H.
  remember (maybeExecuteLag cfg w st ans) as st' eqn:Est.
  unfold maybeExecuteLag in Est. rewrite Hnone in Est.
  destruct (signal (sug st)) as [[]|] eqn:Esig; [|subst st'; congruence].
  destruct (suggestedSide (sug st)) as [side|] eqn:Eside;
    [|subst st'; congruence].
  destruct (suggestedLimitPrice (sug st)) as [px|] eqn:Epx;
    [|subst st'; congruence].
  destruct (negb (Qgtb px 0)) eqn:Epos; [subst st'; congruence|].
  destruct (negb (samePending (pending st) side px)) eqn:Esame;
    [subst st'; cbn in H; congruence|].
  apply negb_false_iff in Esame.
  destruct (pending st) as [p|] eqn:Ep; [|discriminate Esame].
  cbn [option_map Lag.pending withPending hits Lag.lastTradeAt lastStopAt
       sug] in Est.
  destruct (_ <? Z.max 1 _)%Z eqn:Ehits; [subst st'; cbn in H; congruence|].
  destruct (closeToEnd w) eqn:Eend; [subst st'; cbn in H; congruence|].
  destruct (_ <? LAG_COOLDOWN_MS cfg)%Z eqn:Ecool;
    [subst st'; cbn in H; congruence|].
  destruct (negb _ && (_ <? LAG_STOP_COOLDOWN_MS cfg)%Z) eqn:Estop;
    [subst st'; cbn in H; congruence|].
  destruct (Lag.suggestedShares (sug st)) as [shares|] eqn:Esh;
    [|subst st'; cbn in H; congruence].
  destruct (negb (Qgtb shares 0)) eqn:Eshp;
    [subst st'; cbn in H; congruence|].
  destruct (tokenOf w side) as [tokenId|] eqn:Etok;
    [|subst st'; cbn in H; congruence].
  destruct (feeOf w side) as [fee|] eqn:Efee;
    [|subst st'; cbn in H; congruence].
  destruct (negb (truthyId (Some tokenId)));
    [subst st'; cbn in H; congruence|].
  destruct (negb (Qltb px 0.99)) eqn:Elim;
    [subst st'; cbn in H; congruence|].
  destruct (maxAchievableProfitCentsAtCap px fee 0.99) as [maxP|];
    [|subst st'; cbn in H; congruence].
  destruct (Qltb (maxP + 0.000001) _); [subst st'; cbn in H; congruence|].
  destruct (computeTargetSellPrice01 _ _ _ _) as [target|] eqn:Etarget;
    [|subst st'; cbn in H; congruence].
  destruct (computeStopPrice01 _ _ _) as [stopPx|] eqn:Estopx;
    [|subst st'; cbn in H; congruence].
  destruct (negb (Qgtb target 0)); [subst st'; cbn in H; congruence|].
  destruct (negb (Qgtb stopPx 0)); [subst st'; cbn in H; congruence|].
  qbool.
  apply Z.ltb_ge in Ehits, Ecool.
  assert (Hstop : forall t, lastStopAt st = Some t -> t <> 0%Z ->
                    (LAG_STOP_COOLDOWN_MS cfg <= nowMs w - t)%Z).
  { intros t Ht Hnz. rewrite Ht in Estop.
    apply andb_false_iff in Estop. destruct Estop as [E|E].
    - apply negb_false_iff, Z.eqb_eq in E. contradiction.
    - apply Z.ltb_ge in E. exact E. }
  exists side, px, shares, tokenId, fee, target, stopPx, p.
  assert (Hfinal :
    lSide o = side /\ lTokenId o = tokenId /\ lShares o = shares
    /\ lEntryPrice o = px /\ sellPrice o = target /\ stopPrice o = stopPx
    /\ lFeeBps o = fee /\ stopHits o = 0%Z /\ lOpenedAt o = nowMs w
    /\ Lag.lastTradeAt st' = Some (nowMs w)).
  { destruct (PAPER_TRADING w) eqn:Epaper.
    - destruct (costToBuySharesFromAsks _ _ _) as [fill|] eqn:Efill;
        [|subst st'; cbn in H; congruence].
      destruct (Qgtb (cost fill) _) eqn:Ebal;
        [subst st'; cbn in H; congruence|].
      subst st'. cbn in H. injection H as <-. cbn. auto 12.
    - destruct (negb (ENABLE_LIVE_ORDERS w));
        [subst st'; cbn in H; congruence|].
      destruct (executeLiveLagTrade _ _ _ _ _);
        try (subst st'; cbn in H; congruence).
      subst st'. cbn in H. injection H as <-. cbn. auto 12. }
  repeat match goal with |- _ /\ _ => split end;
    try reflexivity; try assumption; try apply Hfinal.
Qed.

(** X22.  A position opened by [maybeExecuteLag], in simulation or live,
    was bought at a limit price strictly between 0 and 0.99 for a positive
    share count, on the side, at the price and for the shares of the
    current suggestion.  Its take-profit price is strictly above the limit
    price and below 0.99, and selling there nets after fees at least the
    cost of a share at the limit price plus the configured minimum profit
    per share; its stop price lies between 0.001 and 0.99. *)
Theorem X22_lag_position_targets :
  forall (Learned : Type) cfg w (st : @LagState Learned) ans o,
    lagOpen st = None -> lagOpen (maybeExecuteLag cfg w st ans) = Some o ->
    suggestedSide (sug st) = Some (lSide o)
    /\ suggestedLimitPrice (sug st) = Some (lEntryPrice o)
    /\ Lag.suggestedShares (sug st) = Some (lShares o)
    /\ 0 < lEntryPrice o /\ lEntryPrice o < 0.99 /\ 0 < lShares o
    /\ lEntryPrice o < sellPrice o /\ sellPrice o < 0.99
    /\ applyTakerFeeOnBuy (lEntryPrice o) (lFeeBps o)
       + LAG_MIN_PROFIT_CENTS cfg / 100
       <= applyTakerFeeOnSell (sellPrice o) (lFeeBps o)
    /\ applyTakerFeeOnBuy (lEntryPrice o) (lFeeBps o)
       <= applyTakerFeeOnSell (sellPrice o) (lFeeBps o)
    /\ 0.001 <= stopPrice o /\ stopPrice o <= 0.99
    /\ feeOf w (lSide o) = Some (lFeeBps o)
    /\ tokenOf w (lSide o) = Some (lTokenId o).
Proof.
  intros Learned cfg w st ans o Hnone H.
  destruct (maybeExecuteLag_opened cfg w st ans o Hnone H)
    as (side & px & shares & tokenId & fee & target & stopPx & p
        & _ & Hside & Hpx & Hsh & Hpos & Hlim & Hshp & _ & _ & _ & _ & _ & _
        & Htok & Hfee & Htarget & Hstop
        & <- & <- & <- & <- & <- & <- & <- & _).
  destruct (computeTargetSellPrice01_Some _ _ _ _ _ Htarget)
    as (A & _ & B & _ & C).
  pose proof (profitCentsForEntry_floor cfg (lEntryPrice o)
                (spotDeltaUsd (sug st)) (sideMarketMove01 (sug st)))
    as [P0 P1].
  assert (LAG_MIN_PROFIT_CENTS cfg / 100
          <= profitCentsForEntry cfg (lEntryPrice o) (spotDeltaUsd (sug st))
               (sideMarketMove01 (sug st)) / 100).
  { apply Qmult_le_compat_r; [exact P1 | discriminate]. }
  assert (0 <= profitCentsForEntry cfg (lEntryPrice o) (spotDeltaUsd (sug st))
                 (sideMarketMove01 (sug st)) / 100)
    by (apply Qle_shift_div_l; lra).
  destruct (computeStopPrice01_Some _ _ _ _ Hstop) as (_ & S1 & S2).
  repeat match goal with |- _ /\ _ => split end; auto; lra.
Qed.

(** The repeated suggestion of ten Up shares at 0.40 is executed. *)
Lemma X22_lag_position_witness :
  exists o,
    lagOpen (maybeExecuteLag Lag.defaultConfig paperStraddleWorld
               (suggestedUp 20) Confirmed) = Some o
    /\ lEntryPrice o < sellPrice o.
Proof.
  destruct (lagOpen (maybeExecuteLag Lag.defaultConfig paperStraddleWorld
                       (suggestedUp 20) Confirmed)) as [o|] eqn:E;
    [|vm_compute in E; discriminate].
  exists o. split; [reflexivity|].
  destruct (X22_lag_position_targets unit Lag.defaultConfig
              paperStraddleWorld (suggestedUp 20) Confirmed o eq_refl E)
    as (_ & _ & _ & _ & _ & _ & H & _).
  exact H.
Defined.

(** A call of [maybeExecuteLag] either leaves position and balance alone
    or opens a position where there was none. *)
Lemma maybeExecuteLag_cases {Learned : Type} cfg w
  (st : @LagState Learned) ans :
  (lagOpen (maybeExecuteLag cfg w st ans) = lagOpen st
   /\ Lag.paperBalance (maybeExecuteLag cfg w st ans) = Lag.paperBalance st)
  \/ (lagOpen st = None
      /\ exists o, lagOpen (maybeExecuteLag cfg w st ans) = Some o).
Proof.
  unfold maybeExecuteLag.
  repeat match goal with
  | |- context [match ?x with _ => _ end] =>
      destruct x eqn:?; try solve [left; cbn; auto]
  end;
  right; (split; [reflexivity|]); eexists; reflexivity.
Qed.

(** X23.  [maybeExecuteLag] opens no position and leaves the balance
    alone: on the first call that sees a suggestion (side and price differ
    from the pending one); while the suggestion has been seen fewer times
    than the confirmation count; within a minute of the end of the
    interval; within the cooldown after the last trade; within the stop
    cooldown after the last stop-out; and for a limit price that is not
    strictly between 0 and 0.99. *)
Theorem X23_lag_entry_throttles :
  forall (Learned : Type) cfg w (st : @LagState Learned) ans,
    lagOpen st = None ->
    ((forall side px,
         suggestedSide (sug st) = Some side ->
         suggestedLimitPrice (sug st) = Some px ->
         samePending (pending st) side px = false)
     \/ (exists p, pending st = Some p
                   /\ (hits p + 1 < Z.max 1 (LAG_ENTRY_CONFIRM_TICKS cfg))%Z)
     \/ closeToEnd w = true
     \/ (exists t, Lag.lastTradeAt st = Some t
                   /\ (nowMs w - t < LAG_COOLDOWN_MS cfg)%Z)
     \/ (exists t, lastStopAt st = Some t /\ t <> 0%Z
                   /\ (nowMs w - t < LAG_STOP_COOLDOWN_MS cfg)%Z)
     \/ (exists px, suggestedLimitPrice (sug st) = Some px
                    /\ (px <= 0 \/ 0.99 <= px))) ->
    lagOpen (maybeExecuteLag cfg w st ans) = None
    /\ Lag.paperBalance (maybeExecuteLag cfg w st ans) = Lag.paperBalance st.
Proof.
  intros Learned cfg w st ans Hnone Hthrottle.
  destruct (maybeExecuteLag_cases cfg w st ans) as [[Ho Hb]|[_ [o Ho]]].
  { rewrite Ho, Hnone. auto. }
  exfalso.
  destruct (maybeExecuteLag_opened cfg w st ans o Hnone Ho)
    as (side & px & shares & tokenId & fee & target & stopPx & p
        & _ & Hside & Hpx & _ & Hpos & Hlim & _ & Hp & Hsame & Hhits & Hend
        & Hcool & Hstop & _).
  destruct Hthrottle as [H|[H|[H|[H|[H|H]]]]].
  - rewrite (H side px Hside Hpx) in Hsame. discriminate.
  - destruct H as (p' & Hp' & Hlt). rewrite Hp in Hp'.
    injection Hp' as <-. lia.
  - congruence.
  - destruct H as (t & Ht & Hlt). rewrite Ht in Hcool. lia.
  - destruct H as (t & Ht & Hnz & Hlt). specialize (Hstop t Ht Hnz). lia.
  - destruct H as (px' & Hpx' & Hbad). rewrite Hpx in Hpx'.
    injection Hpx' as <-. destruct Hbad; lra.
Qed.

(** The suggestion seen for the first time waits. *)
Lemma X23_lag_entry_witness :
  lagOpen (maybeExecuteLag Lag.defaultConfig paperStraddleWorld
             (Lag.withPending (suggestedUp 20) None) Confirmed) = None.
Proof.
  apply (X23_lag_entry_throttles unit Lag.defaultConfig paperStraddleWorld
           (Lag.withPending (suggestedUp 20) None) Confirmed eq_refl).
  left. intros side px _ _. reflexivity.
Defined.

(** ** Leaving a lag position *)

(** X24.  In simulation a call of [maybeExitLag] with a position open
    either keeps the position, with nothing changed but its count of stop
    confirmations, or closes it whole.  It closes it as a take-profit when
    the best bid has reached the target price: every share is then sold at
    the target price or above and the last stop time is untouched.
    Otherwise it closes it as a stop: the mark (the best bid without a
    mark) is at or below the stop price, the grace period since the entry
    is over, the stop has been seen on as many consecutive calls as the
    confirmation count asks for, and the stop time is set to now.  Either
    way the balance grows by the proceeds of the sale. *)
Theorem X24_lag_exit_in_simulation :
  forall (Learned : Type) cfg w (st : @LagState Learned) ans o,
    PAPER_TRADING w = true -> lagOpen st = Some o ->
    (exists n,
        lagOpen (maybeExitLag cfg w st ans) = Some (withStopHits o n)
        /\ Lag.paperBalance (maybeExitLag cfg w st ans) = Lag.paperBalance st
        /\ lastStopAt (maybeExitLag cfg w st ans) = lastStopAt st)
    \/ (lagOpen (maybeExitLag cfg w st ans) = None
        /\ exists book est,
             summaryOf w (lSide o) = Some book /\ 0 < bestBid book
             /\ Lag.paperBalance (maybeExitLag cfg w st ans)
                = Lag.paperBalance st + proceeds est
             /\ ((sellPrice o <= bestBid book
                  /\ proceedsFromSellingSharesToBids (bidsOf w (lSide o))
                       (lShares o) (lFeeBps o) (sellPrice o) = Some est
                  /\ sellPrice o * (lShares o - sellShortfall
                                      (bidsOf w (lSide o)) (lShares o)
                                      (sellPrice o)) <= gross est
                  /\ lastStopAt (maybeExitLag cfg w st ans) = lastStopAt st)
                 \/ (bestBid book < sellPrice o
                     /\ proceedsFromSellingSharesToBids (bidsOf w (lSide o))
                          (lShares o) (lFeeBps o) 0 = Some est
                     /\ (if Qgtb (mark book) 0 then mark book
                         else bestBid book) <= stopPrice o
                     /\ (LAG_STOP_GRACE_MS cfg <= nowMs w - lOpenedAt o)%Z
                     /\ (Z.max 1 (LAG_STOP_CONFIRM_TICKS cfg)
                         <= stopHits o + 1)%Z
                     /\ lastStopAt (maybeExitLag cfg w st ans)
                        = Some (nowMs w)))).
Proof.
  intros Learned cfg w st ans o Hpaper Ho.
  unfold maybeExitLag. rewrite Ho.
  assert (Hsame : exists n,
            lagOpen st = Some (withStopHits o n)
            /\ Lag.paperBalance st = Lag.paperBalance st
            /\ lastStopAt st = lastStopAt st).
  { exists (stopHits o). rewrite Ho. destruct o. auto. }
  destruct (tokenMismatch w o); [left; exact Hsame|].
  destruct (summaryOf w (lSide o)) as [book|] eqn:Ebook; [|left; exact Hsame].
  destruct (negb (Qgtb (bestBid book) 0)) eqn:Ebid; [left; exact Hsame|].
  clear Hsame. qbool.
  destruct (Qleb (if Qgtb (mark book) 0 then mark book else bestBid book)
              (stopPrice o)
            && (LAG_STOP_GRACE_MS cfg <=? nowMs w - lOpenedAt o)%Z) eqn:Eraw.
  - (* the stop condition holds on this call *)
    cbn [stopHits withStopHits].
    destruct (negb (Qgeb (bestBid book) (sellPrice o))
              && negb (true && (Z.max 1 (LAG_STOP_CONFIRM_TICKS cfg)
                                <=? stopHits o + 1)%Z)) eqn:Enone.
    { left. eexists. cbn. auto. }
    destruct (Qgeb (bestBid book) (sellPrice o)) eqn:Etp.
    + destruct (proceedsFromSellingSharesToBids _ _ _ (sellPrice o))
        as [est|] eqn:Eest; [|left; eexists; cbn; auto].
      rewrite Hpaper. right. cbn. split; [reflexivity|].
      exists book, est. qbool.
      split; [reflexivity|]. split; [exact Ebid|]. split; [reflexivity|].
      left. split; [exact Etp|]. split; [reflexivity|].
      split; [|reflexivity].
      apply (proceedsFromSelling_Some _ _ _ _ _ Eest).
    + cbn [negb andb] in Enone. apply negb_false_iff, Z.leb_le in Enone.
      destruct (proceedsFromSellingSharesToBids _ _ _ 0)
        as [est|] eqn:Eest; [|left; eexists; cbn; auto].
      rewrite Hpaper. right. cbn. split; [reflexivity|].
      exists book, est. qbool. apply Z.leb_le in H0.
      split; [reflexivity|]. split; [exact Ebid|]. split; [reflexivity|].
      right. auto 10.
  - cbn [stopHits withStopHits andb negb].
    destruct (Qgeb (bestBid book) (sellPrice o)) eqn:Etp;
      cbn [negb andb]; [|left; eexists; cbn; auto].
    destruct (proceedsFromSellingSharesToBids _ _ _ (sellPrice o))
      as [est|] eqn:Eest; [|left; eexists; cbn; auto].
    rewrite Hpaper. right. cbn. split; [reflexivity|].
    exists book, est. qbool.
    split; [reflexivity|]. split; [exact Ebid|]. split; [reflexivity|].
    left. split; [exact Etp|]. split; [reflexivity|].
    split; [|reflexivity].
    apply (proceedsFromSelling_Some _ _ _ _ _ Eest).
Qed.

(** The ten Up shares to be sold at 0.38 meet a bid of 0.39. *)
Lemma X24_lag_exit_witness :
  (exists n,
      lagOpen (maybeExitLag Lag.defaultConfig paperStraddleWorld
                 (Lag.withOpen (suggestedUp 20) (Some Vocab.tenUpAt30))
                 Confirmed)
      = Some (withStopHits Vocab.tenUpAt30 n))
  \/ lagOpen (maybeExitLag Lag.defaultConfig paperStraddleWorld
                (Lag.withOpen (suggestedUp 20) (Some Vocab.tenUpAt30))
                Confirmed) = None.
Proof.
  destruct (X24_lag_exit_in_simulation unit Lag.defaultConfig
              paperStraddleWorld
              (Lag.withOpen (suggestedUp 20) (Some Vocab.tenUpAt30))
              Confirmed Vocab.tenUpAt30 eq_refl eq_refl)
    as [(n & H & _)|(H & _)].
  - left. exists n. exact H.
  - right. exact H.
Defined.

(** ** Spot samples and feeds *)

Lemma dropOlder_split cutoff h :
  exists dropped,
    h = (dropped ++ dropOlder cutoff h)%list
    /\ Forall (fun s => (fst s < cutoff)%Z) dropped
    /\ match dropOlder cutoff h with
       | s :: _ => (cutoff <= fst s)%Z
       | [] => True
       end.
Proof.
  induction h as [|s rest (dropped & Hd & Hall & Hhead)].
  - exists []. cbn. auto.
  - cbn [dropOlder]. destruct (fst s <? cutoff)%Z eqn:E.
    + apply Z.ltb_lt in E. exists (s :: dropped). cbn.
      split; [f_equal; exact Hd|]. split; [constructor; assumption|].
      exact Hhead.
    + apply Z.ltb_ge in E. exists []. cbn. auto.
Qed.

Lemma dropOlder_snoc cutoff h x :
  (cutoff <= fst x)%Z ->
  dropOlder cutoff (h ++ [x]) = (dropOlder cutoff h ++ [x])%list.
Proof.
  intros Hx. induction h as [|s rest IH]; cbn.
  - assert (E : (fst x <? cutoff)%Z = false) by (apply Z.ltb_ge, Hx).
    rewrite E. reflexivity.
  - destruct (fst s <? cutoff)%Z; [exact IH | reflexivity].
Qed.

Lemma lastSample_snoc h x : Vocab.lastSample (h ++ [x]) = Some x.
Proof.
  unfold Vocab.lastSample. rewrite map_app. cbn [List.map].
  apply last_last.
Qed.

(** X25.  [pushSpotSample] ignores a spot price that is not positive and
    a sample less than 250 ms from the newest one kept.  Otherwise it
    appends the sample, which is then the newest, and drops from the front
    exactly the leading samples older than the history window (at least
    five seconds) before the new sample: the oldest sample kept is inside
    the window.  It touches nothing but the history. *)
Theorem X25_pushSpotSample_window :
  forall (Learned : Type) cfg w (st : @LagState Learned) spot,
    let t := match exchangeTimestampMs w with
             | Some t => t
             | None => nowMs (base w)
             end in
    let cutoff := (t - Z.max 5 (LAG_HISTORY_SEC cfg) * 1000)%Z in
    (spot <= 0 -> pushSpotSample cfg w st spot = st)
    /\ (forall newest, Vocab.lastSample (spotHistory st) = Some newest ->
          (Z.abs (t - fst newest) < 250)%Z ->
          pushSpotSample cfg w st spot = st)
    /\ (0 < spot ->
        (forall newest, Vocab.lastSample (spotHistory st) = Some newest ->
           (250 <= Z.abs (t - fst newest))%Z) ->
        Vocab.lastSample (spotHistory (pushSpotSample cfg w st spot))
        = Some (t, spot)
        /\ (exists dropped,
              (spotHistory st ++ [(t, spot)])%list
              = (dropped ++ spotHistory (pushSpotSample cfg w st spot))%list
              /\ Forall (fun s => (fst s < cutoff)%Z) dropped)
        /\ (exists oldest rest,
              spotHistory (pushSpotSample cfg w st spot) = oldest :: rest
              /\ (cutoff <= fst oldest)%Z))
    /\ lagOpen (pushSpotSample cfg w st spot) = lagOpen st
    /\ Lag.paperBalance (pushSpotSample cfg w st spot) = Lag.paperBalance st
    /\ sug (pushSpotSample cfg w st spot) = sug st
    /\ pending (pushSpotSample cfg w st spot) = pending st.
Proof.
  intros Learned cfg w st spot. cbv zeta.
  set (t := match exchangeTimestampMs w with
            | Some t => t | None => nowMs (base w) end).
  set (cutoff := (t - Z.max 5 (LAG_HISTORY_SEC cfg) * 1000)%Z).
  assert (Hcut : (cutoff <= t)%Z) by (subst cutoff; lia).
  unfold pushSpotSample. fold t. fold cutoff.
  fold (Vocab.lastSample (spotHistory st)).
  split; [|split; [|split]].
  - intros Hneg.
    assert (E : Qgtb spot 0 = false) by (apply Qgtb_false, Hneg).
    rewrite E. reflexivity.
  - intros newest Hlast Hnear. rewrite Hlast.
    destruct (negb (Qgtb spot 0)); [reflexivity|].
    assert (E : (Z.abs (t - fst newest) <? 250)%Z = true)
      by (apply Z.ltb_lt, Hnear).
    rewrite E. reflexivity.
  - intros Hpos Hfar.
    assert (E : Qgtb spot 0 = true) by (apply Qgtb_true, Hpos).
    rewrite E. cbn [negb].
    assert (E2 : match Vocab.lastSample (spotHistory st) with
                 | Some lastS => (Z.abs (t - fst lastS) <? 250)%Z
                 | None => false
                 end = false).
    { destruct (Vocab.lastSample (spotHistory st)) as [l|] eqn:El;
        [|reflexivity].
      apply Z.ltb_ge, Hfar. reflexivity. }
    rewrite E2. cbn [spotHistory withHistory].
    rewrite (dropOlder_snoc cutoff (spotHistory st) (t, spot) Hcut).
    split; [apply lastSample_snoc|]. split.
    + destruct (dropOlder_split cutoff (spotHistory st))
        as (dropped & Hd & Hall & _).
      exists dropped. split; [|exact Hall].
      rewrite app_assoc, <- Hd. reflexivity.
    + destruct (dropOlder_split cutoff (spotHistory st))
        as (_ & _ & _ & Hhead).
      destruct (dropOlder cutoff (spotHistory st)) as [|s rest].
      * exists (t, spot), []. split; [reflexivity | exact Hcut].
      * exists s, (rest ++ [(t, spot)])%list. split; [reflexivity|exact Hhead].
  - destruct (negb (Qgtb spot 0)); [auto|].
    destruct (match Vocab.lastSample (spotHistory st) with
              | Some _ => _ | None => _ end); cbn; auto.
Qed.

(** A first sample of 100000. *)
Lemma X25_pushSpotSample_witness :
  Vocab.lastSample
    (spotHistory (pushSpotSample Lag.defaultConfig feedsTogether
                    (suggestedUp 20) 100000))
  = Some (1699999999000%Z, 100000).
Proof.
  destruct (X25_pushSpotSample_window unit Lag.defaultConfig feedsTogether
              (suggestedUp 20) 100000) as (_ & _ & H & _).
  cbv zeta in H. apply H.
  - reflexivity.
  - intros newest Hn. discriminate Hn.
Defined.

Section SignalGates.
Context {Learned : Type}.
Variable tail : Config -> LagWorld -> @LagState Learned -> @LagState Learned.

(** What [evalLagSignal] does on a snapshot it accepts, by the distance
    of the feeds. *)
Lemma evalLagSignal_accepted cfg w (st : @LagState Learned) spot u d :
  underlyingPrice (base w) = Some spot -> 0 < spot ->
  up (base w) = Some u -> down (base w) = Some d ->
  0 < mark u -> 0 < mark d ->
  evalLagSignal tail cfg w st
  = let st2 := withLastEvalAt
                 (withFeedDisagree (pushSpotSample cfg w st spot)
                    (feedDisagreementUsd cfg w))
                 (Some (nowMs (base w))) in
    if match feedDisagreementUsd cfg w with
       | Some x => Qgtb x (LAG_FEED_DISAGREE_USD_HARD cfg)
       | None => false
       end
    then withSug st2 (hardStop (sug st2))
    else if closeToEnd (base w) then withSug st2 (nearEnd (sug st2))
    else tail cfg w st2.
Proof.
  intros Hspot Hsp Hu Hd Hmu Hmd. unfold evalLagSignal.
  rewrite Hspot, Hu, Hd.
  assert (E1 : Qgtb spot 0 = true) by (apply Qgtb_true, Hsp).
  assert (E2 : Qgtb (mark u) 0 = true) by (apply Qgtb_true, Hmu).
  assert (E3 : Qgtb (mark d) 0 = true) by (apply Qgtb_true, Hmd).
  rewrite E1, E2, E3. cbn [negb orb]. cbv zeta.
  destruct (match feedDisagreementUsd cfg w with
            | Some x => _ | None => false end); [reflexivity|].
  destruct (closeToEnd (base w)); reflexivity.
Qed.

End SignalGates.

(** X26.  [feedDisagreementUsd] reports a distance, never negative, only
    under the automatic source with both feed prices positive and both
    feeds fresh: under another source, or with the Chainlink or the
    Binance price older than its limit, it reports none.  On a snapshot
    with a positive spot price and positive marks [evalLagSignal] then
    runs the rest of the signal model, unless the interval ends within a
    minute, in which case it clears signal and suggestion; the same holds
    when the distance reported is within the hard threshold.  Without a
    positive spot price [evalLagSignal] changes nothing at all. *)
Theorem X26_stale_feed_does_not_block :
  forall (Learned : Type)
         (tail : Config -> LagWorld -> @LagState Learned -> @LagState Learned)
         cfg w (st : @LagState Learned),
    (RTDS_SOURCE w <> Auto
     \/ (exists age, feedAgeMs w (chainlink w) = Some age
                     /\ (LAG_CHAINLINK_MAX_AGE_MS cfg < age)%Z)
     \/ (exists age, feedAgeMs w (binance_ws w) = Some age
                     /\ (LAG_BINANCE_MAX_AGE_MS cfg < age)%Z) ->
     feedDisagreementUsd cfg w = None)
    /\ (forall x, feedDisagreementUsd cfg w = Some x ->
          0 <= x /\ RTDS_SOURCE w = Auto
          /\ exists b c, feedPrice (binance_ws w) = Some b
                         /\ feedPrice (chainlink w) = Some c
                         /\ 0 < b /\ 0 < c /\ x = Qabs (b - c))
    /\ (forall spot u d,
          underlyingPrice (base w) = Some spot -> 0 < spot ->
          up (base w) = Some u -> down (base w) = Some d ->
          0 < mark u -> 0 < mark d ->
          match feedDisagreementUsd cfg w with
          | Some x => x <= LAG_FEED_DISAGREE_USD_HARD cfg
          | None => True
          end ->
          (closeToEnd (base w) = false ->
           evalLagSignal tail cfg w st
           = tail cfg w
               (withLastEvalAt
                  (withFeedDisagree (pushSpotSample cfg w st spot)
                     (feedDisagreementUsd cfg w))
                  (Some (nowMs (base w)))))
          /\ (closeToEnd (base w) = true ->
              signal (sug (evalLagSignal tail cfg w st)) = None
              /\ suggestedSide (sug (evalLagSignal tail cfg w st)) = None
              /\ suggestedLimitPrice (sug (evalLagSignal tail cfg w st))
                 = None
              /\ lagOpen (evalLagSignal tail cfg w st) = lagOpen st))
    /\ ((underlyingPrice (base w) = None
         \/ exists spot, underlyingPrice (base w) = Some spot /\ spot <= 0) ->
        evalLagSignal tail cfg w st = st).
Proof.
  intros Learned tail cfg w st.
  split; [|split; [|split]].
  - intros Hstale. unfold feedDisagreementUsd.
    destruct (RTDS_SOURCE w) eqn:Esrc;
      try reflexivity.
    destruct Hstale as [H|[(age & Ha & Hlt)|(age & Ha & Hlt)]];
      [contradiction| |].
    + destruct (feedPrice (binance_ws w)); [|reflexivity].
      destruct (feedPrice (chainlink w)); [|reflexivity].
      destruct (negb _ || negb _); [reflexivity|].
      rewrite Ha. destruct (feedAgeMs w (binance_ws w)); [|reflexivity].
      destruct (_ <? _)%Z; [reflexivity|].
      assert (E : (LAG_CHAINLINK_MAX_AGE_MS cfg <? age)%Z = true)
        by (apply Z.ltb_lt, Hlt).
      rewrite E. reflexivity.
    + destruct (feedPrice (binance_ws w)); [|reflexivity].
      destruct (feedPrice (chainlink w)); [|reflexivity].
      destruct (negb _ || negb _); [reflexivity|].
      rewrite Ha. destruct (feedAgeMs w (chainlink w)); [|reflexivity].
      assert (E : (LAG_BINANCE_MAX_AGE_MS cfg <? age)%Z = true)
        by (apply Z.ltb_lt, Hlt).
      rewrite E. reflexivity.
  - intros x H. unfold feedDisagreementUsd in H.
    destruct (RTDS_SOURCE w); try discriminate.
    destruct (feedPrice (binance_ws w)) as [b|]; [|discriminate].
    destruct (feedPrice (chainlink w)) as [c|]; [|discriminate].
    destruct (negb (Qgtb b 0) || negb (Qgtb c 0)) eqn:Epos; [discriminate|].
    destruct (feedAgeMs w (binance_ws w)); [|discriminate].
    destruct (feedAgeMs w (chainlink w)); [|discriminate].
    destruct (_ <? _)%Z; [discriminate|].
    destruct (_ <? _)%Z; [discriminate|].
    assert (Hx : x = Qabs (b - c)) by congruence. subst x. clear H.
    apply orb_false_iff in Epos. destruct Epos as [Eb Ec].
    apply negb_false_iff in Eb. apply negb_false_iff in Ec.
    apply Qgtb_true in Eb. apply Qgtb_true in Ec.
    split; [apply Qabs_nonneg|]. split; [reflexivity|].
    exists b, c. auto.
  - intros spot u d Hspot Hsp Hu Hd Hmu Hmd Hnear.
    rewrite (evalLagSignal_accepted tail cfg w st spot u d Hspot Hsp Hu Hd
               Hmu Hmd).
    cbv zeta.
    assert (E : match feedDisagreementUsd cfg w with
                | Some x => Qgtb x (LAG_FEED_DISAGREE_USD_HARD cfg)
                | None => false
                end = false).
    { destruct (feedDisagreementUsd cfg w); [|reflexivity].
      apply Qgtb_false, Hnear. }
    rewrite E. split; intros Hend; rewrite Hend; [reflexivity|].
    cbn [sug withSug nearEnd signal suggestedSide suggestedLimitPrice lagOpen
         withLastEvalAt withFeedDisagree].
    repeat split; try reflexivity.
    apply (proj1 (pushSpotSample_keeps cfg w st spot)).
  - intros Hbad. unfold evalLagSignal.
    destruct Hbad as [H|(spot & H & Hneg)]; rewrite H; [reflexivity|].
    assert (E : Qgtb spot 0 = false) by (apply Qgtb_false, Hneg).
    rewrite E. reflexivity.
Qed.

(** ** Book pressure and break-even of the lag model *)

Lemma firstn_incl_In {A : Type} (n : nat) (l : list A) x :
  In x (firstn n l) -> In x l.
Proof.
  revert l. induction n as [|n IH]; intros [|y l] H; cbn in H;
    try contradiction.
  destruct H as [H|H]; [left; exact H | right; apply IH, H].
Qed.

Lemma share_of_total (num den : Q) :
  0 < den -> - den <= num -> num <= den -> -1 <= num / den /\ num / den <= 1.
Proof.
  intros Hd Hlo Hhi. split.
  - apply Qle_shift_div_l; [exact Hd | lra].
  - apply Qle_shift_div_r; [exact Hd | lra].
Qed.

(** X27.  [orderbookPressure] answers only for a book whose best bid
    and best ask are both positive, and reports them with their spread in
    cents.  When no level has a negative size the imbalance lies between
    -1 and 1, and when moreover the best bid is not above the best ask the
    size-weighted price is no further from the mid price than half the
    spread. *)
Theorem X27_orderbookPressure_bounds :
  forall n bids asks p,
    LagModel.orderbookPressure n bids asks = Some p ->
    (exists b restb a resta,
        bids = b :: restb /\ asks = a :: resta
        /\ LagModel.pBestBid p = price b /\ LagModel.pBestAsk p = price a
        /\ 0 < price b /\ 0 < price a)
    /\ LagModel.spreadCents p
       = (LagModel.pBestAsk p - LagModel.pBestBid p) * 100
    /\ ((forall l, In l (bids ++ asks) -> 0 <= size l) ->
        (-1 <= LagModel.imbalance p /\ LagModel.imbalance p <= 1)
        /\ (LagModel.pBestBid p <= LagModel.pBestAsk p ->
            - ((LagModel.pBestAsk p - LagModel.pBestBid p) / 2)
            <= LagModel.microPressure p
            /\ LagModel.microPressure p
               <= (LagModel.pBestAsk p - LagModel.pBestBid p) / 2)).
Proof.
  intros n bids asks p H. unfold LagModel.orderbookPressure in H.
  destruct bids as [|b restb]; [discriminate|].
  destruct asks as [|a resta]; [discriminate|].
  destruct (negb (Qgtb (price b) 0) || negb (Qgtb (price a) 0)) eqn:Epos;
    [discriminate|].
  apply orb_false_iff in Epos. destruct Epos as [Eb Ea].
  apply negb_false_iff in Eb. apply negb_false_iff in Ea.
  apply Qgtb_true in Eb. apply Qgtb_true in Ea.
  cbv zeta in H.
  set (k := Z.to_nat (Z.max 1 (Qfloor n))) in H.
  set (B := sumSizes (firstn k (b :: restb))) in H.
  set (A := sumSizes (firstn k (a :: resta))) in H.
  assert (Hp : p = {| LagModel.pBestBid := price b;
                      LagModel.pBestAsk := price a;
                      LagModel.spreadCents := (price a - price b) * 100;
                      LagModel.imbalance :=
                        if Qgtb (B + A) 0 then (B - A) / (B + A) else 0;
                      LagModel.microPressure :=
                        (if Qgtb (size b + size a) 0
                         then (price a * size b + price b * size a)
                              / (size b + size a)
                         else (price b + price a) / 2)
                        - (price b + price a) / 2 |}) by congruence.
  clear H. subst p.
  cbn [LagModel.pBestBid LagModel.pBestAsk LagModel.spreadCents
       LagModel.imbalance LagModel.microPressure].
  split; [exists b, restb, a, resta; auto 10|].
  split; [reflexivity|].
  intros Hsz.
  assert (HB : 0 <= B).
  { apply sumSizes_nonneg. intros l Hl. apply Hsz, in_or_app. left.
    apply (firstn_incl_In k), Hl. }
  assert (HA : 0 <= A).
  { apply sumSizes_nonneg. intros l Hl. apply Hsz, in_or_app. right.
    apply (firstn_incl_In k), Hl. }
  assert (Hsb : 0 <= size b) by (apply Hsz; left; reflexivity).
  assert (Hsa : 0 <= size a)
    by (apply Hsz, in_or_app; right; left; reflexivity).
  split.
  - destruct (Qgtb (B + A) 0) eqn:Eden; [|split; lra].
    apply Qgtb_true in Eden. apply share_of_total; lra.
  - intros Hcross.
    assert (Hhalf : (price a - price b) / 2
                    == (price a - price b) * (1 # 2)) by field.
    assert (Hmid : (price b + price a) / 2
                   == (price b + price a) * (1 # 2)) by field.
    destruct (Qgtb (size b + size a) 0) eqn:Etop; [|split; lra].
    apply Qgtb_true in Etop.
    assert (Hlo : price b
                  <= (price a * size b + price b * size a)
                     / (size b + size a)).
    { apply Qle_shift_div_l; [exact Etop | nra]. }
    assert (Hhi : (price a * size b + price b * size a)
                  / (size b + size a) <= price a).
    { apply Qle_shift_div_r; [exact Etop | nra]. }
    split; lra.
Qed.

(** One level a side: 40 bid at 0.39, 100 offered at 0.40. *)
Lemma X27_orderbookPressure_witness :
  exists p,
    LagModel.orderbookPressure 5 [mkLevel 0.39 40] [mkLevel 0.40 100]
    = Some p
    /\ LagModel.spreadCents p
       = (LagModel.pBestAsk p - LagModel.pBestBid p) * 100.
Proof.
  eexists. split; [reflexivity|].
  apply (X27_orderbookPressure_bounds 5 [mkLevel 0.39 40]
           [mkLevel 0.40 100] _ eq_refl).
Defined.

(** X28.  [breakevenDeltaCents] answers only for a positive entry price
    and a fee under 10000 basis points (a missing fee counting as none).
    Its answer is never negative, and selling that many cents above the
    entry price brings in, after the sell fee, at least what the entry
    cost with its buy fee: exactly that when the fee is not negative. *)
Theorem X28_breakevenDeltaCents_covers_fees :
  forall entry feeBps delta,
    LagModel.breakevenDeltaCents entry feeBps = Some delta ->
    let fee := match feeBps with Some f => f | None => 0 end in
    0 < entry /\ fee < 10000 /\ 0 <= delta
    /\ entry * (1 + fee / 10000)
       <= (entry + delta / 100) * (1 - fee / 10000)
    /\ (0 <= fee ->
        entry * (1 + fee / 10000)
        == (entry + delta / 100) * (1 - fee / 10000)).
Proof.
  intros entry feeBps delta H. cbv zeta.
  unfold LagModel.breakevenDeltaCents in H.
  set (fee := match feeBps with Some f => f | None => 0 end) in *.
  destruct (negb (Qgtb entry 0)) eqn:Ee; [discriminate|].
  apply negb_false_iff, Qgtb_true in Ee.
  cbv zeta in H.
  destruct (negb (Qgtb (1 - fee / 10000) 0)) eqn:Es; [discriminate|].
  apply negb_false_iff, Qgtb_true in Es.
  assert (Hd : delta
               = Qmax 0 ((entry * (1 + fee / 10000) / (1 - fee / 10000)
                          - entry) * 100)) by congruence.
  clear H.
  assert (Hq : fee == fee / 10000 * 10000) by field.
  set (q := fee / 10000) in *.
  set (bes := entry * (1 + q) / (1 - q)) in Hd.
  assert (Hbes : bes * (1 - q) == entry * (1 + q)).
  { unfold bes. field. intros E. lra. }
  assert (Hfee : fee < 10000) by lra.
  split; [exact Ee|]. split; [exact Hfee|].
  assert (Hdelta : 0 <= delta /\ (bes - entry) * 100 <= delta
                   /\ (0 <= bes - entry -> delta == (bes - entry) * 100)).
  { rewrite Hd.
    destruct (Qmax_cases 0 ((bes - entry) * 100)) as [[Hle Hm]|[Hle Hm]];
      rewrite Hm; repeat split; intros; lra. }
  destruct Hdelta as (H0 & Hge & Heq).
  assert (Hcent : delta / 100 == delta * (1 # 100)) by field.
  split; [exact H0|]. split.
  - assert (bes <= entry + delta / 100) by lra.
    nra.
  - intros Hf.
    assert (Hq0 : 0 <= q) by lra.
    assert (Hup : 0 <= bes - entry) by nra.
    specialize (Heq Hup).
    assert (Hsum : entry + delta / 100 == bes) by lra.
    rewrite Hsum, Hbes. reflexivity.
Qed.

(** An entry at 0.40 with a fee of 100 basis points. *)
Lemma X28_breakevenDeltaCents_witness :
  exists delta,
    LagModel.breakevenDeltaCents 0.40 (Some 100) = Some delta
    /\ 0.40 * (1 + 100 / 10000)
       <= (0.40 + delta / 100) * (1 - 100 / 10000).
Proof.
  eexists. split; [reflexivity|].
  apply (X28_breakevenDeltaCents_covers_fees 0.40 (Some 100) _ eq_refl).
Defined.

(** X29.  [clampAbs] with a bound other than zero brings a number into
    the range from minus the bound's size to the bound's size and changes
    no number already inside it; with the bound zero it changes
    nothing. *)
Theorem X29_clampAbs_range :
  forall x maxAbs,
    (maxAbs == 0 -> LagModel.clampAbs x maxAbs = x)
    /\ (~ maxAbs == 0 ->
        - Qabs maxAbs <= LagModel.clampAbs x maxAbs
        /\ LagModel.clampAbs x maxAbs <= Qabs maxAbs
        /\ (Qabs x <= Qabs maxAbs -> LagModel.clampAbs x maxAbs == x)
        /\ (Qabs maxAbs < x -> LagModel.clampAbs x maxAbs == Qabs maxAbs)
        /\ (x < - Qabs maxAbs
            -> LagModel.clampAbs x maxAbs == - Qabs maxAbs)).
Proof.
  intros x maxAbs. unfold LagModel.clampAbs. cbv zeta.
  assert (Hnn : 0 <= Qabs maxAbs) by apply Qabs_nonneg.
  split.
  - intros Hz.
    assert (E : Qgtb (Qabs maxAbs) 0 = false).
    { apply Qgtb_false. rewrite Hz. cbn. lra. }
    rewrite E. reflexivity.
  - intros Hnz.
    assert (Hpos : 0 < Qabs maxAbs).
    { destruct (Qlt_le_dec 0 (Qabs maxAbs)) as [H|H]; [exact H|].
      exfalso. apply Hnz.
      destruct (Qlt_le_dec maxAbs 0) as [Hn|Hp].
      - assert (Qabs maxAbs == - maxAbs) by (apply Qabs_neg; lra). lra.
      - assert (Qabs maxAbs == maxAbs) by (apply Qabs_pos; lra). lra. }
    assert (E : Qgtb (Qabs maxAbs) 0 = true) by (apply Qgtb_true, Hpos).
    rewrite E. cbn [negb].
    assert (Hx : - Qabs x <= x /\ x <= Qabs x).
    { split; [|apply Qle_Qabs].
      pose proof (Qle_Qabs (- x)) as Hm. rewrite Qabs_opp in Hm. lra. }
    destruct (Qmin_cases (Qabs maxAbs) x) as [[Hle Hm]|[Hle Hm]];
      destruct (Qmax_cases (- Qabs maxAbs) (Qmin (Qabs maxAbs) x))
        as [[Hle2 HM]|[Hle2 HM]];
      rewrite HM, ?Hm in *; repeat split; intros; try lra.
Qed.
